(** * A copy-on-write B+ tree over fixed-size pages: the node codec, the node
    builder, lookup, splitting, the merge policy and the insert path of
    [main.go], embedded as executable Rocq functions, with the properties the
    specification states about them.

    Conventions of the embedding.
    - A [BNode] is the byte slice itself, [list byte].  A slice's capacity is
      taken to be its length (every buffer of the program comes from [make]
      or from the host).
    - [uint16] and [uint64] values are integers in [Z]; every arithmetic
      operator of the source on them is written with its wrap-around
      ([add16], [sub16], [mul16]).
    - A function that mutates a buffer in place returns the buffer after the
      mutation.  Sub-slices alias their parent, so a write through
      [node[pos:]] is a write into [node] ([on_slice_from]).
    - A Go panic (index out of range, failed assertion) is [None]. *)

From Stdlib Require Import ZArith List Lia.
From coqutil Require Import Byte Word.LittleEndianList.
From stdpp Require Import base tactics option list gmap.
Import ListNotations.
Local Open Scope Z_scope.

(** ** Go primitives *)

Module Go.

Definition u16 (z : Z) : Z := z mod 65536.
Definition u64 (z : Z) : Z := z mod 18446744073709551616.

Definition add16 (a b : Z) : Z := u16 (a + b).
Definition sub16 (a b : Z) : Z := u16 (a - b).
Definition mul16 (a b : Z) : Z := u16 (a * b).

Definition len (s : list byte) : Z := Z.of_nat (length s).

(** [make([]byte, n)] *)
Definition make (n : Z) : list byte := replicate (Z.to_nat n) Byte.x00.

(** [s[lo:]], [s[:hi]] and [s[lo:hi]]; out of range panics. *)
Definition slice_from (s : list byte) (lo : Z) : option (list byte) :=
  if (0 <=? lo) && (lo <=? len s) then Some (drop (Z.to_nat lo) s) else None.

Definition slice_to (s : list byte) (hi : Z) : option (list byte) :=
  if (0 <=? hi) && (hi <=? len s) then Some (take (Z.to_nat hi) s) else None.

Definition slice (s : list byte) (lo hi : Z) : option (list byte) :=
  if (0 <=? lo) && (lo <=? hi) && (hi <=? len s)
  then Some (take (Z.to_nat (hi - lo)) (drop (Z.to_nat lo) s)) else None.

(** A mutation [f] of the sub-slice [s[lo:]], seen from [s]. *)
Definition on_slice_from (s : list byte) (lo : Z)
    (f : list byte -> option (list byte)) : option (list byte) :=
  t ← slice_from s lo;
  t' ← f t;
  Some (take (Z.to_nat lo) s ++ t').

(** A mutation [f] of the sub-slice [s[lo:hi]], seen from [s]. *)
Definition on_slice (s : list byte) (lo hi : Z)
    (f : list byte -> option (list byte)) : option (list byte) :=
  t ← slice s lo hi;
  t' ← f t;
  Some (take (Z.to_nat lo) s ++ t' ++ drop (Z.to_nat hi) s).

(** [binary.LittleEndian]: both directions panic on a slice that is too
    short, and ignore the bytes after the value. *)
Definition Uint16 (b : list byte) : option Z :=
  if 2 <=? len b then Some (le_combine (take 2 b)) else None.

Definition PutUint16 (b : list byte) (v : Z) : option (list byte) :=
  if 2 <=? len b then Some (le_split 2 v ++ drop 2 b) else None.

Definition Uint64 (b : list byte) : option Z :=
  if 8 <=? len b then Some (le_combine (take 8 b)) else None.

Definition PutUint64 (b : list byte) (v : Z) : option (list byte) :=
  if 8 <=? len b then Some (le_split 8 v ++ drop 8 b) else None.

(** [copy(dst, src)] copies [min(len(dst), len(src))] bytes and never
    panics. *)
Definition copy (dst src : list byte) : list byte :=
  take (length dst) src ++ drop (length src) dst.

(** [bytes.Compare]: unsigned byte-lexicographic order. *)
Fixpoint Compare (a b : list byte) : comparison :=
  match a, b with
  | [], [] => Eq
  | [], _ :: _ => Lt
  | _ :: _, [] => Gt
  | x :: a', y :: b' =>
      match byte.unsigned x ?= byte.unsigned y with
      | Eq => Compare a' b'
      | c => c
      end
  end.

(** [bytes.Equal] *)
Definition Equal (a b : list byte) : bool :=
  match Compare a b with Eq => true | _ => false end.

End Go.
Import Go.

(** ** Constants *)

Definition BTREE_PAGE_SIZE : Z := 4096.
Definition BTREE_MAX_KEY_SIZE : Z := 1000.
Definition BTREE_MAX_VAL_SIZE : Z := 3000.

(** Modelled from the spec: the constant [HEADER] is used by [shouldMerge]
    but declared nowhere in the source; section 6.4 gives [HEADER = 4]. *)
Definition HEADER : Z := 4.

(** Modelled from the spec: the kind tags [BNODE_LEAF] and [BNODE_NODE] are
    used but not declared in the source; section 3.2 gives LEAF = 1 and
    INNER = 2. *)
Definition BNODE_LEAF : Z := 1.
Definition BNODE_NODE : Z := 2.

(** Modelled from the spec: [assert] is called but not declared in the
    source; section 7 makes a violated precondition a fatal fault. *)
Definition assert (c : bool) : option unit := if c then Some tt else None.

(** ** The page codec *)

Definition BNode := list byte.

Definition btype (node : BNode) : option Z :=
  s ← slice node 0 2; Uint16 s.

Definition nkeys (node : BNode) : option Z :=
  s ← slice node 2 4; Uint16 s.

Definition setHeader (node : BNode) (bt nk : Z) : option BNode :=
  node ← on_slice node 0 2 (fun s => PutUint16 s bt);
  on_slice node 2 4 (fun s => PutUint16 s nk).

Definition getPtr (node : BNode) (idx : Z) : option Z :=
  n ← nkeys node;
  _ ← assert (idx <? n);
  let pos := add16 4 (mul16 8 idx) in
  s ← slice_from node pos; Uint64 s.

Definition setPtr (node : BNode) (idx val : Z) : option BNode :=
  n ← nkeys node;
  _ ← assert (idx <? n);
  let pos := add16 4 (mul16 8 idx) in
  on_slice_from node pos (fun s => PutUint64 s val).

Definition getOffset (node : BNode) (idx : Z) : option Z :=
  if idx =? 0 then Some 0 else
  n ← nkeys node;
  let pos := add16 (add16 4 (mul16 8 n)) (mul16 2 (sub16 idx 1)) in
  s ← slice_from node pos; Uint16 s.

(** Modelled from the spec: [setOffset] is called by [nodeAppendKV] but not
    declared in the source.  Section 4.1 reads [off(i)] for [i >= 1] from
    cell [i-1] of the offset table, and section 4.2 has [append_kv] update
    [off(idx+1)]: the setter writes the cell that [getOffset] reads. *)
Definition setOffset (node : BNode) (idx offset : Z) : option BNode :=
  n ← nkeys node;
  let pos := add16 (add16 4 (mul16 8 n)) (mul16 2 (sub16 idx 1)) in
  on_slice_from node pos (fun s => PutUint16 s offset).

Definition kvPos (node : BNode) (idx : Z) : option Z :=
  n ← nkeys node;
  _ ← assert (idx <=? n);
  off ← getOffset node idx;
  Some (add16 (add16 (add16 4 (mul16 8 n)) (mul16 2 n)) off).

Definition nbytes (node : BNode) : option Z :=
  n ← nkeys node; kvPos node n.

Definition getKey (node : BNode) (idx : Z) : option (list byte) :=
  n ← nkeys node;
  _ ← assert (idx <? n);
  pos ← kvPos node idx;
  s ← slice_from node pos;
  klen ← Uint16 s;
  s ← slice_from node (add16 pos 4);
  slice_to s klen.

Definition getVal (node : BNode) (idx : Z) : option (list byte) :=
  n ← nkeys node;
  _ ← assert (idx <? n);
  pos ← kvPos node idx;
  s ← slice_from node (add16 pos 0);
  klen ← Uint16 s;
  s ← slice_from node (add16 pos 2);
  vlen ← Uint16 s;
  s ← slice_from node (add16 (add16 pos 4) klen);
  slice_to s vlen.

(** ** The node builder *)

Definition nodeAppendKV (new : BNode) (idx ptr : Z) (key val : list byte)
    : option BNode :=
  new ← setPtr new idx ptr;
  pos ← kvPos new idx;
  new ← on_slice_from new (add16 pos 0) (fun s => PutUint16 s (u16 (len key)));
  new ← on_slice_from new (add16 pos 2) (fun s => PutUint16 s (u16 (len val)));
  new ← on_slice_from new (add16 pos 4) (fun s => Some (copy s key));
  new ← on_slice_from new (add16 (add16 pos 4) (u16 (len key)))
          (fun s => Some (copy s val));
  off ← getOffset new idx;
  setOffset new (add16 idx 1) (add16 (add16 off 4) (u16 (len key + len val))).

(** The loop of [nodeAppendRange], from iteration [i] on; [fuel] counts the
    iterations that remain, [n - i] of them. *)
Fixpoint nodeAppendRange_loop (fuel : nat) (new old : BNode)
    (dstNew srcOld i : Z) : option BNode :=
  match fuel with
  | O => Some new
  | S fuel =>
      let dst := add16 dstNew i in
      let src := add16 srcOld i in
      p ← getPtr old src;
      k ← getKey old src;
      v ← getVal old src;
      new ← nodeAppendKV new dst p k v;
      nodeAppendRange_loop fuel new old dstNew srcOld (add16 i 1)
  end.

Definition nodeAppendRange (new old : BNode) (dstNew srcOld n : Z)
    : option BNode :=
  nodeAppendRange_loop (Z.to_nat n) new old dstNew srcOld 0.

(** Modelled from the spec: [leafInsert] calls [nodeAppend], which the
    source does not declare.  Section 4.2 has [leaf_insert] append the new
    entry with [ptr = 0] at [idx], which is what [nodeAppendKV] does. *)
Definition nodeAppend := nodeAppendKV.

Definition leafInsert (new old : BNode) (idx : Z) (key val : list byte)
    : option BNode :=
  n ← nkeys old;
  new ← setHeader new BNODE_LEAF (add16 n 1);
  new ← nodeAppendRange new old 0 0 idx;
  new ← nodeAppend new idx 0 key val;
  n ← nkeys old;
  nodeAppendRange new old (add16 idx 1) idx (sub16 n idx).

Definition leafUpdate (new old : BNode) (idx : Z) (key val : list byte)
    : option BNode :=
  n ← nkeys old;
  new ← setHeader new BNODE_LEAF n;
  new ← nodeAppendRange new old 0 0 idx;
  new ← nodeAppendKV new idx 0 key val;
  n ← nkeys old;
  nodeAppendRange new old (add16 idx 1) (add16 idx 1) (sub16 n (add16 idx 1)).

(** ** Lookup *)

(** The loop of [nodeLookupLE] from index [i] on; [fuel] counts the
    iterations that remain, [nkeys - i] of them.  When they are used up the
    loop condition [i < nkeys] has failed and the function returns [i - 1]. *)
Fixpoint nodeLookupLE_loop (fuel : nat) (node : BNode) (key : list byte)
    (i : Z) : option Z :=
  match fuel with
  | O => Some (sub16 i 1)
  | S fuel =>
      k ← getKey node i;
      match Compare k key with
      | Eq => Some i
      | Gt => Some (sub16 i 1)
      | Lt => nodeLookupLE_loop fuel node key (add16 i 1)
      end
  end.

Definition nodeLookupLE (node : BNode) (key : list byte) : option Z :=
  n ← nkeys node;
  nodeLookupLE_loop (Z.to_nat n) node key 0.

(** ** Splitting *)

(** The closure [left_bytes] of [nodeSplit2], at the current [nleft]. *)
Definition left_bytes (old : BNode) (nleft : Z) : option Z :=
  off ← getOffset old nleft;
  Some (add16 (add16 (add16 4 (mul16 8 nleft)) (mul16 2 nleft)) off).

(** The closure [right_bytes] of [nodeSplit2], at the current [nleft]. *)
Definition right_bytes (old : BNode) (nleft : Z) : option Z :=
  nb ← nbytes old;
  lb ← left_bytes old nleft;
  Some (add16 (sub16 nb lb) 4).

(** [for left_bytes() > BTREE_PAGE_SIZE { nleft-- }].  At [nleft = 0] the
    left half is the bare header, so [nleft] iterations always suffice
    ([fit_left_fuel]); [fuel] is that bound. *)
Fixpoint fit_left (fuel : nat) (old : BNode) (nleft : Z) : option Z :=
  lb ← left_bytes old nleft;
  if lb >? BTREE_PAGE_SIZE then
    match fuel with
    | O => None
    | S fuel => fit_left fuel old (sub16 nleft 1)
    end
  else Some nleft.

(** [for right_bytes() > BTREE_PAGE_SIZE { nleft++ }].  At [nleft = nkeys]
    the right half is the bare header, so [nkeys - nleft] iterations always
    suffice ([fit_right_fuel]); [fuel] is a bound on them. *)
Fixpoint fit_right (fuel : nat) (old : BNode) (nleft : Z) : option Z :=
  rb ← right_bytes old nleft;
  if rb >? BTREE_PAGE_SIZE then
    match fuel with
    | O => None
    | S fuel => fit_right fuel old (add16 nleft 1)
    end
  else Some nleft.

(** [nodeSplit2] fills the two buffers it is given; the embedding returns
    them. *)
Definition nodeSplit2 (left right old : BNode) : option (BNode * BNode) :=
  n ← nkeys old;
  _ ← assert (n >=? 2);
  let nleft := n / 2 in
  nleft ← fit_left (Z.to_nat nleft) old nleft;
  _ ← assert (nleft >=? 1);
  nleft ← fit_right (Z.to_nat n) old nleft;
  n ← nkeys old;
  _ ← assert (nleft <? n);
  let nright := sub16 n nleft in
  bt ← btype old;
  left ← setHeader left bt nleft;
  bt ← btype old;
  right ← setHeader right bt nright;
  left ← nodeAppendRange left old 0 0 nleft;
  right ← nodeAppendRange right old 0 nleft nright;
  rb ← nbytes right;
  _ ← assert (rb <=? BTREE_PAGE_SIZE);
  Some (left, right).

(** [nodeSplit3] returns the count and the array [[3]BNode], whose unused
    slots are nil slices. *)
Definition nodeSplit3 (old : BNode) : option (Z * list BNode) :=
  nb ← nbytes old;
  if nb <=? BTREE_PAGE_SIZE then
    old ← slice_to old BTREE_PAGE_SIZE;
    Some (1, [old; []; []])
  else
    let left := make (2 * BTREE_PAGE_SIZE) in
    let right := make BTREE_PAGE_SIZE in
    '(left, right) ← nodeSplit2 left right old;
    lb ← nbytes left;
    if lb <=? BTREE_PAGE_SIZE then
      left ← slice_to left BTREE_PAGE_SIZE;
      Some (2, [left; right; []])
    else
      let leftleft := make BTREE_PAGE_SIZE in
      let middle := make BTREE_PAGE_SIZE in
      '(leftleft, middle) ← nodeSplit2 leftleft middle left;
      llb ← nbytes leftleft;
      _ ← assert (llb <=? BTREE_PAGE_SIZE);
      Some (3, [leftleft; middle; right]).

(** ** The tree and its host *)

(** Modelled from the spec: [checkLimit] is called by [Insert] but not
    declared in the source.  Section 4.3.2 rejects an insert when
    [klen > MAX_KEY] or [vlen > MAX_VAL], and section 6.2 names the two
    errors. *)
Inductive error := OVERSIZE_KEY | OVERSIZE_VAL.

Definition checkLimit (key val : list byte) : option error :=
  if len key >? BTREE_MAX_KEY_SIZE then Some OVERSIZE_KEY
  else if len val >? BTREE_MAX_VAL_SIZE then Some OVERSIZE_VAL
  else None.

(** A call of one of the three host callbacks. *)
Inductive event :=
  | EvGet (ptr : Z)
  | EvNew (data : BNode) (ptr : Z)
  | EvDel (ptr : Z).

(** How a tree operation ends: normally, with a Go panic, or because the
    recursion bound of the embedding was too small. *)
Inductive result (A : Type) :=
  | Done (a : A)
  | Fault
  | Exhausted.
Arguments Done {A} a.
Arguments Fault {A}.
Arguments Exhausted {A}.

Section Tree.

(** The host: its state and the callbacks [get], [new] and [del] that the
    [BTree] struct holds.  A [get] of a page the host does not have is a
    fault. *)
Context {Host : Type}.
Variable host_get : Host -> Z -> option BNode.
Variable host_new : Host -> BNode -> Z * Host.
Variable host_del : Host -> Z -> Host.

(** The [BTree] struct: the root pointer, and behind the callbacks the host
    state; [trace] records the callbacks invoked so far, oldest first. *)
Record BTree := mkBTree {
  root : Z;
  host : Host;
  trace : list event
}.

Definition M (A : Type) : Type := BTree -> result (A * BTree).

Definition ret {A} (a : A) : M A := fun t => Done (a, t).

Definition bind {A B} (m : M A) (f : A -> M B) : M B :=
  fun t =>
    match m t with
    | Done (a, t') => f a t'
    | Fault => Fault
    | Exhausted => Exhausted
    end.

Definition lift {A} (o : option A) : M A :=
  fun t => match o with Some a => Done (a, t) | None => Fault end.

Definition tree_get (ptr : Z) : M BNode :=
  fun t =>
    match host_get (host t) ptr with
    | Some page => Done (page, mkBTree (root t) (host t) (trace t ++ [EvGet ptr]))
    | None => Fault
    end.

Definition tree_new (data : BNode) : M Z :=
  fun t =>
    let '(ptr, h) := host_new (host t) data in
    Done (ptr, mkBTree (root t) h (trace t ++ [EvNew data ptr])).

Definition tree_del (ptr : Z) : M unit :=
  fun t => Done (tt, mkBTree (root t) (host_del (host t) ptr) (trace t ++ [EvDel ptr])).

Definition get_root : M Z := fun t => Done (root t, t).

Definition set_root (ptr : Z) : M unit :=
  fun t => Done (tt, mkBTree ptr (host t) (trace t)).

Notation "x <- m ;; k" := (bind m (fun x => k))
  (at level 60, m at next level, right associativity).

(** The loop [for i, node := range kids] of [nodeReplaceKidN]. *)
Fixpoint replaceKids_loop (new : BNode) (idx : Z) (i : Z) (kids : list BNode)
    : M BNode :=
  match kids with
  | [] => ret new
  | node :: kids =>
      ptr <- tree_new node ;;
      key <- lift (getKey node 0) ;;
      new <- lift (nodeAppendKV new (add16 idx (u16 i)) ptr key []) ;;
      replaceKids_loop new idx (i + 1) kids
  end.

Definition nodeReplaceKidN (new old : BNode) (idx : Z) (kids : list BNode)
    : M BNode :=
  let inc := u16 (Z.of_nat (length kids)) in
  n <- lift (nkeys old) ;;
  new <- lift (setHeader new BNODE_NODE (sub16 (add16 n inc) 1)) ;;
  new <- lift (nodeAppendRange new old 0 0 idx) ;;
  new <- replaceKids_loop new idx 0 kids ;;
  n <- lift (nkeys old) ;;
  lift (nodeAppendRange new old (add16 idx inc) (add16 idx 1)
          (sub16 n (add16 idx 1))).

(** [treeInsert] recurses through the pages the host returns; [fuel] bounds
    the depth of that recursion. *)
Fixpoint treeInsert (fuel : nat) (node : BNode) (key val : list byte)
    : M BNode :=
  match fuel with
  | O => fun _ => Exhausted
  | S fuel =>
      let new := make (2 * BTREE_PAGE_SIZE) in
      idx <- lift (nodeLookupLE node key) ;;
      bt <- lift (btype node) ;;
      if bt =? BNODE_LEAF then
        k <- lift (getKey node idx) ;;
        if Equal key k
        then lift (leafUpdate new node idx key val)
        else lift (leafInsert new node (add16 idx 1) key val)
      else if bt =? BNODE_NODE then
        kptr <- lift (getPtr node idx) ;;
        page <- tree_get kptr ;;
        knode <- treeInsert fuel page key val ;;
        r <- lift (nodeSplit3 knode) ;;
        let '(nsplit, split) := r in
        _ <- tree_del kptr ;;
        nodeReplaceKidN new node idx (take (Z.to_nat nsplit) split)
      else fun _ => Fault
  end.

(** The loop [for i, knode := range split[:nsplit]] of [Insert]. *)
Fixpoint newRoot_loop (rootn : BNode) (i : Z) (kids : list BNode) : M BNode :=
  match kids with
  | [] => ret rootn
  | knode :: kids =>
      ptr <- tree_new knode ;;
      key <- lift (getKey knode 0) ;;
      rootn <- lift (nodeAppendKV rootn (u16 i) ptr key []) ;;
      newRoot_loop rootn (i + 1) kids
  end.

(** [Insert] returns Go's [error]: [None] is [nil]. *)
Definition Insert (fuel : nat) (key val : list byte) : M (option error) :=
  match checkLimit key val with
  | Some err => ret (Some err)
  | None =>
      r <- get_root ;;
      if r =? 0 then
        let rootn := make BTREE_PAGE_SIZE in
        rootn <- lift (setHeader rootn BNODE_LEAF 2) ;;
        rootn <- lift (nodeAppendKV rootn 0 0 [] []) ;;
        rootn <- lift (nodeAppendKV rootn 1 0 key val) ;;
        ptr <- tree_new rootn ;;
        _ <- set_root ptr ;;
        ret None
      else
        page <- tree_get r ;;
        node <- treeInsert fuel page key val ;;
        r <- lift (nodeSplit3 node) ;;
        let '(nsplit, split) := r in
        r <- get_root ;;
        _ <- tree_del r ;;
        if nsplit >? 1 then
          let rootn := make BTREE_PAGE_SIZE in
          rootn <- lift (setHeader rootn BNODE_NODE nsplit) ;;
          rootn <- newRoot_loop rootn 0 (take (Z.to_nat nsplit) split) ;;
          ptr <- tree_new rootn ;;
          _ <- set_root ptr ;;
          ret None
        else
          s0 <- lift (split !! 0%nat) ;;
          ptr <- tree_new s0 ;;
          _ <- set_root ptr ;;
          ret None
  end.

(** [shouldMerge]: the source leaves its third parameter unnamed and reads
    [idx] in the body; [idx] is that parameter.  The result is Go's pair
    [(int, BNode)], with [BNode{}] the empty slice. *)
Definition shouldMerge (node : BNode) (idx : Z) (updated : BNode)
    : M (Z * BNode) :=
  ub <- lift (nbytes updated) ;;
  if ub >? BTREE_PAGE_SIZE / 4 then ret (0, []) else
  left_try <-
    (if idx >? 0 then
       p <- lift (getPtr node (sub16 idx 1)) ;;
       sibling <- tree_get p ;;
       sb <- lift (nbytes sibling) ;;
       ub <- lift (nbytes updated) ;;
       let merged := sub16 (add16 sb ub) HEADER in
       if merged <=? BTREE_PAGE_SIZE then ret (Some (-1, sibling)) else ret None
     else ret None) ;;
  match left_try with
  | Some r => ret r
  | None =>
      n <- lift (nkeys node) ;;
      if add16 idx 1 <? n then
        p <- lift (getPtr node (add16 idx 1)) ;;
        sibling <- tree_get p ;;
        sb <- lift (nbytes sibling) ;;
        ub <- lift (nbytes updated) ;;
        let merged := sub16 (add16 sb ub) HEADER in
        if merged <=? BTREE_PAGE_SIZE then ret (1, sibling) else ret (0, [])
      else ret (0, [])
  end.

End Tree.

(** * Vocabulary of the properties *)

(** ** Byte ranges of a buffer *)

(** [rd p n l] is the range [l[p : p+n]]; [wr p s l] is [l] with [s] stored
    from position [p] on. *)
Definition rd (p n : Z) (l : list byte) : list byte :=
  take (Z.to_nat n) (drop (Z.to_nat p) l).

Definition wr (p : Z) (s l : list byte) : list byte :=
  take (Z.to_nat p) l ++ s ++ drop (Z.to_nat p + length s) l.


(** ** Entries and their layout *)

(** An entry of a node: the child pointer, the key and the value. *)
Record entry := mkEntry {
  e_ptr : Z;
  e_key : list byte;
  e_val : list byte
}.

(** The bytes of an entry in the kv region: [klen | vlen | key | val]. *)
Definition kvsize (e : entry) : Z := 4 + len (e_key e) + len (e_val e).

Definition enc_kv (e : entry) : list byte :=
  le_split 2 (len (e_key e)) ++ le_split 2 (len (e_val e))
  ++ e_key e ++ e_val e.

(** The bytes a list of entries takes in the kv region, and the size of a
    node that holds exactly these entries. *)
Fixpoint offs (es : list entry) : Z :=
  match es with
  | [] => 0
  | e :: es => kvsize e + offs es
  end.

Definition node_size (es : list entry) : Z :=
  4 + 10 * Z.of_nat (length es) + offs es.

(** An entry the format can represent: a 64-bit pointer, 16-bit lengths. *)
Definition entry_ok (e : entry) : Prop :=
  0 <= e_ptr e < 2 ^ 64 /\ len (e_key e) < 65536 /\ len (e_val e) < 65536.

(** An entry within the limits of [Insert]. *)
Definition entry_within_limits (e : entry) : Prop :=
  0 <= e_ptr e < 2 ^ 64 /\
  len (e_key e) <= BTREE_MAX_KEY_SIZE /\ len (e_val e) <= BTREE_MAX_VAL_SIZE.

(** [stored b n i off es]: in the buffer [b] of a node with [n] slots, the
    slots from [i] on hold the entries [es], the first of them at offset
    [off] of the kv region: pointer cell, offset cell and kv bytes. *)
Fixpoint stored (b : BNode) (n i off : Z) (es : list entry) : Prop :=
  match es with
  | [] => True
  | e :: es =>
      rd (4 + 8 * i) 8 b = le_split 8 (e_ptr e) /\
      rd (4 + 8 * n + 2 * i) 2 b = le_split 2 (off + kvsize e) /\
      rd (4 + 10 * n + off) (kvsize e) b = enc_kv e /\
      stored b n (i + 1) (off + kvsize e) es
  end.

(** [filled b bt n es]: [b] is the buffer of a node of kind [bt] with [n]
    slots (the header says so), of which the first [length es] hold [es];
    the node as far as it is written lies inside the buffer. *)
Record filled (b : BNode) (bt n : Z) (es : list entry) : Prop := mkFilled {
  filled_bt : 0 <= bt < 65536;
  filled_n : Z.of_nat (length es) <= n;
  filled_size : 4 + 10 * n + offs es <= len b;
  filled_u16 : 4 + 10 * n + offs es < 65536;
  filled_hdr : rd 0 4 b = le_split 2 bt ++ le_split 2 n;
  filled_ok : Forall entry_ok es;
  filled_es : stored b n 0 0 es
}.

(** [holds b bt es]: the buffer [b] holds the node of kind [bt] whose
    entries are exactly [es]. *)
Definition holds (b : BNode) (bt : Z) (es : list entry) : Prop :=
  filled b bt (Z.of_nat (length es)) es.

(** The entry sequence of a node, as the accessors of the codec read it. *)
Definition getEntry (node : BNode) (i : Z) : option entry :=
  p ← getPtr node i;
  k ← getKey node i;
  v ← getVal node i;
  Some (mkEntry p k v).

Definition entries (node : BNode) : option (list entry) :=
  n ← nkeys node;
  mapM (getEntry node) (seqZ 0 n).

(** The buffer after [nodeAppendKV] has stored entry [e] in slot [idx]. *)
Definition appended (b : BNode) (n idx off : Z) (e : entry) : BNode :=
  wr (4 + 8 * n + 2 * idx) (le_split 2 (off + kvsize e))
    (wr (4 + 10 * n + off) (enc_kv e)
       (wr (4 + 8 * idx) (le_split 8 (e_ptr e)) b)).

(** ** Keys of a node *)

(** [node_keys node keys]: the node has [length keys] entries and [getKey]
    reads [keys] from it. *)
Definition node_keys (node : BNode) (keys : list (list byte)) : Prop :=
  nkeys node = Some (Z.of_nat (length keys)) /\
  Z.of_nat (length keys) < 65536 /\
  forall (i : nat) (k : list byte),
    keys !! i = Some k -> getKey node (Z.of_nat i) = Some k.

(** The keys at the indices from [from] on are strictly ascending. *)
Definition ascending_from (from : nat) (keys : list (list byte)) : Prop :=
  forall (i j : nat) (ki kj : list byte),
    (from <= i < j)%nat -> keys !! i = Some ki -> keys !! j = Some kj ->
    Compare ki kj = Lt.

(** ** Sample nodes *)

(** A node as the program builds one: the header first, then the entries in
    order with [nodeAppendKV]. *)
Fixpoint appendAll (new : BNode) (idx : Z) (es : list entry) : option BNode :=
  match es with
  | [] => Some new
  | e :: es =>
      new ← nodeAppendKV new idx (e_ptr e) (e_key e) (e_val e);
      appendAll new (idx + 1) es
  end.

Definition build (size bt : Z) (es : list entry) : option BNode :=
  new ← setHeader (make size) bt (Z.of_nat (length es));
  appendAll new 0 es.

Definition key_a : list byte := [Byte.x61].
Definition key_b : list byte := [Byte.x62].
Definition key_c : list byte := [Byte.x63].

(** A leaf in key order: the sentinel, then "a" and "c". *)
Definition sample_entries : list entry :=
  [mkEntry 0 [] []; mkEntry 0 key_a [Byte.x01; Byte.x02]; mkEntry 0 key_c [Byte.x03]].

Definition sample_leaf : BNode :=
  default [] (build 64 BNODE_LEAF sample_entries).

(** A leaf whose entry 0 has the key "b", followed by "a" and "c": its keys
    ascend from index 1 on, but not from index 0. *)
Definition unsorted_leaf : BNode :=
  default [] (build 64 BNODE_LEAF
    [mkEntry 0 key_b []; mkEntry 0 key_a []; mkEntry 0 key_c []]).

(** A leaf buffer under construction: the header is set for two entries and
    the sentinel entry 0 is written. *)
Definition partial_leaf : BNode :=
  default [] (setHeader (make 64) BNODE_LEAF 2
              ≫= fun b => nodeAppendKV b 0 0 [] []).

(** ** The merge policy, in the words of the specification *)

(** A sibling as [shouldMerge] sees it: its page number in the parent, the
    page the host returns for it, and the [nbytes] of that page. *)
Definition sibling_view : Type := Z * BNode * Z.

(** [sibling host_get h node present i s]: when the sibling at index [i] of
    [node] is [present], [s] is what reading it yields, a page whose size
    is that of a node of the program (between the header and two pages);
    when it is absent, [s] is [None]. *)
Inductive sibling {Host : Type} (host_get : Host -> Z -> option BNode)
    (h : Host) (node : BNode) : bool -> Z -> option sibling_view -> Prop :=
  | sibling_absent (i : Z) : sibling host_get h node false i None
  | sibling_present (i p : Z) (sib : BNode) (sb : Z) :
      getPtr node i = Some p ->
      host_get h p = Some sib ->
      nbytes sib = Some sb ->
      HEADER <= sb <= 2 * BTREE_PAGE_SIZE ->
      sibling host_get h node true i (Some (p, sib, sb)).

(** Section 4.3.4: a sibling is merged with when
    [sibling.nbytes + updated.nbytes - HEADER <= PAGE_SIZE]. *)
Definition merge_fits (ub : Z) (s : option sibling_view) : option BNode :=
  match s with
  | Some (_, sib, sb) =>
      if sb + ub - HEADER <=? BTREE_PAGE_SIZE then Some sib else None
  | None => None
  end.

(** Section 4.3.4: no merge above a quarter page; otherwise the left
    sibling first, then the right one, else no merge.  The result is the
    pair of [shouldMerge]: -1 and the left sibling, +1 and the right
    sibling, or 0 and the empty node. *)
Definition merge_policy (ub : Z) (left right : option sibling_view)
    : Z * BNode :=
  if ub >? BTREE_PAGE_SIZE / 4 then (0, [])
  else match merge_fits ub left with
       | Some sib => (-1, sib)
       | None =>
           match merge_fits ub right with
           | Some sib => (1, sib)
           | None => (0, [])
           end
       end.

(** The [get] calls the policy makes: none above a quarter page; the left
    sibling if there is one; the right one only if the left one was not
    chosen. *)
Definition sibling_get (s : option sibling_view) : list event :=
  match s with Some (p, _, _) => [EvGet p] | None => [] end.

Definition merge_gets (ub : Z) (left right : option sibling_view)
    : list event :=
  if ub >? BTREE_PAGE_SIZE / 4 then []
  else match merge_fits ub left with
       | Some _ => sibling_get left
       | None => sibling_get left ++ sibling_get right
       end.

(** ** A host for the examples *)

(** A host that keeps its pages in a list: page number [i + 1] is the
    [i]-th page allocated, and a freed page leaves a hole. *)
Definition list_host : Type := list (option BNode).

Definition list_get (h : list_host) (ptr : Z) : option BNode :=
  if ptr <=? 0 then None else mjoin (h !! Z.to_nat (ptr - 1)).

Definition list_new (h : list_host) (data : BNode) : Z * list_host :=
  (Z.of_nat (length h) + 1, h ++ [Some data]).

Definition list_del (h : list_host) (ptr : Z) : list_host :=
  if ptr <=? 0 then h else <[Z.to_nat (ptr - 1) := None]> h.

(** The empty tree on the empty host. *)
Definition empty_tree : @BTree list_host := mkBTree 0 [] [].

(** An inner node over two copies of [sample_leaf], stored as pages 1 and 2,
    and the tree that has it as its root, page 3. *)
Definition sample_inner : BNode :=
  default [] (build 64 BNODE_NODE [mkEntry 1 [] []; mkEntry 2 key_a []]).

Definition sample_tree : @BTree list_host :=
  mkBTree 3 [Some sample_leaf; Some sample_leaf; Some sample_inner] [].

(** An entry that fits a page as the only entry of a node. *)
Definition entry_fits (e : entry) : Prop := node_size [e] <= BTREE_PAGE_SIZE.

(** ** Splitting, on entry lists *)

(** Section 4.3.3 on the entries of a node: start from the midpoint,
    decrease [n_left] while the left half [take n_left es] would exceed a
    page ([split_left]), then increase it while the right half
    [drop n_left es] would ([split_right], with a bound on the steps). *)
Fixpoint split_left (es : list entry) (k : nat) : nat :=
  match k with
  | O => O
  | S k' =>
      if node_size (take k es) >? BTREE_PAGE_SIZE then split_left es k' else k
  end.

Fixpoint split_right (fuel : nat) (es : list entry) (k : nat) : nat :=
  match fuel with
  | O => k
  | S fuel =>
      if node_size (drop k es) >? BTREE_PAGE_SIZE
      then split_right fuel es (S k) else k
  end.

Definition split_point (es : list entry) : nat :=
  split_right (length es) es (split_left es (length es / 2)).

(** The one to three entry lists that [node_split_3] makes of the entries
    of a node. *)
Definition split_parts (es : list entry) : list (list entry) :=
  if node_size es <=? BTREE_PAGE_SIZE then [es]
  else
    let k := split_point es in
    let left := take k es in
    let right := drop k es in
    if node_size left <=? BTREE_PAGE_SIZE then [left; right]
    else
      let k2 := split_point left in
      [take k2 left; drop k2 left; right].

(** ** Sample nodes for splitting *)

(** Four entries within the limits of [Insert], in key order, that fill a
    two-page buffer to the last byte: 8192 bytes. *)
Definition tight_entries : list entry :=
  [ mkEntry 0 [] (replicate 86 Byte.x01);
    mkEntry 0 (replicate 979 Byte.x02) (replicate 3000 Byte.x03);
    mkEntry 0 (replicate 86 Byte.x04) [];
    mkEntry 0 (replicate 981 Byte.x05) (replicate 3000 Byte.x06) ].

Definition tight_node : BNode :=
  default [] (build (2 * BTREE_PAGE_SIZE) BNODE_LEAF tight_entries).

(** The same with a last value three bytes shorter: 8189 bytes. *)
Definition wide_entries : list entry :=
  [ mkEntry 0 [] (replicate 86 Byte.x01);
    mkEntry 0 (replicate 979 Byte.x02) (replicate 3000 Byte.x03);
    mkEntry 0 (replicate 86 Byte.x04) [];
    mkEntry 0 (replicate 981 Byte.x05) (replicate 2997 Byte.x06) ].

Definition wide_node : BNode :=
  default [] (build (2 * BTREE_PAGE_SIZE) BNODE_LEAF wide_entries).

(** ** A buffer whose kv region may be cut short *)

(** [same_below m b b']: [b'] has the length of [b] and the same bytes
    below position [m]. *)
Definition same_below (m : Z) (b b' : list byte) : Prop :=
  len b' = len b /\ take (Z.to_nat m) b' = take (Z.to_nat m) b.

(** [tabled b bt n es]: [b] has the header of a node of kind [bt] with [n]
    slots, room for the pointer and offset arrays, and offset cells that
    are those of the entries [es] in the first [length es] slots. *)
Record tabled (b : BNode) (bt n : Z) (es : list entry) : Prop := mkTabled {
  tabled_bt : 0 <= bt < 65536;
  tabled_n : Z.of_nat (length es) <= n;
  tabled_size : 4 + 10 * n <= len b;
  tabled_u16 : 4 + 10 * n + offs es < 65536;
  tabled_hdr : rd 0 4 b = le_split 2 bt ++ le_split 2 n;
  tabled_cells : forall (j : nat) (e : entry),
    es !! j = Some e ->
    rd (4 + 8 * n + 2 * Z.of_nat j) 2 b = le_split 2 (offs (take (S j) es))
}.

(** * Vocabulary of the tree properties *)

(** ** The contents of a tree *)

(** The keys of [es] are strictly ascending. *)
Fixpoint sorted (es : list entry) : Prop :=
  match es with
  | [] => True
  | e :: es' =>
      Forall (fun e' => Compare (e_key e) (e_key e') = Lt) es' /\ sorted es'
  end.

(** [upsert key val es]: the entry list [es], in key order, with the value
    of [key] replaced by [val] if [es] has the key and with [(0, key, val)]
    inserted at its place in the order if not. *)
Fixpoint upsert (key val : list byte) (es : list entry) : list entry :=
  match es with
  | [] => [mkEntry 0 key val]
  | e :: es' =>
      match Compare key (e_key e) with
      | Lt => mkEntry 0 key val :: e :: es'
      | Eq => mkEntry 0 key val :: es'
      | Gt => e :: upsert key val es'
      end
  end.

Definition first_key (es : list entry) : option (list byte) :=
  e_key <$> head es.

(** The entries an inner node has for children: the page number of each
    child and its first key, with no value. *)
Definition kid_entries (ptrs : list Z) (keys : list (list byte)) : list entry :=
  zip_with (fun p k => mkEntry p k []) ptrs keys.

(** The first keys of a list of entry lists. *)
Definition first_keys (ls : list (list entry)) : list (list byte) :=
  (fun l => default [] (first_key l)) <$> ls.

(** The page numbers that the events [evs] read with [get] and free with
    [del], in the order of the calls. *)
Definition reads (evs : list event) : list Z :=
  omap (fun ev => match ev with EvGet p => Some p | _ => None end) evs.

Definition frees (evs : list event) : list Z :=
  omap (fun ev => match ev with EvDel p => Some p | _ => None end) evs.

(** The pages that the events [evs] hand to [new]. *)
Definition news (evs : list event) : list BNode :=
  omap (fun ev => match ev with EvNew data _ => Some data | _ => None end) evs.

(** ** The host *)

Section Host.

Context {Host : Type}.
Variable host_get : Host -> Z -> option BNode.
Variable host_new : Host -> BNode -> Z * Host.
Variable host_del : Host -> Z -> Host.

(** What the tree needs of its callbacks.  [room n h] says that the host [h]
    has page numbers left for [n] more pages: page numbers are 64-bit, so
    no host has room for ever.  With room for a page, [new] returns a
    nonzero 64-bit page number.  The page number [new] returns is one that
    [get] does not have; after [new], [get] has the data at that number and
    every other page as before; after [del] of a page number, [get] does
    not have that page, and has every other page as it was. *)
Record lawful_host (room : nat -> Host -> Prop) : Prop := mkLawful {
  room_le : forall n h, room (S n) h -> room n h;
  room_new : forall n h data, room (S n) h -> room n (host_new h data).2;
  room_del : forall n h q, room n h -> room n (host_del h q);
  new_range : forall h data, room 1%nat h -> 0 < (host_new h data).1 < 2 ^ 64;
  new_fresh : forall h data, host_get h (host_new h data).1 = None;
  get_new_same : forall h data,
    host_get (host_new h data).2 (host_new h data).1 = Some data;
  get_new_other : forall h data p,
    p <> (host_new h data).1 -> host_get (host_new h data).2 p = host_get h p;
  get_del_same : forall h q, host_get (host_del h q) q = None;
  get_del_other : forall h q p,
    p <> q -> host_get (host_del h q) p = host_get h p
}.

(** [new] called on each of [pages] in turn: the page numbers and the host
    after the calls, and the calls as events. *)
Fixpoint alloc_all (h : Host) (pages : list BNode) : list Z * Host :=
  match pages with
  | [] => ([], h)
  | page :: pages =>
      let r := alloc_all (host_new h page).2 pages in
      ((host_new h page).1 :: r.1, r.2)
  end.

Definition alloc_events (h : Host) (pages : list BNode) : list event :=
  zip_with EvNew pages (alloc_all h pages).1.

(** ** Pages as a tree *)

(** The kind of a node [d] levels above the leaves. *)
Definition kind (d : nat) : Z :=
  match d with O => BNODE_LEAF | S _ => BNODE_NODE end.

(** [kids h child ies es ps]: the entries [ies] of an inner node point to
    pages of the host [h] that are children as [child] has it; each entry
    has the first key of its child and no value; [es] is the contents of
    the children, left to right, and [ps] the page numbers of the children
    and of all pages below them, no page number twice. *)
Inductive kids (h : Host) (child : BNode -> list entry -> gset Z -> Prop)
    : list entry -> list entry -> gset Z -> Prop :=
  | kids_nil : kids h child [] [] ∅
  | kids_cons (ie : entry) (ies : list entry) (page : BNode)
        (ces : list entry) (cps : gset Z) (es : list entry) (ps : gset Z)
        (es' : list entry) (ps' : gset Z) :
      host_get h (e_ptr ie) = Some page ->
      child page ces cps ->
      first_key ces = Some (e_key ie) ->
      e_val ie = [] ->
      0 <= e_ptr ie < 2 ^ 64 ->
      e_ptr ie ∉ cps -> e_ptr ie ∉ ps -> cps ## ps ->
      kids h child ies es ps ->
      es' = ces ++ es ->
      ps' = {[e_ptr ie]} ∪ cps ∪ ps ->
      kids h child (ie :: ies) es' ps'.

(** [node_rep h d ies es ps]: a node [d] levels above the leaves with the
    entries [ies] has the contents [es], the entries of the leaves below it
    from left to right, on the pages [ps] of the host [h].  A leaf has its
    entries as contents; the children of an inner node are pages that hold
    a node of at most a page with at least one entry. *)
Fixpoint node_rep (h : Host) (d : nat) (ies es : list entry) (ps : gset Z)
    : Prop :=
  match d with
  | O => es = ies /\ ps = ∅
  | S d =>
      kids h (fun page ces cps =>
                exists cies, holds page (kind d) cies /\
                             node_size cies <= BTREE_PAGE_SIZE /\
                             cies <> [] /\
                             node_rep h d cies ces cps)
           ies es ps
  end.

(** [page_rep h d page es ps]: the page holds a node of the tree, [d] levels
    above the leaves, with contents [es] on the pages [ps]. *)
Definition page_rep (h : Host) (d : nat) (page : BNode) (es : list entry)
    (ps : gset Z) : Prop :=
  exists ies, holds page (kind d) ies /\
              node_size ies <= BTREE_PAGE_SIZE /\
              ies <> [] /\
              node_rep h d ies es ps.

(** [tree_rep h d ptr es]: the page number [ptr] is the root of a tree of
    height [d] with contents [es]. *)
Definition tree_rep (h : Host) (d : nat) (ptr : Z) (es : list entry) : Prop :=
  exists page ps, host_get h ptr = Some page /\ page_rep h d page es ps /\
                  ptr ∉ ps.

(** [btree_holds t d es]: the tree [t] is not empty and has height [d] and
    the contents [es]: the sentinel entry with the empty key first, the
    keys strictly ascending and every entry within the limits of
    [Insert]. *)
Definition btree_holds (t : @BTree Host) (d : nat) (es : list entry) : Prop :=
  root t <> 0 /\
  tree_rep (host t) d (root t) es /\
  sorted es /\
  Forall entry_within_limits es /\
  first_key es = Some [].

(** [tree_pages h d ptr es P]: as [tree_rep], and [P] is the set of the page
    numbers of the tree, that of its root included. *)
Definition tree_pages (h : Host) (d : nat) (ptr : Z) (es : list entry)
    (P : gset Z) : Prop :=
  exists page ps, host_get h ptr = Some page /\ page_rep h d page es ps /\
                  (ptr ∉ ps) /\ P = {[ptr]} ∪ ps.

(** [btree_pages t d es P]: as [btree_holds], and the pages of the tree are
    those of [P]. *)
Definition btree_pages (t : @BTree Host) (d : nat) (es : list entry)
    (P : gset Z) : Prop :=
  btree_holds t d es /\ tree_pages (host t) d (root t) es P.

(** [Insert] of each pair of [kvs] in turn; the result is the last error,
    if any insert returned one. *)
Fixpoint Inserts (fuel : nat) (kvs : list (list byte * list byte))
    : @M Host (option error) :=
  match kvs with
  | [] => ret None
  | kv :: kvs =>
      bind (Insert host_get host_new host_del fuel kv.1 kv.2)
           (fun r => match r with
                     | Some e => ret (Some e)
                     | None => Inserts fuel kvs
                     end)
  end.

End Host.

(** The contents of a tree after the inserts [kvs] into the empty tree. *)
Definition contents (kvs : list (list byte * list byte)) : list entry :=
  foldl (fun es kv => upsert kv.1 kv.2 es) [mkEntry 0 [] []] kvs.

(** A bound on the pages that [k] inserts into a tree of height [d]
    allocate: at most three for each level and one for a new root, for
    each insert. *)
Definition pages_for (d k : nat) : nat := (k * (3 * (d + k) + 4))%nat.

(** ** Sample trees on the list host *)

(** The list host has room for [n] more pages while its page numbers stay
    below [2 ^ 64]. *)
Definition list_room (n : nat) (h : list_host) : Prop :=
  Z.of_nat (length h) + Z.of_nat n < 2 ^ 64.

(** The tree whose root, page 1, is [sample_leaf]. *)
Definition leaf_tree : @BTree list_host := mkBTree 1 [Some sample_leaf] [].

(** A tree of height 1: the leaves [sentinel; "a"] and ["c"] are pages 1
    and 2, the root is page 3. *)
Definition left_leaf : BNode :=
  default [] (build 64 BNODE_LEAF [mkEntry 0 [] []; mkEntry 0 key_a [Byte.x01]]).

Definition right_leaf : BNode :=
  default [] (build 64 BNODE_LEAF [mkEntry 0 key_c [Byte.x03]]).

Definition inner_root : BNode :=
  default [] (build 64 BNODE_NODE [mkEntry 1 [] []; mkEntry 2 key_c []]).

Definition two_level_tree : @BTree list_host :=
  mkBTree 3 [Some left_leaf; Some right_leaf; Some inner_root] [].

Definition two_level_entries : list entry :=
  [mkEntry 0 [] []; mkEntry 0 key_a [Byte.x01]; mkEntry 0 key_c [Byte.x03]].
(** * Properties *)

Lemma len_nonneg (l : list byte) : 0 <= len l.
Proof. unfold len. lia. Qed.

Lemma len_app (l k : list byte) : len (l ++ k) = len l + len k.
Proof. unfold len. rewrite length_app. lia. Qed.

Lemma len_nil : len [] = 0.
Proof. reflexivity. Qed.

Lemma len_le_split (n : nat) (z : Z) : len (le_split n z) = Z.of_nat n.
Proof. unfold len. by rewrite length_le_split. Qed.

Lemma len_make (n : Z) : 0 <= n -> len (make n) = n.
Proof. intros. unfold len, make. rewrite length_replicate. lia. Qed.

Lemma len_wr (p : Z) (s l : list byte) :
  0 <= p -> p + len s <= len l -> len (wr p s l) = len l.
Proof.
  unfold len, wr. intros.
  rewrite !length_app, length_take, length_drop. lia.
Qed.

Lemma len_rd (p n : Z) (l : list byte) :
  0 <= p -> 0 <= n -> p + n <= len l -> len (rd p n l) = n.
Proof.
  unfold len, rd. intros. rewrite length_take, length_drop. lia.
Qed.

Lemma rd_wr_same (p : Z) (s l : list byte) :
  0 <= p -> p + len s <= len l -> rd p (len s) (wr p s l) = s.
Proof.
  unfold len, rd, wr. intros.
  rewrite drop_app_ge by (rewrite length_take; lia).
  rewrite length_take.
  replace (Z.to_nat p - Z.to_nat p `min` length l)%nat with 0%nat by lia.
  rewrite drop_0, Nat2Z.id. apply take_app_length.
Qed.

Lemma rd_wr_disj (a n p : Z) (s l : list byte) :
  0 <= a -> 0 <= n -> 0 <= p -> p + len s <= len l ->
  a + n <= p \/ p + len s <= a ->
  rd a n (wr p s l) = rd a n l.
Proof.
  unfold len, rd, wr. intros Ha Hn Hp Hfit [Hlt | Hge].
  - rewrite drop_app_le by (rewrite length_take; lia).
    rewrite take_app_le by (rewrite length_drop, length_take; lia).
    rewrite !take_drop_commute, take_take. do 2 f_equal. lia.
  - rewrite app_assoc.
    rewrite drop_app_ge by (rewrite length_app, length_take; lia).
    rewrite length_app, length_take, drop_drop. do 2 f_equal. lia.
Qed.

Lemma wr_wr_adj (p : Z) (s1 s2 l : list byte) :
  0 <= p -> p + len s1 + len s2 <= len l ->
  wr (p + len s1) s2 (wr p s1 l) = wr p (s1 ++ s2) l.
Proof.
  unfold len, wr. intros.
  rewrite (app_assoc (take _ l) s1).
  rewrite take_app_le by (rewrite length_app, length_take; lia).
  rewrite take_ge by (rewrite length_app, length_take; lia).
  rewrite drop_app_ge by (rewrite length_app, length_take; lia).
  rewrite length_app, length_take, drop_drop, <- !app_assoc.
  do 3 f_equal. f_equal. rewrite length_app. lia.
Qed.

Lemma rd_split (p n m : Z) (l : list byte) :
  0 <= p -> 0 <= n -> 0 <= m ->
  rd p (n + m) l = rd p n l ++ rd (p + n) m l.
Proof.
  unfold rd. intros.
  replace (Z.to_nat (n + m)) with (Z.to_nat n + Z.to_nat m)%nat by lia.
  replace (Z.to_nat (p + n)) with (Z.to_nat p + Z.to_nat n)%nat by lia.
  rewrite <- take_take_drop, drop_drop. done.
Qed.

Lemma rd_app_inv (p : Z) (s1 s2 l : list byte) :
  0 <= p -> rd p (len s1 + len s2) l = s1 ++ s2 ->
  rd p (len s1) l = s1 /\ rd (p + len s1) (len s2) l = s2.
Proof.
  intros Hp Heq. rewrite rd_split in Heq by (auto using len_nonneg).
  apply app_inj_1 in Heq; [done|].
  apply (f_equal (@length byte)) in Heq. revert Heq.
  unfold rd, len. rewrite !length_app, !length_take, !length_drop. lia.
Qed.

Lemma rd_take (p n m : Z) (l : list byte) :
  0 <= p -> 0 <= n -> p + n <= m ->
  rd p n (take (Z.to_nat m) l) = rd p n l.
Proof.
  unfold rd. intros.
  rewrite !take_drop_commute, take_take. do 2 f_equal. lia.
Qed.

(** ** Arithmetic on [uint16] *)

Lemma u16_small (z : Z) : 0 <= z < 65536 -> u16 z = z.
Proof. intros. unfold u16. by rewrite Z.mod_small. Qed.

Lemma u16_range (z : Z) : 0 <= u16 z < 65536.
Proof. unfold u16. Z.to_euclidean_division_equations. lia. Qed.

(** [lia] with the division and modulo of the wrap-arounds spelled out. *)
Ltac zlia := Z.to_euclidean_division_equations; lia.
Ltac u16 := unfold add16, sub16, mul16, u16 in *.

(** ** The primitives as range reads and writes *)

Lemma le_combine_le_split_small (n : nat) (z : Z) :
  0 <= z < 2 ^ (Z.of_nat n * 8) -> le_combine (le_split n z) = z.
Proof. intros. rewrite le_combine_split. by apply Z.mod_small. Qed.

Lemma slice_from_Some (s : list byte) (lo : Z) :
  0 <= lo <= len s -> slice_from s lo = Some (drop (Z.to_nat lo) s).
Proof.
  intros. unfold slice_from.
  destruct (Z.leb_spec 0 lo), (Z.leb_spec lo (len s)); (done || lia).
Qed.

Lemma slice_to_Some (s : list byte) (hi : Z) :
  0 <= hi <= len s -> slice_to s hi = Some (take (Z.to_nat hi) s).
Proof.
  intros. unfold slice_to.
  destruct (Z.leb_spec 0 hi), (Z.leb_spec hi (len s)); (done || lia).
Qed.

Lemma slice_Some (s : list byte) (lo hi : Z) :
  0 <= lo <= hi -> hi <= len s -> slice s lo hi = Some (rd lo (hi - lo) s).
Proof.
  intros. unfold slice.
  destruct (Z.leb_spec 0 lo), (Z.leb_spec lo hi), (Z.leb_spec hi (len s));
    (done || lia).
Qed.

Lemma len_drop (s : list byte) (p : Z) :
  0 <= p <= len s -> len (drop (Z.to_nat p) s) = len s - p.
Proof. unfold len. rewrite length_drop. lia. Qed.

(** [binary.LittleEndian.Uint16(node[pos:])] *)
Lemma read16_rd (node : BNode) (pos : Z) :
  0 <= pos -> pos + 2 <= len node ->
  slice_from node pos ≫= Uint16 = Some (le_combine (rd pos 2 node)).
Proof.
  intros. rewrite slice_from_Some by lia. simpl. unfold Uint16.
  rewrite len_drop by lia. destruct (Z.leb_spec 2 (len node - pos)); [done|lia].
Qed.

Lemma read64_rd (node : BNode) (pos : Z) :
  0 <= pos -> pos + 8 <= len node ->
  slice_from node pos ≫= Uint64 = Some (le_combine (rd pos 8 node)).
Proof.
  intros. rewrite slice_from_Some by lia. simpl. unfold Uint64.
  rewrite len_drop by lia. destruct (Z.leb_spec 8 (len node - pos)); [done|lia].
Qed.

(** [binary.LittleEndian.PutUint16(node[pos:], v)] *)
Lemma write16_wr (node : BNode) (pos v : Z) :
  0 <= pos -> pos + 2 <= len node ->
  on_slice_from node pos (fun s => PutUint16 s v)
  = Some (wr pos (le_split 2 v) node).
Proof.
  intros. unfold on_slice_from. rewrite slice_from_Some by lia. simpl.
  unfold PutUint16. rewrite len_drop by lia.
  destruct (Z.leb_spec 2 (len node - pos)); [|lia]. simpl.
  unfold wr. rewrite drop_drop. done.
Qed.

Lemma write64_wr (node : BNode) (pos v : Z) :
  0 <= pos -> pos + 8 <= len node ->
  on_slice_from node pos (fun s => PutUint64 s v)
  = Some (wr pos (le_split 8 v) node).
Proof.
  intros. unfold on_slice_from. rewrite slice_from_Some by lia. simpl.
  unfold PutUint64. rewrite len_drop by lia.
  destruct (Z.leb_spec 8 (len node - pos)); [|lia]. simpl.
  unfold wr. rewrite drop_drop. done.
Qed.

(** [copy(node[pos:], src)] when [src] fits *)
Lemma copy_wr (node : BNode) (pos : Z) (src : list byte) :
  0 <= pos -> pos + len src <= len node ->
  on_slice_from node pos (fun s => Some (copy s src)) = Some (wr pos src node).
Proof.
  intros Hp Hfit. unfold on_slice_from. rewrite slice_from_Some by (pose proof (len_nonneg src); lia).
  simpl. unfold copy, wr. rewrite drop_drop.
  rewrite (take_ge src); [done|]. unfold len in *. rewrite length_drop. lia.
Qed.

(** ** Sizes *)

Lemma kvsize_pos (e : entry) : 4 <= kvsize e.
Proof.
  unfold kvsize. pose proof (len_nonneg (e_key e)).
  pose proof (len_nonneg (e_val e)). lia.
Qed.

Lemma len_enc_kv (e : entry) : len (enc_kv e) = kvsize e.
Proof. unfold enc_kv, kvsize. rewrite !len_app, !len_le_split. lia. Qed.

Lemma offs_nonneg (es : list entry) : 0 <= offs es.
Proof. induction es as [|e es IH]; simpl; [lia|]. pose proof (kvsize_pos e). lia. Qed.

Lemma offs_app (es1 es2 : list entry) : offs (es1 ++ es2) = offs es1 + offs es2.
Proof. induction es1 as [|e es1 IH]; simpl; lia. Qed.

Lemma offs_take_drop (k : nat) (es : list entry) :
  offs (take k es) + offs (drop k es) = offs es.
Proof. rewrite <- offs_app, take_drop. done. Qed.

Lemma offs_take_le (k : nat) (es : list entry) : offs (take k es) <= offs es.
Proof.
  pose proof (offs_take_drop k es). pose proof (offs_nonneg (drop k es)). lia.
Qed.

Lemma offs_take_S (j : nat) (es : list entry) (e : entry) :
  es !! j = Some e -> offs (take (S j) es) = offs (take j es) + kvsize e.
Proof.
  intros H. rewrite (take_S_r _ _ _ H), offs_app. simpl. lia.
Qed.

Lemma offs_take_S_le (j : nat) (es : list entry) (e : entry) :
  es !! j = Some e -> offs (take j es) + kvsize e <= offs es.
Proof.
  intros H. rewrite <- (offs_take_S _ _ _ H). apply offs_take_le.
Qed.

Lemma node_size_take_drop (k : nat) (es : list entry) :
  (k <= length es)%nat ->
  node_size (take k es) + node_size (drop k es) = node_size es + 4.
Proof.
  intros. unfold node_size. pose proof (offs_take_drop k es).
  rewrite length_take, length_drop. lia.
Qed.

Lemma node_size_take_mono (j k : nat) (es : list entry) :
  (j <= k)%nat -> node_size (take j es) <= node_size (take k es).
Proof.
  intros. replace (take j es) with (take j (take k es))
    by (rewrite take_take; f_equal; lia).
  unfold node_size. pose proof (offs_take_le j (take k es)).
  rewrite !length_take. lia.
Qed.

Lemma node_size_drop_mono (j k : nat) (es : list entry) :
  (j <= k)%nat -> node_size (drop k es) <= node_size (drop j es).
Proof.
  intros. replace (drop k es) with (drop (k - j) (drop j es))
    by (rewrite drop_drop; f_equal; lia).
  unfold node_size.
  pose proof (offs_take_drop (k - j) (drop j es)).
  pose proof (offs_nonneg (take (k - j) (drop j es))).
  rewrite !length_drop. lia.
Qed.

Lemma entry_within_limits_ok (e : entry) : entry_within_limits e -> entry_ok e.
Proof.
  unfold entry_within_limits, entry_ok, BTREE_MAX_KEY_SIZE, BTREE_MAX_VAL_SIZE.
  lia.
Qed.

(** ** What [stored] says about one slot *)

Lemma stored_lookup (b : BNode) (n i off : Z) (es : list entry) (j : nat) (e : entry) :
  stored b n i off es -> es !! j = Some e ->
  rd (4 + 8 * (i + Z.of_nat j)) 8 b = le_split 8 (e_ptr e) /\
  rd (4 + 8 * n + 2 * (i + Z.of_nat j)) 2 b
    = le_split 2 (off + offs (take (S j) es)) /\
  rd (4 + 10 * n + (off + offs (take j es))) (kvsize e) b = enc_kv e.
Proof.
  revert i off j. induction es as [|e0 es IH]; intros i off j Hst Hj; [done|].
  destruct Hst as (Hp & Ho & Hkv & Hst). destruct j as [|j].
  - simpl in Hj. injection Hj as ->. simpl.
    rewrite !Z.add_0_r. done.
  - simpl in Hj. destruct (IH _ _ _ Hst Hj) as (Hp' & Ho' & Hkv').
    replace (i + Z.of_nat (S j)) with (i + 1 + Z.of_nat j) by lia.
    split; [done|]. split.
    + rewrite Ho'. f_equal. cbn [take offs]. lia.
    + rewrite <- Hkv'. f_equal. cbn [take offs]. lia.
Qed.

Lemma stored_app (b : BNode) (n i off : Z) (es1 es2 : list entry) :
  stored b n i off (es1 ++ es2) <->
  stored b n i off es1 /\
  stored b n (i + Z.of_nat (length es1)) (off + offs es1) es2.
Proof.
  revert i off. induction es1 as [|e es1 IH]; intros i off.
  - simpl. rewrite !Z.add_0_r. tauto.
  - cbn [app stored length offs]. rewrite IH.
    replace (i + 1 + Z.of_nat (length es1)) with (i + Z.of_nat (S (length es1))) by lia.
    replace (off + kvsize e + offs es1) with (off + (kvsize e + offs es1)) by lia.
    tauto.
Qed.

(** A write outside the cells and kv bytes of the stored slots leaves them
    stored. *)
Lemma stored_wr (b : BNode) (n i off : Z) (es : list entry) (p : Z) (s : list byte) :
  0 <= i -> 0 <= off -> 0 <= n -> 0 <= p -> p + len s <= len b ->
  (p + len s <= 4 + 8 * i \/ 4 + 8 * (i + Z.of_nat (length es)) <= p) ->
  (p + len s <= 4 + 8 * n + 2 * i \/ 4 + 8 * n + 2 * (i + Z.of_nat (length es)) <= p) ->
  (p + len s <= 4 + 10 * n + off \/ 4 + 10 * n + off + offs es <= p) ->
  stored b n i off es -> stored (wr p s b) n i off es.
Proof.
  revert i off. induction es as [|e es IH]; intros i off Hi Hoff Hn Hp Hfit H1 H2 H3 Hst;
    [done|].
  destruct Hst as (Hp' & Ho & Hkv & Hst).
  pose proof (kvsize_pos e). pose proof (offs_nonneg es).
  cbn [length offs] in H1, H2, H3.
  cbn [stored]. rewrite !rd_wr_disj by lia.
  repeat split; try done.
  apply IH; try done; lia.
Qed.

(** ** The accessors on a filled buffer *)

Lemma Uint16_exact (s : list byte) : len s = 2 -> Uint16 s = Some (le_combine s).
Proof.
  intros H. unfold Uint16. rewrite H. simpl.
  rewrite take_ge; [done|]. unfold len in H. lia.
Qed.

Lemma Uint16_drop (node : BNode) (pos : Z) :
  0 <= pos -> pos + 2 <= len node ->
  Uint16 (drop (Z.to_nat pos) node) = Some (le_combine (rd pos 2 node)).
Proof.
  intros. unfold Uint16. rewrite len_drop by lia.
  destruct (Z.leb_spec 2 (len node - pos)); [done|lia].
Qed.

Ltac ztrue :=
  repeat match goal with
  | |- context [?a <? ?b] => rewrite (proj2 (Z.ltb_lt a b)) by lia
  | |- context [?a <=? ?b] => rewrite (proj2 (Z.leb_le a b)) by lia
  | |- context [?a =? ?b] => rewrite (proj2 (Z.eqb_eq a b)) by lia
  | |- context [?a >=? ?b] => rewrite (proj2 (Z.geb_le a b)) by lia
  end.

Section Filled.

Context {b : BNode} {bt n : Z} {es : list entry}.
Hypothesis Hf : filled b bt n es.

Lemma filled_n_range : 0 <= n < 65536.
Proof.
  destruct Hf as [Hbt Hn Hsize Hu16 Hhdr Hok Hes]. pose proof (offs_nonneg es). lia.
Qed.

Lemma filled_len : 4 <= len b.
Proof.
  destruct Hf as [Hbt Hn Hsize Hu16 Hhdr Hok Hes]. pose proof (offs_nonneg es). lia.
Qed.

Lemma filled_btype : btype b = Some bt.
Proof.
  pose proof filled_len. destruct Hf as [Hbt Hn Hsize Hu16 Hhdr Hok Hes].
  apply (rd_app_inv 0 (le_split 2 bt) (le_split 2 n)) in Hhdr; [|lia].
  rewrite !len_le_split in Hhdr. destruct Hhdr as [H0 _].
  unfold btype. rewrite slice_Some by lia. simpl.
  rewrite Uint16_exact by (rewrite len_rd; lia).
  change (2 - 0) with 2%Z. change (Z.of_nat 2) with 2 in H0. rewrite H0.
  by rewrite le_combine_le_split_small by (simpl; lia).
Qed.

Lemma filled_nkeys : nkeys b = Some n.
Proof.
  pose proof filled_len. pose proof filled_n_range. destruct Hf as [Hbt Hn Hsize Hu16 Hhdr Hok Hes].
  apply (rd_app_inv 0 (le_split 2 bt) (le_split 2 n)) in Hhdr; [|lia].
  rewrite !len_le_split in Hhdr. destruct Hhdr as [_ H2].
  unfold nkeys. rewrite slice_Some by lia. simpl.
  rewrite Uint16_exact by (rewrite len_rd; lia).
  change (4 - 2) with 2%Z. change (0 + Z.of_nat 2) with 2 in H2.
  change (Z.of_nat 2) with 2 in H2. rewrite H2.
  by rewrite le_combine_le_split_small by (simpl; lia).
Qed.

Lemma filled_getOffset (j : nat) :
  (j <= length es)%nat ->
  getOffset b (Z.of_nat j) = Some (offs (take j es)).
Proof.
  intros Hj. unfold getOffset. destruct j as [|j].
  { done. }
  pose proof filled_n_range. rewrite filled_nkeys. simpl mbind.
  destruct (es !! j) as [e|] eqn:He; [|apply lookup_ge_None in He; lia].
  destruct Hf as [Hbt Hn Hsize Hu16 Hhdr Hok Hes].
  destruct (stored_lookup _ _ _ _ _ _ _ Hes He) as (_ & Ho & _).
  pose proof (offs_take_le (S j) es). pose proof (offs_nonneg (take (S j) es)).
  destruct (Z.eqb_spec (Z.of_nat (S j)) 0); [lia|].
  replace (add16 (add16 4 (mul16 8 n)) (mul16 2 (sub16 (Z.of_nat (S j)) 1)))
    with (4 + 8 * n + 2 * (0 + Z.of_nat j)) by (u16; zlia).
  rewrite read16_rd by lia. rewrite Ho.
  by rewrite le_combine_le_split_small by (simpl; lia).
Qed.

Lemma filled_kvPos (j : nat) :
  (j <= length es)%nat ->
  kvPos b (Z.of_nat j) = Some (4 + 10 * n + offs (take j es)).
Proof.
  intros Hj. unfold kvPos. pose proof filled_n_range.
  rewrite filled_nkeys. simpl mbind.
  destruct Hf as [Hbt Hn Hsize Hu16 Hhdr Hok Hes]. ztrue. simpl mbind.
  rewrite filled_getOffset by done. simpl mbind.
  pose proof (offs_take_le j es). pose proof (offs_nonneg (take j es)).
  f_equal. u16. zlia.
Qed.

Lemma filled_getPtr (j : nat) (e : entry) :
  es !! j = Some e -> getPtr b (Z.of_nat j) = Some (e_ptr e).
Proof.
  intros He. pose proof (lookup_lt_Some _ _ _ He) as Hlt.
  pose proof filled_n_range. unfold getPtr. rewrite filled_nkeys. simpl mbind.
  destruct Hf as [Hbt Hn Hsize Hu16 Hhdr Hok Hes].
  destruct (stored_lookup _ _ _ _ _ _ _ Hes He) as (Hp & _ & _).
  pose proof (offs_nonneg es).
  ztrue. simpl mbind.
  replace (add16 4 (mul16 8 (Z.of_nat j))) with (4 + 8 * (0 + Z.of_nat j))
    by (u16; zlia).
  rewrite read64_rd by lia. rewrite Hp.
  rewrite Forall_lookup in Hok. destruct (Hok _ _ He) as (? & _).
  by rewrite le_combine_le_split_small by (simpl; lia).
Qed.

(** The four fields of the kv bytes of slot [j]. *)
Lemma filled_kv (j : nat) (e : entry) :
  es !! j = Some e ->
  let pos := 4 + 10 * n + offs (take j es) in
  rd pos 2 b = le_split 2 (len (e_key e)) /\
  rd (pos + 2) 2 b = le_split 2 (len (e_val e)) /\
  rd (pos + 4) (len (e_key e)) b = e_key e /\
  rd (pos + 4 + len (e_key e)) (len (e_val e)) b = e_val e.
Proof.
  intros He pos. destruct Hf as [Hbt Hn Hsize Hu16 Hhdr Hok Hes].
  destruct (stored_lookup _ _ _ _ _ _ _ Hes He) as (_ & _ & Hkv).
  pose proof (offs_nonneg (take j es)). pose proof filled_n_range.
  rewrite Z.add_0_l in Hkv. fold pos in Hkv.
  unfold enc_kv, kvsize in Hkv.
  replace (4 + len (e_key e) + len (e_val e))
    with (len (le_split 2 (len (e_key e)))
          + len (le_split 2 (len (e_val e)) ++ e_key e ++ e_val e)) in Hkv
    by (rewrite !len_app, !len_le_split; lia).
  apply rd_app_inv in Hkv; [|lia]. destruct Hkv as [H1 Hkv].
  rewrite len_le_split in H1, Hkv. rewrite len_app in Hkv.
  apply rd_app_inv in Hkv; [|lia]. destruct Hkv as [H2 Hkv].
  rewrite len_le_split in H2, Hkv. rewrite len_app in Hkv.
  apply rd_app_inv in Hkv; [|lia]. destruct Hkv as [H3 H4].
  change (Z.of_nat 2) with 2 in *.
  repeat split; try done.
  - rewrite <- H3 at 2. f_equal. lia.
  - rewrite <- H4 at 2. f_equal. lia.
Qed.

Lemma filled_getKey (j : nat) (e : entry) :
  es !! j = Some e -> getKey b (Z.of_nat j) = Some (e_key e).
Proof.
  intros He. pose proof (lookup_lt_Some _ _ _ He) as Hlt.
  pose proof filled_n_range. pose proof (filled_kv j e He) as (H1 & _ & H3 & _).
  unfold getKey. rewrite filled_nkeys. simpl mbind.
  pose proof (offs_take_S_le _ _ _ He). pose proof (offs_nonneg (take j es)).
  pose proof (len_nonneg (e_key e)). pose proof (len_nonneg (e_val e)).
  assert (filled_n' := filled_n _ _ _ _ Hf).
  assert (filled_size' := filled_size _ _ _ _ Hf).
  assert (filled_u16' := filled_u16 _ _ _ _ Hf).
  assert (Hok' := filled_ok _ _ _ _ Hf).
  rewrite Forall_lookup in Hok'. destruct (Hok' _ _ He) as (_ & Hk & _).
  unfold kvsize in *.
  ztrue. simpl mbind. rewrite filled_kvPos by lia. simpl mbind.
  set (pos := 4 + 10 * n + offs (take j es)) in *.
  rewrite (slice_from_Some b pos) by lia. simpl mbind.
  rewrite Uint16_drop by lia. simpl mbind. rewrite H1.
  rewrite le_combine_le_split_small by (simpl; lia).
  replace (add16 pos 4) with (pos + 4) by (u16; zlia).
  rewrite slice_from_Some by lia. simpl mbind.
  rewrite slice_to_Some by (rewrite len_drop; lia).
  f_equal. exact H3.
Qed.

Lemma filled_getVal (j : nat) (e : entry) :
  es !! j = Some e -> getVal b (Z.of_nat j) = Some (e_val e).
Proof.
  intros He. pose proof (lookup_lt_Some _ _ _ He) as Hlt.
  pose proof filled_n_range.
  pose proof (filled_kv j e He) as (H1 & H2 & _ & H4).
  unfold getVal. rewrite filled_nkeys. simpl mbind.
  pose proof (offs_take_S_le _ _ _ He). pose proof (offs_nonneg (take j es)).
  pose proof (len_nonneg (e_key e)). pose proof (len_nonneg (e_val e)).
  assert (filled_n' := filled_n _ _ _ _ Hf).
  assert (filled_size' := filled_size _ _ _ _ Hf).
  assert (filled_u16' := filled_u16 _ _ _ _ Hf).
  assert (Hok' := filled_ok _ _ _ _ Hf).
  rewrite Forall_lookup in Hok'. destruct (Hok' _ _ He) as (_ & Hk & Hv).
  unfold kvsize in *.
  ztrue. simpl mbind. rewrite filled_kvPos by lia. simpl mbind.
  set (pos := 4 + 10 * n + offs (take j es)) in *.
  replace (add16 pos 0) with pos by (u16; zlia).
  replace (add16 pos 2) with (pos + 2) by (u16; zlia).
  rewrite (slice_from_Some b pos) by lia. simpl mbind.
  rewrite Uint16_drop by lia. simpl mbind. rewrite H1.
  rewrite le_combine_le_split_small by (simpl; lia).
  rewrite (slice_from_Some b (pos + 2)) by lia. simpl mbind.
  rewrite Uint16_drop by lia. simpl mbind. rewrite H2.
  rewrite le_combine_le_split_small by (simpl; lia).
  replace (add16 (add16 pos 4) (len (e_key e))) with (pos + 4 + len (e_key e))
    by (u16; zlia).
  rewrite slice_from_Some by lia. simpl mbind.
  rewrite slice_to_Some by (rewrite len_drop; lia).
  f_equal. exact H4.
Qed.

Lemma filled_getEntry (j : nat) (e : entry) :
  es !! j = Some e -> getEntry b (Z.of_nat j) = Some e.
Proof.
  intros He. unfold getEntry.
  rewrite (filled_getPtr _ _ He), (filled_getKey _ _ He), (filled_getVal _ _ He).
  simpl. by destruct e.
Qed.

End Filled.

(** ** The node builder on a filled buffer *)

Lemma on_slice_put16 (node : BNode) (lo v : Z) :
  0 <= lo -> lo + 2 <= len node ->
  on_slice node lo (lo + 2) (fun s => PutUint16 s v)
  = Some (wr lo (le_split 2 v) node).
Proof.
  intros. unfold on_slice. rewrite slice_Some by lia. simpl mbind.
  unfold PutUint16. replace (lo + 2 - lo) with 2 by lia.
  rewrite len_rd by lia. simpl.
  unfold wr. do 2 f_equal. unfold rd.
  rewrite (drop_ge (take _ _)) by (rewrite length_take, length_drop; lia).
  simpl. do 3 f_equal. lia.
Qed.

Lemma rd_hdr_wr (p : Z) (s b : list byte) :
  4 <= p -> p + len s <= len b -> rd 0 4 (wr p s b) = rd 0 4 b.
Proof. intros. pose proof (len_nonneg s). apply rd_wr_disj; lia. Qed.

Lemma setHeader_wr (b : BNode) (bt n : Z) :
  4 <= len b ->
  setHeader b bt n = Some (wr 2 (le_split 2 n) (wr 0 (le_split 2 bt) b)).
Proof.
  intros. unfold setHeader.
  rewrite (on_slice_put16 b 0) by lia. simpl mbind.
  rewrite (on_slice_put16 _ 2); [done|lia|].
  rewrite len_wr; rewrite ?len_le_split; lia.
Qed.

Lemma setHeader_filled (b : BNode) (bt n : Z) :
  0 <= bt < 65536 -> 0 <= n -> 4 + 10 * n <= len b -> 4 + 10 * n < 65536 ->
  exists b', setHeader b bt n = Some b' /\ filled b' bt n [] /\ len b' = len b.
Proof.
  intros. eexists. split; [apply setHeader_wr; lia|].
  assert (len (wr 0 (le_split 2 bt) b) = len b) as Hl1
    by (rewrite len_wr; rewrite ?len_le_split; lia).
  split; [|rewrite len_wr; rewrite ?len_le_split; lia].
  split; cbn [offs length stored]; try done; try lia.
  rewrite len_wr; rewrite ?len_le_split; lia.
Qed.

(** A write above the header and outside the written slots keeps a buffer
    filled. *)
Lemma filled_wr (b : BNode) (bt n : Z) (es : list entry) (p : Z) (s : list byte) :
  filled b bt n es ->
  4 <= p -> p + len s <= len b ->
  4 + 8 * Z.of_nat (length es) <= p ->
  (p + len s <= 4 + 8 * n \/ 4 + 8 * n + 2 * Z.of_nat (length es) <= p) ->
  (p + len s <= 4 + 10 * n \/ 4 + 10 * n + offs es <= p) ->
  filled (wr p s b) bt n es.
Proof.
  intros [Hbt Hn Hsize Hu16 Hhdr Hok Hes] Hp Hfit H1 H2 H3.
  pose proof (len_nonneg s).
  split; try done.
  - rewrite len_wr by lia. done.
  - rewrite rd_hdr_wr by lia. done.
  - apply stored_wr; try done; lia.
Qed.

Lemma setPtr_filled (b : BNode) (bt n : Z) (es : list entry) (idx v : Z) :
  filled b bt n es -> 0 <= idx < n ->
  setPtr b idx v = Some (wr (4 + 8 * idx) (le_split 8 v) b).
Proof.
  intros Hf Hidx. unfold setPtr. rewrite (filled_nkeys Hf). simpl mbind.
  ztrue. simpl mbind.
  pose proof (filled_n_range Hf). destruct Hf as [Hbt Hn Hsize Hu16 Hhdr Hok Hes].
  pose proof (offs_nonneg es).
  replace (add16 4 (mul16 8 idx)) with (4 + 8 * idx) by (u16; zlia).
  apply write64_wr; lia.
Qed.

Lemma setOffset_filled (b : BNode) (bt n : Z) (es : list entry) (idx v : Z) :
  filled b bt n es -> 1 <= idx <= n ->
  setOffset b idx v = Some (wr (4 + 8 * n + 2 * (idx - 1)) (le_split 2 v) b).
Proof.
  intros Hf Hidx. unfold setOffset. rewrite (filled_nkeys Hf). simpl mbind.
  pose proof (filled_n_range Hf). destruct Hf as [Hbt Hn Hsize Hu16 Hhdr Hok Hes].
  pose proof (offs_nonneg es).
  replace (add16 (add16 4 (mul16 8 n)) (mul16 2 (sub16 idx 1)))
    with (4 + 8 * n + 2 * (idx - 1)) by (u16; zlia).
  apply write16_wr; lia.
Qed.

Lemma nodeAppendKV_appended (b : BNode) (bt n : Z) (es : list entry) (e : entry) :
  filled b bt n es -> Z.of_nat (length es) < n -> entry_ok e ->
  4 + 10 * n + offs es + kvsize e <= len b ->
  4 + 10 * n + offs es + kvsize e < 65536 ->
  nodeAppendKV b (Z.of_nat (length es)) (e_ptr e) (e_key e) (e_val e)
  = Some (appended b n (Z.of_nat (length es)) (offs es) e).
Proof.
  intros Hf Hidx (Hptr & Hk & Hv) Hfit Hu.
  set (idx := Z.of_nat (length es)) in *.
  pose proof (filled_n_range Hf) as Hnr. pose proof (offs_nonneg es) as Hoff.
  pose proof (len_nonneg (e_key e)). pose proof (len_nonneg (e_val e)).
  assert (Hsz : kvsize e = 4 + len (e_key e) + len (e_val e)) by done.
  unfold nodeAppendKV.
  rewrite (setPtr_filled _ _ _ _ _ _ Hf) by lia. simpl mbind.
  set (b1 := wr (4 + 8 * idx) (le_split 8 (e_ptr e)) b).
  assert (Hl1 : len b1 = len b) by (apply len_wr; rewrite ?len_le_split; lia).
  assert (Hf1 : filled b1 bt n es).
  { apply filled_wr; rewrite ?len_le_split; try done; subst idx; lia. }
  subst idx. rewrite (filled_kvPos Hf1) by lia. simpl mbind.
  rewrite take_ge by lia.
  set (idx := Z.of_nat (length es)) in *.
  set (pos := 4 + 10 * n + offs es).
  replace (add16 pos 0) with pos by (u16; zlia).
  replace (add16 pos 2) with (pos + 2) by (u16; zlia).
  replace (add16 (add16 pos 4) (u16 (len (e_key e))))
    with (pos + 4 + len (e_key e)) by (u16; zlia).
  replace (add16 pos 4) with (pos + 4) by (u16; zlia).
  rewrite !u16_small by lia.
  rewrite write16_wr by lia. simpl mbind.
  set (c1 := wr pos (le_split 2 (len (e_key e))) b1).
  assert (Hc1 : len c1 = len b) by (unfold c1; rewrite len_wr; rewrite ?len_le_split; lia).
  rewrite write16_wr by lia. simpl mbind.
  set (c2 := wr (pos + 2) (le_split 2 (len (e_val e))) c1).
  assert (Hc2 : len c2 = len b) by (unfold c2; rewrite len_wr; rewrite ?len_le_split; lia).
  rewrite copy_wr by lia. simpl mbind.
  set (c3 := wr (pos + 4) (e_key e) c2).
  assert (Hc3 : len c3 = len b) by (unfold c3; rewrite len_wr; lia).
  rewrite copy_wr by lia. simpl mbind.
  assert (Hb2 : wr (pos + 4 + len (e_key e)) (e_val e) c3 = wr pos (enc_kv e) b1).
  { unfold c3. rewrite (wr_wr_adj (pos + 4)) by lia.
    unfold c2.
    replace (pos + 4) with (pos + 2 + len (le_split 2 (len (e_val e))))
      by (rewrite len_le_split; lia).
    rewrite (wr_wr_adj (pos + 2)) by (rewrite ?len_app, ?len_le_split; lia).
    unfold c1.
    replace (pos + 2) with (pos + len (le_split 2 (len (e_key e))))
      by (rewrite len_le_split; lia).
    rewrite (wr_wr_adj pos) by (rewrite ?len_app, ?len_le_split; lia).
    done. }
  rewrite Hb2. clear Hb2.
  set (b2 := wr pos (enc_kv e) b1).
  assert (Hl2 : len b2 = len b).
  { unfold b2. rewrite len_wr; rewrite ?len_enc_kv; lia. }
  assert (Hf2 : filled b2 bt n es).
  { apply filled_wr; rewrite ?len_enc_kv; try done; subst idx pos; lia. }
  subst idx. rewrite (filled_getOffset Hf2) by lia. simpl mbind.
  rewrite take_ge by lia.
  set (idx := Z.of_nat (length es)) in *.
  replace (add16 idx 1) with (idx + 1) by (u16; zlia).
  replace (add16 (add16 (offs es) 4) (len (e_key e) + len (e_val e)))
    with (offs es + kvsize e) by (u16; zlia).
  rewrite (setOffset_filled _ _ _ _ _ _ Hf2) by lia.
  unfold appended. do 2 f_equal. lia.
Qed.

Lemma appended_filled (b : BNode) (bt n : Z) (es : list entry) (e : entry) :
  filled b bt n es -> Z.of_nat (length es) < n -> entry_ok e ->
  4 + 10 * n + offs es + kvsize e <= len b ->
  4 + 10 * n + offs es + kvsize e < 65536 ->
  let b' := appended b n (Z.of_nat (length es)) (offs es) e in
  filled b' bt n (es ++ [e]) /\ len b' = len b.
Proof.
  intros Hf Hidx Hok Hfit Hu b'. subst b'.
  set (idx := Z.of_nat (length es)) in *.
  pose proof (filled_n_range Hf) as Hnr. pose proof (offs_nonneg es) as Hoff.
  pose proof (kvsize_pos e).
  unfold appended.
  set (b1 := wr (4 + 8 * idx) (le_split 8 (e_ptr e)) b).
  assert (Hl1 : len b1 = len b) by (apply len_wr; rewrite ?len_le_split; lia).
  assert (Hf1 : filled b1 bt n es).
  { apply filled_wr; rewrite ?len_le_split; try done; subst idx; lia. }
  set (b2 := wr (4 + 10 * n + offs es) (enc_kv e) b1).
  assert (Hl2 : len b2 = len b).
  { unfold b2. rewrite len_wr; rewrite ?len_enc_kv; lia. }
  assert (Hf2 : filled b2 bt n es).
  { apply filled_wr; rewrite ?len_enc_kv; try done; subst idx; lia. }
  set (b3 := wr (4 + 8 * n + 2 * idx) (le_split 2 (offs es + kvsize e)) b2).
  assert (Hl3 : len b3 = len b).
  { unfold b3. rewrite len_wr; rewrite ?len_le_split; lia. }
  assert (Hf3 : filled b3 bt n es).
  { apply filled_wr; rewrite ?len_le_split; try done; subst idx; lia. }
  fold b1 b2 b3. split; [|done].
  destruct Hf3 as [Hbt Hn Hsize Hu16 Hhdr Hoks Hes].
  split; try done.
  - rewrite length_app. simpl. lia.
  - rewrite offs_app. simpl. lia.
  - rewrite offs_app. simpl. lia.
  - apply Forall_app. split; [done|]. by constructor.
  - apply stored_app. split; [done|]. simpl.
    rewrite !Z.add_0_l. fold idx. repeat split.
    + unfold b3. rewrite rd_wr_disj by (rewrite ?len_le_split; lia).
      unfold b2. rewrite rd_wr_disj by (rewrite ?len_enc_kv; lia).
      apply (rd_wr_same (4 + 8 * idx) (le_split 8 (e_ptr e))); rewrite ?len_le_split; lia.
    + apply (rd_wr_same (4 + 8 * n + 2 * idx) (le_split 2 (offs es + kvsize e)));
        rewrite ?len_le_split; lia.
    + unfold b3. rewrite rd_wr_disj by (rewrite ?len_le_split; lia).
      rewrite <- len_enc_kv.
      apply rd_wr_same; rewrite ?len_enc_kv; lia.
Qed.

Lemma nodeAppendKV_filled (b : BNode) (bt n : Z) (es : list entry) (e : entry) :
  filled b bt n es -> Z.of_nat (length es) < n -> entry_ok e ->
  4 + 10 * n + offs es + kvsize e <= len b ->
  4 + 10 * n + offs es + kvsize e < 65536 ->
  exists b',
    nodeAppendKV b (Z.of_nat (length es)) (e_ptr e) (e_key e) (e_val e) = Some b' /\
    filled b' bt n (es ++ [e]) /\ len b' = len b.
Proof.
  intros. eexists. split; [by eapply nodeAppendKV_appended|].
  by apply appended_filled.
Qed.

Lemma nodeAppendRange_loop_filled (old : BNode) (bt_o : Z) (es_o : list entry)
    (bt n : Z) (es_n : list entry) (src cnt : nat) :
  holds old bt_o es_o ->
  (src + cnt <= length es_o)%nat ->
  Z.of_nat (length es_n) + Z.of_nat cnt <= n ->
  4 + 10 * n + offs es_n + offs (take cnt (drop src es_o)) < 65536 ->
  forall (fuel i : nat) (new : BNode),
    (i + fuel = cnt)%nat ->
    4 + 10 * n + offs es_n + offs (take cnt (drop src es_o)) <= len new ->
    filled new bt n (es_n ++ take i (drop src es_o)) ->
    exists new',
      nodeAppendRange_loop fuel new old (Z.of_nat (length es_n)) (Z.of_nat src)
        (Z.of_nat i) = Some new' /\
      filled new' bt n (es_n ++ take cnt (drop src es_o)) /\
      len new' = len new.
Proof.
  intros Hold Hsrc Hdst Hu. induction fuel as [|fuel IH]; intros i new Hi Hfit Hnew.
  { exists new. replace cnt with i by lia. done. }
  assert (is_Some (es_o !! (src + i)%nat)) as [e He]
    by (apply lookup_lt_is_Some; lia).
  assert (Hd : drop src es_o !! i = Some e) by (by rewrite lookup_drop).
  pose proof (filled_n_range Hnew) as Hnr.
  pose proof (Forall_lookup_1 _ _ _ _ (filled_ok _ _ _ _ Hold) He) as Hoke.
  cbn [nodeAppendRange_loop].
  replace (add16 (Z.of_nat src) (Z.of_nat i)) with (Z.of_nat (src + i))
    by (pose proof (filled_n_range Hold); u16; zlia).
  rewrite (filled_getPtr Hold _ _ He). simpl mbind.
  rewrite (filled_getKey Hold _ _ He). simpl mbind.
  rewrite (filled_getVal Hold _ _ He). simpl mbind.
  set (es := es_n ++ take i (drop src es_o)) in *.
  assert (Hlen : length es = (length es_n + i)%nat).
  { unfold es. rewrite length_app, length_take, length_drop. lia. }
  replace (add16 (Z.of_nat (length es_n)) (Z.of_nat i)) with (Z.of_nat (length es))
    by (u16; zlia).
  assert (Hoffs : offs es + kvsize e <= offs es_n + offs (take cnt (drop src es_o))).
  { unfold es. rewrite offs_app.
    replace i with (i `min` cnt)%nat at 1 by lia. rewrite <- take_take.
    assert (take cnt (drop src es_o) !! i = Some e) as Ht.
    { rewrite lookup_take. case_decide; [done|lia]. }
    pose proof (offs_take_S_le _ _ _ Ht). lia. }
  destruct (nodeAppendKV_filled new bt n es e) as (new1 & Hkv & Hf1 & Hl1);
    try done; try lia.
  rewrite Hkv. simpl mbind.
  replace (add16 (Z.of_nat i) 1) with (Z.of_nat (S i)) by (u16; zlia).
  destruct (IH (S i) new1) as (new' & Hloop & Hf' & Hl'); try lia.
  { unfold es in Hf1. rewrite <- app_assoc in Hf1.
    by rewrite (take_S_r _ _ _ Hd). }
  exists new'. rewrite Hloop. split; [done|]. split; [done|lia].
Qed.

Lemma nodeAppendRange_filled (old : BNode) (bt_o : Z) (es_o : list entry)
    (new : BNode) (bt n : Z) (es_n : list entry) (src cnt : nat) :
  holds old bt_o es_o ->
  filled new bt n es_n ->
  (src + cnt <= length es_o)%nat ->
  Z.of_nat (length es_n) + Z.of_nat cnt <= n ->
  4 + 10 * n + offs es_n + offs (take cnt (drop src es_o)) <= len new ->
  4 + 10 * n + offs es_n + offs (take cnt (drop src es_o)) < 65536 ->
  exists new',
    nodeAppendRange new old (Z.of_nat (length es_n)) (Z.of_nat src) (Z.of_nat cnt)
      = Some new' /\
    filled new' bt n (es_n ++ take cnt (drop src es_o)) /\
    len new' = len new.
Proof.
  intros Hold Hnew Hsrc Hdst Hfit Hu. unfold nodeAppendRange.
  rewrite Nat2Z.id.
  apply (nodeAppendRange_loop_filled old bt_o es_o bt n es_n src cnt
           Hold Hsrc Hdst Hu cnt 0%nat new); try done.
  by rewrite take_0, app_nil_r.
Qed.

(** ** The codec: positions (C7) *)

Lemma Uint16_range (s : list byte) (v : Z) : Uint16 s = Some v -> 0 <= v < 65536.
Proof.
  unfold Uint16. destruct (2 <=? len s) eqn:E; [|done]. intros [= <-].
  pose proof (le_combine_bound (take 2 s)) as Hb.
  assert (length (take 2 s) <= 2)%nat by (rewrite length_take; lia).
  assert (2 ^ (8 * Z.of_nat (length (take 2 s))) <= 2 ^ 16)
    by (apply Z.pow_le_mono_r; lia).
  change (2 ^ 16) with 65536 in *. lia.
Qed.

Lemma nkeys_range (node : BNode) (n : Z) : nkeys node = Some n -> 0 <= n < 65536.
Proof.
  unfold nkeys. destruct (slice node 2 4) as [s|]; [|done]. simpl.
  apply Uint16_range.
Qed.

(** C7.  For a buffer whose header gives [n] entries and which contains the
    pointer and offset arrays of such a node, and for [0 <= i <= n]:
    [getOffset] is [0] at [i = 0] and the 16-bit cell [i-1] of the offset
    array at [i >= 1]; [kvPos i] is [HEADER + 10*n + off(i)], computed as a
    [uint16] (so it is that sum whenever the sum is below 65536, as it is
    for every node that lies inside a buffer of at most 65535 bytes); and
    [nbytes] is [kvPos n]. *)
Theorem kvPos_formula (node : BNode) (n i : Z) :
  nkeys node = Some n ->
  4 + 10 * n <= len node ->
  4 + 10 * n <= 65536 ->
  0 <= i <= n ->
  exists off,
    getOffset node i = Some off /\
    (i = 0 -> off = 0) /\
    (1 <= i -> off = le_combine (rd (4 + 8 * n + 2 * (i - 1)) 2 node)) /\
    kvPos node i = Some (u16 (HEADER + 10 * n + off)) /\
    (HEADER + 10 * n + off < 65536 ->
     kvPos node i = Some (HEADER + 10 * n + off)) /\
    nbytes node = kvPos node n.
Proof.
  intros Hn Hlen Hu Hi. pose proof (nkeys_range _ _ Hn) as Hnr.
  assert (exists off, getOffset node i = Some off /\
            (i = 0 -> off = 0) /\
            (1 <= i -> off = le_combine (rd (4 + 8 * n + 2 * (i - 1)) 2 node)) /\
            0 <= off < 65536) as (off & Hoff & H0 & H1 & Hr).
  { unfold getOffset. destruct (Z.eqb_spec i 0) as [->|Hne].
    - exists 0. repeat split; (done || lia).
    - rewrite Hn. simpl mbind.
      replace (add16 (add16 4 (mul16 8 n)) (mul16 2 (sub16 i 1)))
        with (4 + 8 * n + 2 * (i - 1)) by (u16; zlia).
      rewrite read16_rd by lia. eexists. repeat split; try done; try lia.
      + pose proof (Uint16_range (drop (Z.to_nat (4 + 8 * n + 2 * (i - 1))) node)) as Hb.
        rewrite Uint16_drop in Hb by lia. specialize (Hb _ eq_refl). lia.
      + pose proof (Uint16_range (drop (Z.to_nat (4 + 8 * n + 2 * (i - 1))) node)) as Hb.
        rewrite Uint16_drop in Hb by lia. specialize (Hb _ eq_refl). lia. }
  exists off.
  assert (kvPos node i = Some (u16 (HEADER + 10 * n + off))) as Hkv.
  { unfold kvPos. rewrite Hn. simpl mbind. ztrue. simpl mbind.
    rewrite Hoff. simpl mbind. f_equal. unfold HEADER. u16. zlia. }
  repeat split; try done.
  - intros Hsmall. rewrite Hkv, u16_small; [done|]. unfold HEADER in *. lia.
  - unfold nbytes. rewrite Hn. done.
Qed.

Lemma kvPos_formula_witness :
  nkeys sample_leaf = Some 3 /\
  4 + 10 * 3 <= len sample_leaf /\
  4 + 10 * 3 <= 65536 /\
  0 <= 1 <= 3 /\
  exists off,
    getOffset sample_leaf 1 = Some off /\
    (1 = 0 -> off = 0) /\
    (1 <= 1 -> off = le_combine (rd (4 + 8 * 3 + 2 * (1 - 1)) 2 sample_leaf)) /\
    kvPos sample_leaf 1 = Some (u16 (HEADER + 10 * 3 + off)) /\
    (HEADER + 10 * 3 + off < 65536 ->
     kvPos sample_leaf 1 = Some (HEADER + 10 * 3 + off)) /\
    nbytes sample_leaf = kvPos sample_leaf 3.
Proof.
  assert (H1 : nkeys sample_leaf = Some 3) by (vm_compute; reflexivity).
  assert (H2 : 4 + 10 * 3 <= len sample_leaf) by (vm_compute; discriminate).
  assert (H3 : 4 + 10 * 3 <= 65536) by lia.
  assert (H4 : 0 <= 1 <= 3) by lia.
  repeat (split; [assumption|]).
  exact (kvPos_formula sample_leaf 3 1 H1 H2 H3 H4).
Defined.

(** ** Lookup (C3, C10) *)

Lemma Compare_eq (a b : list byte) : Compare a b = Eq -> a = b.
Proof.
  revert b. induction a as [|x a IH]; intros [|y b]; simpl; try done.
  destruct (Z.compare_spec (byte.unsigned x) (byte.unsigned y)) as [E| |]; try done.
  intros H. apply byte.unsigned_inj in E. subst. f_equal. by apply IH.
Qed.

Lemma Compare_refl (a : list byte) : Compare a a = Eq.
Proof.
  induction a as [|x a IH]; simpl; [done|]. by rewrite Z.compare_refl.
Qed.

Lemma Compare_antisym (a b : list byte) : Compare b a = CompOpp (Compare a b).
Proof.
  revert b. induction a as [|x a IH]; intros [|y b]; simpl; try done.
  rewrite (Z.compare_antisym (byte.unsigned x) (byte.unsigned y)).
  destruct (byte.unsigned x ?= byte.unsigned y); simpl; auto.
Qed.

Lemma Compare_trans (a b c : list byte) :
  Compare a b = Lt -> Compare b c = Lt -> Compare a c = Lt.
Proof.
  revert b c. induction a as [|x a IH]; intros [|y b] [|z c]; simpl; try done.
  destruct (Z.compare_spec (byte.unsigned x) (byte.unsigned y)) as [E1|L1|G1];
    try done;
  destruct (Z.compare_spec (byte.unsigned y) (byte.unsigned z)) as [E2|L2|G2];
    try done; intros H1 H2.
  - rewrite E1, E2, Z.compare_refl. eauto.
  - rewrite E1. by apply Z.compare_lt_iff in L2 as ->.
  - rewrite <- E2. by apply Z.compare_lt_iff in L1 as ->.
  - assert (byte.unsigned x < byte.unsigned z) as L by lia.
    by apply Z.compare_lt_iff in L as ->.
Qed.

Lemma Compare_lt_gt (a b : list byte) : Compare a b = Lt <-> Compare b a = Gt.
Proof. rewrite (Compare_antisym a b). destruct (Compare a b); simpl; split; done. Qed.

(** C10.  When the key of entry 0 is greater than the search key, the first
    iteration returns [i - 1] at [i = 0]: the [uint16] 65535, which is not
    an index of the node. *)
Theorem nodeLookupLE_below_first (node : BNode) (key : list byte) (n : Z)
    (k0 : list byte) :
  nkeys node = Some n ->
  1 <= n ->
  getKey node 0 = Some k0 ->
  Compare k0 key = Gt ->
  nodeLookupLE node key = Some 65535 /\ ~ (65535 < n).
Proof.
  intros Hn H1 Hk Hgt. pose proof (nkeys_range _ _ Hn).
  split; [|lia].
  unfold nodeLookupLE. rewrite Hn. simpl mbind.
  destruct (Z.to_nat n) as [|fuel] eqn:E; [lia|].
  cbn [nodeLookupLE_loop]. rewrite Hk. simpl mbind. rewrite Hgt. done.
Qed.

Lemma nodeLookupLE_below_first_witness :
  nkeys unsorted_leaf = Some 3 /\
  1 <= 3 /\
  getKey unsorted_leaf 0 = Some key_b /\
  Compare key_b key_a = Gt /\
  nodeLookupLE unsorted_leaf key_a = Some 65535 /\ ~ (65535 < 3).
Proof.
  assert (H1 : nkeys unsorted_leaf = Some 3) by (vm_compute; reflexivity).
  assert (H2 : 1 <= 3) by lia.
  assert (H3 : getKey unsorted_leaf 0 = Some key_b) by (vm_compute; reflexivity).
  assert (H4 : Compare key_b key_a = Gt) by (vm_compute; reflexivity).
  repeat (split; [assumption|]).
  exact (nodeLookupLE_below_first unsorted_leaf key_a 3 key_b H1 H2 H3 H4).
Defined.

Section Lookup.

Context (node : BNode) (keys : list (list byte)) (key : list byte).
Hypothesis Hkeys : node_keys node keys.
Hypothesis Hsorted : ascending_from 0 keys.

Lemma nodeLookupLE_loop_spec (fuel i : nat) :
  (i + fuel = length keys)%nat ->
  (1 <= i)%nat ->
  (forall j kj, (j < i)%nat -> keys !! j = Some kj -> Compare kj key = Lt) ->
  exists r : nat,
    nodeLookupLE_loop fuel node key (Z.of_nat i) = Some (Z.of_nat r) /\
    (r < length keys)%nat /\
    (exists kr, keys !! r = Some kr /\ Compare kr key <> Gt) /\
    (forall j kj, (r < j)%nat -> keys !! j = Some kj -> Compare kj key = Gt).
Proof.
  destruct Hkeys as (Hn & Hlen & Hget).
  revert i. induction fuel as [|fuel IH]; intros i Hi H1 Hinv.
  - exists (i - 1)%nat. cbn [nodeLookupLE_loop]. split; [|split; [lia|split]].
    + f_equal. u16. zlia.
    + destruct (keys !! (i - 1)%nat) as [kr|] eqn:E;
        [|apply lookup_ge_None in E; lia].
      exists kr. split; [done|]. rewrite (Hinv (i - 1)%nat kr); [done|lia|done].
    + intros j kj Hj Hkj. apply lookup_lt_Some in Hkj. lia.
  - destruct (keys !! i) as [ki|] eqn:E; [|apply lookup_ge_None in E; lia].
    cbn [nodeLookupLE_loop]. rewrite (Hget _ _ E). simpl mbind.
    destruct (Compare ki key) eqn:Hc.
    + exists i. split; [done|]. split; [lia|]. split.
      * exists ki. split; [done|]. by rewrite Hc.
      * intros j kj Hj Hkj. apply Compare_eq in Hc. subst ki.
        apply Compare_lt_gt. apply (Hsorted i j); (done || lia).
    + replace (add16 (Z.of_nat i) 1) with (Z.of_nat (S i)) by (u16; zlia).
      apply IH; [lia|lia|].
      intros j kj Hj Hkj. destruct (decide (j = i)) as [->|].
      * congruence.
      * apply (Hinv j); [lia|done].
    + exists (i - 1)%nat. split; [|split; [lia|split]].
      * f_equal. u16. zlia.
      * destruct (keys !! (i - 1)%nat) as [kr|] eqn:E';
          [|apply lookup_ge_None in E'; lia].
        exists kr. split; [done|]. rewrite (Hinv (i - 1)%nat kr); [done|lia|done].
      * intros j kj Hj Hkj. destruct (decide (j = i)) as [->|].
        { congruence. }
        apply Compare_lt_gt. apply (Compare_trans _ ki).
        { by apply Compare_lt_gt. }
        apply (Hsorted i j); (done || lia).
Qed.

End Lookup.

(** C3, as the code has it.  For a node whose keys are strictly ascending
    from index 0 on (entry 0 included) and whose entry-0 key is at most the
    search key, [nodeLookupLE] returns the greatest index whose key is at
    most the search key; the index is below [nkeys]. *)
Theorem nodeLookupLE_greatest (node : BNode) (keys : list (list byte))
    (key k0 : list byte) :
  node_keys node keys ->
  ascending_from 0 keys ->
  keys !! 0%nat = Some k0 ->
  Compare k0 key <> Gt ->
  exists r : nat,
    nodeLookupLE node key = Some (Z.of_nat r) /\
    (r < length keys)%nat /\
    (exists kr, keys !! r = Some kr /\ Compare kr key <> Gt) /\
    (forall j kj, (r < j)%nat -> keys !! j = Some kj -> Compare kj key = Gt).
Proof.
  intros Hkeys Hsorted Hk0 Hle.
  pose proof Hkeys as (Hn & Hlen & Hget).
  unfold nodeLookupLE. rewrite Hn. simpl mbind. rewrite Nat2Z.id.
  destruct (length keys) as [|fuel] eqn:El.
  { apply lookup_lt_Some in Hk0. lia. }
  pose proof (Hget 0%nat _ Hk0) as Hg0. change (Z.of_nat 0) with 0 in Hg0.
  cbn [nodeLookupLE_loop]. rewrite Hg0. simpl mbind.
  destruct (Compare k0 key) eqn:Hc; [| |done].
  - exists 0%nat. split; [done|]. split; [lia|]. split.
    + exists k0. split; [done|]. by rewrite Hc.
    + intros j kj Hj Hkj. apply Compare_eq in Hc. subst k0.
      apply Compare_lt_gt. apply (Hsorted 0%nat j); (done || lia).
  - replace (add16 0 1) with (Z.of_nat 1) by done.
    rewrite <- El.
    apply (nodeLookupLE_loop_spec node keys key Hkeys Hsorted fuel 1); [lia|lia|].
    intros j kj Hj Hkj. replace j with 0%nat in Hkj by lia. congruence.
Qed.

Lemma sample_leaf_keys : node_keys sample_leaf [[]; key_a; key_c].
Proof.
  split; [vm_compute; reflexivity|]. split; [simpl; lia|].
  intros [|[|[|i]]] k; simpl; intros [= <-]; vm_compute; reflexivity.
Defined.

Lemma sample_keys_ascending : ascending_from 0 [[]; key_a; key_c].
Proof.
  intros [|[|[|i]]] [|[|[|j]]] ki kj Hij; simpl; intros [= <-] [= <-];
    solve [vm_compute; reflexivity | lia].
Defined.

Lemma nodeLookupLE_greatest_witness :
  node_keys sample_leaf [[]; key_a; key_c] /\
  ascending_from 0 [[]; key_a; key_c] /\
  [[]; key_a; key_c] !! 0%nat = Some [] /\
  Compare [] key_b <> Gt /\
  exists r : nat,
    nodeLookupLE sample_leaf key_b = Some (Z.of_nat r) /\
    (r < length [[]; key_a; key_c])%nat /\
    (exists kr, [[]; key_a; key_c] !! r = Some kr /\ Compare kr key_b <> Gt) /\
    (forall j kj, (r < j)%nat -> [[]; key_a; key_c] !! j = Some kj ->
                  Compare kj key_b = Gt).
Proof.
  assert (H4 : Compare [] key_b <> Gt) by (vm_compute; discriminate).
  split; [exact sample_leaf_keys|]. split; [exact sample_keys_ascending|].
  split; [reflexivity|]. split; [exact H4|].
  exact (nodeLookupLE_greatest sample_leaf [[]; key_a; key_c] key_b []
           sample_leaf_keys sample_keys_ascending eq_refl H4).
Defined.

Lemma unsorted_leaf_keys : node_keys unsorted_leaf [key_b; key_a; key_c].
Proof.
  split; [vm_compute; reflexivity|]. split; [simpl; lia|].
  intros [|[|[|i]]] k; simpl; intros [= <-]; vm_compute; reflexivity.
Qed.

(** C3 as stated fails.  The keys of [unsorted_leaf] ascend from index 1 on
    and its entry-0 key "b" is at most the search key "b": the hypotheses of
    the claim hold.  [nodeLookupLE] returns 0, but entry 1 has the key "a",
    which is also at most "b": the result is not the greatest such index. *)
Lemma nodeLookupLE_not_greatest :
  node_keys unsorted_leaf [key_b; key_a; key_c] /\
  ascending_from 1 [key_b; key_a; key_c] /\
  [key_b; key_a; key_c] !! 0%nat = Some key_b /\
  Compare key_b key_b <> Gt /\
  nodeLookupLE unsorted_leaf key_b = Some 0 /\
  ~ (exists r : nat,
       nodeLookupLE unsorted_leaf key_b = Some (Z.of_nat r) /\
       (r < length [key_b; key_a; key_c])%nat /\
       (exists kr, [key_b; key_a; key_c] !! r = Some kr /\ Compare kr key_b <> Gt) /\
       (forall j kj, (r < j)%nat -> [key_b; key_a; key_c] !! j = Some kj ->
                     Compare kj key_b = Gt)).
Proof.
  assert (nodeLookupLE unsorted_leaf key_b = Some 0) as E
    by (vm_compute; reflexivity).
  split; [exact unsorted_leaf_keys|]. split.
  { intros [|[|[|i]]] [|[|[|j]]] ki kj Hij; simpl; intros [= <-] [= <-];
      solve [vm_compute; reflexivity | lia]. }
  split; [reflexivity|]. split; [vm_compute; discriminate|]. split; [exact E|].
  intros (r & Hr & _ & _ & Hmax).
  rewrite E in Hr. assert (r = 0%nat) as -> by (injection Hr; lia).
  assert (Compare key_a key_b = Gt) as Hgt
    by (apply (Hmax 1%nat); [lia|reflexivity]).
  vm_compute in Hgt. discriminate.
Qed.

(** ** The node builder: one entry (C8) *)

(** C8.  Let [new] be a buffer whose header is set for [n] entries and whose
    entries [0 .. idx-1] are written ([es], with [idx = length es]), with
    room in the buffer for entry [idx].  Then [nodeAppendKV] returns; in the
    buffer it returns, the pointer cell [idx] holds [ptr], the bytes from
    [kvPos new idx] on are [klen | vlen | key | val],
    [off(idx+1) = off(idx) + 4 + klen + vlen], the accessors read
    [(ptr, key, val)] at [idx], and the entries written before are still
    there. *)
Theorem nodeAppendKV_spec (new : BNode) (bt n : Z) (es : list entry)
    (ptr : Z) (key val : list byte) :
  let idx := Z.of_nat (length es) in
  let pos := 4 + 10 * n + offs es in
  filled new bt n es ->
  idx < n ->
  0 <= ptr < 2 ^ 64 ->
  pos + 4 + len key + len val <= len new ->
  pos + 4 + len key + len val < 65536 ->
  exists new',
    nodeAppendKV new idx ptr key val = Some new' /\
    kvPos new idx = Some pos /\
    getOffset new idx = Some (offs es) /\
    rd (4 + 8 * idx) 8 new' = le_split 8 ptr /\
    rd pos (4 + len key + len val) new'
      = le_split 2 (len key) ++ le_split 2 (len val) ++ key ++ val /\
    getOffset new' (idx + 1) = Some (offs es + 4 + len key + len val) /\
    getPtr new' idx = Some ptr /\
    getKey new' idx = Some key /\
    getVal new' idx = Some val /\
    filled new' bt n (es ++ [mkEntry ptr key val]).
Proof.
  intros idx pos Hf Hidx Hptr Hfit Hu.
  set (e := mkEntry ptr key val).
  pose proof (len_nonneg key). pose proof (len_nonneg val).
  pose proof (offs_nonneg es). pose proof (filled_n_range Hf).
  assert (Hoke : entry_ok e) by (unfold entry_ok; simpl; lia).
  destruct (nodeAppendKV_filled new bt n es e) as (new' & Happ & Hf' & Hl');
    try done; try (unfold kvsize; simpl; lia).
  assert (He : (es ++ [e]) !! length es = Some e).
  { rewrite lookup_app_r by lia. by rewrite Nat.sub_diag. }
  exists new'. split; [exact Happ|].
  split. { unfold idx. rewrite (filled_kvPos Hf) by lia. by rewrite take_ge by lia. }
  split. { unfold idx. rewrite (filled_getOffset Hf) by lia. by rewrite take_ge by lia. }
  destruct (stored_lookup _ _ _ _ _ _ _ (filled_es _ _ _ _ Hf') He) as (Hp & _ & Hkv).
  rewrite take_app_length in Hkv.
  split. { simpl in Hp. rewrite <- Hp. unfold idx. f_equal. }
  split. { unfold pos. exact Hkv. }
  split.
  { replace (idx + 1) with (Z.of_nat (S (length es))) by lia.
    rewrite (filled_getOffset Hf') by (rewrite length_app; simpl; lia).
    rewrite (offs_take_S _ _ _ He), take_app_length. f_equal.
    unfold kvsize. simpl. lia. }
  split. { exact (filled_getPtr Hf' _ _ He). }
  split. { exact (filled_getKey Hf' _ _ He). }
  split. { exact (filled_getVal Hf' _ _ He). }
  exact Hf'.
Qed.

(** [filled] of a concrete buffer, by evaluation. *)
Ltac closed_fact :=
  vm_compute; repeat split;
  solve [reflexivity | discriminate | intro; discriminate].

Ltac filled_by_evaluation :=
  repeat match goal with x := _ |- _ => subst x end;
  split;
  [ closed_fact | closed_fact | closed_fact | closed_fact | closed_fact
  | repeat (apply List.Forall_cons; [closed_fact|]); apply List.Forall_nil
  | closed_fact ].

Lemma nodeAppendKV_spec_witness :
  let new := partial_leaf in
  let es := [mkEntry 0 [] []] in
  let idx := Z.of_nat (length es) in
  let pos := 4 + 10 * 2 + offs es in
  filled new BNODE_LEAF 2 es /\
  idx < 2 /\
  0 <= 0 < 2 ^ 64 /\
  pos + 4 + len key_a + len key_b <= len new /\
  pos + 4 + len key_a + len key_b < 65536 /\
  exists new',
    nodeAppendKV new idx 0 key_a key_b = Some new' /\
    kvPos new idx = Some pos /\
    getOffset new idx = Some (offs es) /\
    rd (4 + 8 * idx) 8 new' = le_split 8 0 /\
    rd pos (4 + len key_a + len key_b) new'
      = le_split 2 (len key_a) ++ le_split 2 (len key_b) ++ key_a ++ key_b /\
    getOffset new' (idx + 1) = Some (offs es + 4 + len key_a + len key_b) /\
    getPtr new' idx = Some 0 /\
    getKey new' idx = Some key_a /\
    getVal new' idx = Some key_b /\
    filled new' BNODE_LEAF 2 (es ++ [mkEntry 0 key_a key_b]).
Proof.
  intros new es idx pos.
  assert (H1 : filled new BNODE_LEAF 2 es) by filled_by_evaluation.
  assert (H2 : idx < 2) by closed_fact.
  assert (H3 : 0 <= 0 < 2 ^ 64) by closed_fact.
  assert (H4 : pos + 4 + len key_a + len key_b <= len new) by closed_fact.
  assert (H5 : pos + 4 + len key_a + len key_b < 65536) by closed_fact.
  repeat (split; [assumption|]).
  exact (nodeAppendKV_spec new BNODE_LEAF 2 es 0 key_a key_b H1 H2 H3 H4 H5).
Defined.

(** ** A node that holds entries, read back *)

Lemma holds_nbytes (b : BNode) (bt : Z) (es : list entry) :
  holds b bt es -> nbytes b = Some (node_size es).
Proof.
  intros Hf. unfold nbytes. rewrite (filled_nkeys Hf). simpl mbind.
  rewrite (filled_kvPos Hf) by lia. by rewrite take_ge by lia.
Qed.

Lemma holds_entries (b : BNode) (bt : Z) (es : list entry) :
  holds b bt es -> entries b = Some es.
Proof.
  intros Hf. unfold entries. rewrite (filled_nkeys Hf). simpl mbind.
  apply mapM_Some. apply Forall2_same_length_lookup. split.
  { rewrite length_seqZ. lia. }
  intros i x e Hx He. apply lookup_seqZ in Hx as [-> _].
  rewrite Z.add_0_l. by apply (filled_getEntry Hf).
Qed.

Lemma holds_node_keys (b : BNode) (bt : Z) (es : list entry) :
  holds b bt es -> node_keys b (e_key <$> es).
Proof.
  intros Hf. pose proof (filled_n_range Hf).
  split; [|split].
  - rewrite length_fmap. apply (filled_nkeys Hf).
  - rewrite length_fmap. lia.
  - intros i k Hk. rewrite list_lookup_fmap in Hk.
    destruct (es !! i) as [e|] eqn:He; [|done]. injection Hk as <-.
    by apply (filled_getKey Hf).
Qed.

(** ** Insert (C5, C9) *)

Section TreeProperties.

Context {Host : Type}.
Variable host_get : Host -> Z -> option BNode.
Variable host_new : Host -> BNode -> Z * Host.
Variable host_del : Host -> Z -> Host.

Local Abbreviation Insert_ := (Insert host_get host_new host_del).
Local Abbreviation treeInsert_ := (treeInsert host_get host_new host_del).

Lemma bind_Done {A B} (m : M A) (f : A -> M B) (t t' : @BTree Host) (b : B) :
  bind m f t = Done (b, t') ->
  exists a t1, m t = Done (a, t1) /\ f a t1 = Done (b, t').
Proof.
  unfold bind. destruct (m t) as [[a t1]| |]; [|done|done]. eauto.
Qed.

(** C5.  An insert whose key is longer than 1000 bytes or whose value is
    longer than 3000 bytes returns one of the two errors and leaves the
    tree as it was: the same root, the same host state, no callback
    invoked (the trace is the same).  It is the only way [Insert] returns
    an error: within the limits it never does. *)
Theorem Insert_oversize (fuel : nat) (key val : list byte) (t : BTree) :
  (len key > BTREE_MAX_KEY_SIZE \/ len val > BTREE_MAX_VAL_SIZE ->
   exists e, (e = OVERSIZE_KEY \/ e = OVERSIZE_VAL) /\
             Insert_ fuel key val t = Done (Some e, t)) /\
  (len key <= BTREE_MAX_KEY_SIZE /\ len val <= BTREE_MAX_VAL_SIZE ->
   forall e t', Insert_ fuel key val t <> Done (Some e, t')).
Proof.
  unfold Insert, checkLimit. split.
  - intros Hover.
    destruct (Z.gtb_spec (len key) BTREE_MAX_KEY_SIZE).
    { exists OVERSIZE_KEY. split; [by left|done]. }
    destruct (Z.gtb_spec (len val) BTREE_MAX_VAL_SIZE); [|lia].
    exists OVERSIZE_VAL. split; [by right|done].
  - intros [Hk Hv] e t' H.
    destruct (Z.gtb_spec (len key) BTREE_MAX_KEY_SIZE); [lia|].
    destruct (Z.gtb_spec (len val) BTREE_MAX_VAL_SIZE); [lia|].
    apply bind_Done in H as (r & t1 & _ & H).
    destruct (r =? 0).
    + do 5 (apply bind_Done in H as (? & ? & _ & H)). discriminate H.
    + do 3 (apply bind_Done in H as (? & ? & _ & H)).
      match type of H with context [let '(_, _) := ?x in _] => destruct x end.
      do 2 (apply bind_Done in H as (? & ? & _ & H)).
      match type of H with context [if ?c then _ else _] => destruct c end.
      * do 4 (apply bind_Done in H as (? & ? & _ & H)). discriminate H.
      * do 3 (apply bind_Done in H as (? & ? & _ & H)). discriminate H.
Qed.

(** C9.  On an empty tree ([root = 0]) an insert within the limits builds
    one page-sized LEAF with exactly two entries, the sentinel
    [(0, empty, empty)] and [(0, key, val)], calls the host's [new] on it
    once and no other callback, and installs the page number returned as the
    root. *)
Theorem Insert_empty (fuel : nat) (key val : list byte) (t : BTree) :
  root t = 0 ->
  len key <= BTREE_MAX_KEY_SIZE ->
  len val <= BTREE_MAX_VAL_SIZE ->
  exists page,
    Insert_ fuel key val t
      = Done (None, mkBTree (host_new (host t) page).1
                            (host_new (host t) page).2
                            (trace t ++ [EvNew page (host_new (host t) page).1])) /\
    len page = BTREE_PAGE_SIZE /\
    btype page = Some BNODE_LEAF /\
    nkeys page = Some 2 /\
    entries page = Some [mkEntry 0 [] []; mkEntry 0 key val] /\
    holds page BNODE_LEAF [mkEntry 0 [] []; mkEntry 0 key val].
Proof.
  intros Hroot Hk Hv.
  pose proof (len_nonneg key). pose proof (len_nonneg val).
  unfold BTREE_MAX_KEY_SIZE, BTREE_MAX_VAL_SIZE in *.
  assert (Hlm : len (make BTREE_PAGE_SIZE) = 4096) by (by rewrite len_make).
  destruct (setHeader_filled (make BTREE_PAGE_SIZE) BNODE_LEAF 2)
    as (b0 & Hb0 & Hf0 & Hl0); try (unfold BNODE_LEAF; lia).
  destruct (nodeAppendKV_filled b0 BNODE_LEAF 2 [] (mkEntry 0 [] []))
    as (b1 & Hb1 & Hf1 & Hl1); try done;
    try (rewrite ?Hl0, ?Hlm; unfold entry_ok; cbn [offs length]; unfold kvsize;
         cbn [e_ptr e_key e_val]; rewrite ?len_nil; lia).
  destruct (nodeAppendKV_filled b1 BNODE_LEAF 2 [mkEntry 0 [] []] (mkEntry 0 key val))
    as (b2 & Hb2 & Hf2 & Hl2); try done;
    try (rewrite ?Hl1, ?Hl0, ?Hlm; unfold entry_ok; cbn [offs length]; unfold kvsize;
         cbn [e_ptr e_key e_val]; rewrite ?len_nil; lia).
  cbn [length app e_ptr e_key e_val] in Hb1, Hb2, Hf2.
  change (Z.of_nat 0) with 0 in Hb1. change (Z.of_nat 1) with 1 in Hb2.
  exists b2. split; [|split; [change BTREE_PAGE_SIZE with 4096 at 1; lia|split; [|split; [|split]]]].
  - unfold Insert, checkLimit.
    destruct (Z.gtb_spec (len key) BTREE_MAX_KEY_SIZE) as [Hgt|_];
      [unfold BTREE_MAX_KEY_SIZE in Hgt; lia|].
    destruct (Z.gtb_spec (len val) BTREE_MAX_VAL_SIZE) as [Hgt|_];
      [unfold BTREE_MAX_VAL_SIZE in Hgt; lia|].
    unfold bind, get_root. rewrite Hroot. simpl (0 =? 0).
    cbv iota. rewrite Hb0. unfold lift at 1. cbv iota beta.
    rewrite Hb1. unfold lift at 1. cbv iota beta.
    rewrite Hb2. unfold lift at 1. cbv iota beta.
    unfold tree_new, set_root, ret. simpl.
    by destruct (host_new (host t) b2).
  - apply (filled_btype Hf2).
  - apply (filled_nkeys Hf2).
  - by apply (holds_entries _ BNODE_LEAF).
  - done.
Qed.

End TreeProperties.

(** ** The merge policy (C6) *)

Lemma nbytes_range (node : BNode) (v : Z) : nbytes node = Some v -> 0 <= v < 65536.
Proof.
  unfold nbytes, kvPos. destruct (nkeys node) as [n|]; [|done]. simpl mbind.
  destruct (assert (n <=? n)); [|done]. simpl mbind.
  destruct (getOffset node n); [|done]. simpl mbind.
  intros [= <-]. apply u16_range.
Qed.

Section MergePolicy.

Context {Host : Type}.
Variable host_get : Host -> Z -> option BNode.

(** C6.  [shouldMerge] on child [idx] of an inner node with [n] entries,
    whose siblings, where they exist ([idx > 0] for the left one,
    [idx + 1 < n] for the right one), can be read from the host: the result
    is the policy of section 4.3.4, no merge above a quarter page, else the
    left sibling if [sibling.nbytes + updated.nbytes - HEADER <= PAGE_SIZE],
    else the right sibling by the same test, else no merge; the host is
    only read, the left sibling first and the right one only when the left
    one is absent or does not fit. *)
Theorem shouldMerge_policy (node : BNode) (idx : Z) (updated : BNode)
    (t : BTree) (n ub : Z) (left right : option sibling_view) :
  nkeys node = Some n ->
  0 <= idx < n ->
  nbytes updated = Some ub ->
  sibling host_get (host t) node (idx >? 0) (idx - 1) left ->
  sibling host_get (host t) node (idx + 1 <? n) (idx + 1) right ->
  shouldMerge host_get node idx updated t
  = Done (merge_policy ub left right,
          mkBTree (root t) (host t) (trace t ++ merge_gets ub left right)).
Proof.
  intros Hn Hidx Hub Hl Hr.
  pose proof (nkeys_range _ _ Hn). pose proof (nbytes_range _ _ Hub).
  unfold shouldMerge, merge_policy, merge_gets, bind, lift, ret, tree_get.
  rewrite Hub. cbv iota beta.
  destruct (Z.gtb_spec ub (BTREE_PAGE_SIZE / 4)) as [Hbig|Hsmall].
  { rewrite app_nil_r. by destruct t. }
  change (BTREE_PAGE_SIZE / 4) with 1024 in Hsmall.
  replace (add16 idx 1) with (idx + 1) by (u16; zlia).
  assert (Hm : forall sb, HEADER <= sb <= 2 * BTREE_PAGE_SIZE ->
            sub16 (add16 sb ub) HEADER = sb + ub - HEADER).
  { intros sb Hsb. unfold HEADER, BTREE_PAGE_SIZE in *. u16. zlia. }
  rewrite Hn. cbv iota beta.
  inversion Hl as [i Hcl|i p sib sb Hp Hg Hsb Hsz Hcl];
    inversion Hr as [j Hcr|j q sibr sbr Hq Hgr Hsbr Hszr Hcr]; subst;
    cbv iota beta; simpl merge_fits; simpl sibling_get.
  - rewrite app_nil_r. by destruct t.
  - rewrite Hq. cbv iota beta.
    simpl host. rewrite Hgr. rewrite Hsbr. cbv iota beta.
    rewrite Hm by done.
    by destruct (sbr + ub - HEADER <=? BTREE_PAGE_SIZE).
  - replace (sub16 idx 1) with (idx - 1) by (u16; zlia).
    rewrite Hp. cbv iota beta. rewrite Hg. rewrite Hsb. cbv iota beta.
    rewrite Hm by done.
    by destruct (sb + ub - HEADER <=? BTREE_PAGE_SIZE).
  - replace (sub16 idx 1) with (idx - 1) by (u16; zlia).
    rewrite Hp. cbv iota beta. rewrite Hg. rewrite Hsb. cbv iota beta.
    rewrite Hm by done.
    destruct (sb + ub - HEADER <=? BTREE_PAGE_SIZE); [done|].
    rewrite Hq. cbv iota beta.
    simpl host. rewrite Hgr. rewrite Hsbr. cbv iota beta.
    rewrite Hm by done.
    destruct (sbr + ub - HEADER <=? BTREE_PAGE_SIZE); simpl;
      by rewrite <- app_assoc.
Qed.

End MergePolicy.

Lemma Insert_empty_witness :
  root empty_tree = 0 /\
  len key_a <= BTREE_MAX_KEY_SIZE /\
  len key_b <= BTREE_MAX_VAL_SIZE /\
  exists page,
    Insert list_get list_new list_del 0 key_a key_b empty_tree
      = Done (None, mkBTree (list_new (host empty_tree) page).1
                            (list_new (host empty_tree) page).2
                            (trace empty_tree
                             ++ [EvNew page (list_new (host empty_tree) page).1])) /\
    len page = BTREE_PAGE_SIZE /\
    btype page = Some BNODE_LEAF /\
    nkeys page = Some 2 /\
    entries page = Some [mkEntry 0 [] []; mkEntry 0 key_a key_b] /\
    holds page BNODE_LEAF [mkEntry 0 [] []; mkEntry 0 key_a key_b].
Proof.
  assert (H1 : root empty_tree = 0) by reflexivity.
  assert (H2 : len key_a <= BTREE_MAX_KEY_SIZE) by closed_fact.
  assert (H3 : len key_b <= BTREE_MAX_VAL_SIZE) by closed_fact.
  repeat (split; [assumption|]).
  exact (Insert_empty list_get list_new list_del 0 key_a key_b empty_tree H1 H2 H3).
Defined.

Lemma shouldMerge_policy_witness :
  let left := Some (1, sample_leaf, 51) in
  nkeys sample_inner = Some 2 /\
  0 <= 1 < 2 /\
  nbytes sample_leaf = Some 51 /\
  sibling list_get (host sample_tree) sample_inner (1 >? 0) (1 - 1) left /\
  sibling list_get (host sample_tree) sample_inner (1 + 1 <? 2) (1 + 1) None /\
  shouldMerge list_get sample_inner 1 sample_leaf sample_tree
  = Done (merge_policy 51 left None,
          mkBTree (root sample_tree) (host sample_tree)
                  (trace sample_tree ++ merge_gets 51 left None)).
Proof.
  intros left.
  assert (H1 : nkeys sample_inner = Some 2) by (vm_compute; reflexivity).
  assert (H2 : 0 <= 1 < 2) by lia.
  assert (H3 : nbytes sample_leaf = Some 51) by (vm_compute; reflexivity).
  assert (H4 : sibling list_get (host sample_tree) sample_inner (1 >? 0) (1 - 1) left).
  { apply (sibling_present list_get (host sample_tree) sample_inner 0 1 sample_leaf 51);
      closed_fact. }
  assert (H5 : sibling list_get (host sample_tree) sample_inner (1 + 1 <? 2) (1 + 1) None).
  { apply (sibling_absent list_get (host sample_tree) sample_inner 2). }
  repeat (split; [assumption|]).
  exact (shouldMerge_policy list_get sample_inner 1 sample_leaf sample_tree 2 51
           left None H1 H2 H3 H4 H5).
Defined.

Example shouldMerge_sample :
  shouldMerge list_get sample_inner 1 sample_leaf sample_tree
  = Done ((-1, sample_leaf), mkBTree 3 (host sample_tree) [EvGet 1]).
Proof. vm_compute. reflexivity. Qed.

(** ** Rebuilding a leaf (C4) *)

Lemma leafUpdate_holds (new old : BNode) (es : list entry) (idx : nat)
    (key val : list byte) :
  let e := mkEntry 0 key val in
  let es' := take idx es ++ e :: drop (S idx) es in
  holds old BNODE_LEAF es ->
  (idx < length es)%nat ->
  node_size es' <= len new ->
  node_size es' < 65536 ->
  exists new',
    leafUpdate new old (Z.of_nat idx) key val = Some new' /\
    holds new' BNODE_LEAF es' /\ len new' = len new.
Proof.
  intros e es' Hold Hidx Hfit Hu.
  pose proof (len_nonneg key). pose proof (len_nonneg val).
  pose proof (filled_n_range Hold) as Hnr.
  assert (Hlen' : length es' = length es).
  { unfold es'. rewrite length_app, length_take. cbn [length].
    rewrite length_drop. lia. }
  assert (Hoffs : offs es' = offs (take idx es) + kvsize e + offs (drop (S idx) es)).
  { unfold es'. rewrite offs_app. cbn [offs]. lia. }
  unfold node_size in Hfit, Hu. rewrite Hlen', Hoffs in Hfit, Hu.
  pose proof (offs_nonneg (take idx es)). pose proof (offs_nonneg (drop (S idx) es)).
  pose proof (kvsize_pos e).
  assert (Hoke : entry_ok e).
  { unfold entry_ok, kvsize in *. cbn [e e_ptr e_key e_val] in *. lia. }
  unfold leafUpdate. rewrite (filled_nkeys Hold). simpl mbind.
  destruct (setHeader_filled new BNODE_LEAF (Z.of_nat (length es)))
    as (b0 & Hb0 & Hf0 & Hl0); try (unfold BNODE_LEAF; lia).
  rewrite Hb0. simpl mbind.
  destruct (nodeAppendRange_filled old BNODE_LEAF es b0 BNODE_LEAF
              (Z.of_nat (length es)) [] 0 idx)
    as (b1 & Hb1 & Hf1 & Hl1); [done|done|lia|cbn [length]; lia|..];
    try (cbn [offs]; rewrite drop_0; lia).
  change (Z.of_nat (length [])) with 0 in Hb1. change (Z.of_nat 0) with 0 in Hb1.
  rewrite Hb1. simpl mbind. cbn [app] in Hf1. rewrite drop_0 in Hf1.
  assert (Hlt : length (take idx es) = idx) by (rewrite length_take; lia).
  destruct (nodeAppendKV_filled b1 BNODE_LEAF (Z.of_nat (length es)) (take idx es) e)
    as (b2 & Hb2 & Hf2 & Hl2); [done|lia|done|lia|lia|].
  rewrite Hlt in Hb2. cbn [e e_ptr e_key e_val] in Hb2.
  rewrite Hb2. simpl mbind.
  replace (add16 (Z.of_nat idx) 1) with (Z.of_nat (S idx)) by (u16; zlia).
  replace (sub16 (Z.of_nat (length es)) (Z.of_nat (S idx)))
    with (Z.of_nat (length es - S idx)) by (u16; zlia).
  assert (Hl2' : length (take idx es ++ [e]) = S idx).
  { rewrite length_app, Hlt. simpl. lia. }
  assert (Htd : take (length es - S idx) (drop (S idx) es) = drop (S idx) es).
  { apply take_ge. rewrite length_drop. lia. }
  destruct (nodeAppendRange_filled old BNODE_LEAF es b2 BNODE_LEAF
              (Z.of_nat (length es)) (take idx es ++ [e]) (S idx) (length es - S idx))
    as (b3 & Hb3 & Hf3 & Hl3); [done|done|lia|lia|..];
    try (rewrite Htd, offs_app; cbn [offs]; lia).
  rewrite Hl2' in Hb3. rewrite Hb3.
  exists b3. split; [done|]. split; [|lia].
  rewrite Htd, <- app_assoc in Hf3. cbn [app] in Hf3.
  unfold holds. by rewrite Hlen'.
Qed.

Lemma leafInsert_holds (new old : BNode) (es : list entry) (idx : nat)
    (key val : list byte) :
  let e := mkEntry 0 key val in
  let es' := take idx es ++ e :: drop idx es in
  holds old BNODE_LEAF es ->
  (idx <= length es)%nat ->
  node_size es' <= len new ->
  node_size es' < 65536 ->
  exists new',
    leafInsert new old (Z.of_nat idx) key val = Some new' /\
    holds new' BNODE_LEAF es' /\ len new' = len new.
Proof.
  intros e es' Hold Hidx Hfit Hu.
  pose proof (len_nonneg key). pose proof (len_nonneg val).
  pose proof (filled_n_range Hold) as Hnr.
  assert (Hlen' : length es' = S (length es)).
  { unfold es'. rewrite length_app, length_take. cbn [length].
    rewrite length_drop. lia. }
  assert (Hoffs : offs es' = offs (take idx es) + kvsize e + offs (drop idx es)).
  { unfold es'. rewrite offs_app. cbn [offs]. lia. }
  unfold node_size in Hfit, Hu. rewrite Hlen', Hoffs in Hfit, Hu.
  pose proof (offs_nonneg (take idx es)). pose proof (offs_nonneg (drop idx es)).
  pose proof (kvsize_pos e).
  assert (Hoke : entry_ok e).
  { unfold entry_ok, kvsize in *. cbn [e e_ptr e_key e_val] in *. lia. }
  unfold leafInsert, nodeAppend. rewrite (filled_nkeys Hold). simpl mbind.
  replace (add16 (Z.of_nat (length es)) 1) with (Z.of_nat (S (length es)))
    by (u16; zlia).
  destruct (setHeader_filled new BNODE_LEAF (Z.of_nat (S (length es))))
    as (b0 & Hb0 & Hf0 & Hl0); try (unfold BNODE_LEAF; lia).
  rewrite Hb0. simpl mbind.
  destruct (nodeAppendRange_filled old BNODE_LEAF es b0 BNODE_LEAF
              (Z.of_nat (S (length es))) [] 0 idx)
    as (b1 & Hb1 & Hf1 & Hl1); [done|done|lia|cbn [length]; lia|..];
    try (cbn [offs]; rewrite drop_0; lia).
  change (Z.of_nat (length [])) with 0 in Hb1. change (Z.of_nat 0) with 0 in Hb1.
  rewrite Hb1. simpl mbind. cbn [app] in Hf1. rewrite drop_0 in Hf1.
  assert (Hlt : length (take idx es) = idx) by (rewrite length_take; lia).
  destruct (nodeAppendKV_filled b1 BNODE_LEAF (Z.of_nat (S (length es))) (take idx es) e)
    as (b2 & Hb2 & Hf2 & Hl2); [done|lia|done|lia|lia|].
  rewrite Hlt in Hb2. cbn [e e_ptr e_key e_val] in Hb2.
  rewrite Hb2. simpl mbind.
  replace (add16 (Z.of_nat idx) 1) with (Z.of_nat (S idx)) by (u16; zlia).
  replace (sub16 (Z.of_nat (length es)) (Z.of_nat idx))
    with (Z.of_nat (length es - idx)) by (u16; zlia).
  assert (Hl2' : length (take idx es ++ [e]) = S idx).
  { rewrite length_app, Hlt. simpl. lia. }
  assert (Htd : take (length es - idx) (drop idx es) = drop idx es).
  { apply take_ge. rewrite length_drop. lia. }
  destruct (nodeAppendRange_filled old BNODE_LEAF es b2 BNODE_LEAF
              (Z.of_nat (S (length es))) (take idx es ++ [e]) idx (length es - idx))
    as (b3 & Hb3 & Hf3 & Hl3); [done|done|lia|lia|..];
    try (rewrite Htd, offs_app; cbn [offs]; lia).
  rewrite Hl2' in Hb3. rewrite Hb3.
  exists b3. split; [done|]. split; [|lia].
  rewrite Htd, <- app_assoc in Hf3. cbn [app] in Hf3.
  unfold holds. by rewrite Hlen'.
Qed.

Lemma nodeLookupLE_loop_in_range (node : BNode) (keys : list (list byte))
    (key : list byte) (fuel i : nat) :
  node_keys node keys ->
  (i + fuel = length keys)%nat -> (1 <= i)%nat ->
  exists r : nat,
    nodeLookupLE_loop fuel node key (Z.of_nat i) = Some (Z.of_nat r) /\
    (r < length keys)%nat.
Proof.
  intros (Hn & Hlen & Hget). revert i.
  induction fuel as [|fuel IH]; intros i Hi H1; cbn [nodeLookupLE_loop].
  - exists (i - 1)%nat. split; [|lia]. f_equal. u16. zlia.
  - destruct (keys !! i) as [ki|] eqn:E; [|apply lookup_ge_None in E; lia].
    rewrite (Hget _ _ E). simpl mbind.
    destruct (Compare ki key).
    + exists i. split; [done|lia].
    + replace (add16 (Z.of_nat i) 1) with (Z.of_nat (S i)) by (u16; zlia).
      apply IH; lia.
    + exists (i - 1)%nat. split; [|lia]. f_equal. u16. zlia.
Qed.

Lemma nodeLookupLE_in_range (node : BNode) (keys : list (list byte))
    (key k0 : list byte) :
  node_keys node keys ->
  keys !! 0%nat = Some k0 ->
  Compare k0 key <> Gt ->
  exists r : nat,
    nodeLookupLE node key = Some (Z.of_nat r) /\ (r < length keys)%nat.
Proof.
  intros Hkeys Hk0 Hle. pose proof Hkeys as (Hn & Hlen & Hget).
  unfold nodeLookupLE. rewrite Hn. simpl mbind. rewrite Nat2Z.id.
  destruct (length keys) as [|fuel] eqn:El.
  { apply lookup_lt_Some in Hk0. lia. }
  pose proof (Hget 0%nat _ Hk0) as Hg0. change (Z.of_nat 0) with 0 in Hg0.
  cbn [nodeLookupLE_loop]. rewrite Hg0. simpl mbind.
  destruct (Compare k0 key) eqn:Hc; [| |done].
  - exists 0%nat. split; [done|lia].
  - replace (add16 0 1) with (Z.of_nat 1) by done. rewrite <- El.
    apply (nodeLookupLE_loop_in_range node keys key fuel 1 Hkeys); lia.
Qed.

Section LeafInsert.

Context {Host : Type}.
Variable host_get : Host -> Z -> option BNode.
Variable host_new : Host -> BNode -> Z * Host.
Variable host_del : Host -> Z -> Host.

(** C4.  [treeInsert] on a committed leaf (its entries [es] fill at most a
    page, its entry-0 key is at most [key]) with a key and a value within
    the limits: [nodeLookupLE] finds an index [idx] of the leaf; if [key]
    equals the key there, the result is that of [leafUpdate], a leaf with
    the same number of entries, [(0, key, val)] at [idx] and every other
    entry as before; otherwise it is that of [leafInsert] at [idx + 1], a
    leaf with one entry more: the entries up to [idx], then
    [(0, key, val)], then the entries after [idx].  The host is not
    touched. *)
Theorem treeInsert_leaf (fuel : nat) (node : BNode) (es : list entry)
    (e0 : entry) (key val : list byte) (t : @BTree Host) :
  holds node BNODE_LEAF es ->
  node_size es <= BTREE_PAGE_SIZE ->
  es !! 0%nat = Some e0 ->
  Compare (e_key e0) key <> Gt ->
  len key <= BTREE_MAX_KEY_SIZE ->
  len val <= BTREE_MAX_VAL_SIZE ->
  exists (idx : nat) (e : entry) (new : BNode),
    nodeLookupLE node key = Some (Z.of_nat idx) /\
    es !! idx = Some e /\
    treeInsert host_get host_new host_del (S fuel) node key val t = Done (new, t) /\
    len new = 2 * BTREE_PAGE_SIZE /\
    if Equal key (e_key e) then
      leafUpdate (make (2 * BTREE_PAGE_SIZE)) node (Z.of_nat idx) key val
        = Some new /\
      holds new BNODE_LEAF (<[idx := mkEntry 0 key val]> es)
    else
      leafInsert (make (2 * BTREE_PAGE_SIZE)) node (Z.of_nat idx + 1) key val
        = Some new /\
      holds new BNODE_LEAF
        (take (S idx) es ++ mkEntry 0 key val :: drop (S idx) es).
Proof.
  intros Hold Hsize He0 Hle Hk Hv.
  pose proof (len_nonneg key). pose proof (len_nonneg val).
  unfold BTREE_MAX_KEY_SIZE, BTREE_MAX_VAL_SIZE in *.
  assert (Hlm : len (make (2 * BTREE_PAGE_SIZE)) = 2 * BTREE_PAGE_SIZE)
    by (apply len_make; unfold BTREE_PAGE_SIZE; lia).
  destruct (nodeLookupLE_in_range node (e_key <$> es) key (e_key e0))
    as (idx & Hidx & Hlt); [by apply (holds_node_keys _ BNODE_LEAF)| |done|].
  { by rewrite list_lookup_fmap, He0. }
  rewrite length_fmap in Hlt.
  destruct (es !! idx) as [e|] eqn:He; [|apply lookup_ge_None in He; lia].
  pose proof (filled_n_range Hold) as Hnr.
  pose proof (offs_take_drop idx es) as Htd.
  pose proof (offs_take_drop (S idx) es) as Htd'.
  pose proof (offs_take_S _ _ _ He) as HtS.
  pose proof (kvsize_pos e).
  pose proof (offs_nonneg (take idx es)). pose proof (offs_nonneg (drop (S idx) es)).
  unfold node_size in Hsize.
  exists idx, e.
  assert (Hrun : forall new,
    (if Equal key (e_key e)
     then leafUpdate (make (2 * BTREE_PAGE_SIZE)) node (Z.of_nat idx) key val
     else leafInsert (make (2 * BTREE_PAGE_SIZE)) node (Z.of_nat idx + 1) key val)
    = Some new ->
    treeInsert host_get host_new host_del (S fuel) node key val t = Done (new, t)).
  { intros new Hnew. cbn [treeInsert]. unfold bind, lift.
    rewrite Hidx. rewrite (filled_btype Hold). rewrite Z.eqb_refl.
    rewrite (filled_getKey Hold _ _ He).
    replace (add16 (Z.of_nat idx) 1) with (Z.of_nat idx + 1) by (u16; zlia).
    destruct (Equal key (e_key e)); by rewrite Hnew. }
  destruct (Equal key (e_key e)) eqn:Heq.
  - destruct (leafUpdate_holds (make (2 * BTREE_PAGE_SIZE)) node es idx key val)
      as (new & Hnew & Hh & Hl); [done|done|..].
    + unfold node_size. rewrite Hlm, length_app, length_take, offs_app.
      cbn [length offs]. rewrite length_drop. unfold kvsize at 1.
      cbn [e_key e_val]. unfold BTREE_PAGE_SIZE in *. lia.
    + unfold node_size. rewrite length_app, length_take, offs_app.
      cbn [length offs]. rewrite length_drop. unfold kvsize at 1.
      cbn [e_key e_val]. unfold BTREE_PAGE_SIZE in *. lia.
    + exists new. split; [done|]. split; [done|]. split; [by apply Hrun|].
      split; [lia|]. split; [done|].
      by rewrite insert_take_drop by lia.
  - replace (Z.of_nat idx + 1) with (Z.of_nat (S idx)) in * by lia.
    destruct (leafInsert_holds (make (2 * BTREE_PAGE_SIZE)) node es (S idx) key val)
      as (new & Hnew & Hh & Hl); [done|lia|..].
    + unfold node_size. rewrite Hlm, length_app, length_take, offs_app.
      cbn [length offs]. rewrite length_drop. unfold kvsize at 1.
      cbn [e_key e_val]. unfold BTREE_PAGE_SIZE in *. lia.
    + unfold node_size. rewrite length_app, length_take, offs_app.
      cbn [length offs]. rewrite length_drop. unfold kvsize at 1.
      cbn [e_key e_val]. unfold BTREE_PAGE_SIZE in *. lia.
    + exists new. split; [done|]. split; [done|]. split; [by apply Hrun|].
      split; [lia|]. split; done.
Qed.

End LeafInsert.

Lemma sample_leaf_holds : holds sample_leaf BNODE_LEAF sample_entries.
Proof. unfold holds. filled_by_evaluation. Qed.

Lemma treeInsert_leaf_witness :
  holds sample_leaf BNODE_LEAF sample_entries /\
  node_size sample_entries <= BTREE_PAGE_SIZE /\
  sample_entries !! 0%nat = Some (mkEntry 0 [] []) /\
  Compare (e_key (mkEntry 0 [] [])) key_b <> Gt /\
  len key_b <= BTREE_MAX_KEY_SIZE /\
  len key_a <= BTREE_MAX_VAL_SIZE /\
  exists (idx : nat) (e : entry) (new : BNode),
    nodeLookupLE sample_leaf key_b = Some (Z.of_nat idx) /\
    sample_entries !! idx = Some e /\
    treeInsert list_get list_new list_del 1 sample_leaf key_b key_a sample_tree
      = Done (new, sample_tree) /\
    len new = 2 * BTREE_PAGE_SIZE /\
    if Equal key_b (e_key e) then
      leafUpdate (make (2 * BTREE_PAGE_SIZE)) sample_leaf (Z.of_nat idx) key_b key_a
        = Some new /\
      holds new BNODE_LEAF (<[idx := mkEntry 0 key_b key_a]> sample_entries)
    else
      leafInsert (make (2 * BTREE_PAGE_SIZE)) sample_leaf (Z.of_nat idx + 1) key_b key_a
        = Some new /\
      holds new BNODE_LEAF
        (take (S idx) sample_entries
         ++ mkEntry 0 key_b key_a :: drop (S idx) sample_entries).
Proof.
  assert (H2 : node_size sample_entries <= BTREE_PAGE_SIZE) by closed_fact.
  assert (H3 : sample_entries !! 0%nat = Some (mkEntry 0 [] [])) by reflexivity.
  assert (H4 : Compare (e_key (mkEntry 0 [] [])) key_b <> Gt) by closed_fact.
  assert (H5 : len key_b <= BTREE_MAX_KEY_SIZE) by closed_fact.
  assert (H6 : len key_a <= BTREE_MAX_VAL_SIZE) by closed_fact.
  split; [exact sample_leaf_holds|]. repeat (split; [assumption|]).
  exact (treeInsert_leaf list_get list_new list_del 0 sample_leaf sample_entries
           (mkEntry 0 [] []) key_b key_a sample_tree
           sample_leaf_holds H2 H3 H4 H5 H6).
Defined.

(** Inserting "b" into [sample_leaf] puts it between "a" and "c";
    inserting "a" again replaces its value. *)
Example treeInsert_sample_insert :
  option_map (fun e => e_key <$> e)
    (match treeInsert list_get list_new list_del 1 sample_leaf key_b key_a sample_tree
     with Done (new, _) => entries new | _ => None end)
  = Some [[]; key_a; key_b; key_c].
Proof. vm_compute. reflexivity. Qed.

Example treeInsert_sample_update :
  match treeInsert list_get list_new list_del 1 sample_leaf key_a key_c sample_tree
  with Done (new, _) => entries new | _ => None end
  = Some [mkEntry 0 [] []; mkEntry 0 key_a key_c; mkEntry 0 key_c [Byte.x03]].
Proof. vm_compute. reflexivity. Qed.

(** ** The loop bounds of [nodeSplit2] are never reached *)

(** More fuel than [nleft] does not change [fit_left]: at [nleft = 0] the
    left half is the 4-byte header and the loop stops. *)
Lemma fit_left_fuel (old : BNode) (k extra : nat) :
  Z.of_nat k < 65536 ->
  fit_left (k + extra) old (Z.of_nat k) = fit_left k old (Z.of_nat k).
Proof.
  induction k as [|k IH]; intros Hk.
  - destruct extra; reflexivity.
  - cbn [Nat.add fit_left].
    destruct (left_bytes old (Z.of_nat (S k))) as [lb|]; [|done]. simpl mbind.
    destruct (lb >? BTREE_PAGE_SIZE); [|done].
    replace (sub16 (Z.of_nat (S k)) 1) with (Z.of_nat k) by (u16; zlia).
    apply IH. lia.
Qed.

Lemma right_bytes_all (old : BNode) (n rb : Z) :
  nkeys old = Some n -> right_bytes old n = Some rb -> rb = 4.
Proof.
  intros Hn. unfold right_bytes, nbytes, kvPos, left_bytes. rewrite Hn.
  simpl mbind. pose proof (nkeys_range _ _ Hn).
  destruct (assert (n <=? n)); [|done]. simpl mbind.
  destruct (getOffset old n) as [off|]; [|done]. simpl mbind.
  intros [= <-]. u16. zlia.
Qed.

(** More fuel than [nkeys - nleft] does not change [fit_right]: at
    [nleft = nkeys] the right half is the 4-byte header and the loop
    stops. *)
Lemma fit_right_fuel (old : BNode) (n : Z) (fuel extra : nat) (k : Z) :
  nkeys old = Some n ->
  0 <= k <= n -> n - k <= Z.of_nat fuel ->
  fit_right (fuel + extra) old k = fit_right fuel old k.
Proof.
  intros Hn. pose proof (nkeys_range _ _ Hn) as Hnr.
  assert (Hstop : forall f, fit_right f old n
                            = right_bytes old n ≫= fun _ => Some n).
  { intros f. destruct f; cbn [fit_right];
      destruct (right_bytes old n) as [rb|] eqn:E; try done; simpl mbind;
      by rewrite (right_bytes_all _ _ _ Hn E). }
  revert k. induction fuel as [|fuel IH]; intros k Hk Hfuel.
  - assert (k = n) as -> by lia. by rewrite !Hstop.
  - destruct (decide (k = n)) as [->|Hne]; [by rewrite !Hstop|].
    cbn [Nat.add fit_right].
    destruct (right_bytes old k) as [rb|]; [|done]. simpl mbind.
    destruct (rb >? BTREE_PAGE_SIZE); [|done].
    replace (add16 k 1) with (k + 1) by (u16; zlia).
    apply IH; lia.
Qed.

(** ** Splitting (C1, C2) *)

Section Split.

Context {old : BNode} {bt : Z} {es : list entry}.
Hypothesis Hold : holds old bt es.

Lemma holds_size_u16 : node_size es < 65536.
Proof. unfold node_size. apply (filled_u16 _ _ _ _ Hold). Qed.

Lemma node_size_take_le (k : nat) : node_size (take k es) <= node_size es.
Proof.
  rewrite <- (take_ge es (length es)) at 2 by lia.
  destruct (decide (k <= length es)%nat).
  - by apply node_size_take_mono.
  - rewrite take_ge by lia. rewrite take_ge by lia. lia.
Qed.

Lemma node_size_lower (l : list entry) : 4 <= node_size l.
Proof. unfold node_size. pose proof (offs_nonneg l). lia. Qed.

Lemma left_bytes_holds (k : nat) :
  (k <= length es)%nat ->
  left_bytes old (Z.of_nat k) = Some (node_size (take k es)).
Proof.
  intros Hk. unfold left_bytes. rewrite (filled_getOffset Hold) by done.
  simpl mbind. f_equal. unfold node_size. rewrite length_take.
  pose proof (node_size_take_le k). pose proof holds_size_u16.
  pose proof (offs_nonneg (take k es)).
  unfold node_size in *. rewrite length_take in *.
  replace (k `min` length es)%nat with k in * by lia.
  u16. zlia.
Qed.

Lemma right_bytes_holds (k : nat) :
  (k <= length es)%nat ->
  right_bytes old (Z.of_nat k) = Some (node_size (drop k es)).
Proof.
  intros Hk. unfold right_bytes. rewrite (holds_nbytes _ _ _ Hold).
  simpl mbind. rewrite left_bytes_holds by done. simpl mbind. f_equal.
  pose proof (node_size_take_drop k es Hk).
  pose proof (node_size_lower (take k es)). pose proof (node_size_lower (drop k es)).
  pose proof holds_size_u16.
  u16. zlia.
Qed.

Lemma fit_left_holds (k : nat) :
  (k <= length es)%nat ->
  fit_left k old (Z.of_nat k) = Some (Z.of_nat (split_left es k)).
Proof.
  induction k as [|k IH]; intros Hk.
  - cbn [fit_left split_left]. rewrite (left_bytes_holds 0) by lia.
    simpl mbind. rewrite ?take_0.
    change (node_size []) with 4. by change (4 >? BTREE_PAGE_SIZE) with false.
  - cbn [fit_left split_left]. rewrite left_bytes_holds by lia. simpl mbind.
    destruct (node_size (take (S k) es) >? BTREE_PAGE_SIZE); [|done].
    replace (sub16 (Z.of_nat (S k)) 1) with (Z.of_nat k)
      by (pose proof holds_size_u16; pose proof (filled_n_range Hold); u16; zlia).
    apply IH. lia.
Qed.

Lemma fit_right_holds (fuel k : nat) :
  (k <= length es)%nat -> (length es - k <= fuel)%nat ->
  fit_right fuel old (Z.of_nat k) = Some (Z.of_nat (split_right fuel es k)).
Proof.
  revert k. induction fuel as [|fuel IH]; intros k Hk Hfuel.
  - assert (k = length es) as -> by lia.
    cbn [fit_right split_right]. rewrite right_bytes_holds by lia. simpl mbind.
    rewrite drop_all. change (node_size []) with 4.
    by change (4 >? BTREE_PAGE_SIZE) with false.
  - cbn [fit_right split_right]. rewrite right_bytes_holds by lia. simpl mbind.
    destruct (Z.gtb_spec (node_size (drop k es)) BTREE_PAGE_SIZE) as [Hgt|Hle];
      [|done].
    assert (k < length es)%nat.
    { destruct (decide (k = length es)) as [->|]; [|lia].
      rewrite drop_all in Hgt. by change (node_size []) with 4 in Hgt. }
    replace (add16 (Z.of_nat k) 1) with (Z.of_nat (S k))
      by (pose proof (filled_n_range Hold); u16; zlia).
    apply IH; lia.
Qed.

End Split.

(** *** The split point *)

Lemma split_left_spec (es : list entry) (k : nat) :
  (split_left es k <= k)%nat /\
  node_size (take (split_left es k) es) <= BTREE_PAGE_SIZE /\
  ((split_left es k < k)%nat ->
   BTREE_PAGE_SIZE < node_size (take (S (split_left es k)) es)).
Proof.
  induction k as [|k (IH1 & IH2 & IH3)]; cbn [split_left].
  - rewrite take_0. change (node_size []) with 4.
    unfold BTREE_PAGE_SIZE. lia.
  - destruct (Z.gtb_spec (node_size (take (S k) es)) BTREE_PAGE_SIZE) as [Hgt|Hle].
    + split; [lia|]. split; [done|]. intros _.
      destruct (decide (split_left es k = k)) as [->|]; [done|]. apply IH3. lia.
    + split; [lia|]. split; [done|lia].
Qed.

Lemma split_right_spec (fuel : nat) (es : list entry) (k : nat) :
  (k <= length es)%nat -> (length es - k <= fuel)%nat ->
  (k <= split_right fuel es k <= length es)%nat /\
  node_size (drop (split_right fuel es k) es) <= BTREE_PAGE_SIZE /\
  ((k < split_right fuel es k)%nat ->
   BTREE_PAGE_SIZE < node_size (drop (split_right fuel es k - 1) es)).
Proof.
  revert k. induction fuel as [|fuel IH]; intros k Hk Hfuel; cbn [split_right].
  - assert (k = length es) as -> by lia. rewrite drop_all.
    change (node_size []) with 4. unfold BTREE_PAGE_SIZE. lia.
  - destruct (Z.gtb_spec (node_size (drop k es)) BTREE_PAGE_SIZE) as [Hgt|Hle].
    + assert (k < length es)%nat.
      { destruct (decide (k = length es)) as [->|]; [|lia].
        rewrite drop_all in Hgt. by change (node_size []) with 4 in Hgt. }
      destruct (IH (S k)) as (IH1 & IH2 & IH3); [lia|lia|].
      split; [lia|]. split; [done|]. intros _.
      destruct (decide (split_right fuel es (S k) = S k)) as [->|].
      * by replace (S k - 1)%nat with k by lia.
      * apply IH3. lia.
    + split; [lia|]. split; [done|lia].
Qed.

(** With at least two entries, each of which fits a page on its own, the
    split point is a proper one, the right half fits a page, and the left
    half fits too unless one entry more on the right would not. *)
Lemma split_point_spec (es : list entry) :
  (2 <= length es)%nat ->
  node_size (take 1 es) <= BTREE_PAGE_SIZE ->
  node_size (drop (length es - 1) es) <= BTREE_PAGE_SIZE ->
  (1 <= split_point es < length es)%nat /\
  node_size (drop (split_point es) es) <= BTREE_PAGE_SIZE /\
  (node_size (take (split_point es) es) <= BTREE_PAGE_SIZE \/
   BTREE_PAGE_SIZE < node_size (drop (split_point es - 1) es)).
Proof.
  intros Hn Hfirst Hlast. unfold split_point.
  set (h := (length es / 2)%nat).
  assert (1 <= h <= length es - 1)%nat as Hh.
  { unfold h. pose proof (Nat.div_mod_eq (length es) 2).
    pose proof (Nat.mod_upper_bound (length es) 2). lia. }
  destruct (split_left_spec es h) as (L1 & L2 & L3).
  set (k0 := split_left es h) in *.
  assert (1 <= k0)%nat.
  { destruct (decide (k0 = 0)%nat) as [E|]; [|lia].
    rewrite E in L3. specialize (L3 ltac:(lia)). lia. }
  destruct (split_right_spec (length es) es k0) as (R1 & R2 & R3); [lia|lia|].
  set (k1 := split_right (length es) es k0) in *.
  assert (k1 < length es)%nat.
  { destruct (decide (k1 = length es)) as [E|]; [|lia].
    rewrite E in R3. specialize (R3 ltac:(lia)). lia. }
  split; [lia|]. split; [done|].
  destruct (decide (k1 = k0)) as [->|]; [by left|].
  right. apply R3. lia.
Qed.

Lemma nodeSplit2_holds (old : BNode) (bt : Z) (es : list entry) (left right : BNode) :
  holds old bt es ->
  (2 <= length es)%nat ->
  node_size (take 1 es) <= BTREE_PAGE_SIZE ->
  node_size (drop (length es - 1) es) <= BTREE_PAGE_SIZE ->
  node_size (take (split_point es) es) <= len left ->
  node_size (drop (split_point es) es) <= len right ->
  exists l' r',
    nodeSplit2 left right old = Some (l', r') /\
    holds l' bt (take (split_point es) es) /\
    holds r' bt (drop (split_point es) es) /\
    len l' = len left /\ len r' = len right.
Proof.
  intros Hold Hn Hfirst Hlast Hfitl Hfitr.
  destruct (split_point_spec es Hn Hfirst Hlast) as (Hk & Hright & _).
  pose proof (filled_n_range Hold) as Hnr.
  pose proof (filled_bt _ _ _ _ Hold) as Hbt.
  pose proof (holds_size_u16 Hold) as Hu.
  pose proof (node_size_take_le (es:=es) (split_point es)) as Hle1.
  assert (node_size (drop (split_point es) es) <= node_size es) as Hle2.
  { pose proof (node_size_take_drop (split_point es) es ltac:(lia)).
    pose proof (node_size_lower (take (split_point es) es)). lia. }
  unfold split_point in *.
  set (h := (length es / 2)%nat) in *.
  assert (1 <= h <= length es - 1)%nat as Hh.
  { unfold h. pose proof (Nat.div_mod_eq (length es) 2).
    pose proof (Nat.mod_upper_bound (length es) 2). lia. }
  destruct (split_left_spec es h) as (L1 & _ & L3).
  set (k0 := split_left es h) in *.
  assert (1 <= k0)%nat.
  { destruct (decide (k0 = 0)%nat) as [E|]; [|lia].
    rewrite E in L3. specialize (L3 ltac:(lia)). lia. }
  set (k1 := split_right (length es) es k0) in *.
  unfold nodeSplit2. rewrite (filled_nkeys Hold). simpl mbind.
  ztrue. simpl mbind.
  replace (Z.of_nat (length es) / 2) with (Z.of_nat h)
    by (unfold h; by rewrite Nat2Z.inj_div).
  rewrite !Nat2Z.id. rewrite (fit_left_holds Hold) by lia. simpl mbind.
  fold k0. ztrue. simpl mbind.
  rewrite (fit_right_holds Hold) by lia. simpl mbind. fold k1.
  ztrue. simpl mbind.
  replace (sub16 (Z.of_nat (length es)) (Z.of_nat k1))
    with (Z.of_nat (length es - k1)) by (u16; zlia).
  rewrite (filled_btype Hold). simpl mbind.
  assert (Hlt : length (take k1 es) = k1) by (rewrite length_take; lia).
  assert (Hld : length (drop k1 es) = (length es - k1)%nat) by (by rewrite length_drop).
  pose proof (offs_nonneg (take k1 es)). pose proof (offs_nonneg (drop k1 es)).
  unfold node_size in Hfitl, Hfitr, Hle1, Hle2, Hu. rewrite Hlt in Hfitl, Hle1.
  rewrite Hld in Hfitr, Hle2.
  destruct (setHeader_filled left bt (Z.of_nat k1)) as (l0 & Hl0 & Hfl0 & Hll0);
    try lia.
  rewrite Hl0. simpl mbind.
  destruct (setHeader_filled right bt (Z.of_nat (length es - k1)))
    as (r0 & Hr0 & Hfr0 & Hlr0); try lia.
  rewrite Hr0. simpl mbind.
  destruct (nodeAppendRange_filled old bt es l0 bt (Z.of_nat k1) [] 0 k1)
    as (l' & Hl' & Hfl' & Hll'); try done; try (cbn [length offs]; rewrite ?drop_0; lia).
  change (Z.of_nat (length [])) with 0 in Hl'. change (Z.of_nat 0) with 0 in Hl'.
  rewrite Hl'. simpl mbind.
  destruct (nodeAppendRange_filled old bt es r0 bt (Z.of_nat (length es - k1)) []
              k1 (length es - k1))
    as (r' & Hr' & Hfr' & Hlr'); try done;
    try (cbn [length offs]; rewrite ?(take_ge (drop k1 es)) by lia; lia).
  change (Z.of_nat (length [])) with 0 in Hr'.
  rewrite Hr'. simpl mbind.
  cbn [app] in Hfl', Hfr'. rewrite drop_0 in Hfl'.
  rewrite (take_ge (drop k1 es)) in Hfr' by lia.
  assert (Hhl : holds l' bt (take k1 es)) by (unfold holds; by rewrite Hlt).
  assert (Hhr : holds r' bt (drop k1 es)) by (unfold holds; by rewrite Hld).
  rewrite (holds_nbytes _ _ _ Hhr). simpl mbind.
  ztrue. simpl mbind.
  exists l', r'. split_and!; try done; lia.
Qed.

(** *** Cutting a buffer after the node it holds *)

Lemma stored_take (b : BNode) (n i off : Z) (es : list entry) (m : Z) :
  0 <= i -> 0 <= off -> i + Z.of_nat (length es) <= n ->
  4 + 10 * n + off + offs es <= m ->
  stored b n i off es -> stored (take (Z.to_nat m) b) n i off es.
Proof.
  revert i off. induction es as [|e es IH]; intros i off Hi Hoff Hn Hm Hst; [done|].
  destruct Hst as (Hp & Ho & Hkv & Hst).
  pose proof (kvsize_pos e). pose proof (offs_nonneg es).
  cbn [length offs] in Hn, Hm.
  cbn [stored]. rewrite !rd_take by lia.
  split_and!; try done. apply IH; try done; lia.
Qed.

Lemma holds_take (b : BNode) (bt : Z) (es : list entry) (m : Z) :
  holds b bt es -> node_size es <= m <= len b ->
  holds (take (Z.to_nat m) b) bt es /\ len (take (Z.to_nat m) b) = m.
Proof.
  intros [Hbt Hn Hsize Hu16 Hhdr Hok Hes] Hm. unfold node_size in Hm.
  pose proof (offs_nonneg es).
  assert (len (take (Z.to_nat m) b) = m) as Hl.
  { unfold len in *. rewrite length_take. lia. }
  split; [|done]. split; try done.
  - lia.
  - rewrite rd_take by lia. done.
  - apply stored_take; try done; lia.
Qed.

(** *** [nodeSplit3] on a node that holds entries *)

Lemma entry_within_limits_fits (e : entry) : entry_within_limits e -> entry_fits e.
Proof.
  unfold entry_within_limits, entry_fits, node_size.
  cbn [offs length]. unfold kvsize.
  unfold BTREE_MAX_KEY_SIZE, BTREE_MAX_VAL_SIZE, BTREE_PAGE_SIZE.
  pose proof (len_nonneg (e_key e)). pose proof (len_nonneg (e_val e)). lia.
Qed.

Lemma oversized_two_entries (es : list entry) :
  Forall entry_fits es -> BTREE_PAGE_SIZE < node_size es ->
  (2 <= length es)%nat /\
  node_size (take 1 es) <= BTREE_PAGE_SIZE /\
  node_size (drop (length es - 1) es) <= BTREE_PAGE_SIZE.
Proof.
  intros Hfits Hbig.
  destruct es as [|e1 [|e2 es]].
  - change (node_size []) with 4 in Hbig. unfold BTREE_PAGE_SIZE in Hbig. lia.
  - apply Forall_cons in Hfits as [Hf _]. unfold entry_fits in Hf. lia.
  - split; [simpl; lia|]. split.
    + apply Forall_cons in Hfits as [Hf _]. exact Hf.
    + assert (is_Some ((e1 :: e2 :: es) !! (length (e1 :: e2 :: es) - 1)%nat))
        as [e He] by (apply lookup_lt_is_Some; simpl; lia).
      rewrite (drop_S _ _ _ He), drop_ge by lia.
      rewrite Forall_lookup in Hfits. apply (Hfits _ _ He).
Qed.

Lemma split_parts_concat (es : list entry) : concat (split_parts es) = es.
Proof.
  unfold split_parts.
  destruct (node_size es <=? BTREE_PAGE_SIZE); [simpl; by rewrite app_nil_r|].
  destruct (node_size (take (split_point es) es) <=? BTREE_PAGE_SIZE); simpl.
  - by rewrite app_nil_r, take_drop.
  - by rewrite app_nil_r, app_assoc, !take_drop.
Qed.

Lemma split_parts_length (es : list entry) :
  (1 <= length (split_parts es) <= 3)%nat.
Proof.
  unfold split_parts.
  destruct (node_size es <=? BTREE_PAGE_SIZE); [simpl; lia|].
  destruct (node_size (take (split_point es) es) <=? BTREE_PAGE_SIZE); simpl; lia.
Qed.

(** With entries that each fit a page and at most [2 * PAGE_SIZE - 3]
    bytes in all, every part fits a page. *)
Lemma split_parts_fit (es : list entry) :
  Forall entry_fits es ->
  node_size es <= 2 * BTREE_PAGE_SIZE - 3 ->
  Forall (fun l => node_size l <= BTREE_PAGE_SIZE) (split_parts es).
Proof.
  intros Hfits Hsize. unfold split_parts.
  destruct (Z.leb_spec (node_size es) BTREE_PAGE_SIZE) as [Hle|Hgt].
  { by repeat constructor. }
  destruct (oversized_two_entries es Hfits Hgt) as (Hn & Hfirst & Hlast).
  destruct (split_point_spec es Hn Hfirst Hlast) as (Hk & Hright & Hleft).
  set (k := split_point es) in *.
  destruct (Z.leb_spec (node_size (take k es)) BTREE_PAGE_SIZE) as [Hle1|Hgt1].
  { by repeat constructor. }
  destruct Hleft as [Hleft|Hleft]; [lia|].
  assert (Hfits' : Forall entry_fits (take k es)) by (by apply Forall_take).
  destruct (oversized_two_entries _ Hfits' Hgt1) as (Hn' & Hfirst' & Hlast').
  destruct (split_point_spec _ Hn' Hfirst' Hlast') as (Hk' & Hright' & _).
  set (k2 := split_point (take k es)) in *.
  rewrite length_take in Hk'.
  repeat constructor; try done.
  rewrite take_take. replace (k2 `min` k)%nat with k2 by lia.
  pose proof (node_size_take_mono k2 (k - 1) es ltac:(lia)).
  pose proof (node_size_take_drop (k - 1) es ltac:(lia)).
  unfold BTREE_PAGE_SIZE in *. lia.
Qed.

Lemma nodeSplit3_holds (old : BNode) (bt : Z) (es : list entry) :
  holds old bt es ->
  Forall entry_fits es ->
  BTREE_PAGE_SIZE <= len old ->
  node_size es <= 2 * BTREE_PAGE_SIZE ->
  Forall (fun l => node_size l <= BTREE_PAGE_SIZE) (split_parts es) ->
  exists parts,
    nodeSplit3 old = Some (Z.of_nat (length (split_parts es)), parts) /\
    length parts = 3%nat /\
    Forall2 (fun p l => holds p bt l /\ len p = BTREE_PAGE_SIZE)
      (take (length (split_parts es)) parts) (split_parts es).
Proof.
  intros Hold Hfits Hlen Hsize Hparts.
  unfold nodeSplit3. rewrite (holds_nbytes _ _ _ Hold). simpl mbind.
  unfold split_parts in *.
  destruct (Z.leb_spec (node_size es) BTREE_PAGE_SIZE) as [Hle|Hgt].
  { rewrite slice_to_Some by (unfold BTREE_PAGE_SIZE in *; lia). simpl mbind.
    eexists. split; [done|]. split; [done|]. simpl.
    constructor; [|constructor].
    apply holds_take; [done|lia]. }
  destruct (oversized_two_entries es Hfits Hgt) as (Hn & Hfirst & Hlast).
  destruct (split_point_spec es Hn Hfirst Hlast) as (Hk & Hright & _).
  set (k := split_point es) in *.
  pose proof (node_size_take_le (es:=es) k) as Hlk.
  destruct (nodeSplit2_holds old bt es (make (2 * BTREE_PAGE_SIZE))
              (make BTREE_PAGE_SIZE))
    as (l1 & r1 & Hs2 & Hhl & Hhr & Hll & Hlr); [done|done|done|done|..].
  { fold k. rewrite len_make; lia. }
  { fold k. rewrite len_make; [done|]. unfold BTREE_PAGE_SIZE. lia. }
  fold k in Hhl, Hhr.
  rewrite len_make in Hll by (unfold BTREE_PAGE_SIZE; lia).
  rewrite len_make in Hlr by (unfold BTREE_PAGE_SIZE; lia).
  rewrite Hs2. simpl mbind. rewrite (holds_nbytes _ _ _ Hhl). simpl mbind.
  destruct (Z.leb_spec (node_size (take k es)) BTREE_PAGE_SIZE) as [Hle1|Hgt1].
  { rewrite slice_to_Some by (unfold BTREE_PAGE_SIZE in *; lia). simpl mbind.
    eexists. split; [done|]. split; [done|]. simpl.
    constructor; [|constructor; [done|constructor]].
    apply holds_take; [done|unfold BTREE_PAGE_SIZE in *; lia]. }
  apply Forall_cons in Hparts as [Hp1 Hparts].
  apply Forall_cons in Hparts as [Hp2 _].
  assert (Hfits' : Forall entry_fits (take k es)) by (by apply Forall_take).
  destruct (oversized_two_entries _ Hfits' Hgt1) as (Hn' & Hfirst' & Hlast').
  destruct (nodeSplit2_holds l1 bt (take k es) (make BTREE_PAGE_SIZE)
              (make BTREE_PAGE_SIZE))
    as (l2 & r2 & Hs2' & Hhl' & Hhr' & Hll' & Hlr'); [done|done|done|done|..].
  { rewrite len_make; [done|]. unfold BTREE_PAGE_SIZE. lia. }
  { rewrite len_make; [done|]. unfold BTREE_PAGE_SIZE. lia. }
  rewrite len_make in Hll' by (unfold BTREE_PAGE_SIZE; lia).
  rewrite len_make in Hlr' by (unfold BTREE_PAGE_SIZE; lia).
  rewrite Hs2'. simpl mbind. rewrite (holds_nbytes _ _ _ Hhl'). simpl mbind.
  ztrue. simpl mbind.
  eexists. split; [done|]. split; [done|]. simpl.
  constructor; [done|constructor; [done|constructor; [done|constructor]]].
Qed.

(** *** The claims on [nodeSplit3] *)

(** C1, as the code has it.  Let [old] hold a node with entries [es] within
    the limits of [Insert], in a buffer of at least a page, the node not
    larger than [2 * PAGE_SIZE - 3] bytes.  Then [nodeSplit3] returns, with
    a count between 1 and 3, and the parts it returns hold the entry lists
    of [split_parts es]: [es] itself when the node fits a page (the part is
    then the first page of [old]); else the two halves [left] and [right]
    of the split when [left] fits a page; else the two halves of [left],
    and [right].  Every part is a page-sized buffer and its [nbytes] is at
    most [PAGE_SIZE]. *)
Theorem nodeSplit3_fits (old : BNode) (bt : Z) (es : list entry) :
  holds old bt es ->
  Forall entry_within_limits es ->
  BTREE_PAGE_SIZE <= len old ->
  node_size es <= 2 * BTREE_PAGE_SIZE - 3 ->
  exists parts,
    nbytes old = Some (node_size es) /\
    nodeSplit3 old = Some (Z.of_nat (length (split_parts es)), parts) /\
    (1 <= length (split_parts es) <= 3)%nat /\
    Forall2 (fun p l => holds p bt l /\ len p = BTREE_PAGE_SIZE /\
                        nbytes p = Some (node_size l) /\
                        node_size l <= BTREE_PAGE_SIZE)
      (take (length (split_parts es)) parts) (split_parts es) /\
    (node_size es <= BTREE_PAGE_SIZE ->
     parts = [take (Z.to_nat BTREE_PAGE_SIZE) old; []; []]).
Proof.
  intros Hold Hlim Hlen Hsize.
  assert (Hfits : Forall entry_fits es).
  { eapply Forall_impl; [exact Hlim|]. apply entry_within_limits_fits. }
  pose proof (split_parts_fit es Hfits Hsize) as Hparts.
  destruct (nodeSplit3_holds old bt es) as (parts & Hs3 & Hl3 & Hall);
    [done|done|done|unfold BTREE_PAGE_SIZE in *; lia|done|].
  exists parts. split; [by apply (holds_nbytes _ bt)|]. split; [done|].
  split; [apply split_parts_length|]. split.
  - clear Hs3. revert Hall Hparts.
    generalize (take (length (split_parts es)) parts) (split_parts es).
    intros ps0 ls0 Hall. induction Hall as [|p l ps ls [Hh Hl] Hall IH];
      intros Hparts; [constructor|].
    apply Forall_cons in Hparts as [Hp Hparts].
    constructor; [|by apply IH].
    split_and!; try done. by apply (holds_nbytes _ bt).
  - intros Hle. revert Hs3. unfold nodeSplit3.
    rewrite (holds_nbytes _ _ _ Hold). simpl mbind.
    destruct (Z.leb_spec (node_size es) BTREE_PAGE_SIZE); [|lia].
    rewrite slice_to_Some by (unfold BTREE_PAGE_SIZE in *; lia). simpl mbind.
    by intros [= _ <-].
Qed.


Lemma wide_node_holds : holds wide_node BNODE_LEAF wide_entries.
Proof. unfold holds. filled_by_evaluation. Qed.

Lemma wide_entries_within_limits : Forall entry_within_limits wide_entries.
Proof.
  repeat (apply List.Forall_cons; [closed_fact|]). apply List.Forall_nil.
Qed.

Lemma nodeSplit3_fits_witness :
  holds wide_node BNODE_LEAF wide_entries /\
  Forall entry_within_limits wide_entries /\
  BTREE_PAGE_SIZE <= len wide_node /\
  node_size wide_entries <= 2 * BTREE_PAGE_SIZE - 3 /\
  exists parts,
    nbytes wide_node = Some (node_size wide_entries) /\
    nodeSplit3 wide_node
      = Some (Z.of_nat (length (split_parts wide_entries)), parts) /\
    (1 <= length (split_parts wide_entries) <= 3)%nat /\
    Forall2 (fun p l => holds p BNODE_LEAF l /\ len p = BTREE_PAGE_SIZE /\
                        nbytes p = Some (node_size l) /\
                        node_size l <= BTREE_PAGE_SIZE)
      (take (length (split_parts wide_entries)) parts)
      (split_parts wide_entries) /\
    (node_size wide_entries <= BTREE_PAGE_SIZE ->
     parts = [take (Z.to_nat BTREE_PAGE_SIZE) wide_node; []; []]).
Proof.
  assert (H3 : BTREE_PAGE_SIZE <= len wide_node) by closed_fact.
  assert (H4 : node_size wide_entries <= 2 * BTREE_PAGE_SIZE - 3) by closed_fact.
  split; [exact wide_node_holds|]. split; [exact wide_entries_within_limits|].
  split; [exact H3|]. split; [exact H4|].
  exact (nodeSplit3_fits wide_node BNODE_LEAF wide_entries
           wide_node_holds wide_entries_within_limits H3 H4).
Defined.


(** The split of [wide_node], evaluated: three parts of 104, 3997 and 4096
    bytes. *)
Example nodeSplit3_wide_node :
  option_map (fun r : Z * list BNode => (r.1, map nbytes r.2)) (nodeSplit3 wide_node)
  = Some (3, [Some 104; Some 3997; Some 4096]).
Proof. vm_compute. reflexivity. Qed.

(** C1 as stated fails.  [tight_node] holds four entries within the limits
    of [Insert] in a two-page buffer, 8192 bytes in all.  The first split
    leaves a left half of 4197 bytes; the second split of that half leaves
    a [leftleft] of 4097 bytes, and the assertion on it fails: [nodeSplit3]
    does not return. *)
Lemma nodeSplit3_tight_node_faults :
  holds tight_node BNODE_LEAF tight_entries /\
  Forall entry_within_limits tight_entries /\
  len tight_node = 2 * BTREE_PAGE_SIZE /\
  nbytes tight_node = Some (2 * BTREE_PAGE_SIZE) /\
  map node_size (split_parts tight_entries) = [4097; 104; 3999] /\
  nodeSplit3 tight_node = None.
Proof.
  split; [unfold holds; filled_by_evaluation|].
  split; [repeat (apply List.Forall_cons; [closed_fact|]); apply List.Forall_nil|].
  split; [closed_fact|]. split; [closed_fact|]. split; closed_fact.
Qed.

(** ** The builder on a buffer that may be too small *)

(** [copy] truncates silently, so a buffer that is too small for its kv
    region can still come back from [nodeAppendKV].  What survives is the
    header and the offset table: [tabled b bt n es] says that [b] has the
    header and the offset cells of a node with [n] slots whose first
    [length es] entries are [es], whatever the kv region holds. *)

Lemma same_below_rd (m a k : Z) (b b' : list byte) :
  same_below m b b' -> 0 <= a -> 0 <= k -> a + k <= m ->
  rd a k b' = rd a k b.
Proof.
  intros [_ Heq] Ha Hk Hm.
  rewrite <- (rd_take a k m b'), <- (rd_take a k m b) by lia. by rewrite Heq.
Qed.

Lemma same_below_refl (m : Z) (b : list byte) : same_below m b b.
Proof. done. Qed.

Lemma same_below_trans (m1 m2 m : Z) (b1 b2 b3 : list byte) :
  same_below m1 b1 b2 -> same_below m2 b2 b3 -> 0 <= m -> m <= m1 -> m <= m2 ->
  same_below m b1 b3.
Proof.
  intros [Hl1 He1] [Hl2 He2] H0 H1 H2. split; [congruence|].
  apply (f_equal (take (Z.to_nat m))) in He1, He2.
  rewrite !take_take in He1, He2.
  replace (Z.to_nat m `min` Z.to_nat m1)%nat with (Z.to_nat m) in He1 by lia.
  replace (Z.to_nat m `min` Z.to_nat m2)%nat with (Z.to_nat m) in He2 by lia.
  congruence.
Qed.

Lemma same_below_wr (p : Z) (s b : list byte) :
  0 <= p -> p + len s <= len b -> same_below p b (wr p s b).
Proof.
  intros Hp Hfit. split; [by apply len_wr|].
  unfold wr. rewrite take_app_le by (unfold len in *; rewrite length_take; lia).
  rewrite take_take. f_equal. lia.
Qed.

(** A mutation of [s[lo:]] that keeps the length of the slice leaves [s]
    as it was below [lo]. *)
Lemma on_slice_from_same_below (s s' : list byte) (lo : Z)
    (f : list byte -> option (list byte)) :
  (forall t t', f t = Some t' -> len t' = len t) ->
  on_slice_from s lo f = Some s' ->
  0 <= lo <= len s /\ same_below lo s s'.
Proof.
  intros Hf. unfold on_slice_from, slice_from.
  destruct (Z.leb_spec 0 lo); [|done]. destruct (Z.leb_spec lo (len s)); [|done].
  simpl. destruct (f (drop (Z.to_nat lo) s)) as [t'|] eqn:E; [|done].
  simpl. intros [= <-]. apply Hf in E. split; [lia|]. split.
  - unfold len in *. rewrite length_app, length_take. rewrite length_drop in E. lia.
  - rewrite take_app_le by (unfold len in *; rewrite length_take; lia).
    rewrite take_take. f_equal. lia.
Qed.

Lemma PutUint16_len (v : Z) (t t' : list byte) :
  PutUint16 t v = Some t' -> len t' = len t.
Proof.
  unfold PutUint16. destruct (Z.leb_spec 2 (len t)); [|done]. intros [= <-].
  cbn [le_split app]. unfold len in *. cbn [length]. rewrite length_drop. lia.
Qed.

Lemma copy_len (src t : list byte) : len (copy t src) = len t.
Proof.
  unfold copy, len. rewrite length_app, length_take, length_drop. lia.
Qed.

Lemma tabled_same_below (b b' : BNode) (bt n : Z) (es : list entry) (m : Z) :
  tabled b bt n es -> same_below m b b' -> 4 + 10 * n <= m ->
  tabled b' bt n es.
Proof.
  intros [Hbt Hn Hsize Hu16 Hhdr Hcells] Hsame Hm.
  pose proof Hsame as [Hl _]. pose proof (offs_nonneg es).
  split; try done.
  - lia.
  - rewrite (same_below_rd _ _ _ _ _ Hsame) by lia. done.
  - intros j e He. pose proof (lookup_lt_Some _ _ _ He).
    rewrite (same_below_rd _ _ _ _ _ Hsame) by lia. by apply (Hcells _ _ He).
Qed.

Lemma filled_tabled (b : BNode) (bt n : Z) (es : list entry) :
  filled b bt n es -> tabled b bt n es.
Proof.
  intros [Hbt Hn Hsize Hu16 Hhdr Hok Hes]. pose proof (offs_nonneg es).
  split; try done.
  - lia.
  - intros j e He.
    destruct (stored_lookup _ _ _ _ _ _ _ Hes He) as (_ & Ho & _).
    rewrite !Z.add_0_l in Ho. exact Ho.
Qed.

Section Tabled.

Context {b : BNode} {bt n : Z} {es : list entry}.
Hypothesis Ht : tabled b bt n es.

Lemma tabled_n_range : 0 <= n < 65536.
Proof. destruct Ht. pose proof (offs_nonneg es). lia. Qed.

Lemma tabled_nkeys : nkeys b = Some n.
Proof.
  pose proof tabled_n_range. destruct Ht as [Hbt Hn Hsize Hu16 Hhdr Hcells].
  apply (rd_app_inv 0 (le_split 2 bt) (le_split 2 n)) in Hhdr; [|lia].
  rewrite !len_le_split in Hhdr. destruct Hhdr as [_ H2].
  unfold nkeys. rewrite slice_Some by lia. simpl mbind.
  rewrite Uint16_exact by (rewrite len_rd; lia).
  change (4 - 2) with 2%Z. change (0 + Z.of_nat 2) with 2 in H2.
  change (Z.of_nat 2) with 2 in H2. rewrite H2.
  by rewrite le_combine_le_split_small by (simpl; lia).
Qed.

Lemma tabled_getOffset (j : nat) :
  (j <= length es)%nat ->
  getOffset b (Z.of_nat j) = Some (offs (take j es)).
Proof.
  intros Hj. unfold getOffset. destruct j as [|j].
  { done. }
  pose proof tabled_n_range. rewrite tabled_nkeys. simpl mbind.
  destruct (es !! j) as [e|] eqn:He; [|apply lookup_ge_None in He; lia].
  destruct Ht as [Hbt Hn Hsize Hu16 Hhdr Hcells].
  pose proof (offs_take_le (S j) es). pose proof (offs_nonneg (take (S j) es)).
  destruct (Z.eqb_spec (Z.of_nat (S j)) 0); [lia|].
  replace (add16 (add16 4 (mul16 8 n)) (mul16 2 (sub16 (Z.of_nat (S j)) 1)))
    with (4 + 8 * n + 2 * Z.of_nat j) by (u16; zlia).
  rewrite read16_rd by lia. rewrite (Hcells _ _ He).
  by rewrite le_combine_le_split_small by (simpl; lia).
Qed.

Lemma tabled_kvPos (j : nat) :
  (j <= length es)%nat ->
  kvPos b (Z.of_nat j) = Some (4 + 10 * n + offs (take j es)).
Proof.
  intros Hj. unfold kvPos. pose proof tabled_n_range.
  rewrite tabled_nkeys. simpl mbind.
  destruct Ht as [Hbt Hn Hsize Hu16 Hhdr Hcells]. ztrue. simpl mbind.
  rewrite tabled_getOffset by done. simpl mbind.
  pose proof (offs_take_le j es). pose proof (offs_nonneg (take j es)).
  f_equal. u16. zlia.
Qed.

End Tabled.

Lemma tabled_wr (b : BNode) (bt n : Z) (es : list entry) (p : Z) (s : list byte) :
  tabled b bt n es ->
  4 <= p -> p + len s <= len b ->
  (p + len s <= 4 + 8 * n \/ 4 + 8 * n + 2 * Z.of_nat (length es) <= p) ->
  tabled (wr p s b) bt n es.
Proof.
  intros [Hbt Hn Hsize Hu16 Hhdr Hcells] Hp Hfit Hdisj.
  pose proof (len_nonneg s). pose proof (offs_nonneg es).
  split; try done.
  - rewrite len_wr by lia. done.
  - rewrite rd_hdr_wr by lia. done.
  - intros j e He. pose proof (lookup_lt_Some _ _ _ He).
    rewrite rd_wr_disj by lia. by apply (Hcells _ _ He).
Qed.

Lemma setPtr_tabled (b : BNode) (bt n : Z) (es : list entry) (idx v : Z) :
  tabled b bt n es -> 0 <= idx < n ->
  setPtr b idx v = Some (wr (4 + 8 * idx) (le_split 8 v) b).
Proof.
  intros Ht Hidx. unfold setPtr. rewrite (tabled_nkeys Ht). simpl mbind.
  ztrue. simpl mbind.
  pose proof (tabled_n_range Ht). destruct Ht as [Hbt Hn Hsize Hu16 Hhdr Hcells].
  pose proof (offs_nonneg es).
  replace (add16 4 (mul16 8 idx)) with (4 + 8 * idx) by (u16; zlia).
  apply write64_wr; lia.
Qed.

Lemma setOffset_tabled (b : BNode) (bt n : Z) (es : list entry) (idx v : Z) :
  tabled b bt n es -> 1 <= idx <= n ->
  setOffset b idx v = Some (wr (4 + 8 * n + 2 * (idx - 1)) (le_split 2 v) b).
Proof.
  intros Ht Hidx. unfold setOffset. rewrite (tabled_nkeys Ht). simpl mbind.
  pose proof (tabled_n_range Ht). destruct Ht as [Hbt Hn Hsize Hu16 Hhdr Hcells].
  pose proof (offs_nonneg es).
  replace (add16 (add16 4 (mul16 8 n)) (mul16 2 (sub16 idx 1)))
    with (4 + 8 * n + 2 * (idx - 1)) by (u16; zlia).
  apply write16_wr; lia.
Qed.

(** Whenever [nodeAppendKV] returns, even with a kv region cut short by
    the end of the buffer, the offset table has the new entry. *)
Lemma nodeAppendKV_tabled (b b' : BNode) (bt n : Z) (es : list entry) (e : entry) :
  tabled b bt n es -> Z.of_nat (length es) < n -> entry_ok e ->
  4 + 10 * n + offs es + kvsize e < 65536 ->
  nodeAppendKV b (Z.of_nat (length es)) (e_ptr e) (e_key e) (e_val e) = Some b' ->
  tabled b' bt n (es ++ [e]) /\ len b' = len b.
Proof.
  intros Ht Hidx (Hptr & Hk & Hv) Hu.
  set (idx := Z.of_nat (length es)) in *.
  pose proof (tabled_n_range Ht) as Hnr. pose proof (offs_nonneg es) as Hoff.
  pose proof (len_nonneg (e_key e)). pose proof (len_nonneg (e_val e)).
  pose proof (tabled_size _ _ _ _ Ht) as Hsz.
  assert (Hkv : kvsize e = 4 + len (e_key e) + len (e_val e)) by done.
  unfold nodeAppendKV.
  rewrite (setPtr_tabled _ _ _ _ _ _ Ht) by lia. simpl mbind.
  set (b1 := wr (4 + 8 * idx) (le_split 8 (e_ptr e)) b).
  assert (Hl1 : len b1 = len b) by (apply len_wr; rewrite ?len_le_split; lia).
  assert (Ht1 : tabled b1 bt n es).
  { apply tabled_wr; rewrite ?len_le_split; try done; subst idx; lia. }
  subst idx. rewrite (tabled_kvPos Ht1) by lia. simpl mbind.
  rewrite take_ge by lia.
  set (idx := Z.of_nat (length es)) in *.
  set (pos := 4 + 10 * n + offs es).
  replace (add16 pos 0) with pos by (u16; zlia).
  replace (add16 pos 2) with (pos + 2) by (u16; zlia).
  replace (add16 (add16 pos 4) (u16 (len (e_key e))))
    with (pos + 4 + len (e_key e)) by (u16; zlia).
  replace (add16 pos 4) with (pos + 4) by (u16; zlia).
  destruct (on_slice_from b1 pos _) as [b2|] eqn:E2; [|done]. simpl mbind.
  apply on_slice_from_same_below in E2 as [_ S2]; [|intros t t'; apply PutUint16_len].
  destruct (on_slice_from b2 (pos + 2) _) as [b3|] eqn:E3; [|done]. simpl mbind.
  apply on_slice_from_same_below in E3 as [_ S3]; [|intros t t'; apply PutUint16_len].
  destruct (on_slice_from b3 (pos + 4) _) as [b4|] eqn:E4; [|done]. simpl mbind.
  apply on_slice_from_same_below in E4 as [_ S4];
    [|intros t t' [= <-]; apply copy_len].
  destruct (on_slice_from b4 (pos + 4 + len (e_key e)) _) as [b5|] eqn:E5; [|done].
  simpl mbind.
  apply on_slice_from_same_below in E5 as [_ S5];
    [|intros t t' [= <-]; apply copy_len].
  assert (S15 : same_below pos b1 b5).
  { apply (same_below_trans pos pos pos b1 b3 b5); try lia.
    - apply (same_below_trans pos (pos + 2) pos b1 b2 b3); (done || lia).
    - apply (same_below_trans (pos + 4) (pos + 4 + len (e_key e)) pos b3 b4 b5);
        (done || lia). }
  assert (Ht5 : tabled b5 bt n es).
  { apply (tabled_same_below b1 b5 bt n es pos); try done. subst pos. lia. }
  assert (Hl5 : len b5 = len b) by (destruct S15; lia).
  subst idx. rewrite (tabled_getOffset Ht5) by lia. simpl mbind.
  rewrite take_ge by lia.
  set (idx := Z.of_nat (length es)) in *.
  replace (add16 idx 1) with (idx + 1) by (u16; zlia).
  replace (add16 (add16 (offs es) 4) (u16 (len (e_key e) + len (e_val e))))
    with (offs es + kvsize e) by (u16; zlia).
  rewrite (setOffset_tabled _ _ _ _ _ _ Ht5) by lia.
  intros [= <-].
  replace (idx + 1 - 1) with idx by lia.
  assert (Ht6 : tabled (wr (4 + 8 * n + 2 * idx) (le_split 2 (offs es + kvsize e)) b5)
                  bt n es).
  { apply tabled_wr; rewrite ?len_le_split; try done; subst idx; lia. }
  split; [|rewrite len_wr; rewrite ?len_le_split; lia].
  destruct Ht6 as [Hbt Hn Hsize Hu16 Hhdr Hcells].
  split; try done.
  - rewrite length_app. simpl. lia.
  - rewrite offs_app. simpl. lia.
  - intros j e' He'. destruct (decide (j < length es)%nat) as [Hj|Hj].
    + rewrite lookup_app_l in He' by done.
      rewrite take_app_le by lia. by apply (Hcells _ _ He').
    + assert (j = length es) as ->.
      { apply lookup_lt_Some in He'. rewrite length_app in He'. simpl in He'. lia. }
      rewrite take_app_ge by lia.
      replace (S (length es) - length es)%nat with 1%nat by lia.
      cbn [take]. rewrite offs_app. cbn [offs]. rewrite Z.add_0_r.
      fold idx.
      apply (rd_wr_same (4 + 8 * n + 2 * idx) (le_split 2 (offs es + kvsize e)));
        rewrite ?len_le_split; lia.
Qed.

Lemma nodeAppendRange_loop_tabled (old : BNode) (bt_o : Z) (es_o : list entry)
    (bt n : Z) (es_n : list entry) (src cnt : nat) :
  holds old bt_o es_o ->
  (src + cnt <= length es_o)%nat ->
  Z.of_nat (length es_n) + Z.of_nat cnt <= n ->
  4 + 10 * n + offs es_n + offs (take cnt (drop src es_o)) < 65536 ->
  forall (fuel i : nat) (new new' : BNode),
    (i + fuel = cnt)%nat ->
    tabled new bt n (es_n ++ take i (drop src es_o)) ->
    nodeAppendRange_loop fuel new old (Z.of_nat (length es_n)) (Z.of_nat src)
      (Z.of_nat i) = Some new' ->
    tabled new' bt n (es_n ++ take cnt (drop src es_o)) /\ len new' = len new.
Proof.
  intros Hold Hsrc Hdst Hu. induction fuel as [|fuel IH];
    intros i new new' Hi Hnew Hrun.
  { cbn [nodeAppendRange_loop] in Hrun. injection Hrun as <-.
    replace cnt with i by lia. done. }
  assert (is_Some (es_o !! (src + i)%nat)) as [e He]
    by (apply lookup_lt_is_Some; lia).
  assert (Hd : drop src es_o !! i = Some e) by (by rewrite lookup_drop).
  pose proof (tabled_n_range Hnew) as Hnr.
  pose proof (Forall_lookup_1 _ _ _ _ (filled_ok _ _ _ _ Hold) He) as Hoke.
  cbn [nodeAppendRange_loop] in Hrun.
  replace (add16 (Z.of_nat src) (Z.of_nat i)) with (Z.of_nat (src + i)) in Hrun
    by (pose proof (filled_n_range Hold); u16; zlia).
  rewrite (filled_getPtr Hold _ _ He) in Hrun. simpl mbind in Hrun.
  rewrite (filled_getKey Hold _ _ He) in Hrun. simpl mbind in Hrun.
  rewrite (filled_getVal Hold _ _ He) in Hrun. simpl mbind in Hrun.
  set (es := es_n ++ take i (drop src es_o)) in *.
  assert (Hlen : length es = (length es_n + i)%nat).
  { unfold es. rewrite length_app, length_take, length_drop. lia. }
  replace (add16 (Z.of_nat (length es_n)) (Z.of_nat i)) with (Z.of_nat (length es))
    in Hrun by (u16; zlia).
  assert (Hoffs : offs es + kvsize e <= offs es_n + offs (take cnt (drop src es_o))).
  { unfold es. rewrite offs_app.
    replace i with (i `min` cnt)%nat at 1 by lia. rewrite <- take_take.
    assert (take cnt (drop src es_o) !! i = Some e) as Ht.
    { rewrite lookup_take. case_decide; [done|lia]. }
    pose proof (offs_take_S_le _ _ _ Ht). lia. }
  destruct (nodeAppendKV new (Z.of_nat (length es)) (e_ptr e) (e_key e) (e_val e))
    as [new1|] eqn:Hkv; [|done]. simpl mbind in Hrun.
  destruct (nodeAppendKV_tabled new new1 bt n es e) as [Ht1 Hl1];
    try done; try lia.
  replace (add16 (Z.of_nat i) 1) with (Z.of_nat (S i)) in Hrun by (u16; zlia).
  destruct (IH (S i) new1 new') as [Ht' Hl']; try done; try lia.
  { unfold es in Ht1. rewrite <- app_assoc in Ht1.
    by rewrite (take_S_r _ _ _ Hd). }
  split; [done|lia].
Qed.

Lemma node_size_ge (l : list entry) : 4 + 14 * Z.of_nat (length l) <= node_size l.
Proof.
  unfold node_size. induction l as [|e l IH]; cbn [length offs]; [lia|].
  pose proof (kvsize_pos e). lia.
Qed.

(** Whenever [nodeSplit2] returns, the left node it built reports the size
    of the left half of the entries, also when the left buffer was too
    small for its kv region. *)
Lemma nodeSplit2_left_nbytes (old : BNode) (bt : Z) (es : list entry)
    (left right l' r' : BNode) :
  holds old bt es ->
  (2 <= length es)%nat ->
  node_size (take 1 es) <= BTREE_PAGE_SIZE ->
  node_size (drop (length es - 1) es) <= BTREE_PAGE_SIZE ->
  4 + 10 * Z.of_nat (split_point es) <= len left ->
  nodeSplit2 left right old = Some (l', r') ->
  nbytes l' = Some (node_size (take (split_point es) es)).
Proof.
  intros Hold Hn Hfirst Hlast Hfitl.
  destruct (split_point_spec es Hn Hfirst Hlast) as (Hk & Hright & _).
  pose proof (filled_n_range Hold) as Hnr.
  pose proof (filled_bt _ _ _ _ Hold) as Hbt.
  pose proof (holds_size_u16 Hold) as Hu.
  pose proof (node_size_take_le (es:=es) (split_point es)) as Hle1.
  unfold split_point in *.
  set (h := (length es / 2)%nat) in *.
  assert (1 <= h <= length es - 1)%nat as Hh.
  { unfold h. pose proof (Nat.div_mod_eq (length es) 2).
    pose proof (Nat.mod_upper_bound (length es) 2). lia. }
  destruct (split_left_spec es h) as (L1 & _ & L3).
  set (k0 := split_left es h) in *.
  assert (1 <= k0)%nat.
  { destruct (decide (k0 = 0)%nat) as [E|]; [|lia].
    rewrite E in L3. specialize (L3 ltac:(lia)). lia. }
  set (k1 := split_right (length es) es k0) in *.
  unfold nodeSplit2. rewrite (filled_nkeys Hold). simpl mbind.
  ztrue. simpl mbind.
  replace (Z.of_nat (length es) / 2) with (Z.of_nat h)
    by (unfold h; by rewrite Nat2Z.inj_div).
  rewrite !Nat2Z.id. rewrite (fit_left_holds Hold) by lia. simpl mbind.
  fold k0. ztrue. simpl mbind.
  rewrite (fit_right_holds Hold) by lia. simpl mbind. fold k1.
  ztrue. simpl mbind.
  replace (sub16 (Z.of_nat (length es)) (Z.of_nat k1))
    with (Z.of_nat (length es - k1)) by (u16; zlia).
  rewrite (filled_btype Hold). simpl mbind.
  assert (Hlt : length (take k1 es) = k1) by (rewrite length_take; lia).
  pose proof (offs_nonneg (take k1 es)).
  unfold node_size in Hle1, Hu. rewrite Hlt in Hle1.
  destruct (setHeader_filled left bt (Z.of_nat k1)) as (l0 & Hl0 & Hfl0 & Hll0);
    try lia.
  rewrite Hl0. simpl mbind.
  destruct (setHeader right bt (Z.of_nat (length es - k1))) as [r0|]; [|done].
  simpl mbind.
  destruct (nodeAppendRange l0 old 0 0 (Z.of_nat k1)) as [l1|] eqn:Hl1; [|done].
  simpl mbind.
  destruct (nodeAppendRange r0 old 0 (Z.of_nat k1) (Z.of_nat (length es - k1)))
    as [r1|]; [|done].
  simpl mbind.
  destruct (nbytes r1) as [rb|]; [|done]. simpl mbind.
  destruct (assert (rb <=? BTREE_PAGE_SIZE)); [|done]. simpl mbind.
  intros [= <- <-].
  unfold nodeAppendRange in Hl1. rewrite Nat2Z.id in Hl1.
  destruct (nodeAppendRange_loop_tabled old bt es bt (Z.of_nat k1) [] 0 k1
              Hold ltac:(lia) ltac:(cbn [length]; lia)
              ltac:(cbn [offs]; rewrite drop_0; lia)
              k1 0%nat l0 l1 ltac:(lia)) as [Ht1 _].
  { by apply filled_tabled. }
  { exact Hl1. }
  cbn [app] in Ht1. rewrite drop_0 in Ht1.
  unfold nbytes. rewrite (tabled_nkeys Ht1). simpl mbind.
  rewrite (tabled_kvPos Ht1) by lia. rewrite take_take, Nat.min_id.
  unfold node_size. by rewrite Hlt.
Qed.

(** When a part of [split_parts es] does not fit a page, the assertion on
    [leftleft] catches it: [nodeSplit3] does not return. *)
Lemma nodeSplit3_faults (old : BNode) (bt : Z) (es : list entry) :
  holds old bt es ->
  Forall entry_fits es ->
  node_size es <= 2 * BTREE_PAGE_SIZE ->
  ~ Forall (fun l => node_size l <= BTREE_PAGE_SIZE) (split_parts es) ->
  nodeSplit3 old = None.
Proof.
  intros Hold Hfits Hsize Hparts.
  unfold nodeSplit3. rewrite (holds_nbytes _ _ _ Hold). simpl mbind.
  unfold split_parts in *.
  destruct (Z.leb_spec (node_size es) BTREE_PAGE_SIZE) as [Hle|Hgt].
  { destruct Hparts. by repeat constructor. }
  destruct (oversized_two_entries es Hfits Hgt) as (Hn & Hfirst & Hlast).
  destruct (split_point_spec es Hn Hfirst Hlast) as (Hk & Hright & _).
  set (k := split_point es) in *.
  pose proof (node_size_take_le (es:=es) k) as Hlk.
  destruct (nodeSplit2_holds old bt es (make (2 * BTREE_PAGE_SIZE))
              (make BTREE_PAGE_SIZE))
    as (l1 & r1 & Hs2 & Hhl & Hhr & Hll & Hlr); [done|done|done|done|..].
  { fold k. rewrite len_make; lia. }
  { fold k. rewrite len_make; [done|]. unfold BTREE_PAGE_SIZE. lia. }
  fold k in Hhl, Hhr.
  rewrite Hs2. simpl mbind. rewrite (holds_nbytes _ _ _ Hhl). simpl mbind.
  destruct (Z.leb_spec (node_size (take k es)) BTREE_PAGE_SIZE) as [Hle1|Hgt1].
  { destruct Hparts. by repeat constructor. }
  assert (Hfits' : Forall entry_fits (take k es)) by (by apply Forall_take).
  destruct (oversized_two_entries _ Hfits' Hgt1) as (Hn' & Hfirst' & Hlast').
  destruct (split_point_spec _ Hn' Hfirst' Hlast') as (Hk' & Hright' & Hleft').
  set (k2 := split_point (take k es)) in *.
  assert (Hbig : BTREE_PAGE_SIZE < node_size (take k2 (take k es))).
  { destruct (Z.leb_spec (node_size (take k2 (take k es))) BTREE_PAGE_SIZE);
      [|done].
    destruct Hparts. by repeat constructor. }
  destruct Hleft' as [Hleft'|Hleft']; [lia|].
  rewrite length_take in Hk'.
  assert (Hk2 : 4 + 10 * Z.of_nat k2 <= BTREE_PAGE_SIZE).
  { pose proof (node_size_take_drop (k2 - 1) (take k es)
                  ltac:(rewrite length_take; lia)) as Hsum.
    pose proof (node_size_ge (take (k2 - 1) (take k es))) as Hge.
    rewrite length_take, length_take in Hge.
    unfold BTREE_PAGE_SIZE in *. lia. }
  destruct (nodeSplit2 (make BTREE_PAGE_SIZE) (make BTREE_PAGE_SIZE) l1)
    as [[ll mid]|] eqn:Hs2'; [|done].
  simpl mbind.
  rewrite (nodeSplit2_left_nbytes l1 bt (take k es) (make BTREE_PAGE_SIZE)
             (make BTREE_PAGE_SIZE) ll mid Hhl Hn' Hfirst' Hlast');
    [|fold k2; rewrite len_make; unfold BTREE_PAGE_SIZE in *; lia|exact Hs2'].
  simpl mbind. fold k2.
  destruct (Z.leb_spec (node_size (take k2 (take k es))) BTREE_PAGE_SIZE); [lia|].
  done.
Qed.

(** C2.  Let [old] hold an oversized node of at most two pages with
    entries [es] within the limits of [Insert].  Whenever [nodeSplit3]
    returns parts, their entry sequences, as the accessors read them,
    concatenate to [es], the entry sequence of the input, in order; and it
    does return when the node has at most [2 * PAGE_SIZE - 3] bytes. *)
Theorem nodeSplit3_conserves (old : BNode) (bt : Z) (es : list entry) :
  holds old bt es ->
  Forall entry_within_limits es ->
  BTREE_PAGE_SIZE < node_size es ->
  node_size es <= 2 * BTREE_PAGE_SIZE ->
  entries old = Some es /\
  (forall count parts,
     nodeSplit3 old = Some (count, parts) ->
     exists ess,
       mapM entries (take (Z.to_nat count) parts) = Some ess /\
       concat ess = es) /\
  (node_size es <= 2 * BTREE_PAGE_SIZE - 3 -> is_Some (nodeSplit3 old)).
Proof.
  intros Hold Hlim Hbig Hsize.
  assert (Hfits : Forall entry_fits es).
  { eapply Forall_impl; [exact Hlim|]. apply entry_within_limits_fits. }
  pose proof (filled_size _ _ _ _ Hold) as Hlen. fold (node_size es) in Hlen.
  split; [by apply (holds_entries _ bt)|]. split.
  - intros count parts Hs3.
    destruct (decide (Forall (fun l => node_size l <= BTREE_PAGE_SIZE)
                        (split_parts es))) as [Hparts|Hparts].
    + destruct (nodeSplit3_holds old bt es) as (parts' & Hs3' & Hl3 & Hall);
        [done|done|lia|done|done|].
      rewrite Hs3 in Hs3'. injection Hs3' as -> <-.
      exists (split_parts es). split; [|apply split_parts_concat].
      rewrite Nat2Z.id. apply mapM_Some.
      eapply Forall2_impl; [exact Hall|].
      intros p l [Hh _]. by apply (holds_entries _ bt).
    + by rewrite (nodeSplit3_faults old bt es) in Hs3.
  - intros Hsmall.
    pose proof (split_parts_fit es Hfits Hsmall) as Hparts.
    destruct (nodeSplit3_holds old bt es) as (parts & Hs3 & _);
      [done|done|lia|done|done|].
    by rewrite Hs3.
Qed.

Lemma nodeSplit3_conserves_witness :
  holds wide_node BNODE_LEAF wide_entries /\
  Forall entry_within_limits wide_entries /\
  BTREE_PAGE_SIZE < node_size wide_entries /\
  node_size wide_entries <= 2 * BTREE_PAGE_SIZE /\
  entries wide_node = Some wide_entries /\
  (forall count parts,
     nodeSplit3 wide_node = Some (count, parts) ->
     exists ess,
       mapM entries (take (Z.to_nat count) parts) = Some ess /\
       concat ess = wide_entries) /\
  (node_size wide_entries <= 2 * BTREE_PAGE_SIZE - 3 ->
   is_Some (nodeSplit3 wide_node)).
Proof.
  assert (H3 : BTREE_PAGE_SIZE < node_size wide_entries) by closed_fact.
  assert (H4 : node_size wide_entries <= 2 * BTREE_PAGE_SIZE) by closed_fact.
  split; [exact wide_node_holds|]. split; [exact wide_entries_within_limits|].
  split; [exact H3|]. split; [exact H4|].
  exact (nodeSplit3_conserves wide_node BNODE_LEAF wide_entries
           wide_node_holds wide_entries_within_limits H3 H4).
Defined.

(** The entries of the three parts of [wide_node], read back and
    concatenated, are the entries of [wide_node]. *)
Example nodeSplit3_wide_node_entries :
  (match nodeSplit3 wide_node with
   | Some (count, parts) =>
       option_map (@concat entry) (mapM entries (take (Z.to_nat count) parts))
   | None => None
   end) = Some wide_entries.
Proof. vm_compute. reflexivity. Qed.

(** * The page codec: round trips and bounds *)

Lemma slice_short (s : list byte) (lo hi : Z) : len s < hi -> slice s lo hi = None.
Proof.
  intros H. unfold slice. destruct (hi <=? len s) eqn:E; [lia|].
  by rewrite andb_false_r.
Qed.

Lemma on_slice_short (s : list byte) (lo hi : Z) f :
  len s < hi -> on_slice s lo hi f = None.
Proof. intros H. unfold on_slice. by rewrite slice_short. Qed.

Lemma nkeys_short (node : BNode) : len node < 4 -> nkeys node = None.
Proof. intros H. unfold nkeys. by rewrite slice_short. Qed.

Lemma setHeader_short (node : BNode) (bt n : Z) :
  len node < 4 -> setHeader node bt n = None.
Proof.
  intros H. unfold setHeader.
  destruct (Z.le_gt_cases 2 (len node)).
  - change 2 with (0 + 2) at 1. rewrite on_slice_put16 by lia. simpl.
    apply on_slice_short. rewrite len_wr; rewrite ?len_le_split; lia.
  - rewrite on_slice_short by lia. done.
Qed.

(** Reading the header back. *)
Lemma header_read (b : BNode) (bt n : Z) :
  0 <= bt < 65536 -> 0 <= n < 65536 -> 4 <= len b ->
  rd 0 4 b = le_split 2 bt ++ le_split 2 n ->
  btype b = Some bt /\ nkeys b = Some n.
Proof.
  intros Hbt Hn Hlen Hhdr.
  apply (rd_app_inv 0 (le_split 2 bt) (le_split 2 n)) in Hhdr; [|lia].
  rewrite !len_le_split in Hhdr. destruct Hhdr as [H0 H2].
  change (0 + Z.of_nat 2) with 2 in H2. change (Z.of_nat 2) with 2 in H0, H2.
  unfold btype, nkeys. rewrite !slice_Some by lia. simpl.
  rewrite !Uint16_exact by (rewrite len_rd; lia).
  change (2 - 0) with 2%Z. change (4 - 2) with 2%Z. rewrite H0, H2.
  by rewrite !le_combine_le_split_small by (simpl; lia).
Qed.

Lemma setHeader_header (b : BNode) (bt n : Z) :
  4 <= len b ->
  exists b', setHeader b bt n = Some b' /\ len b' = len b /\
    rd 0 4 b' = le_split 2 bt ++ le_split 2 n /\
    drop 4 b' = drop 4 b.
Proof.
  intros Hlen. rewrite setHeader_wr by done. eexists. split; [done|].
  assert (L1 : len (wr 0 (le_split 2 bt) b) = len b).
  { rewrite len_wr; rewrite ?len_le_split; simpl; lia. }
  split; [|split].
  - rewrite len_wr; rewrite ?len_le_split; simpl; lia.
  - change 2 with (0 + len (le_split 2 bt)) at 1.
    rewrite wr_wr_adj by (rewrite ?len_le_split; simpl; lia).
    change 4 with (len (le_split 2 bt ++ le_split 2 n)) at 1.
    apply rd_wr_same; [lia|]. rewrite len_app, !len_le_split. simpl. lia.
  - change 2 with (0 + len (le_split 2 bt)) at 1.
    rewrite wr_wr_adj by (rewrite ?len_le_split; simpl; lia).
    unfold wr. simpl. unfold len in Hlen.
    destruct b as [|x0 [|x1 [|x2 [|x3 b]]]]; simpl in *; try lia. done.
Qed.

(** X1.  On a buffer of at least four bytes [setHeader] succeeds, and
    [btype] and [nkeys] then read back the kind and the count it wrote; the
    buffer keeps its length and its bytes from position 4 on. *)
Theorem setHeader_round_trip (node : BNode) (bt n : Z) :
  4 <= len node -> 0 <= bt < 65536 -> 0 <= n < 65536 ->
  exists node',
    setHeader node bt n = Some node' /\
    btype node' = Some bt /\ nkeys node' = Some n /\
    len node' = len node /\ drop 4 node' = drop 4 node.
Proof.
  intros Hlen Hbt Hn.
  destruct (setHeader_header node bt n Hlen) as (b' & Hs & Hl & Hh & Hd).
  exists b'. split; [done|].
  destruct (header_read b' bt n) as [H1 H2]; [done|done|lia|done|]. done.
Qed.

Lemma setHeader_round_trip_witness :
  4 <= len (make 8) /\ 0 <= BNODE_LEAF < 65536 /\ 0 <= 2 < 65536 /\
  exists node',
    setHeader (make 8) BNODE_LEAF 2 = Some node' /\
    btype node' = Some BNODE_LEAF /\ nkeys node' = Some 2 /\
    len node' = len (make 8) /\ drop 4 node' = drop 4 (make 8).
Proof.
  split; [by vm_compute|]. split; [by vm_compute|]. split; [lia|].
  apply (setHeader_round_trip (make 8) BNODE_LEAF 2); by vm_compute.
Defined.

Lemma Uint64_short (s : list byte) : len s < 8 -> Uint64 s = None.
Proof. intros. unfold Uint64. destruct (8 <=? len s) eqn:E; [lia|done]. Qed.

Lemma Uint16_short (s : list byte) : len s < 2 -> Uint16 s = None.
Proof. intros. unfold Uint16. destruct (2 <=? len s) eqn:E; [lia|done]. Qed.

Lemma slice_from_None (s : list byte) (lo : Z) : len s < lo -> slice_from s lo = None.
Proof.
  intros. unfold slice_from. destruct (lo <=? len s) eqn:E; [lia|].
  by rewrite andb_false_r.
Qed.

Lemma read64_same (b b' : BNode) (pos : Z) :
  0 <= pos -> len b' = len b ->
  (pos + 8 <= len b -> rd pos 8 b' = rd pos 8 b) ->
  slice_from b' pos ≫= Uint64 = slice_from b pos ≫= Uint64.
Proof.
  intros Hpos Hl Hrd.
  destruct (Z.le_gt_cases (pos + 8) (len b)) as [Hin|Hout].
  - rewrite !read64_rd by lia. by rewrite Hrd.
  - destruct (Z.le_gt_cases pos (len b)).
    + rewrite !slice_from_Some by lia. simpl.
      rewrite !Uint64_short; [done| |]; rewrite len_drop; lia.
    + rewrite !slice_from_None by lia. done.
Qed.

(** X2.  On a node with [n] slots, [n] at most 8191 so that [4 + 8 * idx]
    does not wrap in uint16, whose buffer contains the pointer cell [idx]:
    [setPtr] succeeds and [getPtr] then returns the value written; the
    buffer keeps its length, its header and every other pointer. *)
Theorem setPtr_getPtr (node : BNode) (n idx v : Z) :
  nkeys node = Some n ->
  0 <= idx < n ->
  4 + 8 * n <= 65536 ->
  4 + 8 * idx + 8 <= len node ->
  0 <= v < 2 ^ 64 ->
  exists node',
    setPtr node idx v = Some node' /\
    len node' = len node /\
    getPtr node' idx = Some v /\
    btype node' = btype node /\ nkeys node' = Some n /\
    forall j, 0 <= j < n -> j <> idx -> getPtr node' j = getPtr node j.
Proof.
  intros Hn Hidx Hw Hlen Hv.
  assert (Hpos : forall j, 0 <= j < n -> add16 4 (mul16 8 j) = 4 + 8 * j).
  { intros j Hj. u16. zlia. }
  assert (Hs : setPtr node idx v = Some (wr (4 + 8 * idx) (le_split 8 v) node)).
  { unfold setPtr. rewrite Hn. simpl. ztrue. simpl. rewrite Hpos by done.
    apply write64_wr; lia. }
  set (node' := wr (4 + 8 * idx) (le_split 8 v) node) in *.
  assert (Hl : len node' = len node).
  { unfold node'. rewrite len_wr; rewrite ?len_le_split; simpl; lia. }
  assert (Hhdr : rd 0 4 node' = rd 0 4 node).
  { apply rd_hdr_wr; rewrite ?len_le_split; simpl; lia. }
  assert (Hbt : btype node' = btype node).
  { unfold btype. rewrite !slice_Some by lia. simpl. f_equal.
    change (2 - 0) with 2.
    assert (E : forall b : BNode, rd 0 2 b = take 2 (rd 0 4 b)).
    { intros b. unfold rd. simpl. by rewrite take_take. }
    by rewrite !E, Hhdr. }
  assert (Hnk : nkeys node' = nkeys node).
  { unfold nkeys. rewrite !slice_Some by lia. simpl. f_equal.
    change (4 - 2) with 2.
    assert (E : forall b : BNode, rd 2 2 b = drop 2 (rd 0 4 b)).
    { intros b. unfold rd. simpl. by rewrite take_drop_commute. }
    by rewrite !E, Hhdr. }
  exists node'. split; [done|]. split; [done|]. split; [|split; [done|split]].
  - unfold getPtr. rewrite Hnk, Hn. simpl. ztrue. simpl. rewrite Hpos by done.
    rewrite read64_rd by lia. f_equal.
    change 8 with (len (le_split 8 v)) at 2.
    unfold node'. rewrite rd_wr_same by (rewrite ?len_le_split; simpl; lia).
    apply le_combine_le_split_small. simpl. lia.
  - by rewrite Hnk.
  - intros j Hj Hne. unfold getPtr. rewrite Hnk, Hn. simpl. ztrue. simpl.
    rewrite Hpos by done. apply read64_same; [lia|done|].
    intros Hin. unfold node'. apply rd_wr_disj; rewrite ?len_le_split; simpl; lia.
Qed.

Lemma setPtr_getPtr_witness :
  nkeys sample_inner = Some 2 /\
  0 <= 1 < 2 /\
  4 + 8 * 2 <= 65536 /\
  4 + 8 * 1 + 8 <= len sample_inner /\
  0 <= 7 < 2 ^ 64 /\
  exists node',
    setPtr sample_inner 1 7 = Some node' /\
    len node' = len sample_inner /\
    getPtr node' 1 = Some 7 /\
    btype node' = btype sample_inner /\ nkeys node' = Some 2 /\
    forall j, 0 <= j < 2 -> j <> 1 -> getPtr node' j = getPtr sample_inner j.
Proof.
  split; [by vm_compute|]. split; [lia|]. split; [lia|].
  split; [by vm_compute|]. split; [lia|].
  apply (setPtr_getPtr sample_inner 2 1 7); try lia; by vm_compute.
Defined.

(** X3.  A buffer of fewer than four bytes has no header: [nkeys] panics on
    it, and so does every function of the codec that reads the count,
    [setHeader] included. *)
Theorem short_buffer_faults (node : BNode) :
  len node < 4 ->
  nkeys node = None /\ nbytes node = None /\
  (forall bt n, setHeader node bt n = None) /\
  (forall idx, getPtr node idx = None /\ getKey node idx = None /\
               getVal node idx = None /\ kvPos node idx = None) /\
  (forall idx v, setPtr node idx v = None) /\
  (forall idx ptr key val, nodeAppendKV node idx ptr key val = None) /\
  (forall key, nodeLookupLE node key = None) /\
  nodeSplit3 node = None.
Proof.
  intros H. pose proof (nkeys_short node H) as Hn.
  assert (Hb : nbytes node = None) by (unfold nbytes; by rewrite Hn).
  split_and!; try done.
  - intros. by apply setHeader_short.
  - intros idx. unfold getPtr, getKey, getVal, kvPos. by rewrite Hn.
  - intros. unfold setPtr. by rewrite Hn.
  - intros. unfold nodeAppendKV, setPtr. by rewrite Hn.
  - intros. unfold nodeLookupLE. by rewrite Hn.
  - unfold nodeSplit3. by rewrite Hb.
Qed.

Lemma short_buffer_faults_witness :
  len (make 3) < 4 /\
  nkeys (make 3) = None /\ nbytes (make 3) = None /\
  (forall bt n, setHeader (make 3) bt n = None) /\
  (forall idx, getPtr (make 3) idx = None /\ getKey (make 3) idx = None /\
               getVal (make 3) idx = None /\ kvPos (make 3) idx = None) /\
  (forall idx v, setPtr (make 3) idx v = None) /\
  (forall idx ptr key val, nodeAppendKV (make 3) idx ptr key val = None) /\
  (forall key, nodeLookupLE (make 3) key = None) /\
  nodeSplit3 (make 3) = None.
Proof.
  split; [by vm_compute|]. apply (short_buffer_faults (make 3)). by vm_compute.
Defined.

(** ** Building a node and reading it back *)

Lemma appendAll_filled (es : list entry) :
  forall (b : BNode) (bt n : Z) (es0 : list entry),
    filled b bt n es0 ->
    Forall entry_ok es ->
    Z.of_nat (length es0) + Z.of_nat (length es) <= n ->
    4 + 10 * n + offs es0 + offs es <= len b ->
    4 + 10 * n + offs es0 + offs es < 65536 ->
    exists b',
      appendAll b (Z.of_nat (length es0)) es = Some b' /\
      filled b' bt n (es0 ++ es) /\ len b' = len b.
Proof.
  induction es as [|e es IH]; intros b bt n es0 Hf Hok Hn Hsize Hu16.
  - exists b. rewrite app_nil_r. done.
  - apply Forall_cons in Hok as [Hoe Hok].
    pose proof (offs_nonneg es). pose proof (kvsize_pos e).
    cbn [offs length] in *.
    destruct (nodeAppendKV_filled b bt n es0 e) as (b1 & Ha & Hf1 & Hl1);
      [done|lia|done|lia|lia|].
    destruct (IH b1 bt n (es0 ++ [e])) as (b' & Hb' & Hf' & Hl');
      [done|done|rewrite length_app; simpl; lia
      |rewrite offs_app; simpl; lia|rewrite offs_app; simpl; lia|].
    exists b'. cbn [appendAll]. rewrite Ha. simpl.
    rewrite length_app in Hb'. simpl in Hb'.
    replace (Z.of_nat (length es0) + 1) with (Z.of_nat (length es0 + 1)) by lia.
    rewrite Hb'. rewrite <- app_assoc in Hf'. simpl in Hf'.
    split; [done|]. split; [done|lia].
Qed.

Lemma build_holds (size bt : Z) (es : list entry) :
  0 <= bt < 65536 ->
  Forall entry_ok es ->
  node_size es <= size ->
  node_size es < 65536 ->
  exists b, build size bt es = Some b /\ holds b bt es /\ len b = size.
Proof.
  intros Hbt Hok Hsize Hu16. unfold node_size in *.
  pose proof (offs_nonneg es).
  destruct (setHeader_filled (make size) bt (Z.of_nat (length es)))
    as (b0 & Hs & Hf0 & Hl0); [done|lia|rewrite len_make; lia|lia|].
  rewrite len_make in Hl0 by lia.
  destruct (appendAll_filled es b0 bt (Z.of_nat (length es)) []) as (b & Ha & Hf & Hl);
    [done|done|simpl; lia|simpl; lia|simpl; lia|].
  exists b. unfold build. rewrite Hs. change (Z.of_nat (length (@nil entry))) with 0 in Ha.
  cbn [mbind option_bind]. rewrite Ha.
  split; [done|]. split; [done|lia].
Qed.

Lemma holds_reads (b : BNode) (bt : Z) (es : list entry) (i : nat) :
  holds b bt es ->
  getPtr b (Z.of_nat i) = e_ptr <$> es !! i /\
  getKey b (Z.of_nat i) = e_key <$> es !! i /\
  getVal b (Z.of_nat i) = e_val <$> es !! i.
Proof.
  intros Hh. destruct (es !! i) as [e|] eqn:He; simpl.
  - split_and!; [by apply (filled_getPtr Hh)|by apply (filled_getKey Hh)
                |by apply (filled_getVal Hh)].
  - apply lookup_ge_None in He.
    assert (E : (Z.of_nat i <? Z.of_nat (length es)) = false) by lia.
    unfold getPtr, getKey, getVal. rewrite (filled_nkeys Hh). simpl.
    by rewrite E.
Qed.

(** X4.  Encode, then decode.  A node built as the program builds one,
    [setHeader] and then [nodeAppendKV] for each entry in index order, in a
    buffer with room for it, reads back as it was written: the kind, the
    count, [nbytes] as the header plus ten bytes and the kv bytes of each
    entry, and at every index [getPtr], [getKey] and [getVal] return the
    fields of that entry; at an index from the count on they panic. *)
Theorem build_round_trip (size bt : Z) (es : list entry) :
  0 <= bt < 65536 ->
  Forall entry_ok es ->
  node_size es <= size ->
  node_size es < 65536 ->
  exists b,
    build size bt es = Some b /\
    len b = size /\
    btype b = Some bt /\
    nkeys b = Some (Z.of_nat (length es)) /\
    nbytes b = Some (node_size es) /\
    entries b = Some es /\
    forall i : nat,
      getPtr b (Z.of_nat i) = e_ptr <$> es !! i /\
      getKey b (Z.of_nat i) = e_key <$> es !! i /\
      getVal b (Z.of_nat i) = e_val <$> es !! i.
Proof.
  intros Hbt Hok Hsize Hu16.
  destruct (build_holds size bt es) as (b & Hb & Hh & Hl); [done..|].
  exists b. split_and!; try done.
  - apply (filled_btype Hh).
  - apply (filled_nkeys Hh).
  - by apply (holds_nbytes _ bt).
  - by apply (holds_entries _ bt).
  - intros i. by apply (holds_reads b bt).
Qed.

Lemma sample_entries_ok : Forall entry_ok sample_entries.
Proof.
  repeat (apply List.Forall_cons; [by vm_compute|]). apply List.Forall_nil.
Qed.

Lemma build_round_trip_witness :
  0 <= BNODE_LEAF < 65536 /\
  Forall entry_ok sample_entries /\
  node_size sample_entries <= 64 /\
  node_size sample_entries < 65536 /\
  exists b,
    build 64 BNODE_LEAF sample_entries = Some b /\
    len b = 64 /\
    btype b = Some BNODE_LEAF /\
    nkeys b = Some (Z.of_nat (length sample_entries)) /\
    nbytes b = Some (node_size sample_entries) /\
    entries b = Some sample_entries /\
    forall i : nat,
      getPtr b (Z.of_nat i) = e_ptr <$> sample_entries !! i /\
      getKey b (Z.of_nat i) = e_key <$> sample_entries !! i /\
      getVal b (Z.of_nat i) = e_val <$> sample_entries !! i.
Proof.
  split; [by vm_compute|]. split; [exact sample_entries_ok|].
  split; [by vm_compute|]. split; [by vm_compute|].
  apply (build_round_trip 64 BNODE_LEAF sample_entries);
    [by vm_compute|exact sample_entries_ok|by vm_compute|by vm_compute].
Defined.

(** ** Copying a range of entries *)

(** X5.  [nodeAppendRange new old dst src n], with [new] written up to
    slot [dst] and room for the entries: the result is [new] with the [n]
    entries of [old] from index [src] on appended, in order; the entries
    [new] had and the header are kept, and [old] is only read. *)
Theorem nodeAppendRange_copies (new old : BNode) (bt_o bt n : Z)
    (es_o es_n : list entry) (src cnt : nat) :
  holds old bt_o es_o ->
  filled new bt n es_n ->
  (src + cnt <= length es_o)%nat ->
  Z.of_nat (length es_n) + Z.of_nat cnt <= n ->
  4 + 10 * n + offs es_n + offs (take cnt (drop src es_o)) <= len new ->
  4 + 10 * n + offs es_n + offs (take cnt (drop src es_o)) < 65536 ->
  exists new',
    nodeAppendRange new old (Z.of_nat (length es_n)) (Z.of_nat src) (Z.of_nat cnt)
      = Some new' /\
    len new' = len new /\
    btype new' = Some bt /\ nkeys new' = Some n /\
    filled new' bt n (es_n ++ take cnt (drop src es_o)) /\
    (forall (i : nat) (e : entry), es_n !! i = Some e ->
       getEntry new' (Z.of_nat i) = Some e) /\
    (forall (i : nat) (e : entry), (i < cnt)%nat -> es_o !! (src + i)%nat = Some e ->
       getEntry new' (Z.of_nat (length es_n + i)) = Some e).
Proof.
  intros Hold Hnew Hsrc Hn Hsize Hu16.
  destruct (nodeAppendRange_filled old bt_o es_o new bt n es_n src cnt)
    as (new' & Hr & Hf & Hl); [done..|].
  exists new'. split_and!; try done.
  - apply (filled_btype Hf).
  - apply (filled_nkeys Hf).
  - intros i e Hi. apply (filled_getEntry Hf).
    by apply lookup_app_l_Some.
  - intros i e Hi He. apply (filled_getEntry Hf).
    rewrite lookup_app_r by lia.
    replace (length es_n + i - length es_n)%nat with i by lia.
    rewrite lookup_take_lt by lia. by rewrite lookup_drop.
Qed.

Lemma nodeAppendRange_copies_witness :
  holds sample_leaf BNODE_LEAF sample_entries /\
  filled partial_leaf BNODE_LEAF 2 [mkEntry 0 [] []] /\
  (1 + 1 <= length sample_entries)%nat /\
  Z.of_nat (length [mkEntry 0 [] []]) + Z.of_nat 1 <= 2 /\
  4 + 10 * 2 + offs [mkEntry 0 [] []] + offs (take 1 (drop 1 sample_entries))
    <= len partial_leaf /\
  4 + 10 * 2 + offs [mkEntry 0 [] []] + offs (take 1 (drop 1 sample_entries))
    < 65536 /\
  exists new',
    nodeAppendRange partial_leaf sample_leaf
      (Z.of_nat (length [mkEntry 0 [] []])) (Z.of_nat 1) (Z.of_nat 1) = Some new' /\
    len new' = len partial_leaf /\
    btype new' = Some BNODE_LEAF /\ nkeys new' = Some 2 /\
    filled new' BNODE_LEAF 2 ([mkEntry 0 [] []] ++ take 1 (drop 1 sample_entries)) /\
    (forall (i : nat) (e : entry), [mkEntry 0 [] []] !! i = Some e ->
       getEntry new' (Z.of_nat i) = Some e) /\
    (forall (i : nat) (e : entry), (i < 1)%nat ->
       sample_entries !! (1 + i)%nat = Some e ->
       getEntry new' (Z.of_nat (length [mkEntry 0 [] []] + i)) = Some e).
Proof.
  assert (H1 : holds sample_leaf BNODE_LEAF sample_entries) by exact sample_leaf_holds.
  assert (H2 : filled partial_leaf BNODE_LEAF 2 [mkEntry 0 [] []])
    by filled_by_evaluation.
  assert (H3 : (1 + 1 <= length sample_entries)%nat) by (simpl; lia).
  assert (H4 : Z.of_nat (length [mkEntry 0 [] []]) + Z.of_nat 1 <= 2) by (simpl; lia).
  assert (H5 : 4 + 10 * 2 + offs [mkEntry 0 [] []]
               + offs (take 1 (drop 1 sample_entries)) <= len partial_leaf)
    by closed_fact.
  assert (H6 : 4 + 10 * 2 + offs [mkEntry 0 [] []]
               + offs (take 1 (drop 1 sample_entries)) < 65536)
    by closed_fact.
  repeat (split; [assumption|]).
  exact (nodeAppendRange_copies partial_leaf sample_leaf BNODE_LEAF BNODE_LEAF 2
           sample_entries [mkEntry 0 [] []] 1 1 H1 H2 H3 H4 H5 H6).
Defined.

(** ** The scan of [nodeLookupLE] on any node *)

Lemma nodeLookupLE_loop_scan (node : BNode) (keys : list (list byte))
    (key : list byte) :
  node_keys node keys ->
  forall (fuel i : nat),
    (i + fuel = length keys)%nat ->
    (forall j kj, (j < i)%nat -> keys !! j = Some kj -> Compare kj key = Lt) ->
    exists s : nat,
      (s <= length keys)%nat /\
      (forall j kj, (j < s)%nat -> keys !! j = Some kj -> Compare kj key = Lt) /\
      match keys !! s with
      | Some ks =>
          match Compare ks key with
          | Eq => nodeLookupLE_loop fuel node key (Z.of_nat i) = Some (Z.of_nat s)
          | Gt => nodeLookupLE_loop fuel node key (Z.of_nat i)
                  = Some (sub16 (Z.of_nat s) 1)
          | Lt => False
          end
      | None => nodeLookupLE_loop fuel node key (Z.of_nat i)
                = Some (sub16 (Z.of_nat (length keys)) 1)
      end.
Proof.
  intros (Hn & Hu16 & Hk). induction fuel as [|fuel IH]; intros i Hi Hlt.
  - exists i. split; [lia|]. split; [done|].
    rewrite lookup_ge_None_2 by lia. simpl. do 3 f_equal. lia.
  - destruct (lookup_lt_is_Some_2 keys i) as [ki Hki]; [lia|].
    cbn [nodeLookupLE_loop]. rewrite (Hk i ki Hki). cbn [mbind option_bind].
    destruct (Compare ki key) eqn:Hc.
    + exists i. split; [lia|]. split; [done|]. by rewrite Hki, Hc.
    + replace (add16 (Z.of_nat i) 1) with (Z.of_nat (S i)) by (u16; zlia).
      apply IH; [lia|]. intros j kj Hj Hkj.
      destruct (decide (j = i)) as [->|]; [|apply (Hlt j); [lia|done]].
      rewrite Hki in Hkj. by injection Hkj as <-.
    + exists i. split; [lia|]. split; [done|]. by rewrite Hki, Hc.
Qed.

(** X6.  On any node, in key order or not, [nodeLookupLE] stops at the
    first index [s] whose key is not below the search key: it returns [s]
    if that key equals the search key, and [s - 1] in uint16 arithmetic if
    it is greater (65535 for [s = 0]); if every key is below the search key
    it returns [nkeys - 1] in uint16 arithmetic (65535 on a node without
    entries). *)
Theorem nodeLookupLE_scan (node : BNode) (keys : list (list byte))
    (key : list byte) :
  node_keys node keys ->
  exists s : nat,
    (s <= length keys)%nat /\
    (forall j kj, (j < s)%nat -> keys !! j = Some kj -> Compare kj key = Lt) /\
    match keys !! s with
    | Some ks =>
        match Compare ks key with
        | Eq => nodeLookupLE node key = Some (Z.of_nat s)
        | Gt => nodeLookupLE node key = Some (sub16 (Z.of_nat s) 1)
        | Lt => False
        end
    | None => nodeLookupLE node key = Some (sub16 (Z.of_nat (length keys)) 1)
    end.
Proof.
  intros Hkeys. pose proof Hkeys as (Hn & Hu16 & Hk).
  unfold nodeLookupLE. rewrite Hn. cbn [mbind option_bind].
  rewrite Nat2Z.id.
  apply (nodeLookupLE_loop_scan node keys key Hkeys (length keys) 0%nat); [lia|].
  intros j kj Hj. lia.
Qed.

Lemma nodeLookupLE_scan_witness :
  node_keys unsorted_leaf [key_b; key_a; key_c] /\
  exists s : nat,
    (s <= length [key_b; key_a; key_c])%nat /\
    (forall j kj, (j < s)%nat -> [key_b; key_a; key_c] !! j = Some kj ->
                  Compare kj key_c = Lt) /\
    match [key_b; key_a; key_c] !! s with
    | Some ks =>
        match Compare ks key_c with
        | Eq => nodeLookupLE unsorted_leaf key_c = Some (Z.of_nat s)
        | Gt => nodeLookupLE unsorted_leaf key_c = Some (sub16 (Z.of_nat s) 1)
        | Lt => False
        end
    | None => nodeLookupLE unsorted_leaf key_c
              = Some (sub16 (Z.of_nat (length [key_b; key_a; key_c])) 1)
    end.
Proof.
  split; [exact unsorted_leaf_keys|].
  exact (nodeLookupLE_scan unsorted_leaf [key_b; key_a; key_c] key_c
           unsorted_leaf_keys).
Defined.

(** ** The two halves of [nodeSplit2] *)

Lemma first_last_fit (es : list entry) :
  Forall entry_fits es -> (2 <= length es)%nat ->
  node_size (take 1 es) <= BTREE_PAGE_SIZE /\
  node_size (drop (length es - 1) es) <= BTREE_PAGE_SIZE.
Proof.
  intros Hfits Hn. destruct es as [|e1 es]; [simpl in Hn; lia|]. split.
  - apply Forall_cons in Hfits as [Hf _]. exact Hf.
  - assert (is_Some ((e1 :: es) !! (length (e1 :: es) - 1)%nat))
      as [e He] by (apply lookup_lt_is_Some; simpl; lia).
    rewrite (drop_S _ _ _ He), drop_ge by lia.
    rewrite Forall_lookup in Hfits. apply (Hfits _ _ He).
Qed.

(** X7.  [nodeSplit2] on a node of at least two entries, each of which
    fits a page alone, with room in [left] for the whole node and a page
    for [right]: it returns; [left] gets the first [k] entries and [right]
    the others, in order and of the kind of [old], for a [k] that leaves
    neither half empty; [right] fits a page, and [left] fits a page unless
    [right] with one more entry would not. *)
Theorem nodeSplit2_halves (old : BNode) (bt : Z) (es : list entry)
    (left right : BNode) :
  holds old bt es ->
  (2 <= length es)%nat ->
  Forall entry_fits es ->
  node_size es <= len left ->
  BTREE_PAGE_SIZE <= len right ->
  exists (k : nat) (l' r' : BNode),
    nodeSplit2 left right old = Some (l', r') /\
    (1 <= k < length es)%nat /\
    holds l' bt (take k es) /\ holds r' bt (drop k es) /\
    len l' = len left /\ len r' = len right /\
    node_size (drop k es) <= BTREE_PAGE_SIZE /\
    (node_size (take k es) <= BTREE_PAGE_SIZE \/
     BTREE_PAGE_SIZE < node_size (drop (k - 1) es)).
Proof.
  intros Hold Hn Hfits Hleft Hright.
  destruct (first_last_fit es Hfits Hn) as [Hfirst Hlast].
  destruct (split_point_spec es Hn Hfirst Hlast) as (Hk & Hr & Hl).
  pose proof (@node_size_take_le es (split_point es)).
  destruct (nodeSplit2_holds old bt es left right) as (l' & r' & Hs & Hhl & Hhr & Hll & Hlr);
    [done|done|done|done|lia|lia|].
  exists (split_point es), l', r'. split_and!; try done; lia.
Qed.

Lemma nodeSplit2_halves_witness :
  holds wide_node BNODE_LEAF wide_entries /\
  (2 <= length wide_entries)%nat /\
  Forall entry_fits wide_entries /\
  node_size wide_entries <= len (make (2 * BTREE_PAGE_SIZE)) /\
  BTREE_PAGE_SIZE <= len (make BTREE_PAGE_SIZE) /\
  exists (k : nat) (l' r' : BNode),
    nodeSplit2 (make (2 * BTREE_PAGE_SIZE)) (make BTREE_PAGE_SIZE) wide_node
      = Some (l', r') /\
    (1 <= k < length wide_entries)%nat /\
    holds l' BNODE_LEAF (take k wide_entries) /\
    holds r' BNODE_LEAF (drop k wide_entries) /\
    len l' = len (make (2 * BTREE_PAGE_SIZE)) /\
    len r' = len (make BTREE_PAGE_SIZE) /\
    node_size (drop k wide_entries) <= BTREE_PAGE_SIZE /\
    (node_size (take k wide_entries) <= BTREE_PAGE_SIZE \/
     BTREE_PAGE_SIZE < node_size (drop (k - 1) wide_entries)).
Proof.
  assert (H1 : holds wide_node BNODE_LEAF wide_entries) by exact wide_node_holds.
  assert (H2 : (2 <= length wide_entries)%nat) by (simpl; lia).
  assert (H3 : Forall entry_fits wide_entries).
  { eapply Forall_impl; [exact wide_entries_within_limits|].
    apply entry_within_limits_fits. }
  assert (H4 : node_size wide_entries <= len (make (2 * BTREE_PAGE_SIZE)))
    by closed_fact.
  assert (H5 : BTREE_PAGE_SIZE <= len (make BTREE_PAGE_SIZE)) by closed_fact.
  repeat (split; [assumption|]).
  exact (nodeSplit2_halves wide_node BNODE_LEAF wide_entries
           (make (2 * BTREE_PAGE_SIZE)) (make BTREE_PAGE_SIZE) H1 H2 H3 H4 H5).
Defined.

(** * Contents in key order *)

Lemma Compare_le_trans (a b c : list byte) :
  Compare a b = Lt -> Compare b c <> Gt -> Compare a c = Lt.
Proof.
  intros Hab Hbc. destruct (Compare b c) eqn:E; [| |done].
  - apply Compare_eq in E. by subst.
  - by apply (Compare_trans a b c).
Qed.

Lemma Compare_nil_le (k : list byte) : Compare [] k <> Gt.
Proof. by destruct k. Qed.

Lemma Compare_gt_nil (k : list byte) : 0 < len k -> Compare k [] = Gt.
Proof. destruct k; [unfold len; simpl; lia|done]. Qed.

Lemma Equal_true (a b : list byte) : Equal a b = true <-> a = b.
Proof.
  unfold Equal. split.
  - destruct (Compare a b) eqn:E; [|done..]. intros _. by apply Compare_eq.
  - intros ->. by rewrite Compare_refl.
Qed.

Lemma sorted_app (l1 l2 : list entry) :
  sorted (l1 ++ l2) <->
  sorted l1 /\ sorted l2 /\
  Forall (fun a => Forall (fun b => Compare (e_key a) (e_key b) = Lt) l2) l1.
Proof.
  induction l1 as [|a l1 IH]; simpl.
  - split; [intros; split_and!; done|]. by intros (_ & ? & _).
  - rewrite Forall_app, IH, Forall_cons. tauto.
Qed.

Lemma sorted_lookup (es : list entry) (i j : nat) (a b : entry) :
  sorted es -> (i < j)%nat -> es !! i = Some a -> es !! j = Some b ->
  Compare (e_key a) (e_key b) = Lt.
Proof.
  revert i j. induction es as [|e es IH]; intros i j Hs Hij Ha Hb; [done|].
  destruct Hs as [Hall Hs]. destruct j as [|j]; [lia|]. simpl in Hb.
  destruct i as [|i]; simpl in Ha.
  - injection Ha as <-. rewrite Forall_lookup in Hall. by apply (Hall j).
  - apply (IH i j); (done || lia).
Qed.

Lemma sorted_ascending (es : list entry) :
  sorted es -> ascending_from 0 (e_key <$> es).
Proof.
  intros Hs i j ki kj Hij Hi Hj.
  rewrite list_lookup_fmap in Hi, Hj.
  destruct (es !! i) as [a|] eqn:Ha; [|done].
  destruct (es !! j) as [b|] eqn:Hb; [|done].
  injection Hi as <-. injection Hj as <-.
  apply (sorted_lookup es i j); (done || lia).
Qed.

Lemma upsert_pre (key val : list byte) (pre rest : list entry) :
  Forall (fun e => Compare (e_key e) key = Lt) pre ->
  upsert key val (pre ++ rest) = pre ++ upsert key val rest.
Proof.
  induction pre as [|e pre IH]; intros Hall; [done|].
  apply Forall_cons in Hall as [He Hall]. simpl.
  apply Compare_lt_gt in He. rewrite He. by rewrite IH.
Qed.

Lemma upsert_post (key val : list byte) (ces post : list entry) :
  (forall e, head post = Some e -> Compare key (e_key e) = Lt) ->
  upsert key val (ces ++ post) = upsert key val ces ++ post.
Proof.
  intros Hpost. induction ces as [|e ces IH]; simpl.
  - destruct post as [|p post]; [done|]. simpl. by rewrite (Hpost p).
  - destruct (Compare key (e_key e)); [done..|]. by rewrite IH.
Qed.

Lemma upsert_at (key val : list byte) (es : list entry) (r : nat) (e : entry) :
  sorted es ->
  es !! r = Some e ->
  Compare (e_key e) key <> Gt ->
  (forall j ej, (r < j)%nat -> es !! j = Some ej -> Compare (e_key ej) key = Gt) ->
  upsert key val es
  = if Equal key (e_key e) then <[r := mkEntry 0 key val]> es
    else take (S r) es ++ mkEntry 0 key val :: drop (S r) es.
Proof.
  intros Hs He Hle Hgt.
  assert (Hr : (r < length es)%nat) by (by apply lookup_lt_Some in He).
  assert (Hpre : Forall (fun a => Compare (e_key a) key = Lt) (take r es)).
  { apply Forall_lookup. intros i a Ha.
    assert (Hi : (i < r)%nat).
    { apply lookup_lt_Some in Ha. rewrite length_take in Ha. lia. }
    rewrite lookup_take_lt in Ha by done.
    apply (Compare_le_trans _ (e_key e)); [|done].
    apply (sorted_lookup es i r); done. }
  assert (Hpost : forall p, head (drop (S r) es) = Some p ->
                            Compare key (e_key p) = Lt).
  { intros p Hp. rewrite head_lookup, lookup_drop in Hp.
    apply Compare_lt_gt. apply (Hgt (S r + 0)%nat); [lia|done]. }
  rewrite <- (take_drop r es) at 1. rewrite upsert_pre by done.
  rewrite (drop_S _ _ _ He). cbn [upsert].
  rewrite (Compare_antisym (e_key e) key).
  unfold Equal. rewrite (Compare_antisym (e_key e) key).
  destruct (Compare (e_key e) key) eqn:Hc; simpl; [| |done].
  - rewrite insert_take_drop by done. done.
  - rewrite (take_S_r _ _ _ He), <- app_assoc. simpl. do 2 f_equal.
    destruct (drop (S r) es) as [|p post] eqn:Hd; [done|].
    simpl. by rewrite (Hpost p).
Qed.

Lemma upsert_first_key (key val : list byte) (es : list entry) (k0 : list byte) :
  first_key es = Some k0 -> Compare k0 key <> Gt ->
  first_key (upsert key val es) = Some k0.
Proof.
  destruct es as [|e es]; [done|]. intros [= <-] Hle. simpl.
  rewrite (Compare_antisym (e_key e) key).
  destruct (Compare (e_key e) key) eqn:Hc; simpl; [| |done].
  - apply Compare_eq in Hc. by rewrite Hc.
  - done.
Qed.

Lemma upsert_limits (key val : list byte) (es : list entry) :
  len key <= BTREE_MAX_KEY_SIZE -> len val <= BTREE_MAX_VAL_SIZE ->
  Forall entry_within_limits es ->
  Forall entry_within_limits (upsert key val es).
Proof.
  intros Hk Hv Hall.
  assert (Hnew : entry_within_limits (mkEntry 0 key val)).
  { unfold entry_within_limits. simpl. lia. }
  induction es as [|e es IH]; simpl.
  - by constructor.
  - apply Forall_cons in Hall as [He Hall].
    destruct (Compare key (e_key e)).
    + by apply List.Forall_cons.
    + apply List.Forall_cons; [done|]. by apply List.Forall_cons.
    + apply List.Forall_cons; [done|]. by apply IH.
Qed.

Lemma upsert_sorted (key val : list byte) (es : list entry) :
  sorted es -> sorted (upsert key val es).
Proof.
  induction es as [|e es IH]; intros Hs; simpl.
  - done.
  - destruct Hs as [Hall Hs].
    destruct (Compare key (e_key e)) eqn:Hc.
    + apply Compare_eq in Hc. subst key. simpl. done.
    + simpl. split; [|done]. constructor; [done|].
      eapply Forall_impl; [exact Hall|]. simpl. intros b Hb.
      by apply (Compare_trans _ (e_key e)).
    + simpl. split; [|by apply IH].
      apply Compare_lt_gt in Hc.
      clear IH Hs. induction es as [|a es IH]; simpl.
      * by constructor.
      * apply Forall_cons in Hall as [Ha Hall].
        destruct (Compare key (e_key a)).
        -- by apply List.Forall_cons.
        -- apply List.Forall_cons; [done|]. by apply List.Forall_cons.
        -- apply List.Forall_cons; [done|]. by apply IH.
Qed.

Lemma upsert_nonempty (key val : list byte) (es : list entry) :
  upsert key val es <> [].
Proof. destruct es as [|e es]; simpl; [done|]. by destruct (Compare key (e_key e)). Qed.


(** * Pages as a tree *)

Section Rep.

Context {Host : Type}.
Variable host_get : Host -> Z -> option BNode.

Local Abbreviation kids_ := (kids host_get).
Local Abbreviation node_rep_ := (node_rep host_get).
Local Abbreviation page_rep_ := (page_rep host_get).

Lemma kids_frame (h h' : Host) (child child' : BNode -> list entry -> gset Z -> Prop)
    (ies es : list entry) (ps : gset Z) :
  (forall p, p ∈ ps -> host_get h' p = host_get h p) ->
  (forall page ces cps, cps ⊆ ps -> child page ces cps -> child' page ces cps) ->
  kids_ h child ies es ps -> kids_ h' child' ies es ps.
Proof.
  intros Hget Hch Hk. induction Hk as [|ie ies page ces cps es ps es' ps' Hp Hc Hfk Hv Hr H1 H2 H3 Hk IH -> ->].
  - constructor.
  - eapply (kids_cons _ _ _ ie ies page ces cps es ps); try done.
    + rewrite Hget; [done|set_solver].
    + apply Hch; [set_solver|done].
    + apply IH.
      * intros p Hin. apply Hget. set_solver.
      * intros pg c cp Hsub. apply Hch. set_solver.
Qed.

Lemma kids_readable (h : Host) child (ies es : list entry) (ps : gset Z) :
  (forall page ces cps, child page ces cps ->
     forall p, p ∈ cps -> is_Some (host_get h p)) ->
  kids_ h child ies es ps ->
  forall p, p ∈ ps -> is_Some (host_get h p).
Proof.
  intros Hch Hk. induction Hk as [|ie ies page ces cps es ps es' ps' Hp Hc Hfk Hv Hr H1 H2 H3 Hk IH -> ->];
    intros p Hin.
  - set_solver.
  - apply elem_of_union in Hin as [Hin|Hin]; [|by apply IH].
    apply elem_of_union in Hin as [Hin|Hin]; [|by apply (Hch _ _ _ Hc)].
    apply elem_of_singleton in Hin. subst p. by rewrite Hp.
Qed.

Lemma kids_app (h : Host) child (l1 l2 es1 es2 : list entry) (ps1 ps2 : gset Z) :
  kids_ h child l1 es1 ps1 -> kids_ h child l2 es2 ps2 -> ps1 ## ps2 ->
  kids_ h child (l1 ++ l2) (es1 ++ es2) (ps1 ∪ ps2).
Proof.
  intros Hk1 Hk2. induction Hk1 as [|ie ies page ces cps es ps es' ps' Hp Hc Hfk Hv Hr H1 H2 H3 Hk IH -> ->];
    intros Hd.
  - simpl. by replace (∅ ∪ ps2) with ps2 by set_solver.
  - simpl. eapply (kids_cons _ _ _ ie (ies ++ l2) page ces cps (es ++ es2) (ps ∪ ps2)); try done.
    + set_solver.
    + set_solver.
    + apply IH. set_solver.
    + by rewrite app_assoc.
    + set_solver.
Qed.

Lemma kids_cons_inv (h : Host) child (ie : entry) (ies es' : list entry) (ps' : gset Z) :
  kids_ h child (ie :: ies) es' ps' ->
  exists page ces cps es ps,
    host_get h (e_ptr ie) = Some page /\ child page ces cps /\
    first_key ces = Some (e_key ie) /\ e_val ie = [] /\
    0 <= e_ptr ie < 2 ^ 64 /\
    (e_ptr ie ∉ cps) /\ (e_ptr ie ∉ ps) /\ (cps ## ps) /\
    kids_ h child ies es ps /\
    es' = ces ++ es /\ ps' = {[e_ptr ie]} ∪ cps ∪ ps.
Proof.
  intros Hk. inversion Hk; subst.
  match goal with H : 0 <= _ < _ |- _ => destruct H end.
  eexists page, ces, cps, es, ps. split_and!; done.
Qed.

Lemma kids_app_inv (h : Host) child (l1 l2 es : list entry) (ps : gset Z) :
  kids_ h child (l1 ++ l2) es ps ->
  exists es1 es2 ps1 ps2,
    es = es1 ++ es2 /\ ps = ps1 ∪ ps2 /\ ps1 ## ps2 /\
    kids_ h child l1 es1 ps1 /\ kids_ h child l2 es2 ps2.
Proof.
  revert es ps. induction l1 as [|ie l1 IH]; intros es ps Hk.
  - exists [], es, ∅, ps.
    split; [done|]. split; [by rewrite (left_id_L ∅ (∪))|].
    split; [apply disjoint_empty_l|]. split; [constructor|done].
  - simpl in Hk. apply kids_cons_inv in Hk
      as (page & ces & cps & es0 & ps0 & Hp & Hc & Hfk & Hv & Hr & H1 & H2 & H3 & Hk' & -> & ->).
    destruct (IH _ _ Hk') as (es1 & es2 & ps1 & ps2 & He1 & Hp1 & Hd & Hk1 & Hk2).
    subst es0 ps0.
    exists (ces ++ es1), es2, ({[e_ptr ie]} ∪ cps ∪ ps1), ps2.
    split_and!.
    + by rewrite app_assoc.
    + set_solver.
    + set_solver.
    + eapply (kids_cons _ _ _ ie l1 page ces cps es1 ps1); try done; set_solver.
    + done.
Qed.

Lemma kids_first_key (h : Host) child (ies es : list entry) (ps : gset Z) :
  kids_ h child ies es ps -> first_key es = first_key ies.
Proof.
  intros Hk. destruct Hk as [|ie ies page ces cps es ps es' ps' Hp Hc Hfk Hv Hr H1 H2 H3 Hk -> ->]; [done|].
  destruct ces as [|c ces]; [done|]. done.
Qed.

Lemma kids_length (h : Host) child (ies es : list entry) (ps : gset Z) :
  kids_ h child ies es ps -> (length ies <= length es)%nat.
Proof.
  intros Hk. induction Hk as [|ie ies page ces cps es ps es' ps' Hp Hc Hfk Hv Hr H1 H2 H3 Hk IH -> ->]; [done|].
  destruct ces as [|c ces]; [done|]. rewrite length_app. simpl. lia.
Qed.

(** Every entry of an inner node has the key of an entry of the contents. *)
Lemma kids_keys (h : Host) child (ies es : list entry) (ps : gset Z) :
  kids_ h child ies es ps ->
  Forall (fun ie => e_val ie = [] /\ 0 <= e_ptr ie < 2 ^ 64 /\
                    exists e, e ∈ es /\ e_key e = e_key ie) ies.
Proof.
  intros Hk. induction Hk as [|ie ies page ces cps es ps es' ps' Hp Hc Hfk Hv Hr H1 H2 H3 Hk IH -> ->]; [constructor|].
  apply List.Forall_cons.
  - split; [done|]. split; [done|]. destruct ces as [|c ces]; [done|].
    exists c. split; [set_solver|]. by injection Hfk.
  - eapply Forall_impl; [exact IH|]. simpl. intros a (? & ? & e & He & Hke).
    split; [done|]. split; [done|]. exists e. split; [set_solver|done].
Qed.

Lemma kids_sorted (h : Host) child (ies es : list entry) (ps : gset Z) :
  kids_ h child ies es ps -> sorted es -> sorted ies.
Proof.
  intros Hk. induction Hk as [|ie ies page ces cps es ps es' ps' Hp Hc Hfk Hv Hr H1 H2 H3 Hk IH -> ->];
    intros Hs; [done|].
  apply sorted_app in Hs as (Hs1 & Hs2 & Hlt). simpl. split; [|by apply IH].
  destruct ces as [|c ces]; [done|]. injection Hfk as Hfk.
  apply Forall_cons in Hlt as [Hc0 _].
  pose proof (kids_keys _ _ _ _ _ Hk) as Hkeys.
  eapply Forall_impl; [exact Hkeys|]. simpl. intros a (_ & _ & e & He & Hke).
  rewrite <- Hfk, <- Hke. rewrite Forall_forall in Hc0. by apply Hc0.
Qed.

Lemma kids_limits (h : Host) child (ies es : list entry) (ps : gset Z) :
  kids_ h child ies es ps -> Forall entry_within_limits es ->
  Forall entry_within_limits ies.
Proof.
  intros Hk Hlim. pose proof (kids_keys _ _ _ _ _ Hk) as Hkeys.
  eapply Forall_impl; [exact Hkeys|]. simpl. intros a (Hv & Hp & e & He & Hke).
  rewrite Forall_forall in Hlim. destruct (Hlim e He) as (_ & Hk1 & _).
  unfold entry_within_limits. rewrite Hv, <- Hke.
  split; [done|]. split; [done|]. rewrite len_nil. unfold BTREE_MAX_VAL_SIZE. lia.
Qed.

(** ** [node_rep] *)

Lemma node_rep_frame (h h' : Host) (d : nat) :
  forall (ies es : list entry) (ps : gset Z),
    (forall p, p ∈ ps -> host_get h' p = host_get h p) ->
    node_rep_ h d ies es ps -> node_rep_ h' d ies es ps.
Proof.
  induction d as [|d IH]; intros ies es ps Hget Hr; [done|].
  simpl in *. eapply kids_frame; [exact Hget| |exact Hr].
  intros page ces cps Hsub (cies & Hh & Hsz & Hne & Hrep).
  exists cies. split_and!; try done. apply IH; [|done].
  intros p Hin. apply Hget. set_solver.
Qed.

Lemma node_rep_readable (h : Host) (d : nat) :
  forall (ies es : list entry) (ps : gset Z),
    node_rep_ h d ies es ps -> forall p, p ∈ ps -> is_Some (host_get h p).
Proof.
  induction d as [|d IH]; intros ies es ps Hr p Hin.
  - destruct Hr as [_ ->]. set_solver.
  - simpl in Hr. eapply kids_readable; [|exact Hr|exact Hin].
    intros page ces cps (cies & _ & _ & _ & Hrep). by apply (IH cies ces).
Qed.

Lemma node_rep_first_key (h : Host) (d : nat) (ies es : list entry) (ps : gset Z) :
  node_rep_ h d ies es ps -> first_key es = first_key ies.
Proof.
  destruct d as [|d]; simpl.
  - by intros [-> _].
  - apply kids_first_key.
Qed.

Lemma node_rep_limits (h : Host) (d : nat) (ies es : list entry) (ps : gset Z) :
  node_rep_ h d ies es ps -> Forall entry_within_limits es ->
  Forall entry_within_limits ies.
Proof.
  destruct d as [|d]; simpl.
  - by intros [-> _].
  - apply kids_limits.
Qed.

Lemma node_rep_sorted (h : Host) (d : nat) (ies es : list entry) (ps : gset Z) :
  node_rep_ h d ies es ps -> sorted es -> sorted ies.
Proof.
  destruct d as [|d]; simpl.
  - by intros [-> _].
  - apply kids_sorted.
Qed.

Lemma node_rep_app_inv (h : Host) (d : nat) (l1 l2 es : list entry) (ps : gset Z) :
  node_rep_ h d (l1 ++ l2) es ps ->
  exists es1 es2 ps1 ps2,
    es = es1 ++ es2 /\ ps = ps1 ∪ ps2 /\ ps1 ## ps2 /\
    node_rep_ h d l1 es1 ps1 /\ node_rep_ h d l2 es2 ps2.
Proof.
  destruct d as [|d]; simpl.
  - intros [-> ->]. exists l1, l2, ∅, ∅. split_and!; try done; set_solver.
  - apply kids_app_inv.
Qed.

End Rep.

(** * Allocation and the entries of an inner node *)

Section Alloc.

Context {Host : Type}.
Variable host_get : Host -> Z -> option BNode.
Variable host_new : Host -> BNode -> Z * Host.
Variable host_del : Host -> Z -> Host.
Variable room : nat -> Host -> Prop.
Hypothesis Hlaw : lawful_host host_get host_new host_del room.

Local Abbreviation alloc_all_ := (alloc_all host_new).

Lemma alloc_all_length (pages : list BNode) (h : Host) :
  length (alloc_all_ h pages).1 = length pages.
Proof. revert h. induction pages as [|p pages IH]; intros h; simpl; [done|]. by rewrite IH. Qed.

Lemma room_weaken (n m : nat) (h : Host) : room (n + m) h -> room n h.
Proof.
  induction m as [|m IH]; intros Hr.
  - by rewrite Nat.add_0_r in Hr.
  - apply IH. apply (room_le _ _ _ _ Hlaw). by rewrite Nat.add_succ_r in Hr.
Qed.

Lemma alloc_all_spec (pages : list BNode) :
  forall (h : Host) (n : nat),
    room (n + length pages) h ->
    room n (alloc_all_ h pages).2 /\
    (forall p x, host_get h p = Some x -> host_get (alloc_all_ h pages).2 p = Some x) /\
    (forall (i : nat) q page, (alloc_all_ h pages).1 !! i = Some q ->
       pages !! i = Some page -> host_get (alloc_all_ h pages).2 q = Some page) /\
    NoDup (alloc_all_ h pages).1 /\
    (forall q, q ∈ (alloc_all_ h pages).1 -> host_get h q = None /\ 0 < q < 2 ^ 64) /\
    (forall p, p ∉ (alloc_all_ h pages).1 ->
       host_get (alloc_all_ h pages).2 p = host_get h p).
Proof.
  induction pages as [|pg pages IH]; intros h n Hroom.
  - simpl in *. rewrite Nat.add_0_r in Hroom. split_and!; try done.
    + constructor.
    + intros q Hq. by apply elem_of_nil in Hq.
  - simpl in Hroom |- *. set (q1 := (host_new h pg).1). set (h1 := (host_new h pg).2).
    rewrite Nat.add_succ_r in Hroom.
    assert (Hroom1 : room (n + length pages) h1) by (by apply (room_new _ _ _ _ Hlaw)).
    destruct (IH h1 n Hroom1) as (Hrm & Hpres & Hget & Hnd & Hfresh & Hother).
    assert (Hq1 : host_get h1 q1 = Some pg) by apply (get_new_same _ _ _ _ Hlaw).
    assert (Hf1 : host_get h q1 = None) by apply (new_fresh _ _ _ _ Hlaw).
    assert (Hr1 : 0 < q1 < 2 ^ 64).
    { apply (new_range _ _ _ _ Hlaw). apply (room_weaken 1%nat (n + length pages)).
      by replace (1 + (n + length pages))%nat with (S (n + length pages)) by lia. }
    assert (Hoth : forall p, p <> q1 -> host_get h1 p = host_get h p).
    { intros p Hp. by apply (get_new_other _ _ _ _ Hlaw). }
    assert (Hnot : q1 ∉ (alloc_all_ h1 pages).1).
    { intros Hin. destruct (Hfresh _ Hin) as [Hn _]. congruence. }
    split_and!.
    + done.
    + intros p x Hp. apply Hpres.
      rewrite Hoth; [done|]. intros ->. congruence.
    + intros [|i] q page Hq Hpage; simpl in *.
      * injection Hq as <-. injection Hpage as <-. by apply Hpres.
      * by apply (Hget i).
    + by constructor.
    + intros q Hq. apply elem_of_cons in Hq as [->|Hq].
      * done.
      * destruct (Hfresh _ Hq) as [Hn Hr]. split; [|done].
        rewrite <- Hn. symmetry. apply Hoth.
        intros ->. done.
    + intros p Hp. apply not_elem_of_cons in Hp as [Hne Hp].
      rewrite Hother by done. by apply Hoth.
Qed.

End Alloc.

(** * The entries an inner node gets for new pages *)

Lemma offs_kid_entries (ptrs ptrs' : list Z) (keys : list (list byte)) :
  length ptrs = length keys -> length ptrs' = length keys ->
  offs (kid_entries ptrs keys) = offs (kid_entries ptrs' keys).
Proof.
  revert ptrs ptrs'. induction keys as [|k keys IH]; intros [|p ps] [|p' ps']; simpl; try done.
  intros [= H1] [= H2]. unfold kvsize. simpl. by rewrite (IH ps ps').
Qed.

Lemma length_kid_entries (ptrs : list Z) (keys : list (list byte)) :
  length ptrs = length keys -> length (kid_entries ptrs keys) = length keys.
Proof. intros H. unfold kid_entries. rewrite length_zip_with. lia. Qed.

Lemma reads_app (l k : list event) : reads (l ++ k) = reads l ++ reads k.
Proof. apply omap_app. Qed.

Lemma frees_app (l k : list event) : frees (l ++ k) = frees l ++ frees k.
Proof. apply omap_app. Qed.

Lemma reads_news (pages : list BNode) (qs : list Z) : reads (zip_with EvNew pages qs) = [].
Proof. revert qs. induction pages as [|p pages IH]; intros [|q qs]; simpl; done. Qed.

Lemma frees_news (pages : list BNode) (qs : list Z) : frees (zip_with EvNew pages qs) = [].
Proof. revert qs. induction pages as [|p pages IH]; intros [|q qs]; simpl; done. Qed.

Lemma news_app (l k : list event) : news (l ++ k) = news l ++ news k.
Proof. apply omap_app. Qed.

Lemma news_news (pages : list BNode) (qs : list Z) :
  length qs = length pages -> news (zip_with EvNew pages qs) = pages.
Proof.
  revert qs. induction pages as [|p pages IH]; intros [|q qs]; simpl; try done.
  intros [= H]. unfold news in IH. by rewrite IH.
Qed.

Section InnerBuilder.

Context {Host : Type}.
Variable host_new : Host -> BNode -> Z * Host.

Local Abbreviation alloc_all_ := (alloc_all host_new).
Local Abbreviation alloc_events_ := (alloc_events host_new).

Lemma tree_new_eq (data : BNode) (t : @BTree Host) :
  tree_new host_new data t
  = Done ((host_new (host t) data).1,
          mkBTree (root t) (host_new (host t) data).2
                  (trace t ++ [EvNew data (host_new (host t) data).1])).
Proof. unfold tree_new. by destruct (host_new (host t) data). Qed.

Lemma replaceKids_loop_spec (kidpages : list BNode) :
  forall (keys : list (list byte)) (new : BNode) (bt n : Z) (es_n : list entry)
         (idx i : nat) (t : @BTree Host),
    Forall2 (fun kid k => getKey kid 0 = Some k) kidpages keys ->
    Forall (fun q => 0 < q < 2 ^ 64) (alloc_all_ (host t) kidpages).1 ->
    filled new bt n es_n ->
    length es_n = (idx + i)%nat ->
    Z.of_nat (length es_n) + Z.of_nat (length kidpages) <= n ->
    4 + 10 * n + offs es_n + offs (kid_entries (alloc_all_ (host t) kidpages).1 keys)
      <= len new ->
    4 + 10 * n + offs es_n + offs (kid_entries (alloc_all_ (host t) kidpages).1 keys)
      < 65536 ->
    exists new',
      replaceKids_loop host_new new (Z.of_nat idx) (Z.of_nat i) kidpages t
      = Done (new', mkBTree (root t) (alloc_all_ (host t) kidpages).2
                            (trace t ++ alloc_events_ (host t) kidpages)) /\
      filled new' bt n (es_n ++ kid_entries (alloc_all_ (host t) kidpages).1 keys) /\
      len new' = len new.
Proof.
  induction kidpages as [|kid kidpages IH];
    intros keys new bt n es_n idx i t Hkeys Hrng Hf Hlen Hn Hsize Hu16.
  - apply Forall2_nil_inv_l in Hkeys as ->. exists new. simpl.
    unfold ret, alloc_events. simpl. rewrite !app_nil_r. split; [|done].
    by destruct t.
  - apply Forall2_cons_inv_l in Hkeys as (k & keys' & Hk & Hkeys & ->).
    cbn [replaceKids_loop]. unfold bind at 1. rewrite tree_new_eq.
    set (q := (host_new (host t) kid).1) in *.
    set (h1 := (host_new (host t) kid).2) in *.
    unfold bind at 1, lift at 1. rewrite Hk.
    pose proof (filled_n_range Hf) as Hnr.
    assert (Hidx : add16 (Z.of_nat idx) (u16 (Z.of_nat i)) = Z.of_nat (length es_n)).
    { rewrite Hlen. u16. zlia. }
    rewrite Hidx.
    cbn [alloc_all fst snd] in Hsize, Hu16, Hrng |- *. fold q h1 in Hsize, Hu16, Hrng |- *.
    apply Forall_cons in Hrng as [Hq Hrng].
    cbn [kid_entries zip_with offs] in Hsize, Hu16.
    fold (kid_entries (alloc_all_ h1 kidpages).1 keys') in Hsize, Hu16.
    pose proof (offs_nonneg (kid_entries (alloc_all_ h1 kidpages).1 keys')) as Hnn.
    pose proof (offs_nonneg es_n) as Hnn'.
    set (e := mkEntry q k []) in *.
    pose proof (kvsize_pos e) as Hkv.
    assert (Hok : entry_ok e).
    { unfold entry_ok, e. cbn [e_ptr e_key e_val].
      split; [lia|]. unfold kvsize, e in Hkv, Hsize, Hu16. cbn [e_key e_val] in *.
      rewrite len_nil in *. pose proof (len_nonneg k). lia. }
    cbn [length] in Hn.
    destruct (nodeAppendKV_filled new bt n es_n e) as (new1 & Ha & Hf1 & Hl1);
      [done|lia|done|lia|lia|].
    change (e_ptr e) with q in Ha. change (e_key e) with k in Ha.
    change (e_val e) with (@nil byte) in Ha.
    unfold bind at 1, lift at 1. rewrite Ha.
    set (t1 := mkBTree (root t) h1 (trace t ++ [EvNew kid q])).
    replace (Z.of_nat i + 1) with (Z.of_nat (S i)) by lia.
    destruct (IH keys' new1 bt n (es_n ++ [e]) idx (S i) t1) as (new' & Hr & Hf' & Hl');
      [done|done|done|rewrite length_app; simpl; lia|rewrite length_app; simpl; lia
      |rewrite offs_app; simpl; lia|rewrite offs_app; simpl; lia|].
    exists new'. rewrite Hr. split.
    + f_equal. f_equal. unfold t1, alloc_events. simpl.
      by rewrite <- app_assoc.
    + rewrite <- app_assoc in Hf'. split; [done|lia].
Qed.

Lemma newRoot_loop_eq (kidpages : list BNode) :
  forall (new : BNode) (i : Z) (t : @BTree Host),
    newRoot_loop host_new new i kidpages t
    = replaceKids_loop host_new new 0 i kidpages t.
Proof.
  induction kidpages as [|kid kidpages IH]; intros new i t; [done|].
  cbn [newRoot_loop replaceKids_loop]. unfold bind.
  destruct (tree_new host_new kid t) as [[ptr t1]| |]; [|done..].
  destruct (lift (getKey kid 0) t1) as [[key t2]| |]; [|done..].
  replace (add16 0 (u16 i)) with (u16 i) by (u16; zlia).
  destruct (lift (nodeAppendKV new (u16 i) ptr key []) t2) as [[new1 t3]| |]; [|done..].
  apply IH.
Qed.

(** [nodeReplaceKidN] *)
Lemma nodeReplaceKidN_holds (new old : BNode) (ies : list entry) (idx : nat)
    (kidpages : list BNode) (keys : list (list byte)) (t : @BTree Host) :
  let ptrs := (alloc_all_ (host t) kidpages).1 in
  let es' := take idx ies ++ kid_entries ptrs keys ++ drop (S idx) ies in
  holds old BNODE_NODE ies ->
  (idx < length ies)%nat ->
  Forall2 (fun kid k => getKey kid 0 = Some k) kidpages keys ->
  Forall (fun q => 0 < q < 2 ^ 64) ptrs ->
  node_size es' <= len new ->
  node_size es' < 65536 ->
  exists new',
    nodeReplaceKidN host_new new old (Z.of_nat idx) kidpages t
    = Done (new', mkBTree (root t) (alloc_all_ (host t) kidpages).2
                          (trace t ++ alloc_events_ (host t) kidpages)) /\
    holds new' BNODE_NODE es' /\ len new' = len new.
Proof.
  intros ptrs es' Hold Hidx Hkeys Hrng Hsize Hu16.
  pose proof (Forall2_length _ _ _ Hkeys) as Hlk.
  pose proof (alloc_all_length host_new kidpages (host t)) as Hlp. fold ptrs in Hlp.
  assert (Hle : length (kid_entries ptrs keys) = length kidpages).
  { rewrite length_kid_entries; lia. }
  assert (Hl' : length es' = (length ies + length kidpages - 1)%nat).
  { unfold es'. rewrite !length_app, length_take, length_drop, Hle. lia. }
  assert (Ho' : offs es' = offs (take idx ies) + offs (kid_entries ptrs keys)
                           + offs (drop (S idx) ies)).
  { unfold es'. rewrite !offs_app. lia. }
  unfold node_size in Hsize, Hu16. rewrite Hl', Ho' in Hsize, Hu16.
  pose proof (offs_nonneg (take idx ies)). pose proof (offs_nonneg (kid_entries ptrs keys)).
  pose proof (offs_nonneg (drop (S idx) ies)).
  set (n := Z.of_nat (length ies)) in *.
  set (m := Z.of_nat (length kidpages)) in *.
  assert (Hn' : Z.of_nat (length ies + length kidpages - 1) = n + m - 1) by lia.
  rewrite Hn' in Hsize, Hu16.
  unfold nodeReplaceKidN. unfold bind at 1, lift at 1.
  rewrite (filled_nkeys Hold). cbv beta iota. fold n m.
  replace (sub16 (add16 n (u16 m)) 1) with (n + m - 1) by (u16; zlia).
  destruct (setHeader_filled new BNODE_NODE (n + m - 1)) as (b0 & Hs0 & Hf0 & Hl0);
    [done|lia|lia|lia|].
  unfold bind at 1, lift at 1. rewrite Hs0. cbv beta iota.
  (* the entries before idx *)
  destruct (nodeAppendRange_filled old BNODE_NODE ies b0 BNODE_NODE (n + m - 1) [] 0 idx)
    as (b1 & Hr1 & Hf1 & Hl1); [done|done|lia|simpl; lia
    |rewrite drop_0; simpl; lia|rewrite drop_0; simpl; lia|].
  rewrite drop_0 in Hf1. cbn [app length] in Hf1, Hr1.
  change (Z.of_nat 0) with 0 in Hr1.
  unfold bind at 1, lift at 1. rewrite Hr1. cbv beta iota.
  (* the new children *)
  assert (Hlt : length (take idx ies) = idx) by (rewrite length_take; lia).
  destruct (replaceKids_loop_spec kidpages keys b1 BNODE_NODE (n + m - 1)
              (take idx ies) idx 0 t) as (b2 & Hr2 & Hf2 & Hl2);
    [done|done|done|lia|lia|fold ptrs; lia|fold ptrs; lia|].
  fold ptrs in Hf2.
  unfold bind at 1. change 0 with (Z.of_nat 0) at 1. rewrite Hr2.
  cbv beta iota.
  set (t' := mkBTree (root t) _ _).
  unfold bind at 1, lift at 1. cbv beta iota.
  (* the entries after idx *)
  replace (add16 (Z.of_nat idx) (u16 m))
    with (Z.of_nat (length (take idx ies ++ kid_entries ptrs keys)))
    by (rewrite length_app, Hlt, Hle; u16; zlia).
  replace (add16 (Z.of_nat idx) 1) with (Z.of_nat (S idx)) by (u16; zlia).
  replace (sub16 n (Z.of_nat (S idx))) with (Z.of_nat (length ies - S idx))
    by (u16; zlia).
  destruct (nodeAppendRange_filled old BNODE_NODE ies b2 BNODE_NODE (n + m - 1)
              (take idx ies ++ kid_entries ptrs keys) (S idx) (length ies - S idx))
    as (b3 & Hr3 & Hf3 & Hl3); [done|done|lia|rewrite length_app, Hlt, Hle; lia|..].
  { rewrite (take_ge (drop (S idx) ies)) by (rewrite length_drop; lia). rewrite offs_app. lia. }
  { rewrite (take_ge (drop (S idx) ies)) by (rewrite length_drop; lia). rewrite offs_app. lia. }
  rewrite (take_ge (drop (S idx) ies)) in Hf3 by (rewrite length_drop; lia).
  rewrite <- app_assoc in Hf3.
  exists b3. unfold lift. rewrite Hr3. split; [done|]. split; [|lia].
  unfold holds. fold es'. rewrite Hl', Hn'. exact Hf3.
Qed.

End InnerBuilder.

(** * The steps of an insert *)

(** ** Lookup in a node in key order *)

Lemma nodeLookupLE_sorted (node : BNode) (bt : Z) (ies : list entry)
    (key k0 : list byte) :
  holds node bt ies ->
  sorted ies ->
  first_key ies = Some k0 ->
  Compare k0 key <> Gt ->
  exists (r : nat) (e : entry),
    nodeLookupLE node key = Some (Z.of_nat r) /\
    ies !! r = Some e /\
    Compare (e_key e) key <> Gt /\
    (forall j ej, (r < j)%nat -> ies !! j = Some ej -> Compare (e_key ej) key = Gt).
Proof.
  intros Hold Hs Hk0 Hle.
  pose proof (holds_node_keys _ _ _ Hold) as Hkeys.
  pose proof (sorted_ascending _ Hs) as Hasc.
  destruct (nodeLookupLE_loop_scan node (e_key <$> ies) key Hkeys
              (length (e_key <$> ies)) 0%nat) as (s & Hsl & Hlt & Hres); [lia|lia|].
  assert (Hrun : nodeLookupLE node key
                 = nodeLookupLE_loop (length (e_key <$> ies)) node key (Z.of_nat 0)).
  { unfold nodeLookupLE. destruct Hkeys as (Hn & _ & _). rewrite Hn.
    cbn [mbind option_bind]. by rewrite Nat2Z.id. }
  rewrite <- Hrun in Hres. clear Hrun.
  destruct ies as [|e0 ies0] eqn:Eies; [done|]. rewrite <- Eies in *.
  assert (He0 : ies !! 0%nat = Some e0) by (by rewrite Eies).
  assert (Hk0' : e_key e0 = k0) by (rewrite Eies in Hk0; by injection Hk0).
  rewrite length_fmap in Hsl.
  assert (Hgt_after : forall s' es' j ej, ies !! s' = Some es' ->
            Compare (e_key es') key <> Lt -> (s' < j)%nat -> ies !! j = Some ej ->
            Compare (e_key ej) key = Gt).
  { intros s' es' j ej Hs' Hc Hj Hej. apply Compare_lt_gt.
    pose proof (sorted_lookup ies s' j es' ej Hs Hj Hs' Hej) as Hlt'.
    destruct (Compare (e_key es') key) eqn:E; [| done |].
    - apply Compare_eq in E. by rewrite <- E.
    - apply Compare_lt_gt in E. by apply (Compare_trans _ (e_key es')). }
  rewrite list_lookup_fmap in Hres.
  destruct (ies !! s) as [es|] eqn:Hes; simpl in Hres.
  - destruct (Compare (e_key es) key) eqn:Hc; [| done |].
    + exists s, es. split_and!; try done.
      * by rewrite Hc.
      * intros j ej Hj Hej. apply (Hgt_after s es j ej); try done. by rewrite Hc.
    + destruct s as [|s].
      { rewrite He0 in Hes. injection Hes as <-. rewrite Hk0' in Hc. done. }
      destruct (lookup_lt_is_Some_2 ies s) as [ep Hep].
      { apply lookup_lt_Some in Hes. lia. }
      exists s, ep. split_and!.
      * rewrite Hres. f_equal. apply lookup_lt_Some in Hes.
        destruct Hkeys as (_ & Hu & _). rewrite length_fmap in Hu. u16. zlia.
      * done.
      * rewrite (Hlt s (e_key ep)); [done|lia|]. by rewrite list_lookup_fmap, Hep.
      * intros j ej Hj Hej. destruct (decide (j = S s)) as [->|Hne].
        -- rewrite Hes in Hej. by injection Hej as <-.
        -- apply (Hgt_after (S s) es j ej); try done; [by rewrite Hc|lia].
  - apply lookup_ge_None in Hes.
    assert (Hlen : (0 < length ies)%nat) by (rewrite Eies; simpl; lia).
    destruct (lookup_lt_is_Some_2 ies (length ies - 1)) as [ep Hep]; [lia|].
    exists (length ies - 1)%nat, ep. split_and!.
    + rewrite Hres, length_fmap. f_equal.
      destruct Hkeys as (_ & Hu & _). rewrite length_fmap in Hu. u16. zlia.
    + done.
    + rewrite (Hlt (length ies - 1)%nat (e_key ep)); [done|lia|].
      by rewrite list_lookup_fmap, Hep.
    + intros j ej Hj Hej. apply lookup_lt_Some in Hej. lia.
Qed.

(** ** The parts of a split *)

Lemma split_parts_nonempty (es : list entry) :
  Forall entry_fits es -> es <> [] -> Forall (fun l => l <> []) (split_parts es).
Proof.
  intros Hfits Hne. unfold split_parts.
  destruct (Z.leb_spec (node_size es) BTREE_PAGE_SIZE) as [Hle|Hgt].
  { by repeat constructor. }
  destruct (oversized_two_entries es Hfits Hgt) as (Hn & Hfirst & Hlast).
  destruct (split_point_spec es Hn Hfirst Hlast) as (Hk & _ & _).
  set (k := split_point es) in *.
  assert (Hd : drop k es <> []).
  { intros E. apply (f_equal length) in E. rewrite length_drop in E. simpl in E. lia. }
  assert (Ht : take k es <> []).
  { intros E. apply (f_equal length) in E. rewrite length_take in E. simpl in E. lia. }
  destruct (Z.leb_spec (node_size (take k es)) BTREE_PAGE_SIZE) as [Hle1|Hgt1].
  { by repeat constructor. }
  assert (Hfits' : Forall entry_fits (take k es)) by (by apply Forall_take).
  destruct (oversized_two_entries _ Hfits' Hgt1) as (Hn' & Hfirst' & Hlast').
  destruct (split_point_spec _ Hn' Hfirst' Hlast') as (Hk' & _ & _).
  set (k2 := split_point (take k es)) in *.
  repeat constructor; try done.
  - intros E. apply (f_equal length) in E. rewrite length_take in E. simpl in E. lia.
  - intros E. apply (f_equal length) in E. rewrite length_drop in E. simpl in E. lia.
Qed.

Lemma parts_getKey (bt : Z) (pages : list BNode) (ls : list (list entry)) :
  Forall2 (fun p l => holds p bt l /\ len p = BTREE_PAGE_SIZE) pages ls ->
  Forall (fun l => l <> []) ls ->
  Forall2 (fun p k => getKey p 0 = Some k) pages (first_keys ls).
Proof.
  intros H2. induction H2 as [|p l pages ls [Hh _] H2 IH]; intros Hne.
  - constructor.
  - apply Forall_cons in Hne as [Hl Hne]. simpl. constructor; [|by apply IH].
    destruct l as [|e l]; [done|]. simpl.
    apply (filled_getKey Hh 0 e). done.
Qed.

Lemma first_keys_limits (ls : list (list entry)) :
  Forall entry_within_limits (concat ls) ->
  Forall (fun k => len k <= BTREE_MAX_KEY_SIZE) (first_keys ls).
Proof.
  induction ls as [|l ls IH]; intros Hlim; [constructor|].
  simpl in Hlim. apply Forall_app in Hlim as [Hl Hlim].
  simpl. constructor; [|by apply IH].
  destruct l as [|e l]; simpl.
  - rewrite len_nil. unfold BTREE_MAX_KEY_SIZE. lia.
  - apply Forall_cons in Hl as [(_ & Hk & _) _]. done.
Qed.

Lemma offs_kid_entries_le (ptrs : list Z) (keys : list (list byte)) :
  Forall (fun k => len k <= BTREE_MAX_KEY_SIZE) keys ->
  offs (kid_entries ptrs keys) <= 1004 * Z.of_nat (length keys).
Proof.
  revert ptrs. induction keys as [|k keys IH]; intros [|p ptrs] Hk; simpl; try lia.
  apply Forall_cons in Hk as [Hk1 Hk]. specialize (IH ptrs Hk).
  unfold kvsize. simpl. rewrite len_nil. unfold BTREE_MAX_KEY_SIZE in *. lia.
Qed.

Lemma length_first_keys (ls : list (list entry)) : length (first_keys ls) = length ls.
Proof. unfold first_keys. by rewrite length_fmap. Qed.

(** ** The leaf *)

Section LeafStep.

Context {Host : Type}.
Variable host_get : Host -> Z -> option BNode.
Variable host_new : Host -> BNode -> Z * Host.
Variable host_del : Host -> Z -> Host.

Lemma treeInsert_leaf_upsert (fuel : nat) (node : BNode) (es : list entry)
    (key val k0 : list byte) (t : @BTree Host) :
  holds node BNODE_LEAF es ->
  node_size es <= BTREE_PAGE_SIZE ->
  sorted es ->
  first_key es = Some k0 ->
  Compare k0 key <> Gt ->
  len key <= BTREE_MAX_KEY_SIZE ->
  len val <= BTREE_MAX_VAL_SIZE ->
  exists new,
    treeInsert host_get host_new host_del (S fuel) node key val t = Done (new, t) /\
    len new = 2 * BTREE_PAGE_SIZE /\
    holds new BNODE_LEAF (upsert key val es) /\
    node_size (upsert key val es) <= node_size es + 14 + len key + len val.
Proof.
  intros Hold Hsize Hs Hk0 Hle Hk Hv.
  pose proof (len_nonneg key). pose proof (len_nonneg val).
  unfold BTREE_MAX_KEY_SIZE, BTREE_MAX_VAL_SIZE in *.
  assert (Hlm : len (make (2 * BTREE_PAGE_SIZE)) = 2 * BTREE_PAGE_SIZE)
    by (apply len_make; unfold BTREE_PAGE_SIZE; lia).
  destruct (nodeLookupLE_sorted node BNODE_LEAF es key k0)
    as (idx & e & Hidx & He & Hle' & Hgt); [done..|].
  assert (Hlt : (idx < length es)%nat) by (by apply lookup_lt_Some in He).
  rewrite (upsert_at key val es idx e Hs He Hle' Hgt).
  pose proof (filled_n_range Hold) as Hnr.
  pose proof (offs_take_drop idx es) as Htd.
  pose proof (offs_take_drop (S idx) es) as Htd'.
  pose proof (offs_take_S _ _ _ He) as HtS.
  pose proof (kvsize_pos e).
  pose proof (len_nonneg (e_val e)). pose proof (len_nonneg (e_key e)).
  pose proof (offs_nonneg (take idx es)). pose proof (offs_nonneg (drop (S idx) es)).
  unfold node_size in Hsize.
  assert (Hrun : forall new,
    (if Equal key (e_key e)
     then leafUpdate (make (2 * BTREE_PAGE_SIZE)) node (Z.of_nat idx) key val
     else leafInsert (make (2 * BTREE_PAGE_SIZE)) node (Z.of_nat idx + 1) key val)
    = Some new ->
    treeInsert host_get host_new host_del (S fuel) node key val t = Done (new, t)).
  { intros new Hnew. cbn [treeInsert]. unfold bind, lift.
    rewrite Hidx. rewrite (filled_btype Hold). rewrite Z.eqb_refl.
    rewrite (filled_getKey Hold _ _ He).
    replace (add16 (Z.of_nat idx) 1) with (Z.of_nat idx + 1) by (u16; zlia).
    destruct (Equal key (e_key e)); by rewrite Hnew. }
  destruct (Equal key (e_key e)) eqn:Heq.
  - apply Equal_true in Heq.
    assert (Hsz : node_size (take idx es ++ mkEntry 0 key val :: drop (S idx) es)
                  = node_size es - len (e_val e) + len val).
    { unfold node_size. rewrite length_app, length_take, offs_app.
      cbn [length offs]. rewrite length_drop. unfold kvsize in *.
      cbn [e_key e_val]. rewrite <- Heq in *. lia. }
    destruct (leafUpdate_holds (make (2 * BTREE_PAGE_SIZE)) node es idx key val)
      as (new & Hnew & Hh & Hl); [done|done|..].
    + rewrite Hsz, Hlm. unfold node_size, BTREE_PAGE_SIZE in *. lia.
    + rewrite Hsz. unfold node_size, BTREE_PAGE_SIZE in *. lia.
    + exists new. split; [by apply Hrun|]. split; [lia|].
      rewrite insert_take_drop by lia. split; [done|]. rewrite Hsz. lia.
  - assert (Hsz : node_size (take (S idx) es ++ mkEntry 0 key val :: drop (S idx) es)
                  = node_size es + 14 + len key + len val).
    { unfold node_size. rewrite length_app, length_take, offs_app.
      cbn [length offs]. rewrite length_drop. unfold kvsize at 1.
      cbn [e_key e_val]. lia. }
    replace (Z.of_nat idx + 1) with (Z.of_nat (S idx)) in * by lia.
    destruct (leafInsert_holds (make (2 * BTREE_PAGE_SIZE)) node es (S idx) key val)
      as (new & Hnew & Hh & Hl); [done|lia|..].
    + rewrite Hsz, Hlm. unfold node_size, BTREE_PAGE_SIZE in *. lia.
    + rewrite Hsz. unfold node_size, BTREE_PAGE_SIZE in *. lia.
    + exists new. split; [by apply Hrun|]. split; [lia|]. split; [done|].
      rewrite Hsz. lia.
Qed.

End LeafStep.

(** ** New pages as children *)

Section Parts.

Context {Host : Type}.
Variable host_get : Host -> Z -> option BNode.
Variable host_new : Host -> BNode -> Z * Host.
Variable host_del : Host -> Z -> Host.
Variable room : nat -> Host -> Prop.
Hypothesis Hlaw : lawful_host host_get host_new host_del room.

Local Abbreviation kids_ := (kids host_get).
Local Abbreviation node_rep_ := (node_rep host_get).
Local Abbreviation page_rep_ := (page_rep host_get).
Local Abbreviation alloc_all_ := (alloc_all host_new).

Lemma kids_of_parts (h : Host) (d : nat) (pages : list BNode)
    (ls : list (list entry)) :
  Forall2 (fun p l => holds p (kind d) l /\ len p = BTREE_PAGE_SIZE) pages ls ->
  forall (qs : list Z) (es : list entry) (ps : gset Z),
    Forall (fun l => node_size l <= BTREE_PAGE_SIZE) ls ->
    Forall (fun l => l <> []) ls ->
    node_rep_ h d (concat ls) es ps ->
    length qs = length pages ->
    (forall (i : nat) q page, qs !! i = Some q -> pages !! i = Some page ->
       host_get h q = Some page) ->
    NoDup qs ->
    (forall q, q ∈ qs -> (q ∉ ps) /\ 0 < q < 2 ^ 64) ->
    kids_ h (page_rep_ h d) (kid_entries qs (first_keys ls)) es
          (list_to_set qs ∪ ps).
Proof.
  intros H2. induction H2 as [|p l pages ls [Hh _] H2 IH];
    intros qs es ps Hfit Hne Hrep Hlen Hget Hnd Hqs.
  - destruct qs; [|done]. simpl in *.
    destruct d; simpl in Hrep.
    + destruct Hrep as [-> ->]. replace (∅ ∪ ∅) with (∅ : gset Z) by set_solver.
      constructor.
    + inversion Hrep; subst. replace (∅ ∪ ∅) with (∅ : gset Z) by set_solver.
      constructor.
  - destruct qs as [|q qs]; [done|]. simpl in Hlen.
    apply Forall_cons in Hfit as [Hfl Hfit]. apply Forall_cons in Hne as [Hnl Hne].
    simpl in Hrep.
    apply node_rep_app_inv in Hrep
      as (es1 & es2 & ps1 & ps2 & -> & -> & Hdisj & Hr1 & Hr2).
    apply NoDup_cons in Hnd as [Hq Hnd].
    assert (Hqr : (q ∉ ps1 ∪ ps2) /\ 0 < q < 2 ^ 64) by (apply Hqs; set_solver).
    destruct Hqr as [Hqps Hqr].
    assert (Hqs' : forall q', q' ∈ qs -> (q' ∉ ps1 ∪ ps2) /\ 0 < q' < 2 ^ 64).
    { intros q' Hq'. apply Hqs. set_solver. }
    cbn [first_keys fmap list_fmap kid_entries zip_with].
    fold (first_keys ls). fold (kid_entries qs (first_keys ls)).
    eapply (kids_cons _ _ _ (mkEntry q (default [] (first_key l)) [])
              (kid_entries qs (first_keys ls)) p es1 ps1 es2 (list_to_set qs ∪ ps2)).
    + simpl. apply (Hget 0%nat); done.
    + exists l. split_and!; done.
    + rewrite (node_rep_first_key _ _ _ _ _ _ Hr1).
      destruct l as [|e l]; [done|]. done.
    + done.
    + simpl. lia.
    + simpl. set_solver.
    + simpl. intros Hin. apply elem_of_union in Hin as [Hin|Hin]; [|set_solver].
      apply elem_of_list_to_set in Hin. done.
    + apply disjoint_union_r. split; [|done].
      intros x Hx1 Hx2. apply elem_of_list_to_set in Hx2.
      destruct (Hqs' x Hx2) as [Hn _]. set_solver.
    + apply IH; [done|done|done|lia| |done|].
      * intros i q' page Hq' Hp'. apply (Hget (S i)); done.
      * intros q' Hq'. destruct (Hqs' q' Hq') as [Hn Hr]. split; [set_solver|done].
    + done.
    + simpl. set_solver.
Qed.

Lemma split_alloc_kids (h3 : Host) (d : nat) (cies es : list entry)
    (cps : gset Z) (pages : list BNode) (n : nat) :
  room (n + length pages) h3 ->
  Forall2 (fun p l => holds p (kind d) l /\ len p = BTREE_PAGE_SIZE)
    pages (split_parts cies) ->
  Forall entry_fits cies -> cies <> [] ->
  node_size cies <= 2 * BTREE_PAGE_SIZE - 3 ->
  node_rep_ h3 d cies es cps ->
  kids_ (alloc_all_ h3 pages).2 (page_rep_ (alloc_all_ h3 pages).2 d)
    (kid_entries (alloc_all_ h3 pages).1 (first_keys (split_parts cies))) es
    (list_to_set (alloc_all_ h3 pages).1 ∪ cps).
Proof.
  intros Hroom H2 Hfits Hne Hsize Hrep.
  destruct (alloc_all_spec host_get host_new host_del room Hlaw pages h3 n Hroom)
    as (_ & Hpres & Hget & Hnd & Hfresh & Hother).
  pose proof (node_rep_readable _ _ _ _ _ _ Hrep) as Hread.
  apply (kids_of_parts _ d pages (split_parts cies)); try done.
  - by apply split_parts_fit.
  - by apply split_parts_nonempty.
  - rewrite split_parts_concat. eapply node_rep_frame; [|exact Hrep].
    intros p Hp. apply Hother. intros Hin.
    destruct (Hfresh _ Hin) as [Hn _]. destruct (Hread _ Hp) as [x Hx]. congruence.
  - apply alloc_all_length.
  - intros q Hq. destruct (Hfresh _ Hq) as [Hn Hr]. split; [|done].
    intros Hin. destruct (Hread _ Hin) as [x Hx]. congruence.
Qed.

End Parts.

(** ** [treeInsert] on a tree *)

Section TreeInsert.

Context {Host : Type}.
Variable host_get : Host -> Z -> option BNode.
Variable host_new : Host -> BNode -> Z * Host.
Variable host_del : Host -> Z -> Host.
Variable room : nat -> Host -> Prop.
Hypothesis Hlaw : lawful_host host_get host_new host_del room.

Local Abbreviation kids_ := (kids host_get).
Local Abbreviation node_rep_ := (node_rep host_get).
Local Abbreviation page_rep_ := (page_rep host_get).
Local Abbreviation alloc_all_ := (alloc_all host_new).
Local Abbreviation treeInsert_ := (treeInsert host_get host_new host_del).

Lemma kids_nil_inv (h : Host) child (es : list entry) (ps : gset Z) :
  kids_ h child [] es ps -> es = [] /\ ps = ∅.
Proof. intros Hk. by inversion Hk. Qed.

Lemma node_size_replace (ies : list entry) (r : nat) (ie : entry) (K : list entry) :
  ies !! r = Some ie ->
  node_size (take r ies ++ K ++ drop (S r) ies)
  = node_size ies - 10 - kvsize ie + 10 * Z.of_nat (length K) + offs K.
Proof.
  intros Hie.
  assert (E : node_size ies = node_size (take r ies ++ ie :: drop (S r) ies))
    by (by rewrite take_drop_middle).
  rewrite E. unfold node_size. rewrite !length_app, !offs_app. cbn [length offs].
  lia.
Qed.

Lemma treeInsert_rep (d : nat) :
  forall (fuel : nat) (node : BNode) (ies es : list entry) (ps : gset Z)
         (key val k0 : list byte) (t : @BTree Host) (n : nat),
    (d < fuel)%nat ->
    room (n + 3 * d) (host t) ->
    holds node (kind d) ies ->
    node_size ies <= BTREE_PAGE_SIZE ->
    ies <> [] ->
    node_rep_ (host t) d ies es ps ->
    sorted es ->
    Forall entry_within_limits es ->
    first_key es = Some k0 ->
    Compare k0 key <> Gt ->
    len key <= BTREE_MAX_KEY_SIZE ->
    len val <= BTREE_MAX_VAL_SIZE ->
    exists (new : BNode) (ies' : list entry) (ps' : gset Z) (t' : @BTree Host),
      treeInsert_ fuel node key val t = Done (new, t') /\
      root t' = root t /\
      room n (host t') /\
      len new = 2 * BTREE_PAGE_SIZE /\
      holds new (kind d) ies' /\
      ies' <> [] /\
      node_size ies' <= 2 * BTREE_PAGE_SIZE - 3 /\
      node_rep_ (host t') d ies' (upsert key val es) ps' /\
      (forall p, p ∈ ps' -> p ∈ ps \/ host_get (host t) p = None) /\
      (forall p, is_Some (host_get (host t') p) ->
                 p ∈ ps' \/ ((p ∉ ps) /\ is_Some (host_get (host t) p))) /\
      exists evs,
        trace t' = trace t ++ evs /\
        (length evs <= 5 * d)%nat /\
        length (reads evs) = d /\
        frees evs = rev (reads evs) /\
        NoDup (reads evs) /\
        (forall p, p ∈ reads evs -> p ∈ ps) /\
        Forall (fun data => len data = BTREE_PAGE_SIZE) (news evs) /\
        (forall p x, p ∉ reads evs -> host_get (host t) p = Some x ->
                     host_get (host t') p = Some x).
Proof.
  induction d as [|d IH];
    intros fuel node ies es ps key val k0 t n Hfuel Hroom Hold Hsize Hne Hrep Hs Hlim
           Hk0 Hle Hk Hv.
  - (* a leaf *)
    destruct fuel as [|fuel]; [lia|]. destruct Hrep as [-> ->].
    destruct (treeInsert_leaf_upsert host_get host_new host_del fuel node ies
                key val k0 t) as (new & Hrun & Hlen & Hh & Hsz); [done..|].
    exists new, (upsert key val ies), ∅, t. split_and!; try done.
    + by rewrite Nat.add_0_r in Hroom.
    + apply upsert_nonempty.
    + unfold BTREE_PAGE_SIZE, BTREE_MAX_KEY_SIZE, BTREE_MAX_VAL_SIZE in *. lia.
    + intros p Hp. right. split; [set_solver|done].
    + exists []. rewrite app_nil_r. split; [done|]. split; [simpl; lia|].
      split; [done|]. split; [done|]. split; [constructor|].
      split; [intros p Hp; by apply elem_of_nil in Hp|].
      split; [constructor|done].
  - (* an inner node *)
    destruct fuel as [|fuel]; [lia|].
    set (h := host t) in *.
    change (kids_ h (page_rep_ h d) ies es ps) in Hrep.
    pose proof (node_rep_readable host_get h (S d) ies es ps Hrep) as Hread.
    pose proof (kids_sorted _ _ _ _ _ _ Hrep Hs) as Hsi.
    pose proof (kids_first_key _ _ _ _ _ _ Hrep) as Hfk. rewrite Hk0 in Hfk.
    destruct (nodeLookupLE_sorted node BNODE_NODE ies key k0)
      as (r & ie & Hlook & Hie & Hle_ie & Hgt); [done|done|done|done|].
    pose proof (lookup_lt_Some _ _ _ Hie) as Hr.
    rewrite <- (take_drop_middle ies r ie Hie) in Hrep.
    apply kids_app_inv in Hrep
      as (es_pre & es_rest & ps_pre & ps_rest & -> & -> & Hd1 & Hpre & Hrest).
    apply kids_cons_inv in Hrest
      as (cpage & ces & cps & es_post & ps_post & Hcp & Hchild & Hcfk & Hval & Hrng
          & Hn1 & Hn2 & Hd2 & Hpost & -> & ->).
    destruct Hchild as (cies & Hch & Hcsz & Hcne & Hcrep).
    set (kptr := e_ptr ie) in *.
    (* the order of the contents *)
    apply sorted_app in Hs as (Hs_pre & Hs_rest & Hlt1).
    apply sorted_app in Hs_rest as (Hs_c & Hs_post & Hlt2).
    apply Forall_app in Hlim as [Hlim_pre Hlim_rest].
    apply Forall_app in Hlim_rest as [Hlim_c Hlim_post].
    assert (Hpre_lt : Forall (fun e => Compare (e_key e) key = Lt) es_pre).
    { eapply Forall_impl; [exact Hlt1|]. simpl. intros a Ha.
      destruct ces as [|c ces]; [done|]. injection Hcfk as Hcfk.
      apply Forall_app in Ha as [Ha _]. apply Forall_cons in Ha as [Ha _].
      apply (Compare_le_trans _ (e_key c)); [done|]. by rewrite Hcfk. }
    assert (Hpost_gt : forall e, head es_post = Some e -> Compare key (e_key e) = Lt).
    { intros e He. destruct (drop (S r) ies) as [|ie2 post] eqn:Ed.
      - apply kids_nil_inv in Hpost as [-> _]. done.
      - pose proof (kids_first_key _ _ _ _ _ _ Hpost) as Hfk2.
        destruct es_post as [|e' es_post]; [done|]. injection He as ->.
        injection Hfk2 as Hfk2. rewrite Hfk2. apply Compare_lt_gt.
        apply (Hgt (S r)); [lia|].
        rewrite <- (Nat.add_0_r (S r)), <- lookup_drop, Ed. done. }
    assert (Hup : upsert key val (es_pre ++ ces ++ es_post)
                  = es_pre ++ upsert key val ces ++ es_post).
    { rewrite upsert_pre by done. by rewrite upsert_post. }
    (* the child *)
    set (t1 := mkBTree (root t) h (trace t ++ [EvGet kptr])).
    destruct (IH fuel cpage cies ces cps key val (e_key ie) t1 (n + 3)%nat)
      as (knode & cies' & cps' & t2 & Hrun & Hroot2 & Hroom2 & Hlenk & Hhk & Hne' & Hsz'
          & Hrep' & Hfresh' & Hgc_c & evs_c & Htr2 & Hcnt_c & Hlen_c & Hfrees_c & Hnd_c & Hin_c
          & Hnews_c & Hframe_c);
      [lia|by replace (n + 3 + 3 * d)%nat with (n + 3 * S d)%nat by lia
      |done|done|done|done|done|done|done|done|done|done|].
    change (host t1) with h in Hfresh', Hgc_c, Hframe_c.
    set (h2 := host t2) in *.
    assert (Hframe' : forall p x, p ∉ cps -> host_get h p = Some x ->
                                  host_get h2 p = Some x).
    { intros p x Hp Hx. apply Hframe_c; [|done]. intros Hin. by apply Hin_c in Hin. }
    (* the split of the child *)
    assert (Hlim' : Forall entry_within_limits cies').
    { eapply node_rep_limits; [exact Hrep'|]. by apply upsert_limits. }
    assert (Hfits' : Forall entry_fits cies').
    { eapply Forall_impl; [exact Hlim'|]. apply entry_within_limits_fits. }
    pose proof (split_parts_fit cies' Hfits' Hsz') as Hpfit.
    pose proof (split_parts_nonempty cies' Hfits' Hne') as Hpne.
    pose proof (split_parts_length cies') as Hplen.
    destruct (nodeSplit3_holds knode (kind d) cies') as (parts & Hsplit & Hlparts & Hparts);
      [done|done|unfold BTREE_PAGE_SIZE in *; lia|unfold BTREE_PAGE_SIZE in *; lia
      |done|].
    set (m := length (split_parts cies')) in *.
    set (pages := take m parts) in *.
    assert (Hlpages : length pages = m).
    { unfold pages. rewrite length_take. lia. }
    set (h3 := host_del h2 kptr).
    assert (Hroom3 : room ((n + 3 - m) + length pages) h3).
    { replace (n + 3 - m + length pages)%nat with (n + 3)%nat by lia.
      by apply (room_del _ _ _ _ Hlaw). }
    set (t3 := mkBTree (root t2) h3 (trace t2 ++ [EvDel kptr])).
    set (keys := first_keys (split_parts cies')).
    assert (Hlkeys : length keys = m) by apply length_first_keys.
    set (qs := (alloc_all_ h3 pages).1).
    set (h4 := (alloc_all_ h3 pages).2).
    assert (Hlqs : length qs = m).
    { unfold qs. rewrite alloc_all_length. done. }
    set (K := kid_entries qs keys).
    assert (HlK : length K = m).
    { unfold K. rewrite length_kid_entries; lia. }
    assert (HoK : offs K <= 1004 * Z.of_nat m).
    { unfold K. rewrite <- Hlkeys. apply offs_kid_entries_le.
      apply first_keys_limits. by rewrite split_parts_concat. }
    pose proof (offs_nonneg K) as HoK0.
    pose proof (kvsize_pos ie) as Hkvie.
    pose proof (node_size_replace ies r ie K Hie) as Hsz''.
    rewrite HlK in Hsz''.
    (* the pages after the calls *)
    destruct (alloc_all_spec host_get host_new host_del room Hlaw pages h3 _ Hroom3)
      as (Hroom4 & Hpres34 & Hget34 & Hnd34 & Hfresh34 & Hother34).
    fold qs h4 in Hroom4, Hpres34, Hget34, Hnd34, Hfresh34, Hother34.
    (* the new node *)
    destruct (nodeReplaceKidN_holds host_new
                (make (2 * BTREE_PAGE_SIZE)) node ies r pages keys t3)
      as (new & Hrk & Hhn & Hln).
    { done. }
    { done. }
    { by apply (parts_getKey (kind d)). }
    { change (host t3) with h3. fold qs. apply Forall_forall.
      intros q Hq. by destruct (Hfresh34 q Hq). }
    { change (host t3) with h3. fold qs K. rewrite Hsz'', len_make;
        unfold BTREE_PAGE_SIZE in *; lia. }
    { change (host t3) with h3. fold qs K. rewrite Hsz''.
      unfold BTREE_PAGE_SIZE in *. lia. }
    change (host t3) with h3 in Hrk, Hhn. fold qs h4 K in Hrk, Hhn.
    set (t4 := mkBTree (root t3) h4 _) in Hrk.
    assert (F2 : forall p, p <> kptr -> host_get h3 p = host_get h2 p).
    { intros p Hp. by apply (get_del_other _ _ _ _ Hlaw). }
    pose proof (node_rep_readable host_get h2 d cies' _ cps' Hrep') as Hread2.
    assert (N1 : kptr ∉ cps').
    { intros Hin. destruct (Hfresh' _ Hin) as [Hc|Hc]; [done|congruence]. }
    assert (S1 : forall p, p ∈ ps_pre ∪ ps_post -> host_get h4 p = host_get h p).
    { intros p Hp. destruct (Hread p) as [x Hx]; [set_solver|].
      rewrite Hx. apply Hpres34. rewrite F2 by set_solver.
      apply Hframe'; [set_solver|done]. }
    assert (C1 : forall p, p ∈ cps' -> host_get h3 p = host_get h2 p).
    { intros p Hp. apply F2. intros ->. done. }
    assert (A : forall p, p ∈ cps' -> (p ∉ ps_pre) /\ (p ∉ ps_post)).
    { intros p Hp. destruct (Hfresh' _ Hp) as [Hc|Hc]; [set_solver|].
      split; intros Hin; (destruct (Hread p) as [x Hx]; [set_solver|congruence]). }
    assert (B : forall q, q ∈ qs -> (q ∉ ps_pre) /\ (q ∉ ps_post) /\ (q ∉ cps')).
    { intros q Hq. destruct (Hfresh34 _ Hq) as [Hnone _].
      assert (Hsib : forall p, p ∈ ps_pre ∪ ps_post -> is_Some (host_get h3 p)).
      { intros p Hp. destruct (Hread p) as [x Hx]; [set_solver|].
        exists x. rewrite F2 by set_solver. apply Hframe'; [set_solver|done]. }
      split_and!; intros Hin.
      - destruct (Hsib q) as [x Hx]; [set_solver|congruence].
      - destruct (Hsib q) as [x Hx]; [set_solver|congruence].
      - destruct (Hread2 _ Hin) as [x Hx]. rewrite <- C1 in Hx by done. congruence. }
    exists new, (take r ies ++ K ++ drop (S r) ies),
      (ps_pre ∪ ((list_to_set qs ∪ cps') ∪ ps_post)), t4.
    split_and!.
    + (* the run *)
      cbn [treeInsert]. unfold bind at 1, lift at 1. rewrite Hlook. cbv beta iota.
      unfold bind at 1, lift at 1. rewrite (filled_btype Hold). cbv beta iota.
      change (kind (S d) =? BNODE_LEAF) with false.
      change (kind (S d) =? BNODE_NODE) with true. cbv beta iota.
      unfold bind at 1, lift at 1. rewrite (filled_getPtr Hold _ _ Hie). cbv beta iota.
      fold kptr.
      unfold bind at 1, tree_get at 1. fold h. rewrite Hcp. cbv beta iota. fold t1.
      unfold bind at 1. rewrite Hrun. cbv beta iota.
      unfold bind at 1, lift at 1. rewrite Hsplit. cbv beta iota.
      unfold bind at 1, tree_del at 1. cbv beta iota. fold h2 h3 t3.
      rewrite Nat2Z.id. fold pages. exact Hrk.
    + unfold t4, t3. simpl. done.
    + change (host t4) with h4.
      apply (room_weaken host_get host_new host_del room Hlaw n (3 - m)).
      by replace (n + (3 - m))%nat with (n + 3 - m)%nat by lia.
    + rewrite Hln. apply len_make. unfold BTREE_PAGE_SIZE. lia.
    + exact Hhn.
    + intros E. apply (f_equal length) in E. rewrite !length_app, HlK in E.
      simpl in E. lia.
    + rewrite Hsz''. unfold BTREE_PAGE_SIZE in *. lia.
    + (* the tree *)
      rewrite Hup. change (host t4) with h4.
      change (kids_ h4 (page_rep_ h4 d) (take r ies ++ K ++ drop (S r) ies)
                (es_pre ++ upsert key val ces ++ es_post)
                (ps_pre ∪ ((list_to_set qs ∪ cps') ∪ ps_post))).
      apply kids_app; [|apply kids_app|].
      * apply (node_rep_frame host_get h h4 (S d)); [|exact Hpre].
        intros p Hp. apply S1. set_solver.
      * apply (split_alloc_kids host_get host_new host_del room Hlaw h3 d cies'
                 (upsert key val ces) cps' pages (n + 3 - m)); try done.
        eapply node_rep_frame; [|exact Hrep']. exact C1.
      * apply (node_rep_frame host_get h h4 (S d)); [|exact Hpost].
        intros p Hp. apply S1. set_solver.
      * intros x Hx1 Hx2. apply elem_of_union in Hx1 as [Hx1|Hx1].
        -- apply elem_of_list_to_set in Hx1. destruct (B _ Hx1) as (_ & ? & _). done.
        -- destruct (A _ Hx1) as (_ & ?). done.
      * intros x Hx1 Hx2. apply elem_of_union in Hx2 as [Hx2|Hx2]; [|set_solver].
        apply elem_of_union in Hx2 as [Hx2|Hx2].
        -- apply elem_of_list_to_set in Hx2. destruct (B _ Hx2) as (? & _). done.
        -- destruct (A _ Hx2) as (? & _). done.
    + (* new page numbers *)
      intros p Hp.
      destruct (decide (p ∈ ps_pre ∪ ({[kptr]} ∪ cps ∪ ps_post))) as [Hin|Hout];
        [by left|]. right.
      apply elem_of_union in Hp as [Hp|Hp]; [set_solver|].
      apply elem_of_union in Hp as [Hp|Hp]; [|set_solver].
      apply elem_of_union in Hp as [Hp|Hp].
      * apply elem_of_list_to_set in Hp. destruct (Hfresh34 _ Hp) as [Hnone _].
        destruct (host_get h p) as [x|] eqn:Hx; [|done].
        rewrite F2 in Hnone by set_solver.
        rewrite (Hframe' p x) in Hnone; [done|set_solver|done].
      * destruct (Hfresh' _ Hp) as [Hc|Hc]; [set_solver|done].
    + (* no other page *)
      intros p Hp. change (host t4) with h4 in Hp.
      destruct (decide (p ∈ qs)) as [Hq|Hq]; [left; set_solver|].
      rewrite Hother34 in Hp by done.
      destruct (decide (p = kptr)) as [->|Hpk].
      { unfold h3 in Hp. rewrite (get_del_same _ _ _ _ Hlaw) in Hp. by destruct Hp. }
      rewrite F2 in Hp by done.
      destruct (Hgc_c p Hp) as [Hin|[Hnin Hrd]]; [left; set_solver|].
      destruct (decide (p ∈ ps_pre ∪ ps_post)) as [Hin|Hout]; [left; set_solver|].
      right. split; [set_solver|done].
    + (* the calls *)
      exists ([EvGet kptr] ++ evs_c ++ [EvDel kptr] ++ alloc_events host_new h3 pages).
      split_and!.
      * unfold t4, t3. cbn [trace]. rewrite Htr2. unfold t1. cbn [trace].
        by rewrite <- !app_assoc.
      * rewrite !length_app. unfold alloc_events. rewrite length_zip_with.
        fold qs. simpl. lia.
      * rewrite !reads_app. unfold alloc_events. rewrite reads_news.
        simpl. rewrite app_nil_r. by rewrite Hlen_c.
      * rewrite !frees_app, !reads_app. unfold alloc_events.
        rewrite reads_news, frees_news. simpl. rewrite !app_nil_r.
        by rewrite Hfrees_c.
      * rewrite !reads_app. unfold alloc_events. rewrite reads_news.
        simpl. rewrite app_nil_r. constructor; [|done].
        intros Hin. apply Hin_c in Hin. done.
      * intros p. rewrite !reads_app. unfold alloc_events. rewrite reads_news.
        simpl. rewrite app_nil_r. intros Hin.
        apply elem_of_cons in Hin as [->|Hin]; [set_solver|].
        apply Hin_c in Hin. set_solver.
      * rewrite !news_app. unfold alloc_events. rewrite news_news by (fold qs; lia).
        simpl. apply Forall_app. split; [done|].
        clear -Hparts. induction Hparts as [|p l ps ls [_ Hl] _ IH]; by constructor.
      * intros p x. rewrite !reads_app. unfold alloc_events. rewrite reads_news.
        simpl. rewrite app_nil_r. intros Hp Hx.
        apply not_elem_of_cons in Hp as [Hpk Hp].
        change (host t4) with h4. apply Hpres34.
        rewrite F2 by done. by apply Hframe_c.
Qed.

End TreeInsert.

(** ** [Insert] on a tree *)

Section InsertTree.

Context {Host : Type}.
Variable host_get : Host -> Z -> option BNode.
Variable host_new : Host -> BNode -> Z * Host.
Variable host_del : Host -> Z -> Host.
Variable room : nat -> Host -> Prop.
Hypothesis Hlaw : lawful_host host_get host_new host_del room.

Local Abbreviation kids_ := (kids host_get).
Local Abbreviation node_rep_ := (node_rep host_get).
Local Abbreviation page_rep_ := (page_rep host_get).
Local Abbreviation tree_rep_ := (tree_rep host_get).
Local Abbreviation btree_holds_ := (btree_holds host_get).
Local Abbreviation tree_pages_ := (tree_pages host_get).
Local Abbreviation btree_pages_ := (btree_pages host_get).
Local Abbreviation alloc_all_ := (alloc_all host_new).
Local Abbreviation Insert_ := (Insert host_get host_new host_del).

Lemma checkLimit_within (key val : list byte) :
  len key <= BTREE_MAX_KEY_SIZE -> len val <= BTREE_MAX_VAL_SIZE ->
  checkLimit key val = None.
Proof.
  intros Hk Hv. unfold checkLimit.
  destruct (Z.gtb_spec (len key) BTREE_MAX_KEY_SIZE); [lia|].
  destruct (Z.gtb_spec (len val) BTREE_MAX_VAL_SIZE); [lia|]. done.
Qed.

Lemma tree_pages_rep (h : Host) (d : nat) (ptr : Z) (es : list entry) (P : gset Z) :
  tree_pages_ h d ptr es P -> tree_rep_ h d ptr es.
Proof. intros (page & ps & H1 & H2 & H3 & _). by exists page, ps. Qed.

Lemma btree_holds_pages (t : @BTree Host) (d : nat) (es : list entry) :
  btree_holds_ t d es -> exists P, btree_pages_ t d es P.
Proof.
  intros Hh. pose proof Hh as (_ & (page & ps & H1 & H2 & H3) & _).
  exists ({[root t]} ∪ ps). split; [done|]. by exists page, ps.
Qed.

Lemma tree_pages_readable (h : Host) (d : nat) (ptr : Z) (es : list entry)
    (P : gset Z) :
  tree_pages_ h d ptr es P -> forall p, p ∈ P -> is_Some (host_get h p).
Proof.
  intros (page & ps & H1 & (ies & _ & _ & _ & Hrep) & _ & ->) p Hp.
  apply elem_of_union in Hp as [Hp|Hp].
  - apply elem_of_singleton in Hp as ->. by exists page.
  - by apply (node_rep_readable host_get h d ies es ps Hrep).
Qed.

Lemma Insert_pages (fuel d : nat) (key val : list byte) (es : list entry)
    (t : @BTree Host) (n : nat) (P : gset Z) :
  btree_pages_ t d es P ->
  room (n + 3 * d + 4) (host t) ->
  (d < fuel)%nat ->
  len key <= BTREE_MAX_KEY_SIZE ->
  len val <= BTREE_MAX_VAL_SIZE ->
  exists (t' : @BTree Host) (d' : nat) (P' : gset Z),
    Insert_ fuel key val t = Done (None, t') /\
    btree_pages_ t' d' (upsert key val es) P' /\
    (d' = d \/ d' = S d) /\
    room n (host t') /\
    (forall p, p ∈ P' -> p ∈ P \/ host_get (host t) p = None) /\
    (forall p, is_Some (host_get (host t') p) ->
               p ∈ P' \/ ((p ∉ P) /\ is_Some (host_get (host t) p))) /\
    exists evs,
      trace t' = trace t ++ evs /\
      (length evs <= 5 * d + 6)%nat /\
      head (reads evs) = Some (root t) /\
      length (reads evs) = S d /\
      frees evs = rev (reads evs) /\
      NoDup (reads evs) /\
      Forall (fun data => len data = BTREE_PAGE_SIZE) (news evs) /\
      (forall p x, p ∉ reads evs -> host_get (host t) p = Some x ->
                   host_get (host t') p = Some x) /\
      (forall p, p ∈ reads evs -> p ∈ P).
Proof.
  intros ((Hroot & _ & Hs & Hlim & Hfk)
          & (page & ps & Hpage & (ies & Hold & Hsize & Hne & Hrep) & Hnin & ->))
         Hroom Hfuel Hk Hv.
  set (h := host t) in *.
  pose proof (node_rep_readable host_get h d ies es ps Hrep) as Hread.
  set (t1 := mkBTree (root t) h (trace t ++ [EvGet (root t)])).
  destruct (treeInsert_rep host_get host_new host_del room Hlaw d fuel page ies es ps
              key val [] t1 (n + 4)%nat)
    as (knode & ies' & ps' & t2 & Hrun & Hroot2 & Hroom2 & Hlenk & Hhk & Hne' & Hsz'
        & Hrep' & Hfresh' & Hgc_c & evs_c & Htr2 & Hcnt_c & Hlen_c & Hfrees_c & Hnd_c
        & Hin_c & Hnews_c & Hframe_c);
    [done|by replace (n + 4 + 3 * d)%nat with (n + 3 * d + 4)%nat by lia
    |done|done|done|done|done|done|done|apply Compare_nil_le|done|done|].
  change (host t1) with h in Hfresh', Hgc_c, Hframe_c.
  change (root t1) with (root t) in Hroot2.
  set (h2 := host t2) in *.
  assert (Hlim' : Forall entry_within_limits ies').
  { eapply node_rep_limits; [exact Hrep'|]. by apply upsert_limits. }
  assert (Hfits' : Forall entry_fits ies').
  { eapply Forall_impl; [exact Hlim'|]. apply entry_within_limits_fits. }
  pose proof (split_parts_fit ies' Hfits' Hsz') as Hpfit.
  pose proof (split_parts_nonempty ies' Hfits' Hne') as Hpne.
  pose proof (split_parts_length ies') as Hplen.
  pose proof (split_parts_concat ies') as Hpcat.
  destruct (nodeSplit3_holds knode (kind d) ies') as (parts & Hsplit & Hlparts & Hparts);
    [done|done|unfold BTREE_PAGE_SIZE in *; lia|unfold BTREE_PAGE_SIZE in *; lia
    |done|].
  set (m := length (split_parts ies')) in *.
  set (pages := take m parts) in *.
  assert (Hlpages : length pages = m).
  { unfold pages. rewrite length_take. lia. }
  set (h3 := host_del h2 (root t)).
  set (t3 := mkBTree (root t) h3 (trace t2 ++ [EvDel (root t)])).
  assert (Hroom3 : room (n + 4) h3) by (by apply (room_del _ _ _ _ Hlaw)).
  assert (F2 : forall p, p <> root t -> host_get h3 p = host_get h2 p).
  { intros p Hp. by apply (get_del_other _ _ _ _ Hlaw). }
  assert (Hframe3 : forall p x, p ∉ ({[root t]} ∪ ps : gset Z) ->
                                host_get h p = Some x -> host_get h3 p = Some x).
  { intros p x Hp Hx. rewrite F2 by set_solver. apply Hframe_c; [|done].
    intros Hin. apply Hin_c in Hin. set_solver. }
  assert (Hgc3 : forall p, is_Some (host_get h3 p) ->
                   p ∈ ps' \/ ((p ∉ ({[root t]} ∪ ps : gset Z)) /\
                               is_Some (host_get h p))).
  { intros p Hp. destruct (decide (p = root t)) as [->|Hpr].
    { unfold h3 in Hp. rewrite (get_del_same _ _ _ _ Hlaw) in Hp. by destruct Hp. }
    rewrite F2 in Hp by done.
    destruct (Hgc_c p Hp) as [Hin|[Hnin' Hrd]]; [by left|].
    right. split; [set_solver|done]. }
  pose proof (node_rep_readable host_get h2 d ies' _ ps' Hrep') as Hread2.
  assert (N1 : root t ∉ ps').
  { intros Hin. destruct (Hfresh' _ Hin) as [Hc|Hc]; [done|congruence]. }
  assert (C1 : forall p, p ∈ ps' -> host_get h3 p = host_get h2 p).
  { intros p Hp. apply F2. intros ->. done. }
  assert (Hrep3 : node_rep_ h3 d ies' (upsert key val es) ps').
  { eapply node_rep_frame; [|exact Hrep']. exact C1. }
  pose proof (node_rep_readable host_get h3 d ies' _ ps' Hrep3) as Hread3.
  assert (Hcontent : sorted (upsert key val es) /\
                     Forall entry_within_limits (upsert key val es) /\
                     first_key (upsert key val es) = Some []).
  { split_and!; [by apply upsert_sorted|by apply upsert_limits|].
    apply upsert_first_key; [done|apply Compare_nil_le]. }
  (* the run up to the split *)
  assert (Hstart : forall k : Z * list BNode -> @M Host (option error),
    (bind (tree_get host_get (root t))
       (fun page => bind (treeInsert host_get host_new host_del fuel page key val)
          (fun node => bind (lift (nodeSplit3 node)) k))) t
    = k (Z.of_nat m, parts) t2).
  { intros k. unfold bind at 1, tree_get at 1. fold h. rewrite Hpage. cbv beta iota.
    fold t1. unfold bind at 1. rewrite Hrun. cbv beta iota.
    unfold bind at 1, lift at 1. rewrite Hsplit. done. }
  assert (Hins : Insert_ fuel key val t
    = (if Z.of_nat m >? 1
       then bind (lift (setHeader (make BTREE_PAGE_SIZE) BNODE_NODE (Z.of_nat m)))
              (fun rootn => bind (newRoot_loop host_new rootn 0 pages)
                 (fun rootn => bind (tree_new host_new rootn)
                    (fun ptr => bind (set_root ptr) (fun _ => ret None))))
       else bind (lift (parts !! 0%nat))
              (fun s0 => bind (tree_new host_new s0)
                 (fun ptr => bind (set_root ptr) (fun _ => ret None)))) t3).
  { unfold Insert. rewrite checkLimit_within by done.
    unfold bind at 1, get_root at 1. cbv beta iota.
    destruct (Z.eqb_spec (root t) 0) as [E|_]; [contradiction|].
    rewrite Hstart. cbv beta iota.
    unfold bind at 1, get_root at 1. cbv beta iota.
    unfold bind at 1, tree_del at 1. cbv beta iota.
    rewrite Hroot2. fold h2 h3 t3. rewrite Nat2Z.id. fold pages. done. }
  rewrite Hins. clear Hins Hstart.
  destruct (Z.gtb_spec (Z.of_nat m) 1) as [Hm|Hm].
  - (* the root was split *)
    set (keys := first_keys (split_parts ies')).
    assert (Hlkeys : length keys = m) by apply length_first_keys.
    set (qs := (alloc_all_ h3 pages).1).
    set (h4 := (alloc_all_ h3 pages).2).
    assert (Hlqs : length qs = m).
    { unfold qs. rewrite alloc_all_length. done. }
    set (K := kid_entries qs keys).
    assert (HlK : length K = m).
    { unfold K. rewrite length_kid_entries; lia. }
    assert (HoK : offs K <= 1004 * Z.of_nat m).
    { unfold K. rewrite <- Hlkeys. apply offs_kid_entries_le.
      apply first_keys_limits. by rewrite Hpcat. }
    pose proof (offs_nonneg K) as HoK0.
    assert (Hroom3' : room ((n + 4 - m) + length pages) h3).
    { by replace (n + 4 - m + length pages)%nat with (n + 4)%nat by lia. }
    destruct (alloc_all_spec host_get host_new host_del room Hlaw pages h3 _ Hroom3')
      as (Hroom4 & Hpres34 & Hget34 & Hnd34 & Hfresh34 & Hother34).
    fold qs h4 in Hroom4, Hpres34, Hget34, Hnd34, Hfresh34, Hother34.
    destruct (setHeader_filled (make BTREE_PAGE_SIZE) BNODE_NODE (Z.of_nat m))
      as (b0 & Hs0 & Hf0 & Hl0);
      [done|lia|rewrite len_make; unfold BTREE_PAGE_SIZE; lia|lia|].
    rewrite len_make in Hl0 by (unfold BTREE_PAGE_SIZE; lia).
    destruct (replaceKids_loop_spec host_new pages keys b0 BNODE_NODE (Z.of_nat m)
                [] 0 0 t3) as (b1 & Hr1 & Hf1 & Hl1).
    { by apply (parts_getKey (kind d)). }
    { change (host t3) with h3. fold qs. apply Forall_forall.
      intros q Hq. by destruct (Hfresh34 q Hq). }
    { done. }
    { done. }
    { simpl. lia. }
    { change (host t3) with h3. fold qs K. simpl. unfold BTREE_PAGE_SIZE in *. lia. }
    { change (host t3) with h3. fold qs K. simpl. lia. }
    change (host t3) with h3 in Hr1, Hf1. fold qs h4 K in Hr1, Hf1.
    simpl in Hf1.
    set (t4 := mkBTree (root t3) h4 _) in Hr1.
    set (q := (host_new h4 b1).1).
    set (h5 := (host_new h4 b1).2).
    assert (Hroom4' : room (S n) h4).
    { apply (room_weaken host_get host_new host_del room Hlaw (S n) (3 - m)).
      by replace (S n + (3 - m))%nat with (n + 4 - m)%nat by lia. }
    assert (Hq : 0 < q < 2 ^ 64).
    { apply (new_range _ _ _ _ Hlaw).
      apply (room_weaken host_get host_new host_del room Hlaw 1%nat n).
      by replace (1 + n)%nat with (S n) by lia. }
    assert (Hqf : host_get h4 q = None) by apply (new_fresh _ _ _ _ Hlaw).
    assert (Hkids4 : kids_ h4 (page_rep_ h4 d) K (upsert key val es)
                       (list_to_set qs ∪ ps')).
    { apply (split_alloc_kids host_get host_new host_del room Hlaw h3 d ies'
               (upsert key val es) ps' pages (n + 4 - m)); done. }
    pose proof (node_rep_readable host_get h4 (S d) K _ _ Hkids4) as Hread4.
    assert (Hqn : q ∉ list_to_set qs ∪ ps').
    { intros Hin. destruct (Hread4 _ Hin) as [x Hx]. congruence. }
    assert (Htp : tree_pages_ h5 (S d) q (upsert key val es)
                    ({[q]} ∪ (list_to_set qs ∪ ps'))).
    { exists b1, (list_to_set qs ∪ ps'). split_and!.
      * apply (get_new_same _ _ _ _ Hlaw).
      * exists K. split_and!.
        -- unfold holds. by rewrite HlK.
        -- unfold node_size. rewrite HlK. unfold BTREE_PAGE_SIZE. lia.
        -- intros E. apply (f_equal length) in E. rewrite HlK in E. simpl in E. lia.
        -- apply (node_rep_frame host_get h4 h5 (S d)); [|exact Hkids4].
           intros p Hp. apply (get_new_other _ _ _ _ Hlaw). intros ->. done.
      * done.
      * done. }
    exists (mkBTree q h5 (trace t4 ++ [EvNew b1 q])), (S d),
      ({[q]} ∪ (list_to_set qs ∪ ps')).
    split; [|split; [split; [unfold btree_holds; split_and!|exact Htp]|split_and!]].
    + unfold bind at 1, lift at 1. rewrite Hs0. cbv beta iota.
      unfold bind at 1. rewrite newRoot_loop_eq.
      change 0 with (Z.of_nat 0) in Hr1 |- *. rewrite Hr1. cbv beta iota.
      unfold bind at 1. rewrite tree_new_eq. cbv beta iota. done.
    + cbn [root]. lia.
    + exact (tree_pages_rep _ _ _ _ _ Htp).
    + apply Hcontent.
    + apply Hcontent.
    + apply Hcontent.
    + by right.
    + by apply (room_new _ _ _ _ Hlaw).
    + (* the page numbers of the new tree *)
      intros p Hp. cbn [host].
      destruct (decide (p ∈ ({[root t]} ∪ ps : gset Z))) as [Hin|Hout]; [by left|].
      right. destruct (host_get h p) as [x|] eqn:Hx; [|done]. exfalso.
      pose proof (Hframe3 p x Hout Hx) as Hx3.
      pose proof (Hpres34 p x Hx3) as Hx4.
      apply elem_of_union in Hp as [Hp|Hp].
      * apply elem_of_singleton in Hp. rewrite Hp in *. congruence.
      * apply elem_of_union in Hp as [Hp|Hp].
        -- apply elem_of_list_to_set in Hp. destruct (Hfresh34 _ Hp) as [Hnone _].
           congruence.
        -- destruct (Hfresh' _ Hp) as [Hc|Hc]; [set_solver|congruence].
    + (* no other page *)
      intros p Hp. cbn [host] in Hp.
      destruct (decide (p = q)) as [->|Hpq]; [left; set_solver|].
      unfold h5 in Hp. rewrite (get_new_other _ _ _ _ Hlaw) in Hp by done.
      destruct (decide (p ∈ qs)) as [Hq'|Hq']; [left; set_solver|].
      fold h4 in Hp. rewrite Hother34 in Hp by done.
      destruct (Hgc3 p Hp) as [Hin|Hr]; [left; set_solver|by right].
    + exists ([EvGet (root t)] ++ evs_c ++ [EvDel (root t)]
              ++ alloc_events host_new h3 pages ++ [EvNew b1 q]).
      cbn [trace]. unfold t4, t3. cbn [trace]. rewrite Htr2. unfold t1. cbn [trace].
      rewrite !reads_app, !frees_app, !news_app. unfold alloc_events.
      rewrite !reads_news, !frees_news, news_news by (fold qs; lia). split_and!.
      * by rewrite <- !app_assoc.
      * rewrite !length_app, length_zip_with. fold qs. simpl. lia.
      * done.
      * simpl. rewrite app_nil_r. by rewrite Hlen_c.
      * simpl. rewrite !app_nil_r. by rewrite Hfrees_c.
      * simpl. rewrite app_nil_r. constructor; [|done].
        intros Hin. apply Hin_c in Hin. done.
      * simpl. apply Forall_app. split; [done|]. apply Forall_app. split.
        -- clear -Hparts. induction Hparts as [|p l ps ls [_ Hl] _ IH]; by constructor.
        -- constructor; [|constructor]. lia.
      * simpl. rewrite app_nil_r. intros p x Hp Hx.
        apply not_elem_of_cons in Hp as [Hpr Hp]. cbn [host].
        assert (Hx4 : host_get h4 p = Some x).
        { apply Hpres34. rewrite F2 by done. by apply Hframe_c. }
        transitivity (host_get h4 p); [|exact Hx4].
        apply (get_new_other _ _ _ _ Hlaw). intros E. unfold q in Hqf.
        rewrite E, Hqf in Hx4. discriminate.
      * simpl. rewrite app_nil_r. intros p Hp.
        apply elem_of_cons in Hp as [->|Hp]; [set_solver|].
        apply Hin_c in Hp. set_solver.
  - (* the root was not split *)
    assert (Hm1 : m = 1%nat) by lia.
    unfold pages in *. clear Hlpages. unfold m in *. clear Hm.
    destruct (split_parts ies') as [|l [|? ?]] eqn:Esp; simpl in Hm1; try lia.
    simpl in Hpcat. rewrite app_nil_r in Hpcat. subst l.
    apply Forall_cons in Hpfit as [Hfit _].
    destruct parts as [|p0 parts']; [done|].
    simpl in Hparts.
    apply Forall2_cons in Hparts as [[Hh0 Hl0] _].
    set (q := (host_new h3 p0).1).
    set (h4 := (host_new h3 p0).2).
    assert (Hq : 0 < q < 2 ^ 64).
    { apply (new_range _ _ _ _ Hlaw).
      apply (room_weaken host_get host_new host_del room Hlaw 1%nat (n + 3)).
      by replace (1 + (n + 3))%nat with (n + 4)%nat by lia. }
    assert (Hqf : host_get h3 q = None) by apply (new_fresh _ _ _ _ Hlaw).
    assert (Hqn : q ∉ ps').
    { intros Hin. destruct (Hread3 _ Hin) as [x Hx]. congruence. }
    assert (Htp : tree_pages_ h4 d q (upsert key val es) ({[q]} ∪ ps')).
    { exists p0, ps'. split_and!.
      * apply (get_new_same _ _ _ _ Hlaw).
      * exists ies'. split_and!; try done.
        apply (node_rep_frame host_get h3 h4 d); [|exact Hrep3].
        intros p Hp. apply (get_new_other _ _ _ _ Hlaw). intros ->. done.
      * done.
      * done. }
    exists (mkBTree q h4 (trace t3 ++ [EvNew p0 q])), d, ({[q]} ∪ ps').
    split; [|split; [split; [unfold btree_holds; split_and!|exact Htp]|split_and!]].
    + unfold bind at 1, lift at 1. simpl lookup. cbv beta iota.
      unfold bind at 1. rewrite tree_new_eq. cbv beta iota. done.
    + cbn [root]. lia.
    + exact (tree_pages_rep _ _ _ _ _ Htp).
    + apply Hcontent.
    + apply Hcontent.
    + apply Hcontent.
    + by left.
    + apply (room_weaken host_get host_new host_del room Hlaw n 3).
      cbn [host]. apply (room_new _ _ _ _ Hlaw).
      by replace (S (n + 3)) with (n + 4)%nat by lia.
    + (* the page numbers of the new tree *)
      intros p Hp. cbn [host].
      destruct (decide (p ∈ ({[root t]} ∪ ps : gset Z))) as [Hin|Hout]; [by left|].
      right. destruct (host_get h p) as [x|] eqn:Hx; [|done]. exfalso.
      pose proof (Hframe3 p x Hout Hx) as Hx3.
      apply elem_of_union in Hp as [Hp|Hp].
      * apply elem_of_singleton in Hp. rewrite Hp in *. congruence.
      * destruct (Hfresh' _ Hp) as [Hc|Hc]; [set_solver|congruence].
    + (* no other page *)
      intros p Hp. cbn [host] in Hp.
      destruct (decide (p = q)) as [->|Hpq]; [left; set_solver|].
      unfold h4 in Hp. rewrite (get_new_other _ _ _ _ Hlaw) in Hp by done.
      destruct (Hgc3 p Hp) as [Hin|Hr]; [left; set_solver|by right].
    + exists ([EvGet (root t)] ++ evs_c ++ [EvDel (root t)] ++ [EvNew p0 q]).
      cbn [trace]. unfold t3. cbn [trace]. rewrite Htr2. unfold t1. cbn [trace].
      rewrite !reads_app, !frees_app, !news_app. split_and!.
      * by rewrite <- !app_assoc.
      * rewrite !length_app. simpl. lia.
      * done.
      * simpl. rewrite app_nil_r. by rewrite Hlen_c.
      * simpl. rewrite !app_nil_r. by rewrite Hfrees_c.
      * simpl. rewrite app_nil_r. constructor; [|done].
        intros Hin. apply Hin_c in Hin. done.
      * simpl. apply Forall_app. split; [done|]. constructor; [done|constructor].
      * simpl. rewrite app_nil_r. intros p x Hp Hx.
        apply not_elem_of_cons in Hp as [Hpr Hp]. cbn [host].
        assert (Hx3 : host_get h3 p = Some x).
        { rewrite F2 by done. by apply Hframe_c. }
        transitivity (host_get h3 p); [|exact Hx3].
        apply (get_new_other _ _ _ _ Hlaw). intros E. unfold q in Hqf.
        rewrite E, Hqf in Hx3. discriminate.
      * simpl. rewrite app_nil_r. intros p Hp.
        apply elem_of_cons in Hp as [->|Hp]; [set_solver|].
        apply Hin_c in Hp. set_solver.
Qed.

Lemma Insert_rep (fuel d : nat) (key val : list byte) (es : list entry)
    (t : @BTree Host) (n : nat) :
  btree_holds_ t d es ->
  room (n + 3 * d + 4) (host t) ->
  (d < fuel)%nat ->
  len key <= BTREE_MAX_KEY_SIZE ->
  len val <= BTREE_MAX_VAL_SIZE ->
  exists (t' : @BTree Host) (d' : nat),
    Insert_ fuel key val t = Done (None, t') /\
    btree_holds_ t' d' (upsert key val es) /\
    (d' = d \/ d' = S d) /\
    room n (host t') /\
    exists evs,
      trace t' = trace t ++ evs /\
      (length evs <= 5 * d + 6)%nat /\
      head (reads evs) = Some (root t) /\
      length (reads evs) = S d /\
      frees evs = rev (reads evs) /\
      NoDup (reads evs) /\
      Forall (fun data => len data = BTREE_PAGE_SIZE) (news evs) /\
      (forall p x, p ∉ reads evs -> host_get (host t) p = Some x ->
                   host_get (host t') p = Some x).
Proof.
  intros Hh Hroom Hfuel Hk Hv.
  destruct (btree_holds_pages t d es Hh) as (P & HP).
  destruct (Insert_pages fuel d key val es t n P HP Hroom Hfuel Hk Hv)
    as (t' & d' & P' & Hrun & [Hh' _] & Hd' & Hroom' & _ & _ & evs & H1 & H2 & H3 & H4
        & H5 & H6 & H7 & H8 & _).
  exists t', d'. split; [done|]. split; [done|]. split; [done|]. split; [done|].
  exists evs. split_and!; done.
Qed.

End InsertTree.

(** ** The first insert, and inserts in turn *)

Section InsertSeq.

Context {Host : Type}.
Variable host_get : Host -> Z -> option BNode.
Variable host_new : Host -> BNode -> Z * Host.
Variable host_del : Host -> Z -> Host.
Variable room : nat -> Host -> Prop.
Hypothesis Hlaw : lawful_host host_get host_new host_del room.

Local Abbreviation btree_holds_ := (btree_holds host_get).
Local Abbreviation btree_pages_ := (btree_pages host_get).
Local Abbreviation Insert_ := (Insert host_get host_new host_del).
Local Abbreviation Inserts_ := (Inserts host_get host_new host_del).

Lemma Insert_root0 (fuel : nat) (key val : list byte) (t : @BTree Host) :
  root t = 0 ->
  len key <= BTREE_MAX_KEY_SIZE ->
  len val <= BTREE_MAX_VAL_SIZE ->
  exists page,
    Insert_ fuel key val t
      = Done (None, mkBTree (host_new (host t) page).1
                            (host_new (host t) page).2
                            (trace t ++ [EvNew page (host_new (host t) page).1])) /\
    len page = BTREE_PAGE_SIZE /\
    holds page BNODE_LEAF [mkEntry 0 [] []; mkEntry 0 key val].
Proof.
  intros Hroot Hk Hv.
  pose proof (len_nonneg key). pose proof (len_nonneg val).
  assert (Hlm : len (make BTREE_PAGE_SIZE) = 4096) by (by rewrite len_make).
  destruct (setHeader_filled (make BTREE_PAGE_SIZE) BNODE_LEAF 2)
    as (b0 & Hb0 & Hf0 & Hl0); try (unfold BNODE_LEAF; lia).
  destruct (nodeAppendKV_filled b0 BNODE_LEAF 2 [] (mkEntry 0 [] []))
    as (b1 & Hb1 & Hf1 & Hl1); try done;
    try (rewrite ?Hl0, ?Hlm; unfold entry_ok; cbn [offs length]; unfold kvsize;
         cbn [e_ptr e_key e_val]; rewrite ?len_nil; lia).
  unfold BTREE_MAX_KEY_SIZE, BTREE_MAX_VAL_SIZE in Hk, Hv.
  destruct (nodeAppendKV_filled b1 BNODE_LEAF 2 [mkEntry 0 [] []] (mkEntry 0 key val))
    as (b2 & Hb2 & Hf2 & Hl2); try done;
    try (rewrite ?Hl1, ?Hl0, ?Hlm; unfold entry_ok; cbn [offs length]; unfold kvsize;
         cbn [e_ptr e_key e_val]; rewrite ?len_nil; lia).
  cbn [length app e_ptr e_key e_val] in Hb1, Hb2, Hf2.
  change (Z.of_nat 0) with 0 in Hb1. change (Z.of_nat 1) with 1 in Hb2.
  exists b2. split; [|split; [change BTREE_PAGE_SIZE with 4096 at 1; lia|done]].
  unfold Insert. rewrite checkLimit_within by done.
  unfold bind, get_root. rewrite Hroot. simpl (0 =? 0).
  cbv iota. rewrite Hb0. unfold lift at 1. cbv iota beta.
  rewrite Hb1. unfold lift at 1. cbv iota beta.
  rewrite Hb2. unfold lift at 1. cbv iota beta.
  unfold tree_new, set_root, ret. simpl.
  by destruct (host_new (host t) b2).
Qed.

Lemma Insert_first_pages (fuel : nat) (key val : list byte) (t : @BTree Host)
    (n : nat) :
  root t = 0 ->
  room (S n) (host t) ->
  0 < len key <= BTREE_MAX_KEY_SIZE ->
  len val <= BTREE_MAX_VAL_SIZE ->
  exists t',
    Insert_ fuel key val t = Done (None, t') /\
    btree_pages_ t' 0 (upsert key val [mkEntry 0 [] []]) {[root t']} /\
    room n (host t') /\
    (forall p, is_Some (host_get (host t') p) ->
               p = root t' \/ is_Some (host_get (host t) p)).
Proof.
  intros Hroot Hroom [Hk0 Hk] Hv.
  destruct (Insert_root0 fuel key val t Hroot Hk Hv) as (page & Hrun & Hlen & Hh).
  assert (Hup : upsert key val [mkEntry 0 [] []] = [mkEntry 0 [] []; mkEntry 0 key val]).
  { simpl. by rewrite Compare_gt_nil. }
  rewrite Hup. eexists. split; [exact Hrun|].
  assert (Hq : 0 < (host_new (host t) page).1 < 2 ^ 64).
  { apply (new_range _ _ _ _ Hlaw).
    apply (room_weaken host_get host_new host_del room Hlaw 1%nat n).
    by replace (1 + n)%nat with (S n) by lia. }
  cbn [root host].
  assert (Hpg : page_rep host_get (host_new (host t) page).2 0 page
                  [mkEntry 0 [] []; mkEntry 0 key val] ∅).
  { exists [mkEntry 0 [] []; mkEntry 0 key val]. split_and!; try done.
    unfold node_size. cbn [length offs]. unfold kvsize. cbn [e_key e_val].
    rewrite len_nil. unfold BTREE_PAGE_SIZE, BTREE_MAX_KEY_SIZE, BTREE_MAX_VAL_SIZE in *.
    lia. }
  split; [|split; [by apply (room_new _ _ _ _ Hlaw)|]].
  - split.
    + unfold btree_holds. cbn [root host]. split_and!.
      * lia.
      * exists page, ∅. split; [apply (get_new_same _ _ _ _ Hlaw)|].
        split; [exact Hpg|set_solver].
      * simpl. split_and!; try done. constructor; [|constructor].
        simpl. destruct key; [unfold len in Hk0; simpl in Hk0; lia|done].
      * repeat constructor; simpl; rewrite ?len_nil;
          unfold BTREE_MAX_KEY_SIZE, BTREE_MAX_VAL_SIZE in *; lia.
      * done.
    + cbn [root host]. exists page, ∅. split; [apply (get_new_same _ _ _ _ Hlaw)|].
      split; [exact Hpg|]. split; [set_solver|]. set_solver.
  - intros p Hp.
    destruct (decide (p = (host_new (host t) page).1)) as [->|Hne]; [by left|].
    right. by rewrite (get_new_other _ _ _ _ Hlaw) in Hp.
Qed.

Lemma Insert_first_holds (fuel : nat) (key val : list byte) (t : @BTree Host)
    (n : nat) :
  root t = 0 ->
  room (S n) (host t) ->
  0 < len key <= BTREE_MAX_KEY_SIZE ->
  len val <= BTREE_MAX_VAL_SIZE ->
  exists t',
    Insert_ fuel key val t = Done (None, t') /\
    btree_holds_ t' 0 (upsert key val [mkEntry 0 [] []]) /\
    room n (host t').
Proof.
  intros Hroot Hroom Hk Hv.
  destruct (Insert_first_pages fuel key val t n Hroot Hroom Hk Hv)
    as (t' & Hrun & [Hh _] & Hroom' & _).
  by exists t'.
Qed.

Lemma Inserts_rep (kvs : list (list byte * list byte)) :
  forall (fuel d : nat) (es : list entry) (t : @BTree Host) (n : nat),
    btree_holds_ t d es ->
    room (n + pages_for d (length kvs)) (host t) ->
    (d + length kvs <= fuel)%nat ->
    Forall (fun kv => len kv.1 <= BTREE_MAX_KEY_SIZE /\
                      len kv.2 <= BTREE_MAX_VAL_SIZE) kvs ->
    exists (t' : @BTree Host) (d' : nat),
      Inserts_ fuel kvs t = Done (None, t') /\
      btree_holds_ t' d' (foldl (fun es kv => upsert kv.1 kv.2 es) es kvs) /\
      (d <= d' <= d + length kvs)%nat /\
      room n (host t').
Proof.
  induction kvs as [|[k v] kvs IH]; intros fuel d es t n Hh Hroom Hfuel Hlim.
  - exists t, d. simpl. unfold ret. split_and!; try done; try lia.
    unfold pages_for in Hroom. simpl in Hroom. by rewrite Nat.add_0_r in Hroom.
  - apply Forall_cons in Hlim as [[Hk Hv] Hlim]. simpl in Hk, Hv.
    cbn [length] in Hroom, Hfuel.
    set (n1 := (n + pages_for (S d) (length kvs))%nat).
    destruct (Insert_rep host_get host_new host_del room Hlaw fuel d k v es t n1)
      as (t1 & d1 & Hrun & Hh1 & Hd1 & Hroom1 & _); [done| |lia|done|done|].
    { apply (room_weaken host_get host_new host_del room Hlaw _
               (3 * length kvs + 3)).
      replace (n1 + 3 * d + 4 + (3 * length kvs + 3))%nat
        with (n + pages_for d (S (length kvs)))%nat; [done|].
      unfold n1, pages_for. nia. }
    destruct (IH fuel d1 (upsert k v es) t1 n) as (t' & d' & Hrun' & Hh' & Hd' & Hroom');
      [done| |lia|done|].
    { destruct Hd1 as [->| ->]; [|done].
      apply (room_weaken host_get host_new host_del room Hlaw _ (3 * length kvs)).
      replace (n + pages_for d (length kvs) + 3 * length kvs)%nat with n1; [done|].
      unfold n1, pages_for. nia. }
    exists t', d'. cbn [Inserts foldl fst snd length]. unfold bind at 1. rewrite Hrun.
    cbv beta iota. split; [exact Hrun'|]. split; [exact Hh'|].
    split; [lia|done].
Qed.

Lemma Inserts_pages (kvs : list (list byte * list byte)) :
  forall (fuel d : nat) (es : list entry) (t : @BTree Host) (n : nat) (P : gset Z),
    btree_pages_ t d es P ->
    (forall p, is_Some (host_get (host t) p) -> p ∈ P) ->
    room (n + pages_for d (length kvs)) (host t) ->
    (d + length kvs <= fuel)%nat ->
    Forall (fun kv => len kv.1 <= BTREE_MAX_KEY_SIZE /\
                      len kv.2 <= BTREE_MAX_VAL_SIZE) kvs ->
    exists (t' : @BTree Host) (d' : nat) (P' : gset Z),
      Inserts_ fuel kvs t = Done (None, t') /\
      btree_pages_ t' d' (foldl (fun es kv => upsert kv.1 kv.2 es) es kvs) P' /\
      (d <= d' <= d + length kvs)%nat /\
      room n (host t') /\
      (forall p, is_Some (host_get (host t') p) -> p ∈ P').
Proof.
  induction kvs as [|[k v] kvs IH]; intros fuel d es t n P Hh Hall Hroom Hfuel Hlim.
  - exists t, d, P. simpl. unfold ret. split; [done|]. split; [done|].
    split; [lia|]. split; [|done].
    unfold pages_for in Hroom. simpl in Hroom. by rewrite Nat.add_0_r in Hroom.
  - apply Forall_cons in Hlim as [[Hk Hv] Hlim]. simpl in Hk, Hv.
    cbn [length] in Hroom, Hfuel.
    set (n1 := (n + pages_for (S d) (length kvs))%nat).
    destruct (Insert_pages host_get host_new host_del room Hlaw fuel d k v es t n1 P)
      as (t1 & d1 & P1 & Hrun & Hh1 & Hd1 & Hroom1 & _ & Hgc & _);
      [done| |lia|done|done|].
    { apply (room_weaken host_get host_new host_del room Hlaw _
               (3 * length kvs + 3)).
      replace (n1 + 3 * d + 4 + (3 * length kvs + 3))%nat
        with (n + pages_for d (S (length kvs)))%nat; [done|].
      unfold n1, pages_for. nia. }
    destruct (IH fuel d1 (upsert k v es) t1 n P1)
      as (t' & d' & P' & Hrun' & Hh' & Hd' & Hroom' & Hall');
      [done| | |lia|done|].
    { intros p Hp. destruct (Hgc p Hp) as [Hin|[Hout Hrd]]; [done|].
      by apply Hall in Hrd. }
    { destruct Hd1 as [->| ->]; [|done].
      apply (room_weaken host_get host_new host_del room Hlaw _ (3 * length kvs)).
      replace (n + pages_for d (length kvs) + 3 * length kvs)%nat with n1; [done|].
      unfold n1, pages_for. nia. }
    exists t', d', P'. cbn [Inserts foldl fst snd length]. unfold bind at 1.
    rewrite Hrun. cbv beta iota. split; [exact Hrun'|]. split; [exact Hh'|].
    split; [lia|]. split; done.
Qed.

End InsertSeq.

(** * The list host and the sample trees *)

Lemma list_host_lawful : lawful_host list_get list_new list_del list_room.
Proof.
  split; unfold list_room, list_get, list_new, list_del, list_host; simpl.
  - intros n h. lia.
  - intros n h data. rewrite length_app. simpl. lia.
  - intros n h q. destruct (q <=? 0); [done|]. by rewrite length_insert.
  - intros h data. lia.
  - intros h data.
    destruct (Z.leb_spec (Z.of_nat (length h) + 1) 0); [done|].
    replace (Z.to_nat (Z.of_nat (length h) + 1 - 1)) with (length h) by lia.
    by rewrite lookup_ge_None_2.
  - intros h data.
    destruct (Z.leb_spec (Z.of_nat (length h) + 1) 0); [lia|].
    replace (Z.to_nat (Z.of_nat (length h) + 1 - 1)) with (length h) by lia.
    rewrite lookup_app_r by lia. by rewrite Nat.sub_diag.
  - intros h data p Hp.
    destruct (Z.leb_spec p 0); [done|]. f_equal.
    destruct (decide (Z.to_nat (p - 1) < length h)%nat).
    + by rewrite lookup_app_l.
    + rewrite !lookup_ge_None_2; [done|lia|]. rewrite length_app. simpl. lia.
  - intros h q.
    destruct (Z.leb_spec q 0); [done|].
    destruct (decide (Z.to_nat (q - 1) < length h)%nat).
    + by rewrite list_lookup_insert_eq.
    + rewrite lookup_ge_None_2; [done|]. rewrite length_insert. lia.
  - intros h q p Hp.
    destruct (Z.leb_spec p 0); [done|].
    destruct (Z.leb_spec q 0); [done|]. f_equal.
    apply list_lookup_insert_ne. lia.
Qed.

Lemma sample_entries_sorted : sorted sample_entries.
Proof. simpl. repeat split; repeat constructor. Qed.

Lemma sample_entries_limits : Forall entry_within_limits sample_entries.
Proof. repeat (apply List.Forall_cons; [closed_fact|]). apply List.Forall_nil. Qed.

Lemma leaf_tree_holds : btree_holds list_get leaf_tree 0 sample_entries.
Proof.
  split; [by vm_compute|]. split; [|split; [exact sample_entries_sorted|
    split; [exact sample_entries_limits|reflexivity]]].
  exists sample_leaf, ∅. split; [by vm_compute|]. split; [|set_solver].
  exists sample_entries. split; [exact sample_leaf_holds|].
  split; [closed_fact|]. split; [discriminate|]. split; reflexivity.
Qed.

Lemma left_leaf_holds :
  holds left_leaf BNODE_LEAF [mkEntry 0 [] []; mkEntry 0 key_a [Byte.x01]].
Proof. unfold holds. filled_by_evaluation. Qed.

Lemma right_leaf_holds : holds right_leaf BNODE_LEAF [mkEntry 0 key_c [Byte.x03]].
Proof. unfold holds. filled_by_evaluation. Qed.

Lemma inner_root_holds :
  holds inner_root BNODE_NODE [mkEntry 1 [] []; mkEntry 2 key_c []].
Proof. unfold holds. filled_by_evaluation. Qed.

Lemma inner_root_rep :
  node_rep list_get (host two_level_tree) 1 [mkEntry 1 [] []; mkEntry 2 key_c []]
    two_level_entries ({[1]} ∪ ∅ ∪ ({[2]} ∪ ∅ ∪ ∅)).
Proof.
  cbn [node_rep].
  eapply (kids_cons _ _ _ (mkEntry 1 [] []) [mkEntry 2 key_c []] left_leaf
            [mkEntry 0 [] []; mkEntry 0 key_a [Byte.x01]] ∅
            [mkEntry 0 key_c [Byte.x03]] ({[2]} ∪ ∅ ∪ ∅)).
  - by vm_compute.
  - exists [mkEntry 0 [] []; mkEntry 0 key_a [Byte.x01]].
    split; [exact left_leaf_holds|]. split; [closed_fact|]. split; [discriminate|].
    split; reflexivity.
  - reflexivity.
  - reflexivity.
  - cbn [e_ptr]. lia.
  - set_solver.
  - cbn [e_ptr]. set_solver.
  - set_solver.
  - eapply (kids_cons _ _ _ (mkEntry 2 key_c []) [] right_leaf
              [mkEntry 0 key_c [Byte.x03]] ∅ [] ∅).
    + by vm_compute.
    + exists [mkEntry 0 key_c [Byte.x03]].
      split; [exact right_leaf_holds|]. split; [closed_fact|]. split; [discriminate|].
      split; reflexivity.
    + reflexivity.
    + reflexivity.
    + cbn [e_ptr]. lia.
    + set_solver.
    + set_solver.
    + set_solver.
    + constructor.
    + reflexivity.
    + reflexivity.
  - reflexivity.
  - reflexivity.
Qed.

Lemma two_level_entries_sorted : sorted two_level_entries.
Proof. simpl. repeat split; repeat constructor. Qed.

Lemma two_level_entries_limits : Forall entry_within_limits two_level_entries.
Proof. repeat (apply List.Forall_cons; [closed_fact|]). apply List.Forall_nil. Qed.

Lemma two_level_tree_holds : btree_holds list_get two_level_tree 1 two_level_entries.
Proof.
  split; [by vm_compute|]. split; [|split; [exact two_level_entries_sorted|
    split; [exact two_level_entries_limits|reflexivity]]].
  exists inner_root, ({[1]} ∪ ∅ ∪ ({[2]} ∪ ∅ ∪ ∅)).
  split; [by vm_compute|]. split; [|set_solver].
  exists [mkEntry 1 [] []; mkEntry 2 key_c []]. split; [exact inner_root_holds|].
  split; [closed_fact|]. split; [discriminate|]. exact inner_root_rep.
Qed.

(** * Inserts, as the caller sees them *)

Lemma upsert_elem_new (key val : list byte) (es : list entry) :
  mkEntry 0 key val ∈ upsert key val es.
Proof.
  induction es as [|e es IH]; simpl; [set_solver|].
  destruct (Compare key (e_key e)); set_solver.
Qed.

Lemma upsert_elem_old (key val : list byte) (es : list entry) (e : entry) :
  e ∈ es -> e_key e <> key -> e ∈ upsert key val es.
Proof.
  induction es as [|a es IH]; intros Hin Hne; [set_solver|]. simpl.
  destruct (Compare key (e_key a)) eqn:Hc.
  - apply Compare_eq in Hc. apply elem_of_cons in Hin as [->|Hin]; [done|set_solver].
  - set_solver.
  - apply elem_of_cons in Hin as [->|Hin]; [set_solver|].
    apply elem_of_cons. right. by apply IH.
Qed.

Lemma upsert_elem_inv (key val : list byte) (es : list entry) (e : entry) :
  e ∈ upsert key val es -> e = mkEntry 0 key val \/ e ∈ es.
Proof.
  induction es as [|a es IH]; simpl; [set_solver|].
  destruct (Compare key (e_key a)); [set_solver|set_solver|].
  intros Hin. apply elem_of_cons in Hin as [->|Hin]; [set_solver|].
  destruct (IH Hin); [by left|set_solver].
Qed.

Lemma upsert_upsert (key v1 v2 : list byte) (es : list entry) :
  upsert key v2 (upsert key v1 es) = upsert key v2 es.
Proof.
  induction es as [|e es IH]; simpl.
  - by rewrite Compare_refl.
  - destruct (Compare key (e_key e)) eqn:Hc; simpl.
    + by rewrite Compare_refl.
    + by rewrite Compare_refl.
    + by rewrite Hc, IH.
Qed.

Lemma upsert_sentinel (val : list byte) (es : list entry) :
  first_key es = Some [] -> upsert [] val es = mkEntry 0 [] val :: tail es.
Proof.
  destruct es as [|e es]; [done|]. intros [= Hk]. simpl. by rewrite Hk.
Qed.

Section Public.

Context {Host : Type}.
Variable host_get : Host -> Z -> option BNode.
Variable host_new : Host -> BNode -> Z * Host.
Variable host_del : Host -> Z -> Host.
Variable room : nat -> Host -> Prop.

(** X8.  [treeInsert] on a leaf in key order (at most a page, its first
    key at most [key], [key] and [val] within the limits) returns a leaf
    whose entries are those of the old leaf with [(0, key, val)] put in:
    in place of the entry with that key, or at its place in the order.
    The keys stay strictly ascending, every entry with another key is kept,
    nothing else is added, and a lookup of [key] in the new leaf finds an
    index where [getKey] returns [key] and [getVal] returns [val].  The host
    is not called. *)
Theorem treeInsert_leaf_contents (fuel : nat) (node : BNode) (es : list entry)
    (key val k0 : list byte) (t : @BTree Host) :
  holds node BNODE_LEAF es ->
  node_size es <= BTREE_PAGE_SIZE ->
  sorted es ->
  first_key es = Some k0 ->
  Compare k0 key <> Gt ->
  len key <= BTREE_MAX_KEY_SIZE ->
  len val <= BTREE_MAX_VAL_SIZE ->
  exists (new : BNode) (r : nat),
    treeInsert host_get host_new host_del (S fuel) node key val t = Done (new, t) /\
    btype new = Some BNODE_LEAF /\
    entries new = Some (upsert key val es) /\
    sorted (upsert key val es) /\
    nodeLookupLE new key = Some (Z.of_nat r) /\
    getKey new (Z.of_nat r) = Some key /\
    getVal new (Z.of_nat r) = Some val /\
    (forall e, e ∈ es -> e_key e <> key -> e ∈ upsert key val es) /\
    (forall e, e ∈ upsert key val es -> e = mkEntry 0 key val \/ e ∈ es).
Proof.
  intros Hold Hsize Hs Hk0 Hle Hk Hv.
  destruct (treeInsert_leaf_upsert host_get host_new host_del fuel node es key val
              k0 t) as (new & Hrun & Hlen & Hh & Hsz); [done..|].
  pose proof (upsert_sorted key val es Hs) as Hs'.
  pose proof (upsert_first_key key val es k0 Hk0 Hle) as Hfk'.
  destruct (nodeLookupLE_sorted new BNODE_LEAF (upsert key val es) key k0)
    as (r & e & Hlook & He & Hle_e & Hgt); [done..|].
  assert (Hnew : e = mkEntry 0 key val).
  { pose proof (upsert_elem_new key val es) as Hin.
    apply list_elem_of_lookup in Hin as [i Hi].
    destruct (Nat.lt_trichotomy i r) as [Hlt|[->|Hlt]].
    - pose proof (sorted_lookup _ i r _ _ Hs' Hlt Hi He) as Hc. simpl in Hc.
      apply Compare_lt_gt in Hc. done.
    - congruence.
    - pose proof (Hgt i _ Hlt Hi) as Hc. simpl in Hc.
      by rewrite Compare_refl in Hc. }
  subst e. exists new, r. split_and!; try done.
  - apply (filled_btype Hh).
  - by apply (holds_entries _ BNODE_LEAF).
  - apply (filled_getKey Hh _ _ He).
  - apply (filled_getVal Hh _ _ He).
  - apply upsert_elem_old.
  - apply upsert_elem_inv.
Qed.

(** X9.  [nodeReplaceKidN new old idx kids] calls the host's [new] once for
    each of [kids], in order, and no other callback, and builds in [new] the
    inner node that has the entries of [old] with entry [idx] replaced by
    one entry for each kid: the page number the host returned, the first
    key of the kid and no value.  With no kids the entry is removed. *)
Theorem nodeReplaceKidN_entries (new old : BNode) (ies : list entry) (idx : nat)
    (kidpages : list BNode) (keys : list (list byte)) (t : @BTree Host) :
  let ptrs := (alloc_all host_new (host t) kidpages).1 in
  let es' := take idx ies ++ kid_entries ptrs keys ++ drop (S idx) ies in
  holds old BNODE_NODE ies ->
  (idx < length ies)%nat ->
  Forall2 (fun kid k => getKey kid 0 = Some k) kidpages keys ->
  Forall (fun q => 0 < q < 2 ^ 64) ptrs ->
  node_size es' <= len new ->
  node_size es' < 65536 ->
  exists new',
    nodeReplaceKidN host_new new old (Z.of_nat idx) kidpages t
    = Done (new', mkBTree (root t) (alloc_all host_new (host t) kidpages).2
                          (trace t ++ alloc_events host_new (host t) kidpages)) /\
    len new' = len new /\
    btype new' = Some BNODE_NODE /\
    nkeys new' = Some (Z.of_nat (length ies + length kidpages - 1)) /\
    nbytes new' = Some (node_size es') /\
    entries new' = Some es'.
Proof.
  intros ptrs es' Hold Hidx Hkeys Hrng Hsize Hu16.
  destruct (nodeReplaceKidN_holds host_new new old ies idx kidpages keys t)
    as (new' & Hrun & Hh & Hl); [done..|].
  fold ptrs es' in Hh. exists new'. split_and!; try done.
  - apply (filled_btype Hh).
  - rewrite (filled_nkeys Hh). do 2 f_equal. unfold es'.
    pose proof (Forall2_length _ _ _ Hkeys) as Hlk.
    pose proof (alloc_all_length host_new kidpages (host t)) as Hlp.
    fold ptrs in Hlp.
    assert (Hle : length (kid_entries ptrs keys) = length kidpages).
    { rewrite length_kid_entries; lia. }
    rewrite !length_app, length_take, length_drop, Hle. lia.
  - by apply (holds_nbytes _ BNODE_NODE).
  - by apply (holds_entries _ BNODE_NODE).
Qed.

Hypothesis Hlaw : lawful_host host_get host_new host_del room.

(** X10.  [treeInsert] on a node of a well-formed tree, at any height [d]:
    with a lawful host that has room for three pages per level, and enough
    recursion depth, it returns a two-page buffer that holds a node of the
    same kind of at most [2 * PAGE_SIZE - 3] bytes, so that [nodeSplit3]
    can split it, and the tree below that node is well formed in the host
    as the call leaves it, with the contents of the old one and
    [(0, key, val)] put in.  The pages below it are pages of the old
    subtree or page numbers that held nothing before; a page the host holds
    after the call is one of them, or a page it held before that was not of
    the old subtree; the root pointer is not changed.  The call reads one
    page per level below the node, each a page of the old subtree, frees
    exactly the pages it read, each once and in the reverse order, and
    makes at most five callbacks per level; every page it hands to [new]
    has [PAGE_SIZE] bytes, and every page it did not read is left as it
    was. *)
Theorem treeInsert_subtree (d fuel : nat) (node : BNode) (ies es : list entry)
    (ps : gset Z) (key val k0 : list byte) (t : @BTree Host) (n : nat) :
  (d < fuel)%nat ->
  room (n + 3 * d) (host t) ->
  holds node (kind d) ies ->
  node_size ies <= BTREE_PAGE_SIZE ->
  ies <> [] ->
  node_rep host_get (host t) d ies es ps ->
  sorted es ->
  Forall entry_within_limits es ->
  first_key es = Some k0 ->
  Compare k0 key <> Gt ->
  len key <= BTREE_MAX_KEY_SIZE ->
  len val <= BTREE_MAX_VAL_SIZE ->
  exists (new : BNode) (ies' : list entry) (ps' : gset Z) (t' : @BTree Host),
    treeInsert host_get host_new host_del fuel node key val t = Done (new, t') /\
    root t' = root t /\
    room n (host t') /\
    len new = 2 * BTREE_PAGE_SIZE /\
    holds new (kind d) ies' /\
    ies' <> [] /\
    node_size ies' <= 2 * BTREE_PAGE_SIZE - 3 /\
    node_rep host_get (host t') d ies' (upsert key val es) ps' /\
    (forall p, p ∈ ps' -> p ∈ ps \/ host_get (host t) p = None) /\
    (forall p, is_Some (host_get (host t') p) ->
               p ∈ ps' \/ ((p ∉ ps) /\ is_Some (host_get (host t) p))) /\
    exists evs,
      trace t' = trace t ++ evs /\
      (length evs <= 5 * d)%nat /\
      length (reads evs) = d /\
      frees evs = rev (reads evs) /\
      NoDup (reads evs) /\
      (forall p, p ∈ reads evs -> p ∈ ps) /\
      Forall (fun data => len data = BTREE_PAGE_SIZE) (news evs) /\
      (forall p x, p ∉ reads evs -> host_get (host t) p = Some x ->
                   host_get (host t') p = Some x).
Proof.
  intros. by apply (treeInsert_rep host_get host_new host_del room Hlaw d fuel node
                      ies es ps key val k0 t n).
Qed.

(** X11.  [Insert] into a well-formed tree that is not empty, with a lawful
    host that has room, enough recursion depth and a key and a value within
    the limits: it returns no error, and the tree is again well formed, of
    the same height or one more, with the contents of the old tree and
    [(0, key, val)] put in ([upsert]): the value of [key] replaced if the
    tree had the key, the pair added at its place in the key order if
    not.  The sentinel stays first and the keys stay strictly
    ascending. *)
Theorem Insert_upsert (fuel d : nat) (key val : list byte) (es : list entry)
    (t : @BTree Host) (n : nat) :
  btree_holds host_get t d es ->
  room (n + 3 * d + 4) (host t) ->
  (d < fuel)%nat ->
  len key <= BTREE_MAX_KEY_SIZE ->
  len val <= BTREE_MAX_VAL_SIZE ->
  exists (t' : @BTree Host) (d' : nat),
    Insert host_get host_new host_del fuel key val t = Done (None, t') /\
    btree_holds host_get t' d' (upsert key val es) /\
    (d' = d \/ d' = S d) /\
    room n (host t').
Proof.
  intros Hh Hroom Hfuel Hk Hv.
  destruct (Insert_rep host_get host_new host_del room Hlaw fuel d key val es t n)
    as (t' & d' & Hrun & Hh' & Hd' & Hroom' & _); [done..|].
  by exists t', d'.
Qed.

(** X12.  The callbacks of an [Insert] into a well-formed tree of height
    [d]: it reads [d + 1] pages, the root first, no page twice; it frees
    exactly the pages it read, each once, in the reverse order; and it
    makes at most [5 * d + 6] callbacks in all. *)
Theorem Insert_path (fuel d : nat) (key val : list byte) (es : list entry)
    (t : @BTree Host) :
  btree_holds host_get t d es ->
  room (3 * d + 4) (host t) ->
  (d < fuel)%nat ->
  len key <= BTREE_MAX_KEY_SIZE ->
  len val <= BTREE_MAX_VAL_SIZE ->
  exists (t' : @BTree Host) (evs : list event),
    Insert host_get host_new host_del fuel key val t = Done (None, t') /\
    trace t' = trace t ++ evs /\
    (length evs <= 5 * d + 6)%nat /\
    head (reads evs) = Some (root t) /\
    length (reads evs) = S d /\
    frees evs = rev (reads evs) /\
    NoDup (reads evs).
Proof.
  intros Hh Hroom Hfuel Hk Hv.
  destruct (Insert_rep host_get host_new host_del room Hlaw fuel d key val es t 0)
    as (t' & d' & Hrun & _ & _ & _ & evs & Htr & Hcnt & Hhd & Hlen & Hfr & Hnd & _);
    [done..|].
  by exists t', evs.
Qed.

(** X16.  [Insert] copies on write.  A page of the host that the insert did
    not read holds after it what it held before: the insert changes and
    frees no page but those on the path it read.  Every page it hands to
    [new] has exactly [BTREE_PAGE_SIZE] bytes. *)
Theorem Insert_copy_on_write (fuel d : nat) (key val : list byte) (es : list entry)
    (t : @BTree Host) :
  btree_holds host_get t d es ->
  room (3 * d + 4) (host t) ->
  (d < fuel)%nat ->
  len key <= BTREE_MAX_KEY_SIZE ->
  len val <= BTREE_MAX_VAL_SIZE ->
  exists (t' : @BTree Host) (evs : list event),
    Insert host_get host_new host_del fuel key val t = Done (None, t') /\
    trace t' = trace t ++ evs /\
    (forall p x, p ∉ reads evs -> host_get (host t) p = Some x ->
                 host_get (host t') p = Some x) /\
    Forall (fun data => len data = BTREE_PAGE_SIZE) (news evs).
Proof.
  intros Hh Hroom Hfuel Hk Hv.
  destruct (Insert_rep host_get host_new host_del room Hlaw fuel d key val es t 0)
    as (t' & d' & Hrun & _ & _ & _ & evs & Htr & _ & _ & _ & _ & _ & Hnews & Hframe);
    [done..|].
  by exists t', evs.
Qed.

(** X17.  The pages of the tree after [Insert].  With [P] the page numbers
    of the old tree, the new tree has a set [P'] of page numbers, each
    readable in the host, and each a page number of the old tree or one
    that held nothing before the insert.  The insert leaves no page behind:
    a page the host holds after it is a page of the new tree, or a page
    that the host held before and that was not of the old tree. *)
Theorem Insert_no_leak (fuel d : nat) (key val : list byte) (es : list entry)
    (t : @BTree Host) (P : gset Z) :
  btree_pages host_get t d es P ->
  room (3 * d + 4) (host t) ->
  (d < fuel)%nat ->
  len key <= BTREE_MAX_KEY_SIZE ->
  len val <= BTREE_MAX_VAL_SIZE ->
  exists (t' : @BTree Host) (d' : nat) (P' : gset Z),
    Insert host_get host_new host_del fuel key val t = Done (None, t') /\
    btree_pages host_get t' d' (upsert key val es) P' /\
    (forall p, p ∈ P' -> is_Some (host_get (host t') p)) /\
    (forall p, p ∈ P' -> p ∈ P \/ host_get (host t) p = None) /\
    (forall p, is_Some (host_get (host t') p) ->
               p ∈ P' \/ ((p ∉ P) /\ is_Some (host_get (host t) p))).
Proof.
  intros Hh Hroom Hfuel Hk Hv.
  destruct (Insert_pages host_get host_new host_del room Hlaw fuel d key val es t 0 P)
    as (t' & d' & P' & Hrun & Hh' & _ & _ & Hfresh & Hgc & _); [done..|].
  exists t', d', P'. split; [done|]. split; [done|]. split; [|done].
  destruct Hh' as [_ Htp]. exact (tree_pages_readable host_get _ _ _ _ _ Htp).
Qed.

(** X13.  [Insert] of the empty key into a tree that is not empty adds no
    entry: the key is that of the sentinel, and the insert replaces the
    value of the sentinel. *)
Theorem Insert_empty_key (fuel d : nat) (val : list byte) (es : list entry)
    (t : @BTree Host) (n : nat) :
  btree_holds host_get t d es ->
  room (n + 3 * d + 4) (host t) ->
  (d < fuel)%nat ->
  len val <= BTREE_MAX_VAL_SIZE ->
  exists (t' : @BTree Host) (d' : nat),
    Insert host_get host_new host_del fuel [] val t = Done (None, t') /\
    btree_holds host_get t' d' (mkEntry 0 [] val :: tail es) /\
    length (mkEntry 0 [] val :: tail es) = length es.
Proof.
  intros Hh Hroom Hfuel Hv.
  destruct (Insert_rep host_get host_new host_del room Hlaw fuel d [] val es t n)
    as (t' & d' & Hrun & Hh' & _ & _ & _); [done|done|done| |done|].
  { rewrite len_nil. unfold BTREE_MAX_KEY_SIZE. lia. }
  destruct Hh as (_ & _ & _ & _ & Hfk).
  rewrite (upsert_sentinel val es Hfk) in Hh'.
  exists t', d'. split_and!; try done.
  destruct es; [done|]. done.
Qed.

(** X14.  Inserts in turn, from the empty tree.  For pairs within the
    limits, the first with a key that is not empty, and a lawful host with
    room: no insert returns an error or panics, and the result is a
    well-formed tree whose contents are the sentinel and the pairs in
    strictly ascending key order, each key once with the value of its last
    insert ([contents]); its height is below the number of inserts. *)
Theorem Inserts_contents (fuel : nat) (k v : list byte)
    (kvs : list (list byte * list byte)) (t : @BTree Host) :
  root t = 0 ->
  room (S (pages_for 0 (length kvs))) (host t) ->
  (length kvs <= fuel)%nat ->
  0 < len k ->
  Forall (fun kv => len kv.1 <= BTREE_MAX_KEY_SIZE /\
                    len kv.2 <= BTREE_MAX_VAL_SIZE) ((k, v) :: kvs) ->
  exists (t' : @BTree Host) (d : nat),
    Inserts host_get host_new host_del fuel ((k, v) :: kvs) t = Done (None, t') /\
    btree_holds host_get t' d (contents ((k, v) :: kvs)) /\
    (d <= length kvs)%nat.
Proof.
  intros Hroot Hroom Hfuel Hk0 Hlim.
  apply Forall_cons in Hlim as [[Hk Hv] Hlim]. simpl in Hk, Hv.
  destruct (Insert_first_holds host_get host_new host_del room Hlaw fuel k v t
              (pages_for 0 (length kvs))) as (t1 & Hrun1 & Hh1 & Hroom1);
    [done|done|done|done|].
  destruct (Inserts_rep host_get host_new host_del room Hlaw kvs fuel 0
              (upsert k v [mkEntry 0 [] []]) t1 0)
    as (t' & d & Hrun & Hh & Hd & _); [done|done|lia|done|].
  exists t', d. cbn [Inserts fst snd]. unfold bind at 1. rewrite Hrun1.
  cbv beta iota. split; [exact Hrun|]. split; [exact Hh|lia].
Qed.

(** X18.  Inserts in turn from the empty tree, on a host that holds no
    page: after them the host holds the pages of the tree and no other
    page. *)
Theorem Inserts_no_garbage (fuel : nat) (k v : list byte)
    (kvs : list (list byte * list byte)) (t : @BTree Host) :
  root t = 0 ->
  (forall p, host_get (host t) p = None) ->
  room (S (pages_for 0 (length kvs))) (host t) ->
  (length kvs <= fuel)%nat ->
  0 < len k ->
  Forall (fun kv => len kv.1 <= BTREE_MAX_KEY_SIZE /\
                    len kv.2 <= BTREE_MAX_VAL_SIZE) ((k, v) :: kvs) ->
  exists (t' : @BTree Host) (d : nat) (P : gset Z),
    Inserts host_get host_new host_del fuel ((k, v) :: kvs) t = Done (None, t') /\
    btree_pages host_get t' d (contents ((k, v) :: kvs)) P /\
    (forall p, is_Some (host_get (host t') p) <-> p ∈ P).
Proof.
  intros Hroot Hnone Hroom Hfuel Hk0 Hlim.
  apply Forall_cons in Hlim as [[Hk Hv] Hlim]. simpl in Hk, Hv.
  destruct (Insert_first_pages host_get host_new host_del room Hlaw fuel k v t
              (pages_for 0 (length kvs))) as (t1 & Hrun1 & Hh1 & Hroom1 & Hgc1);
    [done|done|done|done|].
  destruct (Inserts_pages host_get host_new host_del room Hlaw kvs fuel 0
              (upsert k v [mkEntry 0 [] []]) t1 0 {[root t1]})
    as (t' & d & P & Hrun & Hh & Hd & _ & Hall); [done| |done|lia|done|].
  { intros p Hp. destruct (Hgc1 p Hp) as [->|Hrd]; [set_solver|].
    rewrite Hnone in Hrd. by destruct Hrd. }
  exists t', d, P. cbn [Inserts fst snd]. unfold bind at 1. rewrite Hrun1.
  cbv beta iota. split; [exact Hrun|]. split; [exact Hh|].
  intros p. split; [apply Hall|].
  destruct Hh as [_ Htp]. exact (tree_pages_readable host_get _ _ _ _ _ Htp p).
Qed.

(** X15.  Two inserts of one key, one after the other, leave the contents
    that the second alone would: the last value wins. *)
Theorem Insert_overwrites (fuel d : nat) (key v1 v2 : list byte) (es : list entry)
    (t : @BTree Host) :
  btree_holds host_get t d es ->
  room (pages_for d 2) (host t) ->
  (d + 2 <= fuel)%nat ->
  len key <= BTREE_MAX_KEY_SIZE ->
  len v1 <= BTREE_MAX_VAL_SIZE ->
  len v2 <= BTREE_MAX_VAL_SIZE ->
  exists (t' : @BTree Host) (d' : nat),
    Inserts host_get host_new host_del fuel [(key, v1); (key, v2)] t
    = Done (None, t') /\
    btree_holds host_get t' d' (upsert key v2 es).
Proof.
  intros Hh Hroom Hfuel Hk Hv1 Hv2.
  destruct (Inserts_rep host_get host_new host_del room Hlaw [(key, v1); (key, v2)]
              fuel d es t 0) as (t' & d' & Hrun & Hh' & _ & _);
    [done|done|simpl; lia|by repeat constructor|].
  simpl in Hh'. rewrite upsert_upsert in Hh'. by exists t', d'.
Qed.

End Public.

Lemma treeInsert_leaf_contents_witness :
  holds sample_leaf BNODE_LEAF sample_entries /\
  node_size sample_entries <= BTREE_PAGE_SIZE /\
  sorted sample_entries /\
  first_key sample_entries = Some [] /\
  Compare [] key_b <> Gt /\
  len key_b <= BTREE_MAX_KEY_SIZE /\
  len key_a <= BTREE_MAX_VAL_SIZE /\
  exists (new : BNode) (r : nat),
    treeInsert list_get list_new list_del 1 sample_leaf key_b key_a leaf_tree
      = Done (new, leaf_tree) /\
    btype new = Some BNODE_LEAF /\
    entries new = Some (upsert key_b key_a sample_entries) /\
    sorted (upsert key_b key_a sample_entries) /\
    nodeLookupLE new key_b = Some (Z.of_nat r) /\
    getKey new (Z.of_nat r) = Some key_b /\
    getVal new (Z.of_nat r) = Some key_a /\
    (forall e, e ∈ sample_entries -> e_key e <> key_b ->
               e ∈ upsert key_b key_a sample_entries) /\
    (forall e, e ∈ upsert key_b key_a sample_entries ->
               e = mkEntry 0 key_b key_a \/ e ∈ sample_entries).
Proof.
  assert (H1 : holds sample_leaf BNODE_LEAF sample_entries) by exact sample_leaf_holds.
  assert (H2 : node_size sample_entries <= BTREE_PAGE_SIZE) by closed_fact.
  assert (H3 : sorted sample_entries) by exact sample_entries_sorted.
  assert (H4 : first_key sample_entries = Some []) by reflexivity.
  assert (H5 : Compare [] key_b <> Gt) by closed_fact.
  assert (H6 : len key_b <= BTREE_MAX_KEY_SIZE) by closed_fact.
  assert (H7 : len key_a <= BTREE_MAX_VAL_SIZE) by closed_fact.
  repeat (split; [assumption|]).
  exact (treeInsert_leaf_contents list_get list_new list_del 0 sample_leaf
           sample_entries key_b key_a [] leaf_tree H1 H2 H3 H4 H5 H6 H7).
Defined.

Lemma nodeReplaceKidN_entries_witness :
  holds inner_root BNODE_NODE [mkEntry 1 [] []; mkEntry 2 key_c []] /\
  (0 < length [mkEntry 1 [] []; mkEntry 2 key_c []])%nat /\
  Forall2 (fun kid k => getKey kid 0 = Some k) [left_leaf; right_leaf] [[]; key_c] /\
  Forall (fun q => 0 < q < 2 ^ 64)
    (alloc_all list_new (host two_level_tree) [left_leaf; right_leaf]).1 /\
  node_size (take 0 [mkEntry 1 [] []; mkEntry 2 key_c []]
             ++ kid_entries
                  (alloc_all list_new (host two_level_tree) [left_leaf; right_leaf]).1
                  [[]; key_c]
             ++ drop 1 [mkEntry 1 [] []; mkEntry 2 key_c []]) <= len (make 64) /\
  node_size (take 0 [mkEntry 1 [] []; mkEntry 2 key_c []]
             ++ kid_entries
                  (alloc_all list_new (host two_level_tree) [left_leaf; right_leaf]).1
                  [[]; key_c]
             ++ drop 1 [mkEntry 1 [] []; mkEntry 2 key_c []]) < 65536 /\
  exists new',
    nodeReplaceKidN list_new (make 64) inner_root (Z.of_nat 0)
      [left_leaf; right_leaf] two_level_tree
    = Done (new', mkBTree (root two_level_tree)
                    (alloc_all list_new (host two_level_tree) [left_leaf; right_leaf]).2
                    (trace two_level_tree
                     ++ alloc_events list_new (host two_level_tree)
                          [left_leaf; right_leaf])) /\
    len new' = len (make 64) /\
    btype new' = Some BNODE_NODE /\
    nkeys new' = Some (Z.of_nat (length [mkEntry 1 [] []; mkEntry 2 key_c []]
                                 + length [left_leaf; right_leaf] - 1)) /\
    nbytes new' = Some (node_size
      (take 0 [mkEntry 1 [] []; mkEntry 2 key_c []]
       ++ kid_entries
            (alloc_all list_new (host two_level_tree) [left_leaf; right_leaf]).1
            [[]; key_c]
       ++ drop 1 [mkEntry 1 [] []; mkEntry 2 key_c []])) /\
    entries new' = Some
      (take 0 [mkEntry 1 [] []; mkEntry 2 key_c []]
       ++ kid_entries
            (alloc_all list_new (host two_level_tree) [left_leaf; right_leaf]).1
            [[]; key_c]
       ++ drop 1 [mkEntry 1 [] []; mkEntry 2 key_c []]).
Proof.
  assert (H1 : holds inner_root BNODE_NODE [mkEntry 1 [] []; mkEntry 2 key_c []])
    by exact inner_root_holds.
  assert (H2 : (0 < length [mkEntry 1 [] []; mkEntry 2 key_c []])%nat) by (simpl; lia).
  assert (H3 : Forall2 (fun kid k => getKey kid 0 = Some k)
                 [left_leaf; right_leaf] [[]; key_c]).
  { repeat (apply List.Forall2_cons; [by vm_compute|]). apply List.Forall2_nil. }
  assert (H4 : Forall (fun q => 0 < q < 2 ^ 64)
                 (alloc_all list_new (host two_level_tree) [left_leaf; right_leaf]).1).
  { repeat (apply List.Forall_cons; [by vm_compute|]). apply List.Forall_nil. }
  assert (H5 : node_size (take 0 [mkEntry 1 [] []; mkEntry 2 key_c []]
             ++ kid_entries
                  (alloc_all list_new (host two_level_tree) [left_leaf; right_leaf]).1
                  [[]; key_c]
             ++ drop 1 [mkEntry 1 [] []; mkEntry 2 key_c []]) <= len (make 64))
    by closed_fact.
  assert (H6 : node_size (take 0 [mkEntry 1 [] []; mkEntry 2 key_c []]
             ++ kid_entries
                  (alloc_all list_new (host two_level_tree) [left_leaf; right_leaf]).1
                  [[]; key_c]
             ++ drop 1 [mkEntry 1 [] []; mkEntry 2 key_c []]) < 65536)
    by closed_fact.
  repeat (split; [assumption|]).
  exact (nodeReplaceKidN_entries list_new (make 64) inner_root
           [mkEntry 1 [] []; mkEntry 2 key_c []] 0 [left_leaf; right_leaf]
           [[]; key_c] two_level_tree H1 H2 H3 H4 H5 H6).
Defined.

Lemma two_level_room (n : nat) : (n <= 100)%nat -> list_room n (host two_level_tree).
Proof. intros H. unfold list_room. simpl. lia. Qed.

Lemma treeInsert_subtree_witness :
  lawful_host list_get list_new list_del list_room /\
  (1 < 2)%nat /\
  list_room (0 + 3 * 1) (host two_level_tree) /\
  holds inner_root (kind 1) [mkEntry 1 [] []; mkEntry 2 key_c []] /\
  node_size [mkEntry 1 [] []; mkEntry 2 key_c []] <= BTREE_PAGE_SIZE /\
  [mkEntry 1 [] []; mkEntry 2 key_c []] <> [] /\
  node_rep list_get (host two_level_tree) 1 [mkEntry 1 [] []; mkEntry 2 key_c []]
    two_level_entries ({[1]} ∪ ∅ ∪ ({[2]} ∪ ∅ ∪ ∅)) /\
  sorted two_level_entries /\
  Forall entry_within_limits two_level_entries /\
  first_key two_level_entries = Some [] /\
  Compare [] key_b <> Gt /\
  len key_b <= BTREE_MAX_KEY_SIZE /\
  len key_a <= BTREE_MAX_VAL_SIZE /\
  exists (new : BNode) (ies' : list entry) (ps' : gset Z) (t' : @BTree list_host),
    treeInsert list_get list_new list_del 2 inner_root key_b key_a two_level_tree
      = Done (new, t') /\
    root t' = root two_level_tree /\
    list_room 0 (host t') /\
    len new = 2 * BTREE_PAGE_SIZE /\
    holds new (kind 1) ies' /\
    ies' <> [] /\
    node_size ies' <= 2 * BTREE_PAGE_SIZE - 3 /\
    node_rep list_get (host t') 1 ies' (upsert key_b key_a two_level_entries) ps' /\
    (forall p, p ∈ ps' -> p ∈ ({[1]} ∪ ∅ ∪ ({[2]} ∪ ∅ ∪ ∅) : gset Z) \/
                          list_get (host two_level_tree) p = None) /\
    (forall p, is_Some (list_get (host t') p) ->
               p ∈ ps' \/ ((p ∉ ({[1]} ∪ ∅ ∪ ({[2]} ∪ ∅ ∪ ∅) : gset Z)) /\
                           is_Some (list_get (host two_level_tree) p))) /\
    exists evs,
      trace t' = trace two_level_tree ++ evs /\
      (length evs <= 5 * 1)%nat /\
      length (reads evs) = 1%nat /\
      frees evs = rev (reads evs) /\
      NoDup (reads evs) /\
      (forall p, p ∈ reads evs -> p ∈ ({[1]} ∪ ∅ ∪ ({[2]} ∪ ∅ ∪ ∅) : gset Z)) /\
      Forall (fun data => len data = BTREE_PAGE_SIZE) (news evs) /\
      (forall p x, p ∉ reads evs -> list_get (host two_level_tree) p = Some x ->
                   list_get (host t') p = Some x).
Proof.
  assert (H0 : lawful_host list_get list_new list_del list_room)
    by exact list_host_lawful.
  assert (H1 : (1 < 2)%nat) by lia.
  assert (H2 : list_room (0 + 3 * 1) (host two_level_tree))
    by (apply two_level_room; lia).
  assert (H3 : holds inner_root (kind 1) [mkEntry 1 [] []; mkEntry 2 key_c []])
    by exact inner_root_holds.
  assert (H4 : node_size [mkEntry 1 [] []; mkEntry 2 key_c []] <= BTREE_PAGE_SIZE)
    by closed_fact.
  assert (H5 : [mkEntry 1 [] []; mkEntry 2 key_c []] <> []) by discriminate.
  assert (H6 : node_rep list_get (host two_level_tree) 1
                 [mkEntry 1 [] []; mkEntry 2 key_c []]
                 two_level_entries ({[1]} ∪ ∅ ∪ ({[2]} ∪ ∅ ∪ ∅)))
    by exact inner_root_rep.
  assert (H7 : sorted two_level_entries) by exact two_level_entries_sorted.
  assert (H8 : Forall entry_within_limits two_level_entries)
    by exact two_level_entries_limits.
  assert (H9 : first_key two_level_entries = Some []) by reflexivity.
  assert (H10 : Compare [] key_b <> Gt) by closed_fact.
  assert (H11 : len key_b <= BTREE_MAX_KEY_SIZE) by closed_fact.
  assert (H12 : len key_a <= BTREE_MAX_VAL_SIZE) by closed_fact.
  repeat (split; [assumption|]).
  exact (treeInsert_subtree list_get list_new list_del list_room H0 1 2 inner_root
           [mkEntry 1 [] []; mkEntry 2 key_c []] two_level_entries
           ({[1]} ∪ ∅ ∪ ({[2]} ∪ ∅ ∪ ∅)) key_b key_a [] two_level_tree 0
           H1 H2 H3 H4 H5 H6 H7 H8 H9 H10 H11 H12).
Defined.

Lemma Insert_upsert_witness :
  lawful_host list_get list_new list_del list_room /\
  btree_holds list_get two_level_tree 1 two_level_entries /\
  list_room (0 + 3 * 1 + 4) (host two_level_tree) /\
  (1 < 2)%nat /\
  len key_b <= BTREE_MAX_KEY_SIZE /\
  len key_a <= BTREE_MAX_VAL_SIZE /\
  exists (t' : @BTree list_host) (d' : nat),
    Insert list_get list_new list_del 2 key_b key_a two_level_tree = Done (None, t') /\
    btree_holds list_get t' d' (upsert key_b key_a two_level_entries) /\
    (d' = 1%nat \/ d' = 2%nat) /\
    list_room 0 (host t').
Proof.
  assert (H0 : lawful_host list_get list_new list_del list_room)
    by exact list_host_lawful.
  assert (H1 : btree_holds list_get two_level_tree 1 two_level_entries)
    by exact two_level_tree_holds.
  assert (H2 : list_room (0 + 3 * 1 + 4) (host two_level_tree))
    by (apply two_level_room; lia).
  assert (H3 : (1 < 2)%nat) by lia.
  assert (H4 : len key_b <= BTREE_MAX_KEY_SIZE) by closed_fact.
  assert (H5 : len key_a <= BTREE_MAX_VAL_SIZE) by closed_fact.
  repeat (split; [assumption|]).
  exact (Insert_upsert list_get list_new list_del list_room H0 2 1 key_b key_a
           two_level_entries two_level_tree 0 H1 H2 H3 H4 H5).
Defined.

Lemma Insert_path_witness :
  lawful_host list_get list_new list_del list_room /\
  btree_holds list_get two_level_tree 1 two_level_entries /\
  list_room (3 * 1 + 4) (host two_level_tree) /\
  (1 < 2)%nat /\
  len key_b <= BTREE_MAX_KEY_SIZE /\
  len key_a <= BTREE_MAX_VAL_SIZE /\
  exists (t' : @BTree list_host) (evs : list event),
    Insert list_get list_new list_del 2 key_b key_a two_level_tree = Done (None, t') /\
    trace t' = trace two_level_tree ++ evs /\
    (length evs <= 5 * 1 + 6)%nat /\
    head (reads evs) = Some (root two_level_tree) /\
    length (reads evs) = 2%nat /\
    frees evs = rev (reads evs) /\
    NoDup (reads evs).
Proof.
  assert (H0 : lawful_host list_get list_new list_del list_room)
    by exact list_host_lawful.
  assert (H1 : btree_holds list_get two_level_tree 1 two_level_entries)
    by exact two_level_tree_holds.
  assert (H2 : list_room (3 * 1 + 4) (host two_level_tree))
    by (apply two_level_room; lia).
  assert (H3 : (1 < 2)%nat) by lia.
  assert (H4 : len key_b <= BTREE_MAX_KEY_SIZE) by closed_fact.
  assert (H5 : len key_a <= BTREE_MAX_VAL_SIZE) by closed_fact.
  repeat (split; [assumption|]).
  exact (Insert_path list_get list_new list_del list_room H0 2 1 key_b key_a
           two_level_entries two_level_tree H1 H2 H3 H4 H5).
Defined.

Lemma Insert_copy_on_write_witness :
  lawful_host list_get list_new list_del list_room /\
  btree_holds list_get two_level_tree 1 two_level_entries /\
  list_room (3 * 1 + 4) (host two_level_tree) /\
  (1 < 2)%nat /\
  len key_b <= BTREE_MAX_KEY_SIZE /\
  len key_a <= BTREE_MAX_VAL_SIZE /\
  exists (t' : @BTree list_host) (evs : list event),
    Insert list_get list_new list_del 2 key_b key_a two_level_tree = Done (None, t') /\
    trace t' = trace two_level_tree ++ evs /\
    (forall p x, p ∉ reads evs -> list_get (host two_level_tree) p = Some x ->
                 list_get (host t') p = Some x) /\
    Forall (fun data => len data = BTREE_PAGE_SIZE) (news evs).
Proof.
  assert (H0 : lawful_host list_get list_new list_del list_room)
    by exact list_host_lawful.
  assert (H1 : btree_holds list_get two_level_tree 1 two_level_entries)
    by exact two_level_tree_holds.
  assert (H2 : list_room (3 * 1 + 4) (host two_level_tree))
    by (apply two_level_room; lia).
  assert (H3 : (1 < 2)%nat) by lia.
  assert (H4 : len key_b <= BTREE_MAX_KEY_SIZE) by closed_fact.
  assert (H5 : len key_a <= BTREE_MAX_VAL_SIZE) by closed_fact.
  repeat (split; [assumption|]).
  exact (Insert_copy_on_write list_get list_new list_del list_room H0 2 1 key_b key_a
           two_level_entries two_level_tree H1 H2 H3 H4 H5).
Defined.

Lemma two_level_tree_pages :
  btree_pages list_get two_level_tree 1 two_level_entries
    ({[3]} ∪ ({[1]} ∪ ∅ ∪ ({[2]} ∪ ∅ ∪ ∅))).
Proof.
  split; [exact two_level_tree_holds|].
  exists inner_root, ({[1]} ∪ ∅ ∪ ({[2]} ∪ ∅ ∪ ∅)).
  split; [by vm_compute|]. split; [|split; [set_solver|reflexivity]].
  exists [mkEntry 1 [] []; mkEntry 2 key_c []]. split; [exact inner_root_holds|].
  split; [closed_fact|]. split; [discriminate|]. exact inner_root_rep.
Qed.

Lemma Insert_no_leak_witness :
  lawful_host list_get list_new list_del list_room /\
  btree_pages list_get two_level_tree 1 two_level_entries
    ({[3]} ∪ ({[1]} ∪ ∅ ∪ ({[2]} ∪ ∅ ∪ ∅))) /\
  list_room (3 * 1 + 4) (host two_level_tree) /\
  (1 < 2)%nat /\
  len key_b <= BTREE_MAX_KEY_SIZE /\
  len key_a <= BTREE_MAX_VAL_SIZE /\
  exists (t' : @BTree list_host) (d' : nat) (P' : gset Z),
    Insert list_get list_new list_del 2 key_b key_a two_level_tree = Done (None, t') /\
    btree_pages list_get t' d' (upsert key_b key_a two_level_entries) P' /\
    (forall p, p ∈ P' -> is_Some (list_get (host t') p)) /\
    (forall p, p ∈ P' -> p ∈ ({[3]} ∪ ({[1]} ∪ ∅ ∪ ({[2]} ∪ ∅ ∪ ∅)) : gset Z) \/
                         list_get (host two_level_tree) p = None) /\
    (forall p, is_Some (list_get (host t') p) ->
               p ∈ P' \/ ((p ∉ ({[3]} ∪ ({[1]} ∪ ∅ ∪ ({[2]} ∪ ∅ ∪ ∅)) : gset Z)) /\
                          is_Some (list_get (host two_level_tree) p))).
Proof.
  assert (H0 : lawful_host list_get list_new list_del list_room)
    by exact list_host_lawful.
  assert (H1 : btree_pages list_get two_level_tree 1 two_level_entries
                 ({[3]} ∪ ({[1]} ∪ ∅ ∪ ({[2]} ∪ ∅ ∪ ∅))))
    by exact two_level_tree_pages.
  assert (H2 : list_room (3 * 1 + 4) (host two_level_tree))
    by (apply two_level_room; lia).
  assert (H3 : (1 < 2)%nat) by lia.
  assert (H4 : len key_b <= BTREE_MAX_KEY_SIZE) by closed_fact.
  assert (H5 : len key_a <= BTREE_MAX_VAL_SIZE) by closed_fact.
  repeat (split; [assumption|]).
  exact (Insert_no_leak list_get list_new list_del list_room H0 2 1 key_b key_a
           two_level_entries two_level_tree _ H1 H2 H3 H4 H5).
Defined.

Lemma empty_host_unreadable (p : Z) : list_get (host empty_tree) p = None.
Proof.
  unfold list_get, empty_tree, list_host. cbn [host].
  destruct (p <=? 0); [done|]. by rewrite lookup_nil.
Qed.

Lemma Inserts_no_garbage_witness :
  lawful_host list_get list_new list_del list_room /\
  root empty_tree = 0 /\
  (forall p, list_get (host empty_tree) p = None) /\
  list_room (S (pages_for 0 (length [(key_a, key_c)]))) (host empty_tree) /\
  (length [(key_a, key_c)] <= 1)%nat /\
  0 < len key_b /\
  Forall (fun kv : list byte * list byte =>
            len kv.1 <= BTREE_MAX_KEY_SIZE /\ len kv.2 <= BTREE_MAX_VAL_SIZE)
    ((key_b, key_a) :: [(key_a, key_c)]) /\
  exists (t' : @BTree list_host) (d : nat) (P : gset Z),
    Inserts list_get list_new list_del 1 ((key_b, key_a) :: [(key_a, key_c)]) empty_tree
      = Done (None, t') /\
    btree_pages list_get t' d (contents ((key_b, key_a) :: [(key_a, key_c)])) P /\
    (forall p, is_Some (list_get (host t') p) <-> p ∈ P).
Proof.
  assert (H0 : lawful_host list_get list_new list_del list_room)
    by exact list_host_lawful.
  assert (H1 : root empty_tree = 0) by reflexivity.
  assert (H1' : forall p, list_get (host empty_tree) p = None)
    by exact empty_host_unreadable.
  assert (H2 : list_room (S (pages_for 0 (length [(key_a, key_c)]))) (host empty_tree))
    by closed_fact.
  assert (H3 : (length [(key_a, key_c)] <= 1)%nat) by (simpl; lia).
  assert (H4 : 0 < len key_b) by closed_fact.
  assert (H5 : Forall (fun kv : list byte * list byte =>
            len kv.1 <= BTREE_MAX_KEY_SIZE /\ len kv.2 <= BTREE_MAX_VAL_SIZE)
    ((key_b, key_a) :: [(key_a, key_c)])).
  { repeat (apply List.Forall_cons; [closed_fact|]). apply List.Forall_nil. }
  repeat (split; [assumption|]).
  exact (Inserts_no_garbage list_get list_new list_del list_room H0 1 key_b key_a
           [(key_a, key_c)] empty_tree H1 H1' H2 H3 H4 H5).
Defined.

Lemma Insert_empty_key_witness :
  lawful_host list_get list_new list_del list_room /\
  btree_holds list_get two_level_tree 1 two_level_entries /\
  list_room (0 + 3 * 1 + 4) (host two_level_tree) /\
  (1 < 2)%nat /\
  len key_a <= BTREE_MAX_VAL_SIZE /\
  exists (t' : @BTree list_host) (d' : nat),
    Insert list_get list_new list_del 2 [] key_a two_level_tree = Done (None, t') /\
    btree_holds list_get t' d' (mkEntry 0 [] key_a :: tail two_level_entries) /\
    length (mkEntry 0 [] key_a :: tail two_level_entries) = length two_level_entries.
Proof.
  assert (H0 : lawful_host list_get list_new list_del list_room)
    by exact list_host_lawful.
  assert (H1 : btree_holds list_get two_level_tree 1 two_level_entries)
    by exact two_level_tree_holds.
  assert (H2 : list_room (0 + 3 * 1 + 4) (host two_level_tree))
    by (apply two_level_room; lia).
  assert (H3 : (1 < 2)%nat) by lia.
  assert (H4 : len key_a <= BTREE_MAX_VAL_SIZE) by closed_fact.
  repeat (split; [assumption|]).
  exact (Insert_empty_key list_get list_new list_del list_room H0 2 1 key_a
           two_level_entries two_level_tree 0 H1 H2 H3 H4).
Defined.

Lemma Inserts_contents_witness :
  lawful_host list_get list_new list_del list_room /\
  root empty_tree = 0 /\
  list_room (S (pages_for 0 (length [(key_a, key_c)]))) (host empty_tree) /\
  (length [(key_a, key_c)] <= 1)%nat /\
  0 < len key_b /\
  Forall (fun kv : list byte * list byte =>
            len kv.1 <= BTREE_MAX_KEY_SIZE /\ len kv.2 <= BTREE_MAX_VAL_SIZE)
    ((key_b, key_a) :: [(key_a, key_c)]) /\
  exists (t' : @BTree list_host) (d : nat),
    Inserts list_get list_new list_del 1 ((key_b, key_a) :: [(key_a, key_c)]) empty_tree
      = Done (None, t') /\
    btree_holds list_get t' d (contents ((key_b, key_a) :: [(key_a, key_c)])) /\
    (d <= length [(key_a, key_c)])%nat.
Proof.
  assert (H0 : lawful_host list_get list_new list_del list_room)
    by exact list_host_lawful.
  assert (H1 : root empty_tree = 0) by reflexivity.
  assert (H2 : list_room (S (pages_for 0 (length [(key_a, key_c)]))) (host empty_tree))
    by closed_fact.
  assert (H3 : (length [(key_a, key_c)] <= 1)%nat) by (simpl; lia).
  assert (H4 : 0 < len key_b) by closed_fact.
  assert (H5 : Forall (fun kv : list byte * list byte =>
            len kv.1 <= BTREE_MAX_KEY_SIZE /\ len kv.2 <= BTREE_MAX_VAL_SIZE)
    ((key_b, key_a) :: [(key_a, key_c)])).
  { repeat (apply List.Forall_cons; [closed_fact|]). apply List.Forall_nil. }
  repeat (split; [assumption|]).
  exact (Inserts_contents list_get list_new list_del list_room H0 1 key_b key_a
           [(key_a, key_c)] empty_tree H1 H2 H3 H4 H5).
Defined.

Lemma Insert_overwrites_witness :
  lawful_host list_get list_new list_del list_room /\
  btree_holds list_get leaf_tree 0 sample_entries /\
  list_room (pages_for 0 2) (host leaf_tree) /\
  (0 + 2 <= 2)%nat /\
  len key_b <= BTREE_MAX_KEY_SIZE /\
  len key_a <= BTREE_MAX_VAL_SIZE /\
  len key_c <= BTREE_MAX_VAL_SIZE /\
  exists (t' : @BTree list_host) (d' : nat),
    Inserts list_get list_new list_del 2 [(key_b, key_a); (key_b, key_c)] leaf_tree
    = Done (None, t') /\
    btree_holds list_get t' d' (upsert key_b key_c sample_entries).
Proof.
  assert (H0 : lawful_host list_get list_new list_del list_room)
    by exact list_host_lawful.
  assert (H1 : btree_holds list_get leaf_tree 0 sample_entries)
    by exact leaf_tree_holds.
  assert (H2 : list_room (pages_for 0 2) (host leaf_tree))
    by closed_fact.
  assert (H3 : (0 + 2 <= 2)%nat) by lia.
  assert (H4 : len key_b <= BTREE_MAX_KEY_SIZE) by closed_fact.
  assert (H5 : len key_a <= BTREE_MAX_VAL_SIZE) by closed_fact.
  assert (H6 : len key_c <= BTREE_MAX_VAL_SIZE) by closed_fact.
  repeat (split; [assumption|]).
  exact (Insert_overwrites list_get list_new list_del list_room H0 2 0 key_b key_a
           key_c sample_entries leaf_tree H1 H2 H3 H4 H5 H6).
Defined.
